(** * Classroom reservation system: reservation store, waitlist, reminders

    A shallow embedding of [reservation_db.py], [waitlist_db.py] and
    [notification_db.py], with the reservation, cancellation and search
    handlers and the statistics of [main.py].

    - The three module-level dictionaries and their [_next_id] counters
      are one explicit state record that every operation threads.  Python
      dictionaries keep their insertion order and are association lists.
    - Writing a store to its JSON file changes nothing a function can
      read back and swallows its own errors; the operations leave it out.
      What is written, and what a server that starts reads back, is
      modelled apart, on the object handed to [json.dump].
    - [datetime.now()] and the two collaborator look-ups
      ([user_db.get_user], [classroom_db.get_classroom]) are read from an
      environment record passed to each call; the functions that read a
      classroom's capacity and equipment, or list the classrooms, take
      the directory as one more argument.
    - A call returns a value or lets an exception escape; the state is
      returned in both cases. *)

From Stdlib Require Import ZArith List String Ascii Bool Lia Permutation Sorted.
From Stdlib Require Import DecimalString DecimalPos.
Import ListNotations.

Open Scope string_scope.
Open Scope list_scope.
Open Scope Z_scope.

Infix "+++" := String.append (at level 60, right associativity).

(** ** The pieces of Python's [str] and [int] that the code relies on

    A [str] is kept as the bytes of its UTF-8 form, in which a character
    is one byte below 128 or a leading byte followed by continuation
    bytes (128 to 191).  Equality, the order of texts, [split] at an
    ASCII separator and [in] give on the bytes what Python gives on the
    characters; [strip], [int] and the [\d] of regular expressions look
    at characters, which [chars] and [ord] recover.  The character
    classes are those of the Unicode tables of the interpreter (14.0).
    Integers have no cap on the length of their text, as in CPython
    before 3.11 and after it with [sys.int_max_str_digits] set to 0; with
    the cap, [int] raises [ValueError] on a text of more than 4300
    digits, and [str] on an integer that long. *)
Module Py.

Definition byte (c : ascii) : Z := Z.of_nat (nat_of_ascii c).

Definition continuation (c : ascii) : bool :=
  (128 <=? byte c) && (byte c <? 192).

(** The bytes start in the middle of a character. *)
Definition headless (ch : string) : bool :=
  match ch with
  | String c _ => continuation c
  | EmptyString => false
  end.

(** The characters of a text, each with its bytes. *)
Fixpoint chars (s : string) : list string :=
  match s with
  | EmptyString => []
  | String c s' =>
      match chars s' with
      | ch :: rest =>
          if headless ch then String c ch :: rest
          else String c EmptyString :: ch :: rest
      | [] => [String c EmptyString]
      end
  end.

(** [ord(ch)]: the code point of a character; -1 for bytes that no
    character has. *)
Definition ord (ch : string) : Z :=
  match map byte (list_ascii_of_string ch) with
  | [a] => if a <? 128 then a else -1
  | [a; b] =>
      if (194 <=? a) && (a <? 224) then (a - 192) * 64 + (b - 128) else -1
  | [a; b; c] =>
      let n := (a - 224) * 4096 + (b - 128) * 64 + (c - 128) in
      if (224 <=? a) && (a <? 240) && (2048 <=? n) then n else -1
  | [a; b; c; d] =>
      let n := (a - 240) * 262144 + (b - 128) * 4096 + (c - 128) * 64
               + (d - 128) in
      if (240 <=? a) && (a <? 245) && (65536 <=? n) && (n <? 1114112)
      then n else -1
  | _ => -1
  end.

(** The whitespace beyond ASCII: NEL, the no-break space, the Ogham space
    mark, the spaces U+2000 to U+200A, the line and paragraph separators,
    the narrow no-break space, the mathematical space and the ideographic
    space. *)
Definition wide_space (n : Z) : bool :=
  existsb (Z.eqb n) [133; 160; 5760; 8232; 8233; 8239; 8287; 12288]
  || ((8192 <=? n) && (n <=? 8202)).

(** [str.isspace]: TAB..CR, FS..US, the blank and the whitespace beyond
    ASCII. *)
Definition isspace (ch : string) : bool :=
  let n := ord ch in
  ((9 <=? n) && (n <=? 13)) || ((28 <=? n) && (n <=? 32)) || wide_space n.

(** The blanks that [int] skips around a number: as [isspace] but for
    FS..US. *)
Definition isblank (ch : string) : bool :=
  let n := ord ch in
  ((9 <=? n) && (n <=? 13)) || (n =? 32) || wide_space n.

Fixpoint lstrip_by (space : string -> bool) (l : list string)
    : list string :=
  match l with
  | [] => []
  | ch :: l' => if space ch then lstrip_by space l' else l
  end.

Fixpoint rstrip_by (space : string -> bool) (l : list string)
    : list string :=
  match l with
  | [] => []
  | ch :: l' =>
      match rstrip_by space l' with
      | [] => if space ch then [] else [ch]
      | r => ch :: r
      end
  end.

(** The text made of the given characters. *)
Definition text (l : list string) : string :=
  fold_right String.append EmptyString l.

(** [s.strip()] *)
Definition strip (s : string) : string :=
  text (rstrip_by isspace (lstrip_by isspace (chars s))).

(** [s.split(sep)] for a one-character separator: never an empty list. *)
Fixpoint split (sep : ascii) (s : string) : list string :=
  match s with
  | EmptyString => [EmptyString]
  | String c s' =>
      if Ascii.eqb c sep then EmptyString :: split sep s'
      else match split sep s' with
           | [] => [String c EmptyString]
           | h :: t => String c h :: t
           end
  end.

(** The code points of the zeros of the decimal digits (category Nd);
    the nine code points after each are its digits 1 to 9. *)
Definition zeros : list Z :=
  [48; 1632; 1776; 1984; 2406; 2534; 2662; 2790; 2918; 3046; 3174; 3302;
   3430; 3558; 3664; 3792; 3872; 4160; 4240; 6112; 6160; 6470; 6608; 6784;
   6800; 6992; 7088; 7232; 7248; 42528; 43216; 43264; 43472; 43504; 43600;
   44016; 65296; 66720; 68912; 69734; 69872; 69942; 70096; 70384; 70736;
   70864; 71248; 71360; 71472; 71904; 72016; 72784; 73040; 73120; 92768;
   92864; 93008; 120782; 120792; 120802; 120812; 120822; 123200; 123632;
   125264; 130032].

(** The value of a decimal digit, as [int] and [\d] know them. *)
Definition digit (ch : string) : option Z :=
  let n := ord ch in
  option_map (fun zero => n - zero)
    (find (fun zero => (zero <=? n) && (n <? zero + 10)) zeros).

(** Decimal digits with single underscores between them, as [int] reads
    them; [seen] tells whether the previous character was a digit. *)
Fixpoint digits (acc : Z) (seen : bool) (l : list string) : option Z :=
  match l with
  | [] => if seen then Some acc else None
  | ch :: l' =>
      match digit ch with
      | Some d => digits (10 * acc + d) true l'
      | None => if String.eqb ch "_" && seen then digits acc false l' else None
      end
  end.

(** [int(s)]: [None] stands for [ValueError]. *)
Definition int (s : string) : option Z :=
  match rstrip_by isblank (lstrip_by isblank (chars s)) with
  | "+" :: r => digits 0 false r
  | "-" :: r => option_map Z.opp (digits 0 false r)
  | t => digits 0 false t
  end.

(** [sub in s] on strings. *)
Fixpoint startswith (p s : string) : bool :=
  match p, s with
  | EmptyString, _ => true
  | String a p', String b s' => Ascii.eqb a b && startswith p' s'
  | String _ _, EmptyString => false
  end.

Fixpoint contains (p s : string) : bool :=
  startswith p s ||
  match s with
  | EmptyString => false
  | String _ s' => contains p s'
  end.

(** [str(n)] for an integer. *)
Definition str (n : Z) : string := NilZero.string_of_int (Z.to_int n).

(** [sep.join(l)] *)
Fixpoint join (sep : string) (l : list string) : string :=
  match l with
  | [] => EmptyString
  | [x] => x
  | x :: l' => x +++ sep +++ join sep l'
  end.

End Py.

(** ** [datetime.time], as [_parse_time] builds it: hour and minute only *)
Record time := mk_time { hour : Z; minute : Z }.

(** The exceptions a time text can end in. *)
Inductive exn := ValueError | OverflowError.

(** What a call that may raise gives. *)
Inductive attempt (A : Type) : Type :=
| Value (a : A)
| Fails (e : exn).
Arguments Value {A} a.
Arguments Fails {A} e.

(** The integers a C [int] holds. *)
Definition c_int (n : Z) : bool :=
  (-2147483648 <=? n) && (n <=? 2147483647).

(** [time(hour, minute)] reads its arguments as C ints first, an
    [OverflowError] when one of them is none; it then raises [ValueError]
    outside 0..23 and 0..59. *)
Definition time_new (h m : Z) : attempt time :=
  if negb (c_int h && c_int m) then Fails OverflowError
  else if (0 <=? h) && (h <? 24) && (0 <=? m) && (m <? 60)
  then Value (mk_time h m) else Fails ValueError.

Definition valid_time (t : time) : Prop :=
  0 <= hour t < 24 /\ 0 <= minute t < 60.

(** Python orders [time] objects as (hour, minute, ...) tuples. *)
Definition time_ltb (a b : time) : bool :=
  (hour a <? hour b) || ((hour a =? hour b) && (minute a <? minute b)).

Definition time_geb (a b : time) : bool := negb (time_ltb a b).

(** [_parse_time], with the exception that leaves it: [int] and the
    unpacking of anything but two parts raise [ValueError], which the
    handler raises again; the [OverflowError] of [time] passes the
    handler. *)
Definition try_parse_time (time_str : string) : attempt time :=
  match map Py.int (Py.split ":" time_str) with
  | [Some h; Some m] => time_new h m
  | _ => Fails ValueError
  end.

(** [_parse_time]: the time it returns, [None] when it raises. *)
Definition _parse_time (time_str : string) : option time :=
  match try_parse_time time_str with
  | Value t => Some t
  | Fails _ => None
  end.

(** [_parse_time] raises an [OverflowError], which no [except ValueError]
    catches. *)
Definition overflows (time_str : string) : bool :=
  match try_parse_time time_str with
  | Fails OverflowError => true
  | _ => false
  end.

Definition _is_valid_time_slot (start_time end_time : time) : bool :=
  if negb (minute start_time =? 0) || negb (minute end_time =? 0) then false
  else if time_geb start_time end_time then false
  else if (hour end_time =? 0) && (minute end_time =? 0) then
    if hour start_time =? 23 then true else false
  else
    let start_hour := hour start_time in
    let end_hour := hour end_time in
    if end_hour <=? start_hour then false
    else
      let time_diff := end_hour - start_hour in
      0 <? time_diff.

Definition time_to_minutes (t : time) : Z := hour t * 60 + minute t.

Definition _is_time_overlap (start1 end1 start2 end2 : time) : bool :=
  let start1_min := time_to_minutes start1 in
  let end1_min := time_to_minutes end1 in
  let start2_min := time_to_minutes start2 in
  let end2_min := time_to_minutes end2 in
  (start1_min <? end2_min) && (start2_min <? end1_min).

(** ** Dates and instants

    A [datetime.date] is kept as its proleptic Gregorian ordinal
    ([date.toordinal()]), which orders dates as Python does; an instant
    ([datetime.datetime]) is the number of microseconds since the start of
    ordinal 0. *)
Definition is_leap (y : Z) : bool :=
  ((y mod 4 =? 0) && negb (y mod 100 =? 0)) || (y mod 400 =? 0).

Definition days_in_month (y m : Z) : Z :=
  if m =? 2 then (if is_leap y then 29 else 28)
  else if (m =? 4) || (m =? 6) || (m =? 9) || (m =? 11) then 30
  else 31.

Definition days_before_year (y : Z) : Z :=
  let y' := y - 1 in y' * 365 + y' / 4 - y' / 100 + y' / 400.

Definition days_before_month (y m : Z) : Z :=
  nth (Z.to_nat m) [0; 0; 31; 59; 90; 120; 151; 181; 212; 243; 273; 304; 334] 0
  + (if (2 <? m) && is_leap y then 1 else 0).

(** [date(y, m, d).toordinal()], [None] for the [ValueError] of an
    impossible date. *)
Definition date_new (y m d : Z) : option Z :=
  if (1 <=? y) && (y <=? 9999) && (1 <=? m) && (m <=? 12)
     && (1 <=? d) && (d <=? days_in_month y m)
  then Some (days_before_year y + days_before_month y m + d)
  else None.

(** [datetime.strptime(s, "%Y-%m-%d")] compiles its format to
    [(\d\d\d\d)-(1[0-2]|0[1-9]|[1-9])-(3[0-1]|[1-2]\d|0[1-9]|[1-9]| [1-9])]
    and refuses text left over.  No field can hold a dash, so the fields
    are the three dash-separated parts; [\d] is any decimal digit, the
    classes in brackets are ASCII. *)

(** A character of the class [[lo-hi]], with its value. *)
Definition digit_in (lo hi : Z) (ch : string) : option Z :=
  match ch with
  | String c EmptyString =>
      let d := Py.byte c - 48 in
      if (lo <=? d) && (d <=? hi) then Some d else None
  | _ => None
  end.

(** [\d\d\d\d] *)
Definition year_field (s : string) : option Z :=
  match map Py.digit (Py.chars s) with
  | [Some a; Some b; Some c; Some d] =>
      Some (1000 * a + 100 * b + 10 * c + d)
  | _ => None
  end.

(** [1[0-2]|0[1-9]|[1-9]] *)
Definition month_field (s : string) : option Z :=
  match Py.chars s with
  | [a; b] =>
      match digit_in 1 1 a, digit_in 0 2 b, digit_in 0 0 a, digit_in 1 9 b
      with
      | Some _, Some d, _, _ => Some (10 + d)
      | _, _, Some _, Some d => Some d
      | _, _, _, _ => None
      end
  | [a] => digit_in 1 9 a
  | _ => None
  end.

(** [3[0-1]|[1-2]\d|0[1-9]|[1-9]| [1-9]] *)
Definition day_field (s : string) : option Z :=
  match Py.chars s with
  | [a; b] =>
      match digit_in 3 3 a, digit_in 0 1 b with
      | Some _, Some d => Some (30 + d)
      | _, _ =>
          match digit_in 1 2 a, Py.digit b with
          | Some t, Some d => Some (10 * t + d)
          | _, _ =>
              if String.eqb a "0" || String.eqb a " " then digit_in 1 9 b
              else None
          end
      end
  | [a] => digit_in 1 9 a
  | _ => None
  end.

(** [_parse_date]: the date's ordinal, [None] for [ValueError]. *)
Definition _parse_date (date_str : string) : option Z :=
  match Py.split "-" date_str with
  | [y; m; d] =>
      match year_field y, month_field m, day_field d with
      | Some y, Some m, Some d => date_new y m d
      | _, _, _ => None
      end
  | _ => None
  end.

Definition us_per_minute : Z := 60 * 1000000.
Definition us_per_day : Z := 1440 * us_per_minute.

(** [datetime.combine(d, t)] *)
Definition combine (d : Z) (t : time) : Z :=
  d * us_per_day + time_to_minutes t * us_per_minute.

(** ** Python dictionaries with integer keys, in insertion order *)
Definition dict (V : Type) := list (Z * V).

Section Dict.
Context {V : Type}.

(** [d.get(k)] *)
Fixpoint dict_get (k : Z) (d : dict V) : option V :=
  match d with
  | [] => None
  | (k', v) :: d' => if k' =? k then Some v else dict_get k d'
  end.

(** [k in d] *)
Definition dict_mem (k : Z) (d : dict V) : bool :=
  existsb (fun kv => fst kv =? k) d.

(** [d[k] = v]: an existing key keeps its place, a new one goes last. *)
Fixpoint dict_set (k : Z) (v : V) (d : dict V) : dict V :=
  match d with
  | [] => [(k, v)]
  | (k', v') :: d' =>
      if k' =? k then (k, v) :: d' else (k', v') :: dict_set k v d'
  end.

(** [del d[k]] *)
Fixpoint dict_del (k : Z) (d : dict V) : dict V :=
  match d with
  | [] => []
  | (k', v') :: d' => if k' =? k then d' else (k', v') :: dict_del k d'
  end.

Definition dict_keys (d : dict V) : list Z := map fst d.
Definition dict_values (d : dict V) : list V := map snd d.

(** [max(d.keys())] of a non-empty dictionary *)
Definition dict_max_key (d : dict V) : option Z :=
  match dict_keys d with
  | [] => None
  | k :: ks => Some (fold_left Z.max ks k)
  end.
End Dict.

(** ** Records of the three stores *)
Module Reservation.
Record t := mk {
  user_id : string;
  classroom_id : Z;
  date : string;
  start_time : string;
  end_time : string;
  participants : list string
}.
End Reservation.

Module Waitlist.
(** [created_at] holds [datetime.now().isoformat()]; ISO texts compare
    as the instants they print, so the instant itself is kept. *)
Record t := mk {
  user_id : string;
  classroom_id : Z;
  date : string;
  start_time : string;
  end_time : string;
  created_at : Z;
  priority : Z
}.
End Waitlist.

Module Notification.
Record t := mk {
  user_id : string;
  reservation_id : Z;
  message : string;
  created_at : Z;
  read : bool
}.
End Notification.

(** The module-level dictionaries and their [_next_id] counters. *)
Record State := mkState {
  RESERVATIONS : dict Reservation.t;
  reservation_next_id : Z;
  WAITLIST : dict Waitlist.t;
  waitlist_next_id : Z;
  NOTIFICATIONS : dict Notification.t;
  notification_next_id : Z
}.

(** A freshly installed server: no files to load. *)
Definition initial : State := mkState [] 1 [] 1 [] 1.

(** [list(set(l))]: the order in which a Python set lists its elements is
    not fixed by the language; only these two facts are. *)
Class SetOrder := {
  list_of_set : list string -> list string;
  list_of_set_NoDup : forall l, NoDup (list_of_set l);
  list_of_set_In : forall l x, In x (list_of_set l) <-> In x l
}.

(** What a call reads from outside the three stores: the clock (read once
    per call), the user directory, the classroom directory (the name of a
    classroom, when it exists), and the set order of the interpreter. *)
Record Env := mkEnv {
  now : Z;
  get_user : string -> bool;
  get_classroom : Z -> option string;
  set_order : SetOrder
}.

(** [date.today()] *)
Definition today (env : Env) : Z := now env / us_per_day.

(** The result of a call: a value, or an exception that nobody catches. *)
Inductive py (A : Type) : Type :=
| Returns (a : A)
| Raises.
Arguments Returns {A} a.
Arguments Raises {A}.

(** ** The classroom directory

    [classroom_db] is read through two calls: [get_all_classrooms()], a
    dictionary from ids to classrooms, and [get_classroom(id)].  A
    classroom is kept with the defaults of [classroom.get("capacity", 0)]
    and [equipment.get(..., False)] applied. *)
Module Classroom.
Record t := mk {
  name : string;
  location : string;
  capacity : Z;
  projector : bool;
  whiteboard : bool
}.
End Classroom.

Module Directory.
Record t := mk {
  get_all_classrooms : dict Classroom.t;
  get_classroom : Z -> option Classroom.t
}.
End Directory.

(** ** reservation_db.py *)

Definition _is_past_datetime (env : Env) (reservation_date : Z)
    (start_time : time) : bool :=
  combine reservation_date start_time <? now env.

Definition _is_within_7_days (env : Env) (reservation_date : Z) : bool :=
  let max_date := today env + 6 in
  (today env <=? reservation_date) && (reservation_date <=? max_date).

(** The four lines both branches of [count_active_reservations] share:
    parse the stored date and start, combine them, and count the
    reservation when it does not lie before [now]. *)
Definition count_if_active (env : Env) (r : Reservation.t) (count : Z)
    : option Z :=
  match _parse_date (Reservation.date r) with
  | None => None
  | Some reservation_date_obj =>
      match _parse_time (Reservation.start_time r) with
      | None => None
      | Some start_time_obj =>
          let reservation_datetime :=
            combine reservation_date_obj start_time_obj in
          Some (if now env <=? reservation_datetime then count + 1 else count)
      end
  end.

(** One turn of the loop of [count_active_reservations]. *)
Definition count_step (env : Env) (user_id : string) (count : Z)
    (r : Reservation.t) : option Z :=
  match (if String.eqb (Reservation.user_id r) user_id
         then count_if_active env r count else Some count) with
  | None => None
  | Some count =>
      if existsb (String.eqb user_id) (Reservation.participants r)
      then count_if_active env r count else Some count
  end.

Fixpoint count_loop (env : Env) (user_id : string) (rs : list Reservation.t)
    (count : Z) : option Z :=
  match rs with
  | [] => Some count
  | r :: rs' =>
      match count_step env user_id count r with
      | None => None
      | Some count => count_loop env user_id rs' count
      end
  end.

(** [None] when a stored date or time does not parse: the [ValueError]
    leaves the function. *)
Definition count_active_reservations (env : Env) (st : State)
    (user_id : string) : option Z :=
  count_loop env user_id (dict_values (RESERVATIONS st)) 0.

(** Why [create_reservation] refuses a request. *)
Inductive Reason :=
| InvalidDate (date_str : string)
| InvalidTime (time_str : string)
| PastTime
| OutOfWindow
| InvalidSlot
| QuotaExceeded
| ParticipantQuotaExceeded (participant_id : string)
| TimeConflict (start_time_str end_time_str : string)
               (conflicting_reservations : list (string * string * string)).



(** One item of the conflict list: [(start, end, user)]. *)
Definition conflict_message (conf : string * string * string) : string :=
  let '(start, end_, user) := conf in
  start +++ "~" +++ end_ +++ " (예약자: " +++ user +++ ")".

(** The text the caller receives with [False]. *)
Definition message (r : Reason) : string :=
  match r with
  | InvalidDate s => "잘못된 날짜 형식: " +++ s
  | InvalidTime s => "잘못된 시간 형식: " +++ s
  | PastTime => "과거 시간은 예약할 수 없습니다."
  | OutOfWindow =>
      "예약은 오늘부터 최대 7일 후까지만 가능합니다. (오늘+6일)"
  | InvalidSlot =>
      "예약은 정시~정시 1시간 단위로 연속 예약이 가능합니다. (예: 14:00~15:00, 14:00~17:00)"
  | QuotaExceeded => "1인당 활성화된 예약은 최대 3개까지 가능합니다."
  | ParticipantQuotaExceeded p =>
      "참여 인원 '" +++ p +++ "'의 활성 예약이 이미 3개입니다."
  | TimeConflict s e confs =>
      "예약하려는 시간(" +++ s +++ "~" +++ e
      +++ ") 사이에 다른 이용자의 예약이 존재합니다. 충돌하는 예약: "
      +++ Py.join ", " (map conflict_message confs)
  end.

(** Step 6, first half: strip the names, drop the blank ones and the
    requester, and pass the rest through a set. *)
Definition clean_participants (env : Env) (user_id : string)
    (participants : option (list string)) : list string :=
  let participants := match participants with Some l => l | None => [] end in
  @list_of_set (set_order env)
    (map Py.strip
       (filter (fun p => negb (String.eqb (Py.strip p) "")
                         && negb (String.eqb (Py.strip p) user_id))
               participants)).

(** Step 6, second half: the first registered participant with three
    active reservations, if any. *)
Fixpoint participant_over_quota (env : Env) (st : State)
    (participants : list string) : py (option string) :=
  match participants with
  | [] => Returns None
  | participant_id :: rest =>
      if get_user env participant_id then
        match count_active_reservations env st participant_id with
        | None => Raises
        | Some participant_active_count =>
            if 3 <=? participant_active_count
            then Returns (Some participant_id)
            else participant_over_quota env st rest
        end
      else participant_over_quota env st rest
  end.

(** Step 7: the reservations of the same classroom and date text whose
    interval overlaps the requested one, in dictionary order. *)
Fixpoint conflicting (classroom_id : Z) (reservation_date : string)
    (start_time_obj end_time_obj : time) (rs : list Reservation.t)
    : option (list (string * string * string)) :=
  match rs with
  | [] => Some []
  | r :: rs' =>
      if (Reservation.classroom_id r =? classroom_id)
         && String.eqb (Reservation.date r) reservation_date
      then
        match _parse_time (Reservation.start_time r),
              _parse_time (Reservation.end_time r) with
        | Some existing_start, Some existing_end =>
            match conflicting classroom_id reservation_date
                    start_time_obj end_time_obj rs' with
            | None => None
            | Some confs =>
                Some (if _is_time_overlap start_time_obj end_time_obj
                           existing_start existing_end
                      then (Reservation.start_time r, Reservation.end_time r,
                            Reservation.user_id r) :: confs
                      else confs)
            end
        | _, _ => None
        end
      else conflicting classroom_id reservation_date
             start_time_obj end_time_obj rs'
  end.

(** Steps 1 to 7 of [create_reservation]: the reason of the first check
    that fails, or the participants to store.  The handler of step 1
    catches [ValueError] only. *)
Definition first_failure (env : Env) (st : State) (user_id : string)
    (classroom_id : Z) (reservation_date start_time_str end_time_str : string)
    (participants : option (list string)) : py (Reason + list string) :=
  match _parse_date reservation_date with
  | None => Returns (inl (InvalidDate reservation_date))
  | Some reservation_date_obj =>
  match _parse_time start_time_str with
  | None =>
      if overflows start_time_str then Raises
      else Returns (inl (InvalidTime start_time_str))
  | Some start_time_obj =>
  match _parse_time end_time_str with
  | None =>
      if overflows end_time_str then Raises
      else Returns (inl (InvalidTime end_time_str))
  | Some end_time_obj =>
  if _is_past_datetime env reservation_date_obj start_time_obj
  then Returns (inl PastTime)
  else if negb (_is_within_7_days env reservation_date_obj)
  then Returns (inl OutOfWindow)
  else if negb (_is_valid_time_slot start_time_obj end_time_obj)
  then Returns (inl InvalidSlot)
  else
  match count_active_reservations env st user_id with
  | None => Raises
  | Some active_count =>
  if 3 <=? active_count then Returns (inl QuotaExceeded)
  else
  let participants := clean_participants env user_id participants in
  match participant_over_quota env st participants with
  | Raises => Raises
  | Returns (Some participant_id) =>
      Returns (inl (ParticipantQuotaExceeded participant_id))
  | Returns None =>
  match conflicting classroom_id reservation_date start_time_obj
          end_time_obj (dict_values (RESERVATIONS st)) with
  | None => Raises
  | Some [] => Returns (inr participants)
  | Some conflicting_reservations =>
      Returns (inl (TimeConflict start_time_str end_time_str
                      conflicting_reservations))
  end end end end end end.

Definition set_reservations (st : State) (rs : dict Reservation.t)
    (next_id : Z) : State :=
  mkState rs next_id (WAITLIST st) (waitlist_next_id st)
          (NOTIFICATIONS st) (notification_next_id st).

Definition created : string := "예약이 성공적으로 생성되었습니다.".

(** [create_reservation]: the new state and the [(success, message)] pair. *)
Definition create_reservation (env : Env) (st : State) (user_id : string)
    (classroom_id : Z) (reservation_date start_time_str end_time_str : string)
    (participants : option (list string)) : State * py (bool * string) :=
  match first_failure env st user_id classroom_id reservation_date
          start_time_str end_time_str participants with
  | Raises => (st, Raises)
  | Returns (inl reason) => (st, Returns (false, message reason))
  | Returns (inr participants) =>
      let reservation_id := reservation_next_id st in
      let _next_id := reservation_next_id st + 1 in
      (set_reservations st
         (dict_set reservation_id
            (Reservation.mk user_id classroom_id reservation_date
               start_time_str end_time_str participants)
            (RESERVATIONS st))
         _next_id,
       Returns (true, created))
  end.

(** [get_reservation] *)
Definition get_reservation (st : State) (reservation_id : Z)
    : option Reservation.t :=
  dict_get reservation_id (RESERVATIONS st).

Definition cancel_reservation (st : State) (reservation_id : Z)
    (user_id : string) : State * (bool * string) :=
  match dict_get reservation_id (RESERVATIONS st) with
  | None => (st, (false, "존재하지 않는 예약입니다."))
  | Some reservation =>
      if negb (String.eqb (Reservation.user_id reservation) user_id)
      then (st, (false, "본인의 예약만 취소할 수 있습니다."))
      else (set_reservations st (dict_del reservation_id (RESERVATIONS st))
              (reservation_next_id st),
            (true, "예약이 취소되었습니다."))
  end.

Definition delete_reservation (st : State) (reservation_id : Z)
    : State * bool :=
  if dict_mem reservation_id (RESERVATIONS st)
  then (set_reservations st (dict_del reservation_id (RESERVATIONS st))
          (reservation_next_id st), true)
  else (st, false).

(** ** Python's stable [list.sort], by a "not after" test on the keys *)
Section Sort.
Context {A : Type} (le : A -> A -> bool).

Fixpoint insert_sorted (x : A) (l : list A) : list A :=
  match l with
  | [] => [x]
  | y :: l' => if le x y then x :: y :: l' else y :: insert_sorted x l'
  end.

Fixpoint sort_by (l : list A) : list A :=
  match l with
  | [] => []
  | x :: l' => insert_sorted x (sort_by l')
  end.
End Sort.

(** ** reservation_db.py: the queries *)

(** Python orders strings by code point, which on UTF-8 text is the
    order of the bytes; a pair of strings is ordered as a tuple. *)
Definition text_pair_le (a b : string * string) : bool :=
  String.ltb (fst a) (fst b)
  || (String.eqb (fst a) (fst b) && String.leb (snd a) (snd b)).

(** [get_user_reservations]: the reservation, its id and [is_owner]. *)
Definition get_user_reservations (st : State) (user_id : string)
    : list (Z * Reservation.t * bool) :=
  flat_map (fun item =>
              let '(res_id, reservation) := item in
              if String.eqb (Reservation.user_id reservation) user_id
              then [(res_id, reservation, true)]
              else if existsb (String.eqb user_id)
                        (Reservation.participants reservation)
              then [(res_id, reservation, false)]
              else [])
           (RESERVATIONS st).

(** The sort key [(date, start_time)] of a reservation. *)
Definition date_and_start (item : Z * Reservation.t) : string * string :=
  (Reservation.date (snd item), Reservation.start_time (snd item)).

(** [get_classroom_reservations]: [if date:] takes the empty text for no
    date at all. *)
Definition get_classroom_reservations (st : State) (classroom_id : Z)
    (date : option string) : list (Z * Reservation.t) :=
  let reservations :=
    filter (fun item => Reservation.classroom_id (snd item) =? classroom_id)
           (RESERVATIONS st) in
  let reservations :=
    match date with
    | Some d =>
        if String.eqb d "" then reservations
        else filter (fun r => String.eqb (Reservation.date (snd r)) d)
                    reservations
    | None => reservations
    end in
  sort_by (fun a b => text_pair_le (date_and_start a) (date_and_start b))
          reservations.

(** The inner loop of [find_available_classrooms]: it stops at the first
    overlap; [None] when a stored time met before does not parse. *)
Fixpoint is_available (classroom_id : Z) (reservation_date : string)
    (start_time_obj end_time_obj : time) (rs : list Reservation.t)
    : option bool :=
  match rs with
  | [] => Some true
  | reservation :: rs' =>
      if (Reservation.classroom_id reservation =? classroom_id)
         && String.eqb (Reservation.date reservation) reservation_date
      then
        match _parse_time (Reservation.start_time reservation),
              _parse_time (Reservation.end_time reservation) with
        | Some existing_start, Some existing_end =>
            if _is_time_overlap start_time_obj end_time_obj
                 existing_start existing_end
            then Some false
            else is_available classroom_id reservation_date
                   start_time_obj end_time_obj rs'
        | _, _ => None
        end
      else is_available classroom_id reservation_date
             start_time_obj end_time_obj rs'
  end.

(** The outer loop, over the ids of the directory. *)
Fixpoint available_among (classroom_ids : list Z) (st : State)
    (reservation_date : string) (start_time_obj end_time_obj : time)
    : py (list Z) :=
  match classroom_ids with
  | [] => Returns []
  | classroom_id :: rest =>
      match is_available classroom_id reservation_date start_time_obj
              end_time_obj (dict_values (RESERVATIONS st)) with
      | None => Raises
      | Some is_available =>
          match available_among rest st reservation_date start_time_obj
                  end_time_obj with
          | Raises => Raises
          | Returns available_classroom_ids =>
              Returns (if is_available
                       then classroom_id :: available_classroom_ids
                       else available_classroom_ids)
          end
      end
  end.

Definition find_available_classrooms (dir : Directory.t) (st : State)
    (reservation_date start_time_str end_time_str : string) : py (list Z) :=
  match _parse_date reservation_date with
  | None => Returns []
  | Some _ =>
  match _parse_time start_time_str with
  | None => if overflows start_time_str then Raises else Returns []
  | Some start_time_obj =>
  match _parse_time end_time_str with
  | None => if overflows end_time_str then Raises else Returns []
  | Some end_time_obj =>
      if negb (_is_valid_time_slot start_time_obj end_time_obj)
      then Returns []
      else available_among (dict_keys (Directory.get_all_classrooms dir)) st
             reservation_date start_time_obj end_time_obj
  end end end.

(** One turn of the loop of [filter_classrooms]: [true] when the id
    reaches [filtered.append]. *)
Definition passes_filters (dir : Directory.t) (min_capacity : option Z)
    (has_projector has_whiteboard : option bool) (classroom_id : Z) : bool :=
  match Directory.get_classroom dir classroom_id with
  | None => false
  | Some classroom =>
      if match min_capacity with
         | Some m => Classroom.capacity classroom <? m
         | None => false
         end
      then false
      else if match has_projector with
              | Some p =>
                  (p && negb (Classroom.projector classroom))
                  || (negb p && Classroom.projector classroom)
              | None => false
              end
      then false
      else if match has_whiteboard with
              | Some w =>
                  (w && negb (Classroom.whiteboard classroom))
                  || (negb w && Classroom.whiteboard classroom)
              | None => false
              end
      then false
      else true
  end.

Definition filter_classrooms (dir : Directory.t) (classroom_ids : list Z)
    (min_capacity : option Z) (has_projector has_whiteboard : option bool)
    : list Z :=
  filter (passes_filters dir min_capacity has_projector has_whiteboard)
         classroom_ids.

(** ** notification_db.py *)

Definition set_notifications (st : State) (ns : dict Notification.t)
    (next_id : Z) : State :=
  mkState (RESERVATIONS st) (reservation_next_id st)
          (WAITLIST st) (waitlist_next_id st) ns next_id.

Definition create_notification (env : Env) (st : State) (user_id : string)
    (reservation_id : Z) (message : string) : State * Z :=
  let notification_id := notification_next_id st in
  let _next_id := notification_next_id st + 1 in
  (set_notifications st
     (dict_set notification_id
        (Notification.mk user_id reservation_id message (now env) false)
        (NOTIFICATIONS st))
     _next_id,
   notification_id).

(** [get_user_notifications]: newest first. *)
Definition get_user_notifications (st : State) (user_id : string)
    (unread_only : bool) : list (Z * Notification.t) :=
  let notifications :=
    filter (fun n => String.eqb (Notification.user_id (snd n)) user_id)
           (NOTIFICATIONS st) in
  let notifications :=
    if unread_only
    then filter (fun n => negb (Notification.read (snd n))) notifications
    else notifications in
  sort_by (fun a b => Notification.created_at (snd b)
                      <=? Notification.created_at (snd a))
          notifications.

Definition set_read (n : Notification.t) : Notification.t :=
  Notification.mk (Notification.user_id n) (Notification.reservation_id n)
    (Notification.message n) (Notification.created_at n) true.

Definition mark_as_read (st : State) (notification_id : Z) (user_id : string)
    : State * bool :=
  match dict_get notification_id (NOTIFICATIONS st) with
  | None => (st, false)
  | Some notification =>
      if negb (String.eqb (Notification.user_id notification) user_id)
      then (st, false)
      else (set_notifications st
              (dict_set notification_id (set_read notification)
                 (NOTIFICATIONS st))
              (notification_next_id st),
            true)
  end.

Definition mark_all_as_read (st : State) (user_id : string) : State * Z :=
  let hit (n : Notification.t) :=
    String.eqb (Notification.user_id n) user_id
    && negb (Notification.read n) in
  (set_notifications st
     (map (fun kv => if hit (snd kv) then (fst kv, set_read (snd kv)) else kv)
          (NOTIFICATIONS st))
     (notification_next_id st),
   Z.of_nat (List.length (filter hit (dict_values (NOTIFICATIONS st))))).

(** The name shown for a classroom. *)
Definition classroom_name (env : Env) (classroom_id : Z) : string :=
  match get_classroom env classroom_id with
  | Some name => name
  | None => "강의실 " +++ Py.str classroom_id
  end.

Definition reminder_mark : string := "30분 전 알림".

Definition reminder_message (env : Env) (r : Reservation.t) : string :=
  "[" +++ classroom_name env (Reservation.classroom_id r) +++ "] 예약이 "
  +++ Reservation.start_time r +++ "에 시작됩니다. (30분 전 알림)".

(** The loop over the participants of a reservation. *)
Fixpoint notify_participants (env : Env) (st : State) (reservation_id : Z)
    (message : string) (participants : list string) : State :=
  match participants with
  | [] => st
  | participant_id :: rest =>
      let st :=
        if get_user env participant_id
        then fst (create_notification env st participant_id reservation_id
                    message)
        else st in
      notify_participants env st reservation_id message rest
  end.

(** One turn of the loop of [check_and_create_notifications]; a stored
    date or time that raises [ValueError] skips the reservation. *)
Definition check_one (env : Env) (st : State)
    (item : Z * Reservation.t) : State :=
  let '(reservation_id, reservation) := item in
  let notification_time := now env + 30 * us_per_minute in
  match _parse_date (Reservation.date reservation),
        _parse_time (Reservation.start_time reservation) with
  | Some reservation_date_obj, Some start_time_obj =>
      let reservation_datetime :=
        combine reservation_date_obj start_time_obj in
      let time_diff := Z.abs (reservation_datetime - notification_time) in
      if time_diff <=? 300 * 1000000 then
        let user_id := Reservation.user_id reservation in
        let existing_notifications :=
          get_user_notifications st user_id false in
        let notification_exists :=
          existsb (fun n =>
                     (Notification.reservation_id (snd n) =? reservation_id)
                     && Py.contains reminder_mark
                          (Notification.message (snd n)))
                  existing_notifications in
        if negb notification_exists then
          let message := reminder_message env reservation in
          let st :=
            fst (create_notification env st user_id reservation_id message) in
          notify_participants env st reservation_id message
            (Reservation.participants reservation)
        else st
      else st
  | _, _ => st
  end.

(** A stored start time that raises [OverflowError] ends the scan: the
    handler of the loop catches [ValueError], [TypeError] and [KeyError]. *)
Definition breaks_scan (item : Z * Reservation.t) : bool :=
  match _parse_date (Reservation.date (snd item)) with
  | Some _ => overflows (Reservation.start_time (snd item))
  | None => false
  end.

(** The loop of [check_and_create_notifications], up to the reservation
    that ends it. *)
Fixpoint scan (env : Env) (st : State) (items : list (Z * Reservation.t))
    : State :=
  match items with
  | [] => st
  | item :: rest =>
      if breaks_scan item then st else scan env (check_one env st item) rest
  end.

(** [check_and_create_notifications]: the state the scan leaves. *)
Definition check_and_create_notifications (env : Env) (st : State) : State :=
  scan env st (RESERVATIONS st).

(** ** waitlist_db.py *)

Definition set_waitlist (st : State) (wl : dict Waitlist.t) (next_id : Z)
    : State :=
  mkState (RESERVATIONS st) (reservation_next_id st) wl next_id
          (NOTIFICATIONS st) (notification_next_id st).

(** Same classroom, date text, start text and end text. *)
Definition same_slot (classroom_id : Z) (date start_time end_time : string)
    (entry : Waitlist.t) : bool :=
  (Waitlist.classroom_id entry =? classroom_id)
  && String.eqb (Waitlist.date entry) date
  && String.eqb (Waitlist.start_time entry) start_time
  && String.eqb (Waitlist.end_time entry) end_time.

(** [sum(1 for x in l if p(x))] *)
Definition count_if {A : Type} (p : A -> bool) (l : list A) : Z :=
  Z.of_nat (List.length (filter p l)).

Definition create_waitlist_entry (env : Env) (st : State) (user_id : string)
    (classroom_id : Z) (reservation_date start_time_str end_time_str : string)
    : State * py (bool * string) :=
  match count_active_reservations env st user_id with
  | None => (st, Raises)
  | Some active_count =>
  if 3 <=? active_count
  then (st, Returns (false,
          "현재 활성화된 예약이 3개입니다. 대기 신청을 할 수 없습니다."))
  else
  match _parse_date reservation_date with
  | None => (st, Returns (false, "잘못된 날짜 형식: " +++ reservation_date))
  | Some _ =>
  match _parse_time start_time_str with
  | None =>
      (st, if overflows start_time_str then Raises
           else Returns (false, "잘못된 시간 형식: " +++ start_time_str))
  | Some _ =>
  match _parse_time end_time_str with
  | None =>
      (st, if overflows end_time_str then Raises
           else Returns (false, "잘못된 시간 형식: " +++ end_time_str))
  | Some _ =>
  if existsb (fun entry =>
                String.eqb (Waitlist.user_id entry) user_id
                && same_slot classroom_id reservation_date start_time_str
                     end_time_str entry)
             (dict_values (WAITLIST st))
  then (st, Returns (false, "이미 해당 시간대에 대기 신청이 있습니다."))
  else
    let priority :=
      count_if (same_slot classroom_id reservation_date start_time_str
                  end_time_str)
               (dict_values (WAITLIST st)) in
    let waitlist_id := waitlist_next_id st in
    let _next_id := waitlist_next_id st + 1 in
    (set_waitlist st
       (dict_set waitlist_id
          (Waitlist.mk user_id classroom_id reservation_date start_time_str
             end_time_str (now env) priority)
          (WAITLIST st))
       _next_id,
     Returns (true, "대기 신청이 완료되었습니다. (대기 순위: "
                    +++ Py.str (priority + 1) +++ ")"))
  end end end end.

Definition set_priority (entry : Waitlist.t) (priority : Z) : Waitlist.t :=
  Waitlist.mk (Waitlist.user_id entry) (Waitlist.classroom_id entry)
    (Waitlist.date entry) (Waitlist.start_time entry)
    (Waitlist.end_time entry) (Waitlist.created_at entry) priority.

(** The re-ranking loop that follows a removal: every entry of the slot
    gets as priority the number of entries of the slot created before it.
    The loop writes priorities only and reads none, so each entry is
    computed from the dictionary as it stood after the removal. *)
Definition rerank (classroom_id : Z) (date start_time end_time : string)
    (wl : dict Waitlist.t) : dict Waitlist.t :=
  map (fun kv =>
         let other_entry := snd kv in
         if same_slot classroom_id date start_time end_time other_entry
         then
           let priority :=
             count_if (fun e =>
                         same_slot classroom_id date start_time end_time e
                         && (Waitlist.created_at e
                             <? Waitlist.created_at other_entry))
                      (dict_values wl) in
           (fst kv, set_priority other_entry priority)
         else kv)
      wl.

Definition cancel_waitlist_entry (st : State) (waitlist_id : Z)
    (user_id : string) : State * (bool * string) :=
  match dict_get waitlist_id (WAITLIST st) with
  | None => (st, (false, "존재하지 않는 대기 신청입니다."))
  | Some entry =>
      if negb (String.eqb (Waitlist.user_id entry) user_id)
      then (st, (false, "본인의 대기 신청만 취소할 수 있습니다."))
      else
        let classroom_id := Waitlist.classroom_id entry in
        let date := Waitlist.date entry in
        let start_time := Waitlist.start_time entry in
        let end_time := Waitlist.end_time entry in
        (set_waitlist st
           (rerank classroom_id date start_time end_time
              (dict_del waitlist_id (WAITLIST st)))
           (waitlist_next_id st),
         (true, "대기 신청이 취소되었습니다."))
  end.

(** What a promotion returns. *)
Module Assigned.
Record t := mk {
  user_id : string;
  classroom_id : Z;
  date : string;
  start_time : string;
  end_time : string
}.
End Assigned.

(** The entries of the classroom and date whose own interval overlaps the
    freed one; an entry with a time that raises [ValueError] is passed
    over. *)
Definition matching (classroom_id : Z) (date : string)
    (cancelled_start cancelled_end : time) (item : Z * Waitlist.t) : bool :=
  let entry := snd item in
  (Waitlist.classroom_id entry =? classroom_id)
  && String.eqb (Waitlist.date entry) date
  && match _parse_time (Waitlist.start_time entry),
           _parse_time (Waitlist.end_time entry) with
     | Some entry_start, Some entry_end =>
         _is_time_overlap cancelled_start cancelled_end entry_start entry_end
     | _, _ => false
     end.

(** An entry of the classroom and date with a time that raises
    [OverflowError]: the handler inside the loop that collects the
    matching entries does not catch it, and it leaves the function. *)
Definition breaks_matching (classroom_id : Z) (date : string)
    (item : Z * Waitlist.t) : bool :=
  let entry := snd item in
  (Waitlist.classroom_id entry =? classroom_id)
  && String.eqb (Waitlist.date entry) date
  && (overflows (Waitlist.start_time entry)
      || match _parse_time (Waitlist.start_time entry) with
         | Some _ => overflows (Waitlist.end_time entry)
         | None => false
         end).

(** The sort key [(priority, created_at)], compared as a tuple. *)
Definition waiting_before (a b : Z * Waitlist.t) : bool :=
  (Waitlist.priority (snd a) <? Waitlist.priority (snd b))
  || ((Waitlist.priority (snd a) =? Waitlist.priority (snd b))
      && (Waitlist.created_at (snd a) <=? Waitlist.created_at (snd b))).

Definition assigned_message (env : Env) (classroom_id : Z)
    (date entry_start_time entry_end_time : string) : string :=
  "[" +++ classroom_name env classroom_id
  +++ "] 대기 신청하신 예약이 자동으로 할당되었습니다. ("
  +++ date +++ " " +++ entry_start_time +++ "~" +++ entry_end_time +++ ")".

(** What follows a successful [create_reservation] in the promotion loop:
    the entry leaves the waitlist, its slot is re-ranked, and the user is
    notified under the largest reservation id, when that id is not 0. *)
Definition promoted (env : Env) (st : State) (classroom_id : Z)
    (date : string) (entry_id : Z) (entry : Waitlist.t) : State :=
  let user_id := Waitlist.user_id entry in
  let entry_start_time := Waitlist.start_time entry in
  let entry_end_time := Waitlist.end_time entry in
  let st :=
    set_waitlist st
      (rerank classroom_id date entry_start_time entry_end_time
         (dict_del entry_id (WAITLIST st)))
      (waitlist_next_id st) in
  let notification_message :=
    assigned_message env classroom_id date entry_start_time entry_end_time in
  match dict_max_key (RESERVATIONS st) with
  | Some reservation_id =>
      if reservation_id =? 0 then st
      else fst (create_notification env st user_id reservation_id
                  notification_message)
  | None => st
  end.

(** The loop "from the first of the queue on". *)
Fixpoint promote (env : Env) (st : State) (classroom_id : Z) (date : string)
    (matching_entries : list (Z * Waitlist.t))
    : State * py (option Assigned.t) :=
  match matching_entries with
  | [] => (st, Returns None)
  | (entry_id, entry) :: rest =>
      let user_id := Waitlist.user_id entry in
      match count_active_reservations env st user_id with
      | None => (st, Raises)
      | Some active_count =>
          if 3 <=? active_count then
            promote env (fst (cancel_waitlist_entry st entry_id user_id))
              classroom_id date rest
          else
            let entry_start_time := Waitlist.start_time entry in
            let entry_end_time := Waitlist.end_time entry in
            match create_reservation env st user_id classroom_id date
                    entry_start_time entry_end_time None with
            | (st, Raises) => (st, Raises)
            | (st, Returns (true, _)) =>
                (promoted env st classroom_id date entry_id entry,
                 Returns (Some (Assigned.mk user_id classroom_id date
                                  entry_start_time entry_end_time)))
            | (st, Returns (false, _)) =>
                promote env st classroom_id date rest
            end
      end
  end.

Definition process_waitlist_on_reservation_cancelled (env : Env) (st : State)
    (classroom_id : Z) (date start_time end_time : string)
    : State * py (option Assigned.t) :=
  match _parse_time start_time with
  | None => (st, if overflows start_time then Raises else Returns None)
  | Some cancelled_start =>
  match _parse_time end_time with
  | None => (st, if overflows end_time then Raises else Returns None)
  | Some cancelled_end =>
      if existsb (breaks_matching classroom_id date) (WAITLIST st)
      then (st, Raises)
      else
      let matching_entries :=
        filter (matching classroom_id date cancelled_start cancelled_end)
               (WAITLIST st) in
      let matching_entries := sort_by waiting_before matching_entries in
      match matching_entries with
      | [] => (st, Returns None)
      | _ => promote env st classroom_id date matching_entries
      end
  end end.

(** ** notification_db.py: the unread count and the scheduled reminder *)

(** [get_unread_count] *)
Definition get_unread_count (st : State) (user_id : string) : Z :=
  count_if (fun n => String.eqb (Notification.user_id n) user_id
                     && negb (Notification.read n))
           (dict_values (NOTIFICATIONS st)).

(** [datetime.min], 0001-01-01 00:00: an instant computed before it is
    an [OverflowError], which no handler of these modules catches. *)
Definition datetime_min : Z := us_per_day.

(** [schedule_reservation_notification]: a date or time that raises
    [ValueError] is passed over in silence. *)
Definition schedule_reservation_notification (env : Env) (st : State)
    (reservation_id : Z) (user_id reservation_date start_time_str : string)
    (participants : option (list string)) : py State :=
  match _parse_date reservation_date with
  | None => Returns st
  | Some reservation_date_obj =>
  match _parse_time start_time_str with
  | None => if overflows start_time_str then Raises else Returns st
  | Some start_time_obj =>
      let reservation_datetime :=
        combine reservation_date_obj start_time_obj in
      let notification_time := reservation_datetime - 30 * us_per_minute in
      if notification_time <? datetime_min then Raises
      else if notification_time <=? now env then Returns st
      else
        match get_reservation st reservation_id with
        | None => Returns st
        | Some reservation =>
            let message :=
              "[" +++ classroom_name env (Reservation.classroom_id reservation)
              +++ "] 예약이 " +++ start_time_str
              +++ "에 시작됩니다. (30분 전 알림)" in
            let st :=
              fst (create_notification env st user_id reservation_id
                     message) in
            Returns (notify_participants env st reservation_id message
                       (match participants with Some l => l | None => [] end))
        end
  end end.

(** ** waitlist_db.py: the queries *)

(** [get_waitlist_entry] *)
Definition get_waitlist_entry (st : State) (waitlist_id : Z)
    : option Waitlist.t :=
  dict_get waitlist_id (WAITLIST st).

(** [get_user_waitlist]: by date text, then start text. *)
Definition get_user_waitlist (st : State) (user_id : string)
    : list (Z * Waitlist.t) :=
  sort_by (fun a b =>
             text_pair_le
               (Waitlist.date (snd a), Waitlist.start_time (snd a))
               (Waitlist.date (snd b), Waitlist.start_time (snd b)))
          (filter (fun item => String.eqb (Waitlist.user_id (snd item)) user_id)
                  (WAITLIST st)).

(** [get_classroom_waitlist]: the entries of a classroom, date text and
    start text, whatever their end, by priority and then by age. *)
Definition get_classroom_waitlist (st : State) (classroom_id : Z)
    (date start_time : string) : list (Z * Waitlist.t) :=
  sort_by waiting_before
    (filter (fun item =>
               (Waitlist.classroom_id (snd item) =? classroom_id)
               && String.eqb (Waitlist.date (snd item)) date
               && String.eqb (Waitlist.start_time (snd item)) start_time)
            (WAITLIST st)).

(** [cancel_reservation_post] of main.py, without the pages and sockets:
    the reservation is read, cancelled, and on success its slot is offered
    to the waitlist. *)
Definition cancel_reservation_post (env : Env) (st : State)
    (reservation_id : Z) (user_id : string)
    : State * py (option Assigned.t) :=
  let reservation := get_reservation st reservation_id in
  match cancel_reservation st reservation_id user_id, reservation with
  | (st', (true, _)), Some reservation =>
      process_waitlist_on_reservation_cancelled env st'
        (Reservation.classroom_id reservation) (Reservation.date reservation)
        (Reservation.start_time reservation)
        (Reservation.end_time reservation)
  | (st', _), _ => (st', Returns None)
  end.

(** ** main.py: what the pages compute *)

(** [next((i+1 for i, e in enumerate(entries) if e["id"] == id), None)],
    counting from [i]. *)
Fixpoint position_from (i : Z) (id : Z) (entries : list (Z * Waitlist.t))
    : option Z :=
  match entries with
  | [] => None
  | e :: rest =>
      if fst e =? id then Some (i + 1) else position_from (i + 1) id rest
  end.

(** The rank [root] and [list_my_waitlist] show beside an entry. *)
Definition current_priority (st : State) (entry : Z * Waitlist.t) : Z :=
  let same_time_entries :=
    get_classroom_waitlist st (Waitlist.classroom_id (snd entry))
      (Waitlist.date (snd entry)) (Waitlist.start_time (snd entry)) in
  match position_from 0 (fst entry) same_time_entries with
  | Some p => p
  | None => Waitlist.priority (snd entry) + 1
  end.

(** The participants field of the reservation form, split at commas. *)
Definition participants_list (participants : string) : list string :=
  if String.eqb participants "" then []
  else map Py.strip
         (filter (fun p => negb (String.eqb (Py.strip p) ""))
                 (Py.split "," participants)).

Definition conflict_keywords : list string :=
  ["이미 예약이 존재합니다"; "이미 예약이 있습니다";
   "다른 이용자의 예약이 존재합니다"].

(** The loop that looks for an overlap among the listed reservations;
    any exception leaves [can_waitlist] as it was, [False]. *)
Fixpoint overlaps_listed (start_time_obj end_time_obj : time)
    (existing_reservations : list (Z * Reservation.t)) : bool :=
  match existing_reservations with
  | [] => false
  | reservation :: rest =>
      match _parse_time (Reservation.start_time (snd reservation)),
            _parse_time (Reservation.end_time (snd reservation)) with
      | Some existing_start, Some existing_end =>
          if _is_time_overlap start_time_obj end_time_obj
               existing_start existing_end
          then true
          else overlaps_listed start_time_obj end_time_obj rest
      | _, _ => false
      end
  end.

(** [can_waitlist], as the failure branch of [create_reservation_post]
    computes it from the message of the refusal. *)
Definition can_waitlist (st : State) (classroom_id : Z)
    (date start_time end_time message : string) : bool :=
  let is_time_conflict :=
    existsb (fun keyword => Py.contains keyword message) conflict_keywords in
  if is_time_conflict then
    let existing_reservations :=
      get_classroom_reservations st classroom_id (Some date) in
    match _parse_time start_time, _parse_time end_time with
    | Some start_time_obj, Some end_time_obj =>
        overlaps_listed start_time_obj end_time_obj existing_reservations
    | _, _ => false
    end
  else false.

(** What [create_reservation_post] answers: the redirection that follows a
    reservation, or the form again with its error message and, in the
    last branch only, the [can_waitlist] flag. *)
Inductive Page :=
| Redirect
| ReservationForm (error_message : string) (can_waitlist : option bool).

Definition over_capacity (total_people capacity : Z) : string :=
  "총 인원(" +++ Py.str total_people +++ "명)이 강의실 최대 수용인원("
  +++ Py.str capacity +++ "명)을 초과합니다.".

(** [create_reservation_post] for a logged-in user, without the sockets
    and the session. *)
Definition create_reservation_post (env : Env) (dir : Directory.t)
    (st : State) (user_id : string) (classroom_id : Z)
    (date start_time end_time participants : string) : State * py Page :=
  if negb (dict_mem classroom_id (Directory.get_all_classrooms dir))
  then (st, Returns (ReservationForm "존재하지 않는 강의실입니다." None))
  else
    let participants_list := participants_list participants in
    let classroom := Directory.get_classroom dir classroom_id in
    let total_people := 1 + Z.of_nat (List.length participants_list) in
    match (match classroom with
           | Some classroom =>
               if Classroom.capacity classroom <? total_people
               then Some (Classroom.capacity classroom) else None
           | None => None
           end) with
    | Some capacity =>
        (st, Returns (ReservationForm (over_capacity total_people capacity)
                        None))
    | None =>
        match create_reservation env st user_id classroom_id date start_time
                end_time (Some participants_list) with
        | (st, Raises) => (st, Raises)
        | (st, Returns (true, _)) => (st, Returns Redirect)
        | (st, Returns (false, message)) =>
            (st, Returns (ReservationForm message
                            (Some (can_waitlist st classroom_id date
                                     start_time end_time message))))
        end
    end.

(** [search_available_classrooms_post]: the classrooms the search page
    shows.  An unticked box asks for nothing, and so does a capacity that
    is not positive. *)
Definition search_available_classrooms_post (dir : Directory.t) (st : State)
    (date start_time end_time : string) (min_capacity : option Z)
    (has_projector has_whiteboard : bool) : py (dict Classroom.t) :=
  match find_available_classrooms dir st date start_time end_time with
  | Raises => Raises
  | Returns available_classroom_ids =>
      let min_cap :=
        match min_capacity with
        | Some m => if negb (m =? 0) && (0 <? m) then Some m else None
        | None => None
        end in
      let projector_filter := if has_projector then Some true else None in
      let whiteboard_filter := if has_whiteboard then Some true else None in
      let filtered_classroom_ids :=
        filter_classrooms dir available_classroom_ids min_cap
          projector_filter whiteboard_filter in
      let all_classrooms := Directory.get_all_classrooms dir in
      Returns
        (fold_left (fun filtered_classrooms cid =>
                      match dict_get cid all_classrooms with
                      | Some classroom =>
                          dict_set cid classroom filtered_classrooms
                      | None => filtered_classrooms
                      end)
                   filtered_classroom_ids [])
  end.

(** Where [cancel_waitlist_post] sends the browser. *)
Inductive Redirection :=
| ToMain
| ToTimeline (classroom_id : Z) (date : string)
| ToWaitlist.

(** [cancel_waitlist_post] for a logged-in user; [referer_path] is the
    path of the [referer] header, when the request carries one. *)
Definition cancel_waitlist_post (st : State) (waitlist_id : Z)
    (user_id from_main : string) (referer_path : option string)
    : State * Redirection :=
  let '(st, (success, _)) := cancel_waitlist_entry st waitlist_id user_id in
  if success then
    if String.eqb from_main "true" then (st, ToMain)
    else if match referer_path with
            | Some path => String.eqb path "/" || String.eqb path ""
            | None => false
            end
    then (st, ToMain)
    else
      match get_waitlist_entry st waitlist_id with
      | Some entry =>
          (st, ToTimeline (Waitlist.classroom_id entry) (Waitlist.date entry))
      | None => (st, ToWaitlist)
      end
  else (st, ToWaitlist).

(** The tally of the statistics pages: reservations per classroom, in the
    order the classrooms first occur. *)
Definition classroom_counts (rs : list Reservation.t) : dict Z :=
  fold_left (fun counts reservation =>
               let classroom_id := Reservation.classroom_id reservation in
               dict_set classroom_id
                 (match dict_get classroom_id counts with
                  | Some n => n
                  | None => 0
                  end + 1)
                 counts)
            rs [].

(** [sorted(classroom_counts.items(), key=..., reverse=True)[:5]] *)
Definition top_classrooms (st : State) : list (Z * Z) :=
  firstn 5
    (sort_by (fun a b : Z * Z => snd b <=? snd a)
       (classroom_counts (dict_values (RESERVATIONS st)))).

(** The rows of [stats_page] and [get_popular_classrooms_stats]: id,
    name, location and count. *)
Definition popular_classrooms (dir : Directory.t) (st : State)
    : list (Z * string * string * Z) :=
  flat_map (fun item : Z * Z =>
              let '(classroom_id, count) := item in
              match dict_get classroom_id (Directory.get_all_classrooms dir)
              with
              | Some classroom =>
                  [(classroom_id, Classroom.name classroom,
                    Classroom.location classroom, count)]
              | None => []
              end)
           (top_classrooms st).

(** ** The JSON files

    [json.dump] writes, and [json.load] reads back, an object with the
    items of the store under text keys and the counter; [None] stands for
    a key the object does not have. *)
Record Saved (V : Type) := mkSaved {
  saved_items : option (list (string * V));
  saved_next_id : option Z
}.
Arguments mkSaved {V} _ _.
Arguments saved_items {V} _.
Arguments saved_next_id {V} _.

Section Json.
Context {V : Type}.

(** [d[k] = v] on a dictionary with text keys. *)
Fixpoint text_set (k : string) (v : V) (d : list (string * V))
    : list (string * V) :=
  match d with
  | [] => [(k, v)]
  | (k', v') :: d' =>
      if String.eqb k' k then (k, v) :: d' else (k', v') :: text_set k v d'
  end.

(** The object [_save_reservations], [_save_waitlist] and
    [_save_notifications] hand to [json.dump]. *)
Definition _save (d : dict V) (next_id : Z) : Saved V :=
  mkSaved
    (Some (fold_left (fun data kv => text_set (Py.str (fst kv)) (snd kv) data)
             d []))
    (Some next_id).

(** [{int(k): v for k, v in items}]; [None] for the [ValueError] of a key
    that is no integer. *)
Definition int_keys (items : list (string * V)) : option (dict V) :=
  fold_left (fun acc kv =>
               match acc, Py.int (fst kv) with
               | Some d, Some k => Some (dict_set k (snd kv) d)
               | _, _ => None
               end)
            items (Some []).

(** [_load_reservations], [_load_waitlist] and [_load_notifications], on
    the object [json.load] returns; [None] for a file that is missing or
    does not hold JSON. *)
Definition _load (file : option (Saved V)) : dict V * Z :=
  match file with
  | None => ([], 1)
  | Some data =>
      match int_keys (match saved_items data with
                      | Some items => items
                      | None => []
                      end) with
      | None => ([], 1)
      | Some d =>
          (d, match saved_next_id data with Some n => n | None => 1 end)
      end
  end.
End Json.

(** The three files of a server. *)
Record Files := mkFiles {
  reservations_json : option (Saved Reservation.t);
  waitlist_json : option (Saved Waitlist.t);
  notifications_json : option (Saved Notification.t)
}.

(** The files after every store has been saved. *)
Definition saved_files (st : State) : Files :=
  mkFiles (Some (_save (RESERVATIONS st) (reservation_next_id st)))
          (Some (_save (WAITLIST st) (waitlist_next_id st)))
          (Some (_save (NOTIFICATIONS st) (notification_next_id st))).

(** What [create_reservation] hands to [json.dump]: [_save_reservations]
    runs once the record is stored and the counter moved, just before
    [True] is returned; a call that refuses or raises writes nothing. *)
Definition create_reservation_writes (env : Env) (st : State)
    (user_id : string) (classroom_id : Z)
    (reservation_date start_time_str end_time_str : string)
    (participants : option (list string)) : option (Saved Reservation.t) :=
  match create_reservation env st user_id classroom_id reservation_date
          start_time_str end_time_str participants with
  | (st', Returns (true, _)) =>
      Some (_save (RESERVATIONS st') (reservation_next_id st'))
  | _ => None
  end.

(** How a write ends: [open] and [json.dump] go through; [open] raises
    [IOError] and the file stays as it was; or [open] has emptied the
    file and the write stops partway, which leaves text that is no JSON.
    The three [_save] functions swallow the [IOError] of the last two. *)
Inductive io : Type := Written | Refused | Cut.

Definition written {V : Type} (outcome : io) (data : Saved V)
    (file : option (Saved V)) : option (Saved V) :=
  match outcome with
  | Written => Some data
  | Refused => file
  | Cut => None
  end.

(** The file of the reservations after a call of [create_reservation]
    whose write, if it comes to one, ends as [outcome] says. *)
Definition reservations_json_after (outcome : io)
    (file : option (Saved Reservation.t)) (env : Env) (st : State)
    (user_id : string) (classroom_id : Z)
    (reservation_date start_time_str end_time_str : string)
    (participants : option (list string)) : option (Saved Reservation.t) :=
  match create_reservation_writes env st user_id classroom_id
          reservation_date start_time_str end_time_str participants with
  | Some data => written outcome data file
  | None => file
  end.

(** The state of a server that starts on the files: each module updates
    its empty dictionary with what it loaded. *)
Definition startup (files : Files) : State :=
  mkState (fst (_load (reservations_json files)))
          (snd (_load (reservations_json files)))
          (fst (_load (waitlist_json files)))
          (snd (_load (waitlist_json files)))
          (fst (_load (notifications_json files)))
          (snd (_load (notifications_json files))).

(** ** A concrete environment for the examples *)

(** A set that lists its elements in the order they first came. *)
#[refine] Instance first_seen : SetOrder :=
  {| list_of_set := nodup string_dec |}.
Proof.
  - intros l. apply NoDup_nodup.
  - intros l x. apply nodup_In.
Defined.

(** Everybody is registered, classroom 1 is called [A101], and the clock
    shows the given instant. *)
Definition env_at (now : Z) : Env :=
  mkEnv now (fun _ => true)
    (fun c => if c =? 1 then Some "A101" else None) first_seen.

(** 2029-12-30 09:00:00, in microseconds. *)
Definition morning : Z := 741076 * us_per_day + 540 * us_per_minute.

(** ** The operations a running server performs on the stores *)
Inductive Op :=
| CreateReservation (env : Env) (user_id : string) (classroom_id : Z)
    (reservation_date start_time_str end_time_str : string)
    (participants : option (list string))
| CancelReservation (reservation_id : Z) (user_id : string)
| DeleteReservation (reservation_id : Z)
| ProcessWaitlist (env : Env) (classroom_id : Z)
    (date start_time end_time : string)
| CreateWaitlistEntry (env : Env) (user_id : string) (classroom_id : Z)
    (reservation_date start_time_str end_time_str : string)
| CancelWaitlistEntry (waitlist_id : Z) (user_id : string)
| CheckNotifications (env : Env)
| MarkAsRead (notification_id : Z) (user_id : string)
| MarkAllAsRead (user_id : string).

Definition run (o : Op) (st : State) : State :=
  match o with
  | CreateReservation env u c d s e ps =>
      fst (create_reservation env st u c d s e ps)
  | CancelReservation id u => fst (cancel_reservation st id u)
  | DeleteReservation id => fst (delete_reservation st id)
  | ProcessWaitlist env c d s e =>
      fst (process_waitlist_on_reservation_cancelled env st c d s e)
  | CreateWaitlistEntry env u c d s e =>
      fst (create_waitlist_entry env st u c d s e)
  | CancelWaitlistEntry id u => fst (cancel_waitlist_entry st id u)
  | CheckNotifications env => check_and_create_notifications env st
  | MarkAsRead id u => fst (mark_as_read st id u)
  | MarkAllAsRead u => fst (mark_all_as_read st u)
  end.

(** The states a fresh server reaches, whatever the clock shows. *)
Inductive reachable : State -> Prop :=
| reachable_initial : reachable initial
| reachable_run (st : State) (o : Op) :
    reachable st -> reachable (run o st).

(** The clock of a waitlist request is ahead of every entry already
    queued: [datetime.now()] moves on between two requests. *)
Definition on_time (o : Op) (st : State) : Prop :=
  match o with
  | CreateWaitlistEntry env _ _ _ _ _ =>
      Forall (fun e => Waitlist.created_at e < now env)
             (dict_values (WAITLIST st))
  | _ => True
  end.

Inductive reachable_on_time : State -> Prop :=
| on_time_initial : reachable_on_time initial
| on_time_run (st : State) (o : Op) :
    reachable_on_time st -> on_time o st -> reachable_on_time (run o st).

(** ** Predicates of the specification *)

(** The keys of a store are distinct and below its counter. *)
Definition keys_fresh {V : Type} (d : dict V) (next_id : Z) : Prop :=
  NoDup (dict_keys d) /\ Forall (fun k => k < next_id) (dict_keys d).

(** A stored reservation is well formed: its date and times parse, its
    slot is valid, and its participants are distinct and exclude the
    owner. *)
Definition well_formed (r : Reservation.t) : Prop :=
  (exists d s e,
      _parse_date (Reservation.date r) = Some d
      /\ _parse_time (Reservation.start_time r) = Some s
      /\ _parse_time (Reservation.end_time r) = Some e
      /\ _is_valid_time_slot s e = true)
  /\ NoDup (Reservation.participants r)
  /\ ~ In (Reservation.user_id r) (Reservation.participants r).

(** The intervals of two stored reservations overlap, as
    [_is_time_overlap] sees them. *)
Definition overlapping (r1 r2 : Reservation.t) : bool :=
  match _parse_time (Reservation.start_time r1),
        _parse_time (Reservation.end_time r1),
        _parse_time (Reservation.start_time r2),
        _parse_time (Reservation.end_time r2) with
  | Some s1, Some e1, Some s2, Some e2 => _is_time_overlap s1 e1 s2 e2
  | _, _, _, _ => false
  end.

(** What the scan of [create_reservation] keeps: no two distinct
    reservations of one classroom that are stored under one date text
    overlap. *)
Definition no_overlap_by_text (rs : dict Reservation.t) : Prop :=
  forall i j ri rj,
    In (i, ri) rs -> In (j, rj) rs -> i <> j ->
    Reservation.classroom_id ri = Reservation.classroom_id rj ->
    Reservation.date ri = Reservation.date rj ->
    overlapping ri rj = false.

(** The minute of the day at which a time falls. *)
Definition minute_of_day (t : time) : Z := 60 * hour t + minute t.

(** The intervals of two reservations, each taken from its start up to
    its end and without it, have a minute in common. *)
Definition share_a_minute (r1 r2 : Reservation.t) : Prop :=
  exists s1 e1 s2 e2 m,
    _parse_time (Reservation.start_time r1) = Some s1
    /\ _parse_time (Reservation.end_time r1) = Some e1
    /\ _parse_time (Reservation.start_time r2) = Some s2
    /\ _parse_time (Reservation.end_time r2) = Some e2
    /\ minute_of_day s1 <= m < minute_of_day e1
    /\ minute_of_day s2 <= m < minute_of_day e2.

(** The dates of two reservations are one day of the calendar, however
    the texts spell it. *)
Definition same_day (r1 r2 : Reservation.t) : Prop :=
  exists day,
    _parse_date (Reservation.date r1) = Some day
    /\ _parse_date (Reservation.date r2) = Some day.

(** No two distinct reservations of one classroom and one day overlap. *)
Definition no_overlap (rs : dict Reservation.t) : Prop :=
  forall i j ri rj,
    In (i, ri) rs -> In (j, rj) rs -> i <> j ->
    Reservation.classroom_id ri = Reservation.classroom_id rj ->
    same_day ri rj ->
    ~ share_a_minute ri rj.

Definition reservations_ok (st : State) : Prop :=
  keys_fresh (RESERVATIONS st) (reservation_next_id st)
  /\ 1 <= reservation_next_id st
  /\ Forall (fun kv => well_formed (snd kv)) (RESERVATIONS st)
  /\ no_overlap_by_text (RESERVATIONS st).

(** The integers [0; 1; ...; n-1]. *)
Definition upto (n : nat) : list Z := map Z.of_nat (seq 0 n).

(** Strictly increasing. *)
Fixpoint increasing (l : list Z) : Prop :=
  match l with
  | [] => True
  | x :: l' => Forall (fun y => x < y) l' /\ increasing l'
  end.

(** The entries queued for a slot, in the order they were queued. *)
Definition slot_entries (st : State) (classroom_id : Z)
    (date start_time end_time : string) : list Waitlist.t :=
  filter (same_slot classroom_id date start_time end_time)
         (dict_values (WAITLIST st)).

(** Within every slot the priorities are 0, 1, ..., n-1, and they order
    the entries as their creation times do. *)
Definition dense_ranking (st : State) : Prop :=
  forall c d s e,
    map Waitlist.priority (slot_entries st c d s e)
    = upto (List.length (slot_entries st c d s e))
    /\ forall a b,
         In a (slot_entries st c d s e) -> In b (slot_entries st c d s e) ->
         (Waitlist.priority a < Waitlist.priority b
          <-> Waitlist.created_at a < Waitlist.created_at b).

Definition waitlist_ok (st : State) : Prop :=
  keys_fresh (WAITLIST st) (waitlist_next_id st)
  /\ increasing (map Waitlist.created_at (dict_values (WAITLIST st)))
  /\ forall c d s e,
       map Waitlist.priority (slot_entries st c d s e)
       = upto (List.length (slot_entries st c d s e)).

Definition notifications_ok (st : State) : Prop :=
  Forall (fun k => k < notification_next_id st)
         (dict_keys (NOTIFICATIONS st)).

(** Step 1 of [create_reservation] raises: the date is read, and then a
    time text that raises [OverflowError]. *)
Definition request_overflows (reservation_date start_time_str
    end_time_str : string) : bool :=
  match _parse_date reservation_date with
  | Some _ =>
      overflows start_time_str
      || match _parse_time start_time_str with
         | Some _ => overflows end_time_str
         | None => false
         end
  | None => false
  end.

(** The request passes checks 1 to 4 of [create_reservation]. *)
Definition passes_slot_checks (env : Env)
    (reservation_date start_time_str end_time_str : string) : Prop :=
  exists d s e,
    _parse_date reservation_date = Some d
    /\ _parse_time start_time_str = Some s
    /\ _parse_time end_time_str = Some e
    /\ _is_past_datetime env d s = false
    /\ _is_within_7_days env d = true
    /\ _is_valid_time_slot s e = true.

(** No stored reservation of the classroom and date overlaps the
    requested interval. *)
Definition slot_free (st : State) (classroom_id : Z)
    (reservation_date start_time_str end_time_str : string) : Prop :=
  exists s e,
    _parse_time start_time_str = Some s
    /\ _parse_time end_time_str = Some e
    /\ conflicting classroom_id reservation_date s e
         (dict_values (RESERVATIONS st)) = Some [].

(** A stored reservation counts for the user at the time of [env]: it
    lies at or after [now] and the user owns it or takes part in it. *)
Definition is_active (env : Env) (r : Reservation.t) : bool :=
  match _parse_date (Reservation.date r),
        _parse_time (Reservation.start_time r) with
  | Some d, Some s => now env <=? combine d s
  | _, _ => false
  end.

(** What a successful [create_reservation] does to the state. *)
Definition stored (st : State) (r : Reservation.t) : State :=
  set_reservations st
    (dict_set (reservation_next_id st) r (RESERVATIONS st))
    (reservation_next_id st + 1).

(** The request passes checks 5 and 6: the requester and every registered
    participant hold fewer than three active reservations. *)
Definition passes_quota_checks (env : Env) (st : State) (user_id : string)
    (participants : option (list string)) : Prop :=
  (exists n, count_active_reservations env st user_id = Some n /\ n < 3)
  /\ participant_over_quota env st
       (clean_participants env user_id participants) = Returns None.

(** A stored reservation of the classroom and date text whose interval
    overlaps the requested one. *)
Definition in_the_way (st : State) (classroom_id : Z)
    (reservation_date start_time_str end_time_str : string)
    (r : Reservation.t) : Prop :=
  In r (dict_values (RESERVATIONS st))
  /\ Reservation.classroom_id r = classroom_id
  /\ Reservation.date r = reservation_date
  /\ exists s e rs re,
       _parse_time start_time_str = Some s
       /\ _parse_time end_time_str = Some e
       /\ _parse_time (Reservation.start_time r) = Some rs
       /\ _parse_time (Reservation.end_time r) = Some re
       /\ _is_time_overlap s e rs re = true.

(** The date and the times of a queued entry parse. *)
Definition entry_parses (entry : Waitlist.t) : Prop :=
  exists d s e,
    _parse_date (Waitlist.date entry) = Some d
    /\ _parse_time (Waitlist.start_time entry) = Some s
    /\ _parse_time (Waitlist.end_time entry) = Some e.

Definition waitlist_parses (st : State) : Prop :=
  Forall (fun kv => entry_parses (snd kv)) (WAITLIST st).

(** The slot an entry waits for. *)
Definition slot_of (entry : Waitlist.t) : Z * string * string * string :=
  (Waitlist.classroom_id entry, Waitlist.date entry,
   Waitlist.start_time entry, Waitlist.end_time entry).

(** The number of entries of the slot of [entry] queued before it. *)
Definition earlier_siblings (st : State) (entry : Waitlist.t) : Z :=
  count_if (fun e =>
              same_slot (Waitlist.classroom_id entry) (Waitlist.date entry)
                (Waitlist.start_time entry) (Waitlist.end_time entry) e
              && (Waitlist.created_at e <? Waitlist.created_at entry))
           (dict_values (WAITLIST st)).

(** The entries still to be tried wait, as far as they are still queued,
    for a slot of the freed classroom and date. *)
Definition agrees (c : Z) (d : string) (wl : dict Waitlist.t)
    (entries : list (Z * Waitlist.t)) : Prop :=
  forall id entry entry',
    In (id, entry) entries -> dict_get id wl = Some entry' ->
    slot_of entry'
    = (c, d, Waitlist.start_time entry, Waitlist.end_time entry).

(** The scan finds the start of the reservation thirty minutes ahead of
    the clock, five minutes more or less (300 seconds, in microseconds). *)
Definition due (env : Env) (r : Reservation.t) : bool :=
  match _parse_date (Reservation.date r),
        _parse_time (Reservation.start_time r) with
  | Some d, Some s =>
      Z.abs (combine d s - (now env + 30 * us_per_minute)) <=? 300 * 1000000
  | _, _ => false
  end.

(** The owner of the reservation has a notification that carries its id
    and the mark of a reminder. *)
Definition has_reminder (st : State) (item : Z * Reservation.t) : bool :=
  existsb (fun n =>
             (Notification.reservation_id (snd n) =? fst item)
             && Py.contains reminder_mark (Notification.message (snd n)))
          (get_user_notifications st (Reservation.user_id (snd item)) false).

(** The user holds the reservation at the time of [env]: it is active
    and the user owns it or takes part in it. *)
Definition holds (env : Env) (user_id : string) (r : Reservation.t) : bool :=
  is_active env r
  && (String.eqb (Reservation.user_id r) user_id
      || existsb (String.eqb user_id) (Reservation.participants r)).

(** The number of active reservations the user holds. *)
Definition active_held (env : Env) (st : State) (user_id : string) : Z :=
  count_if (holds env user_id) (dict_values (RESERVATIONS st)).

(** The user and the slot of an entry: what [create_waitlist_entry]
    compares to refuse a second request. *)
Definition request_of (entry : Waitlist.t)
    : string * (Z * string * string * string) :=
  (Waitlist.user_id entry, slot_of entry).

(** No user waits twice for one slot. *)
Definition no_double_requests (st : State) : Prop :=
  NoDup (map request_of (dict_values (WAITLIST st))).

(** Running operations one after the other, the first of the list first. *)
Definition run_all (ops : list Op) (st : State) : State :=
  fold_left (fun st o => run o st) ops st.

(** Two versions of one notification: the same but for the [read] flag,
    which is not taken back. *)
Definition same_notice (n n' : Notification.t) : Prop :=
  Notification.user_id n' = Notification.user_id n
  /\ Notification.reservation_id n' = Notification.reservation_id n
  /\ Notification.message n' = Notification.message n
  /\ Notification.created_at n' = Notification.created_at n
  /\ (Notification.read n = true -> Notification.read n' = true).

(** The notification is a reminder the scan of [env] writes for the
    reservation: unread, for the owner or a registered participant. *)
Definition reminds (env : Env) (item : Z * Reservation.t)
    (n : Notification.t) : Prop :=
  Notification.reservation_id n = fst item
  /\ Notification.message n = reminder_message env (snd item)
  /\ Notification.created_at n = now env
  /\ Notification.read n = false
  /\ (Notification.user_id n = Reservation.user_id (snd item)
      \/ (In (Notification.user_id n) (Reservation.participants (snd item))
          /\ get_user env (Notification.user_id n) = true)).

(** The characters of a number as [str] prints it, sign apart. *)
Definition uint_chars (u : Decimal.uint) : list string :=
  map (fun c => String c EmptyString)
      (list_ascii_of_string (NilEmpty.string_of_uint u)).

(** * Proofs *)

(** Turns the boolean comparisons of the goal and context into facts. *)
Ltac zbool :=
  repeat match goal with
  | |- context [?a =? ?b] => destruct (Z.eqb_spec a b)
  | |- context [?a <? ?b] => destruct (Z.ltb_spec a b)
  | |- context [?a <=? ?b] => destruct (Z.leb_spec a b)
  | H : context [?a =? ?b] |- _ => destruct (Z.eqb_spec a b)
  | H : context [?a <? ?b] |- _ => destruct (Z.ltb_spec a b)
  | H : context [?a <=? ?b] |- _ => destruct (Z.leb_spec a b)
  end.

(** ** Slots and overlaps *)

Lemma time_ltb_minutes (a b : time) :
  0 <= minute a < 60 -> 0 <= minute b < 60 ->
  time_ltb a b = (time_to_minutes a <? time_to_minutes b).
Proof.
  intros Ha Hb. unfold time_ltb, time_to_minutes.
  zbool; simpl; try reflexivity; lia.
Qed.

(** The slot test, as a proposition on the two times. *)
Lemma valid_slot_iff (s e : time) :
  _is_valid_time_slot s e = true <->
  minute s = 0 /\ minute e = 0 /\ time_ltb s e = true
  /\ (~ (hour e = 0 /\ minute e = 0) \/ hour s = 23).
Proof.
  unfold _is_valid_time_slot, time_geb, time_ltb.
  destruct s as [hs ms], e as [he me]; simpl.
  zbool; simpl; split; intros Hyp; try discriminate; try reflexivity;
    try (repeat split; (reflexivity || lia)).
  all: try (destruct Hyp as (? & ? & ? & ?); try discriminate; lia).
Qed.

Lemma is_time_overlap_sym (a b c d : time) :
  _is_time_overlap a b c d = _is_time_overlap c d a b.
Proof. unfold _is_time_overlap. apply andb_comm. Qed.

(** C3 (the code departs from the claim): the slot from 23:00 to 00:00,
    which the claim and the comments of [_is_valid_time_slot] call the
    last hour of the day and allow, is refused: the test "start not before
    end" comes first and 00:00 is the least time of all.  A booking for
    that slot ends with the reason [InvalidSlot]. *)
Theorem last_hour_slot_is_refused :
  _parse_time "23:00" = Some (mk_time 23 0)
  /\ _parse_time "00:00" = Some (mk_time 0 0)
  /\ _is_valid_time_slot (mk_time 23 0) (mk_time 0 0) = false
  /\ create_reservation (env_at morning) initial "alice" 1 "2030-01-01"
       "23:00" "00:00" None
     = (initial, Returns (false, message InvalidSlot)).
Proof. repeat split; vm_compute; reflexivity. Qed.

(** C7: on times as [_parse_time] builds them, [_is_time_overlap] is
    [start1 < end2 and start2 < end1] in the order of times; it gives the
    same answer when the two intervals are exchanged; and it is false
    when one interval ends where the other starts. *)
Theorem is_time_overlap_half_open (a b c d : time) :
  valid_time a -> valid_time b -> valid_time c -> valid_time d ->
  _is_time_overlap a b c d = time_ltb a d && time_ltb c b
  /\ _is_time_overlap a b c d = _is_time_overlap c d a b
  /\ (b = c -> _is_time_overlap a b c d = false)
  /\ (d = a -> _is_time_overlap a b c d = false).
Proof.
  intros [_ Ha] [_ Hb] [_ Hc] [_ Hd]. repeat split.
  - unfold _is_time_overlap. now rewrite !time_ltb_minutes.
  - apply is_time_overlap_sym.
  - intros ->. unfold _is_time_overlap. zbool; simpl; try reflexivity; lia.
  - intros ->. unfold _is_time_overlap. zbool; simpl; try reflexivity; lia.
Qed.

Lemma is_time_overlap_half_open_witness :
  valid_time (mk_time 10 0) /\ valid_time (mk_time 11 0)
  /\ valid_time (mk_time 12 0)
  /\ _is_time_overlap (mk_time 10 0) (mk_time 11 0)
       (mk_time 11 0) (mk_time 12 0) = false
  /\ _is_time_overlap (mk_time 10 0) (mk_time 11 0)
       (mk_time 11 0) (mk_time 12 0)
     = _is_time_overlap (mk_time 11 0) (mk_time 12 0)
         (mk_time 10 0) (mk_time 11 0).
Proof.
  assert (V10 : valid_time (mk_time 10 0)) by (unfold valid_time; simpl; lia).
  assert (V11 : valid_time (mk_time 11 0)) by (unfold valid_time; simpl; lia).
  assert (V12 : valid_time (mk_time 12 0)) by (unfold valid_time; simpl; lia).
  split; [exact V10 | split; [exact V11 | split; [exact V12 | split]]].
  - exact (proj1 (proj2 (proj2
             (is_time_overlap_half_open _ _ _ _ V10 V11 V11 V12))) eq_refl).
  - exact (proj1 (proj2
             (is_time_overlap_half_open _ _ _ _ V10 V11 V11 V12))).
Defined.

(** ** Times that do not fit *)

Lemma parse_time_no_overflow str t :
  _parse_time str = Some t -> overflows str = false.
Proof.
  unfold _parse_time, overflows.
  destruct (try_parse_time str) as [t'|[|]]; [reflexivity|discriminate..].
Qed.


Lemma overflows_no_time str : overflows str = true -> _parse_time str = None.
Proof.
  unfold _parse_time, overflows.
  destruct (try_parse_time str) as [t'|[|]]; [discriminate..|reflexivity].
Qed.

Lemma well_formed_no_break item :
  well_formed (snd item) -> breaks_scan item = false.
Proof.
  intros ((d & s & e & _ & Hs & _) & _). unfold breaks_scan.
  rewrite (parse_time_no_overflow _ _ Hs). now destruct (_parse_date _).
Qed.

Lemma scan_well_formed (items : list (Z * Reservation.t)) :
  Forall (fun kv => well_formed (snd kv)) items ->
  Forall (fun item => breaks_scan item = false) items.
Proof.
  intros H. eapply Forall_impl; [|exact H].
  intros item. apply well_formed_no_break.
Qed.

(** The scan runs over the reservations that come before the one that
    ends it. *)
Lemma scan_prefix env items : forall st,
  exists seen rest,
    items = seen ++ rest
    /\ scan env st items = fold_left (check_one env) seen st.
Proof.
  induction items as [|item items IH]; intros st; cbn [scan].
  - now exists [], [].
  - destruct (breaks_scan item).
    + now exists [], (item :: items).
    + destruct (IH (check_one env st item)) as (seen & rest & -> & E).
      now exists (item :: seen), rest.
Qed.

Lemma scan_all env items : forall st,
  Forall (fun item => breaks_scan item = false) items ->
  scan env st items = fold_left (check_one env) items st.
Proof.
  induction items as [|item items IH]; intros st H; cbn [scan fold_left];
    [reflexivity|].
  inversion H as [|? ? Hitem Hrest]; subst. rewrite Hitem. now apply IH.
Qed.

(** ** Dictionaries *)
Section DictFacts.
Context {V : Type}.
Implicit Types (d : dict V) (k : Z) (v : V).

Lemma dict_set_fresh k v d :
  ~ In k (dict_keys d) -> dict_set k v d = d ++ [(k, v)].
Proof.
  induction d as [|[k' v'] d IH]; simpl; intros Hk; [reflexivity|].
  destruct (Z.eqb_spec k' k) as [->|Hne].
  - exfalso. apply Hk. now left.
  - rewrite IH; [reflexivity|]. intros Hin. apply Hk. now right.
Qed.

Lemma below_counter_fresh d (n : Z) :
  Forall (fun k => k < n) (dict_keys d) -> ~ In n (dict_keys d).
Proof.
  intros Hall Hin. rewrite Forall_forall in Hall.
  specialize (Hall _ Hin). lia.
Qed.

Lemma dict_get_In k v d : dict_get k d = Some v -> In (k, v) d.
Proof.
  induction d as [|[k' v'] d IH]; simpl; [discriminate|].
  destruct (Z.eqb_spec k' k) as [->|Hne].
  - intros [= ->]. now left.
  - intros H. right. now apply IH.
Qed.

Lemma In_dict_get k v d :
  NoDup (dict_keys d) -> In (k, v) d -> dict_get k d = Some v.
Proof.
  induction d as [|[k' v'] d IH]; simpl; intros Hnd Hin; [contradiction|].
  inversion Hnd as [|? ? Hnotin Hnd']; subst.
  destruct Hin as [[= -> ->]|Hin].
  - now rewrite Z.eqb_refl.
  - destruct (Z.eqb_spec k' k) as [->|Hne].
    + exfalso. apply Hnotin. change k with (fst (k, v)). now apply in_map.
    + now apply IH.
Qed.

(** Deleting a key takes one item out and leaves the others in place. *)
Lemma dict_del_split k v d :
  dict_get k d = Some v ->
  exists d1 d2, d = d1 ++ (k, v) :: d2 /\ dict_del k d = d1 ++ d2.
Proof.
  induction d as [|[k' v'] d IH]; simpl; [discriminate|].
  destruct (Z.eqb_spec k' k) as [->|Hne].
  - intros [= ->]. now exists [], d.
  - intros H. destruct (IH H) as (d1 & d2 & -> & Hdel).
    exists ((k', v') :: d1), d2. simpl. now rewrite Hdel.
Qed.

Lemma dict_del_incl k d : incl (dict_del k d) d.
Proof.
  induction d as [|[k' v'] d IH]; simpl; [apply incl_refl|].
  destruct (k' =? k).
  - apply incl_tl, incl_refl.
  - intros x [<-|Hx]; [now left|right; now apply IH].
Qed.

Lemma dict_set_incl k v d x :
  In x (dict_set k v d) -> In x d \/ x = (k, v).
Proof.
  induction d as [|[k' v'] d IH]; simpl.
  - intros [<-|[]]. now right.
  - destruct (k' =? k).
    + intros [<-|Hx]; [now right|left; now right].
    + intros [<-|Hx]; [left; now left|].
      destruct (IH Hx) as [Hin| ->]; [left; now right|now right].
Qed.

Lemma dict_del_keys_incl k d : incl (dict_keys (dict_del k d)) (dict_keys d).
Proof.
  intros x Hx. unfold dict_keys in *. apply in_map_iff in Hx.
  destruct Hx as (kv & <- & Hin). apply in_map. now apply dict_del_incl in Hin.
Qed.

Lemma dict_del_NoDup k d :
  NoDup (dict_keys d) -> NoDup (dict_keys (dict_del k d)).
Proof.
  induction d as [|[k' v'] d IH]; simpl; intros Hnd; [constructor|].
  inversion Hnd as [|? ? Hnotin Hnd']; subst.
  destruct (k' =? k); [exact Hnd'|]. simpl. constructor.
  - intros Hin. apply Hnotin. now apply dict_del_keys_incl in Hin.
  - now apply IH.
Qed.

Lemma dict_del_gone k d :
  NoDup (dict_keys d) -> ~ In k (dict_keys (dict_del k d)).
Proof.
  induction d as [|[k' v'] d IH]; simpl; intros Hnd; [tauto|].
  inversion Hnd as [|? ? Hnotin Hnd']; subst.
  destruct (Z.eqb_spec k' k) as [->|Hne]; [exact Hnotin|].
  simpl. intros [Heq|Hin]; [contradiction|]. now apply IH.
Qed.

Lemma keys_fresh_del k d n : keys_fresh d n -> keys_fresh (dict_del k d) n.
Proof.
  intros [Hnd Hall]. split; [now apply dict_del_NoDup|].
  rewrite Forall_forall in *. intros x Hx. apply Hall.
  now apply dict_del_keys_incl in Hx.
Qed.

Lemma keys_fresh_add v d n :
  keys_fresh d n -> keys_fresh (dict_set n v d) (n + 1).
Proof.
  intros [Hnd Hall]. rewrite dict_set_fresh by now apply below_counter_fresh.
  unfold keys_fresh, dict_keys. rewrite map_app. simpl. split.
  - apply NoDup_app; [exact Hnd| repeat constructor; simpl; tauto |].
    intros x Hx [Heq|[]]. subst x. now apply (below_counter_fresh d n).
  - apply Forall_app. split.
    + eapply Forall_impl; [|exact Hall]. simpl. intros; lia.
    + repeat constructor. lia.
Qed.

End DictFacts.

(** ** Counting *)

Lemma count_if_cons {A : Type} (p : A -> bool) a l :
  count_if p (a :: l) = (if p a then 1 else 0) + count_if p l.
Proof.
  unfold count_if. simpl. destruct (p a); simpl List.length; lia.
Qed.

Lemma count_if_none {A : Type} (p : A -> bool) l :
  (forall x, In x l -> p x = false) -> count_if p l = 0.
Proof.
  intros H. induction l as [|a l IH]; [reflexivity|].
  rewrite count_if_cons, (H a) by now left.
  rewrite IH; [reflexivity|]. intros x Hx. apply H. now right.
Qed.

Lemma count_if_app {A : Type} (p : A -> bool) l1 l2 :
  count_if p (l1 ++ l2) = count_if p l1 + count_if p l2.
Proof. unfold count_if. rewrite filter_app, length_app. lia. Qed.

(** ** Counting active reservations *)

(** A well-formed reservation is counted at most once for any user. *)
Lemma count_step_once env u c r c' :
  ~ In (Reservation.user_id r) (Reservation.participants r) ->
  count_step env u c r = Some c' -> c <= c' <= c + 1.
Proof.
  intros Hout. unfold count_step, count_if_active.
  destruct (String.eqb_spec (Reservation.user_id r) u) as [Heq|Hne].
  - assert (Hno : existsb (String.eqb u) (Reservation.participants r) = false).
    { apply not_true_is_false. intros Hex. apply existsb_exists in Hex.
      destruct Hex as (p & Hin & Hp). apply String.eqb_eq in Hp.
      subst. contradiction. }
    rewrite Hno.
    destruct (_parse_date (Reservation.date r)) as [d|]; [|discriminate].
    destruct (_parse_time (Reservation.start_time r)) as [s|]; [|discriminate].
    destruct (now env <=? combine d s); intros [= <-]; lia.
  - destruct (existsb (String.eqb u) (Reservation.participants r)).
    + destruct (_parse_date (Reservation.date r)) as [d|]; [|discriminate].
      destruct (_parse_time (Reservation.start_time r)) as [s|];
        [|discriminate].
      destruct (now env <=? combine d s); intros [= <-]; lia.
    + intros [= <-]. lia.
Qed.

(** In a store of well-formed reservations the count never raises. *)
Lemma count_loop_total env u rs c :
  Forall well_formed rs -> exists n, count_loop env u rs c = Some n.
Proof.
  intros Hwf. revert c. induction Hwf as [|r rs Hr _ IH]; intros c; simpl.
  - now exists c.
  - destruct Hr as ((d & s & e & Hd & Hs & _) & _).
    unfold count_step, count_if_active. rewrite Hd, Hs.
    destruct (String.eqb _ u), (existsb _ _); apply IH.
Qed.

(** On well-formed reservations the count is the number of active
    reservations the user holds: none is counted twice. *)
Lemma count_step_held env u c r :
  well_formed r ->
  count_step env u c r = Some (c + if holds env u r then 1 else 0).
Proof.
  intros ((d & s & e & Hd & Hs & _) & _ & Hout).
  unfold count_step, count_if_active, holds, is_active. rewrite Hd, Hs.
  destruct (String.eqb_spec (Reservation.user_id r) u) as [Heq|Hne].
  - assert (Hno : existsb (String.eqb u) (Reservation.participants r) = false).
    { apply not_true_is_false. intros Hex. apply existsb_exists in Hex.
      destruct Hex as (p & Hin & Hp). apply String.eqb_eq in Hp.
      subst. contradiction. }
    rewrite Hno. destruct (now env <=? combine d s); simpl; f_equal; lia.
  - destruct (existsb (String.eqb u) (Reservation.participants r));
      destruct (now env <=? combine d s); simpl; f_equal; lia.
Qed.

Lemma count_loop_held env u rs c :
  Forall well_formed rs ->
  count_loop env u rs c = Some (c + count_if (holds env u) rs).
Proof.
  intros Hwf. revert c. induction Hwf as [|r rs Hr _ IH]; intros c; simpl.
  - f_equal. unfold count_if. simpl. lia.
  - rewrite (count_step_held env u c r Hr), IH. f_equal.
    unfold count_if. simpl. destruct (holds env u r); simpl List.length; lia.
Qed.

Lemma count_active_is_held env st u :
  Forall (fun kv => well_formed (snd kv)) (RESERVATIONS st) ->
  count_active_reservations env st u = Some (active_held env st u).
Proof.
  intros Hwf. unfold count_active_reservations, active_held.
  rewrite count_loop_held; [reflexivity|].
  unfold dict_values. now apply Forall_map.
Qed.

(** ** [create_reservation] *)

(** A request is accepted exactly when every check passes. *)
Lemma first_failure_accepts env st u c d s e ps l :
  first_failure env st u c d s e ps = Returns (inr l) <->
  passes_slot_checks env d s e
  /\ (exists n, count_active_reservations env st u = Some n /\ n < 3)
  /\ l = clean_participants env u ps
  /\ participant_over_quota env st l = Returns None
  /\ slot_free st c d s e.
Proof.
  unfold first_failure, passes_slot_checks, slot_free. split.
  - destruct (_parse_date d) as [dobj|] eqn:Hd; [|discriminate].
    destruct (_parse_time s) as [sobj|] eqn:Hs;
      [|destruct (overflows s); discriminate].
    destruct (_parse_time e) as [eobj|] eqn:He;
      [|destruct (overflows e); discriminate].
    destruct (_is_past_datetime env dobj sobj) eqn:Hpast; [discriminate|].
    destruct (_is_within_7_days env dobj) eqn:Hwin; simpl; [|discriminate].
    destruct (_is_valid_time_slot sobj eobj) eqn:Hslot; simpl;
      [|discriminate].
    destruct (count_active_reservations env st u) as [n|] eqn:Hn;
      [|discriminate].
    destruct (Z.leb_spec 3 n); [discriminate|].
    destruct (participant_over_quota env st (clean_participants env u ps))
      as [[p|]|] eqn:Hp; try discriminate.
    destruct (conflicting c d sobj eobj (dict_values (RESERVATIONS st)))
      as [[|x confs]|] eqn:Hc; try discriminate.
    intros [= <-]. repeat split.
    + now exists dobj, sobj, eobj.
    + now exists n.
    + exact Hp.
    + now exists sobj, eobj.
  - intros ((dobj & sobj & eobj & Hd & Hs & He & Hpast & Hwin & Hslot)
            & (n & Hn & Hlt) & -> & Hp & (s' & e' & Hs' & He' & Hc)).
    rewrite Hd, Hs, He, Hpast, Hwin, Hslot, Hn. simpl.
    destruct (Z.leb_spec 3 n); [lia|].
    rewrite Hp. rewrite Hs in Hs'. rewrite He in He'.
    injection Hs' as <-. injection He' as <-. now rewrite Hc.
Qed.

Lemma create_reservation_cases env st u c d s e ps :
  match first_failure env st u c d s e ps with
  | Raises => create_reservation env st u c d s e ps = (st, Raises)
  | Returns (inl reason) =>
      create_reservation env st u c d s e ps
      = (st, Returns (false, message reason))
  | Returns (inr l) =>
      create_reservation env st u c d s e ps
      = (stored st (Reservation.mk u c d s e l), Returns (true, created))
  end.
Proof.
  unfold create_reservation.
  destruct (first_failure env st u c d s e ps) as [[reason|l]|]; reflexivity.
Qed.

(** A call either leaves the state alone or stores one accepted,
    cleaned request under the counter. *)
Lemma create_reservation_state env st u c d s e ps :
  fst (create_reservation env st u c d s e ps) = st
  \/ (first_failure env st u c d s e ps
      = Returns (inr (clean_participants env u ps))
      /\ fst (create_reservation env st u c d s e ps)
         = stored st (Reservation.mk u c d s e (clean_participants env u ps))).
Proof.
  pose proof (create_reservation_cases env st u c d s e ps) as H.
  destruct (first_failure env st u c d s e ps) as [[reason|l]|] eqn:E;
    rewrite H; simpl; auto.
  right. apply first_failure_accepts in E as E'.
  destruct E' as (_ & _ & -> & _). auto.
Qed.

Lemma clean_participants_NoDup env u ps :
  NoDup (clean_participants env u ps).
Proof. unfold clean_participants. apply list_of_set_NoDup. Qed.

Lemma clean_participants_In env u ps x :
  In x (clean_participants env u ps) <->
  exists p, In p (match ps with Some l => l | None => [] end)
            /\ x = Py.strip p /\ x <> "" /\ x <> u.
Proof.
  unfold clean_participants. rewrite list_of_set_In, in_map_iff. split.
  - intros (p & <- & Hp). apply filter_In in Hp. destruct Hp as [Hin Hp].
    apply andb_true_iff in Hp. destruct Hp as [H1 H2].
    apply negb_true_iff in H1, H2. apply String.eqb_neq in H1, H2.
    now exists p.
  - intros (p & Hin & -> & H1 & H2). exists p. split; [reflexivity|].
    apply filter_In. split; [exact Hin|].
    apply String.eqb_neq in H1, H2. now rewrite H1, H2.
Qed.

Lemma clean_participants_not_owner env u ps :
  ~ In u (clean_participants env u ps).
Proof.
  intros H. apply clean_participants_In in H.
  destruct H as (p & _ & _ & _ & Hne). now apply Hne.
Qed.

(** An empty conflict list: nothing stored for the classroom and date
    overlaps the requested interval. *)
Lemma conflicting_nil c d s e rs :
  conflicting c d s e rs = Some [] ->
  forall r es ee,
    In r rs -> Reservation.classroom_id r = c -> Reservation.date r = d ->
    _parse_time (Reservation.start_time r) = Some es ->
    _parse_time (Reservation.end_time r) = Some ee ->
    _is_time_overlap s e es ee = false.
Proof.
  induction rs as [|r0 rs IH]; simpl; intros Hc r es ee Hin Hcl Hd Hs He;
    [contradiction|].
  destruct ((Reservation.classroom_id r0 =? c)
            && String.eqb (Reservation.date r0) d) eqn:Hsame.
  - destruct (_parse_time (Reservation.start_time r0)) as [s0|] eqn:Hs0;
      [|discriminate].
    destruct (_parse_time (Reservation.end_time r0)) as [e0|] eqn:He0;
      [|discriminate].
    destruct (conflicting c d s e rs) as [confs|]; [|discriminate].
    destruct (_is_time_overlap s e s0 e0) eqn:Hov; [discriminate|].
    injection Hc as ->.
    destruct Hin as [<-|Hin]; [|now apply (IH eq_refl r)].
    rewrite Hs in Hs0. rewrite He in He0.
    injection Hs0 as <-. injection He0 as <-. exact Hov.
  - destruct Hin as [<-|Hin]; [|now apply (IH Hc r)].
    rewrite Hcl, Hd, Z.eqb_refl, String.eqb_refl in Hsame. discriminate.
Qed.

(** Every stored overlapping reservation of the classroom and date is in
    the conflict list, with its interval and its owner. *)
Lemma conflicting_lists c d s e rs confs :
  conflicting c d s e rs = Some confs ->
  forall r es ee,
    In r rs -> Reservation.classroom_id r = c -> Reservation.date r = d ->
    _parse_time (Reservation.start_time r) = Some es ->
    _parse_time (Reservation.end_time r) = Some ee ->
    _is_time_overlap s e es ee = true ->
    In (Reservation.start_time r, Reservation.end_time r,
        Reservation.user_id r) confs.
Proof.
  revert confs.
  induction rs as [|r0 rs IH]; simpl;
    intros confs Hc r es ee Hin Hcl Hd Hs He Hov; [contradiction|].
  destruct ((Reservation.classroom_id r0 =? c)
            && String.eqb (Reservation.date r0) d) eqn:Hsame.
  - destruct (_parse_time (Reservation.start_time r0)) as [s0|] eqn:Hs0;
      [|discriminate].
    destruct (_parse_time (Reservation.end_time r0)) as [e0|] eqn:He0;
      [|discriminate].
    destruct (conflicting c d s e rs) as [confs0|]; [|discriminate].
    injection Hc as <-.
    destruct Hin as [<-|Hin].
    + rewrite Hs in Hs0. rewrite He in He0.
      injection Hs0 as <-. injection He0 as <-. rewrite Hov. now left.
    + specialize (IH confs0 eq_refl r es ee Hin Hcl Hd Hs He Hov).
      destruct (_is_time_overlap s e s0 e0); [now right|exact IH].
  - destruct Hin as [<-|Hin]; [|now apply (IH confs Hc r es ee)].
    rewrite Hcl, Hd, Z.eqb_refl, String.eqb_refl in Hsame. discriminate.
Qed.

(** In a store of well-formed reservations the scan never raises. *)
Lemma conflicting_total c d s e rs :
  Forall well_formed rs -> exists confs, conflicting c d s e rs = Some confs.
Proof.
  induction 1 as [|r rs Hr _ (confs & IH)]; simpl; [now exists []|].
  destruct Hr as ((d0 & s0 & e0 & _ & Hs & He & _) & _).
  rewrite Hs, He, IH. destruct (_ && _); eauto.
Qed.

(** ** The reservation store keeps its invariant *)

Lemma overlapping_sym r1 r2 : overlapping r1 r2 = overlapping r2 r1.
Proof.
  unfold overlapping.
  destruct (_parse_time (Reservation.start_time r1)),
           (_parse_time (Reservation.end_time r1)),
           (_parse_time (Reservation.start_time r2)),
           (_parse_time (Reservation.end_time r2));
    try reflexivity. apply is_time_overlap_sym.
Qed.

Lemma reservations_ok_frame st st' :
  RESERVATIONS st' = RESERVATIONS st ->
  reservation_next_id st' = reservation_next_id st ->
  reservations_ok st -> reservations_ok st'.
Proof. unfold reservations_ok. intros -> ->. auto. Qed.

Lemma reservations_ok_del st k :
  reservations_ok st ->
  reservations_ok
    (set_reservations st (dict_del k (RESERVATIONS st))
       (reservation_next_id st)).
Proof.
  intros (Hk & H1 & Hwf & Hno). unfold reservations_ok. simpl.
  split; [now apply keys_fresh_del|]. split; [exact H1|]. split.
  - rewrite Forall_forall in *. intros x Hx. apply Hwf.
    now apply dict_del_incl in Hx.
  - intros i j ri rj Hi Hj. apply dict_del_incl in Hi, Hj. now apply Hno.
Qed.

Lemma reservations_ok_stored env st u c d s e ps :
  reservations_ok st ->
  first_failure env st u c d s e ps
  = Returns (inr (clean_participants env u ps)) ->
  reservations_ok
    (stored st (Reservation.mk u c d s e (clean_participants env u ps))).
Proof.
  intros (Hk & H1 & Hwf & Hno) Hacc.
  apply first_failure_accepts in Hacc.
  destruct Hacc as ((dobj & sobj & eobj & Hd & Hs & He & _ & _ & Hslot)
                    & _ & _ & _ & (s' & e' & Hs' & He' & Hfree)).
  rewrite Hs in Hs'. rewrite He in He'.
  injection Hs' as <-. injection He' as <-.
  set (r := Reservation.mk u c d s e (clean_participants env u ps)).
  assert (Hnew : forall j rj, In (j, rj) (RESERVATIONS st) ->
                 Reservation.classroom_id rj = c -> Reservation.date rj = d ->
                 overlapping r rj = false).
  { intros j rj Hin Hc Hdt. unfold overlapping. simpl. rewrite Hs, He.
    destruct (_parse_time (Reservation.start_time rj)) as [sj|] eqn:Hsj;
      [|reflexivity].
    destruct (_parse_time (Reservation.end_time rj)) as [ej|] eqn:Hej;
      [|reflexivity].
    apply (conflicting_nil _ _ _ _ _ Hfree rj); auto.
    change rj with (snd (j, rj)). now apply in_map. }
  unfold reservations_ok, stored. simpl.
  split; [now apply keys_fresh_add|]. split; [lia|].
  rewrite dict_set_fresh by (apply below_counter_fresh, Hk). split.
  - apply Forall_app. split; [exact Hwf|]. repeat constructor; simpl.
    + now exists dobj, sobj, eobj.
    + apply clean_participants_NoDup.
    + apply clean_participants_not_owner.
  - intros i j ri rj Hi Hj Hij Hc Hdt.
    apply in_app_or in Hi, Hj.
    destruct Hi as [Hi|[[= <- <-]|[]]], Hj as [Hj|[[= <- <-]|[]]].
    + now apply (Hno i j).
    + rewrite overlapping_sym. now apply (Hnew i ri).
    + now apply (Hnew j rj).
    + contradiction.
Qed.

Lemma create_reservation_keeps_ok env st u c d s e ps :
  reservations_ok st ->
  reservations_ok (fst (create_reservation env st u c d s e ps)).
Proof.
  intros Hok.
  destruct (create_reservation_state env st u c d s e ps) as [->|[Hacc ->]];
    [exact Hok|]. now apply reservations_ok_stored.
Qed.

Lemma cancel_reservation_keeps_ok st id u :
  reservations_ok st -> reservations_ok (fst (cancel_reservation st id u)).
Proof.
  intros Hok. unfold cancel_reservation.
  destruct (dict_get id (RESERVATIONS st)) as [r|]; [|exact Hok].
  destruct (negb _); [exact Hok|]. now apply reservations_ok_del.
Qed.

Lemma delete_reservation_keeps_ok st id :
  reservations_ok st -> reservations_ok (fst (delete_reservation st id)).
Proof.
  intros Hok. unfold delete_reservation.
  destruct (dict_mem id (RESERVATIONS st)); [|exact Hok].
  now apply reservations_ok_del.
Qed.

(** *** What the other operations leave alone *)

(** The two states hold the same reservations and counter. *)
Lemma create_notification_reservations env st u rid m :
  RESERVATIONS (fst (create_notification env st u rid m)) = RESERVATIONS st
  /\ reservation_next_id (fst (create_notification env st u rid m))
     = reservation_next_id st.
Proof. now split. Qed.

Lemma notify_participants_cons env st rid m p ps :
  notify_participants env st rid m (p :: ps)
  = notify_participants env
      (if get_user env p then fst (create_notification env st p rid m)
       else st)
      rid m ps.
Proof. reflexivity. Qed.

Lemma notify_participants_reservations env st rid m ps :
  RESERVATIONS (notify_participants env st rid m ps) = RESERVATIONS st
  /\ reservation_next_id (notify_participants env st rid m ps)
     = reservation_next_id st.
Proof.
  revert st. induction ps as [|p ps IH]; intros st; [now split|].
  rewrite notify_participants_cons.
  destruct (get_user env p); [|apply IH].
  destruct (IH (fst (create_notification env st p rid m))) as [E1 E2].
  rewrite E1, E2. now split.
Qed.

Lemma check_one_reservations env st item :
  RESERVATIONS (check_one env st item) = RESERVATIONS st
  /\ reservation_next_id (check_one env st item) = reservation_next_id st.
Proof.
  unfold check_one. destruct item as [rid r].
  destruct (_parse_date _); [|now split].
  destruct (_parse_time _); [|now split].
  destruct (_ <=? _); [|now split].
  destruct (negb _); [|now split].
  destruct (notify_participants_reservations env
              (fst (create_notification env st (Reservation.user_id r) rid
                      (reminder_message env r)))
              rid (reminder_message env r) (Reservation.participants r))
    as [E1 E2].
  rewrite E1, E2. now split.
Qed.

Lemma check_loop_reservations env items st :
  RESERVATIONS (fold_left (check_one env) items st) = RESERVATIONS st
  /\ reservation_next_id (fold_left (check_one env) items st)
     = reservation_next_id st.
Proof.
  revert st. induction items as [|item items IH]; intros st; simpl;
    [now split|].
  destruct (IH (check_one env st item)) as [-> ->].
  apply check_one_reservations.
Qed.

Lemma cancel_waitlist_entry_reservations st id u :
  RESERVATIONS (fst (cancel_waitlist_entry st id u)) = RESERVATIONS st
  /\ reservation_next_id (fst (cancel_waitlist_entry st id u))
     = reservation_next_id st.
Proof.
  unfold cancel_waitlist_entry.
  destruct (dict_get id (WAITLIST st)); [|now split].
  destruct (negb _); now split.
Qed.

Lemma create_waitlist_entry_reservations env st u c d s e :
  RESERVATIONS (fst (create_waitlist_entry env st u c d s e))
  = RESERVATIONS st
  /\ reservation_next_id (fst (create_waitlist_entry env st u c d s e))
     = reservation_next_id st.
Proof.
  unfold create_waitlist_entry.
  destruct (count_active_reservations env st u); [|now split].
  destruct (3 <=? _); [now split|].
  destruct (_parse_date d); [|now split].
  destruct (_parse_time s); [|now split].
  destruct (_parse_time e); [|now split].
  destruct (existsb _ _); now split.
Qed.

Lemma promoted_reservations env st c d id entry :
  RESERVATIONS (promoted env st c d id entry) = RESERVATIONS st
  /\ reservation_next_id (promoted env st c d id entry)
     = reservation_next_id st.
Proof.
  unfold promoted. simpl.
  destruct (dict_max_key (RESERVATIONS st)) as [rid|]; [|now split].
  destruct (rid =? 0); now split.
Qed.

(** A property that each step of the promotion loop keeps is kept by the
    loop. *)
Lemma promote_keeps (P : State -> Prop) :
  (forall env st u c d s e ps,
      P st -> P (fst (create_reservation env st u c d s e ps))) ->
  (forall st id u, P st -> P (fst (cancel_waitlist_entry st id u))) ->
  (forall env st c d id entry, P st -> P (promoted env st c d id entry)) ->
  forall env c d entries st, P st -> P (fst (promote env st c d entries)).
Proof.
  intros Hcreate Hcancel Hprom env c d entries.
  induction entries as [|[id entry] rest IH]; intros st HP; simpl;
    [exact HP|].
  destruct (count_active_reservations env st (Waitlist.user_id entry));
    [|exact HP].
  destruct (3 <=? _); [now apply IH, Hcancel|].
  specialize (Hcreate env st (Waitlist.user_id entry) c d
                (Waitlist.start_time entry) (Waitlist.end_time entry) None HP).
  destruct (create_reservation env st (Waitlist.user_id entry) c d
              (Waitlist.start_time entry) (Waitlist.end_time entry) None)
    as [st' [[[|] msg]|]]; simpl in *.
  - now apply Hprom.
  - now apply IH.
  - exact Hcreate.
Qed.

Lemma process_waitlist_keeps (P : State -> Prop) :
  (forall env st u c d s e ps,
      P st -> P (fst (create_reservation env st u c d s e ps))) ->
  (forall st id u, P st -> P (fst (cancel_waitlist_entry st id u))) ->
  (forall env st c d id entry, P st -> P (promoted env st c d id entry)) ->
  forall env st c d s e,
    P st -> P (fst (process_waitlist_on_reservation_cancelled env st c d s e)).
Proof.
  intros Hcreate Hcancel Hprom env st c d s e HP.
  unfold process_waitlist_on_reservation_cancelled.
  destruct (_parse_time s); [|exact HP].
  destruct (_parse_time e); [|exact HP].
  destruct (existsb _ _); [exact HP|].
  destruct (sort_by _ _) as [|x l] eqn:E; [exact HP|].
  now apply promote_keeps.
Qed.

Lemma mark_as_read_reservations st id u :
  RESERVATIONS (fst (mark_as_read st id u)) = RESERVATIONS st
  /\ reservation_next_id (fst (mark_as_read st id u))
     = reservation_next_id st.
Proof.
  unfold mark_as_read. destruct (dict_get id (NOTIFICATIONS st));
    [|now split]. destruct (negb _); now split.
Qed.

Lemma run_keeps_reservations_ok o st :
  reservations_ok st -> reservations_ok (run o st).
Proof.
  intros Hok. destruct o; simpl.
  - now apply create_reservation_keeps_ok.
  - now apply cancel_reservation_keeps_ok.
  - now apply delete_reservation_keeps_ok.
  - apply process_waitlist_keeps; auto.
    + intros; now apply create_reservation_keeps_ok.
    + intros st0 id u H0.
      destruct (cancel_waitlist_entry_reservations st0 id u) as [E1 E2].
      now apply (reservations_ok_frame st0).
    + intros env0 st0 c0 d0 id entry H0.
      destruct (promoted_reservations env0 st0 c0 d0 id entry) as [E1 E2].
      now apply (reservations_ok_frame st0).
  - destruct (create_waitlist_entry_reservations env st user_id classroom_id
                reservation_date start_time_str end_time_str) as [E1 E2].
    now apply (reservations_ok_frame st).
  - destruct (cancel_waitlist_entry_reservations st waitlist_id user_id)
      as [E1 E2]. now apply (reservations_ok_frame st).
  - unfold check_and_create_notifications.
    destruct (scan_prefix env (RESERVATIONS st) st) as (seen & rest & _ & ->).
    destruct (check_loop_reservations env seen st) as [E1 E2].
    now apply (reservations_ok_frame st).
  - destruct (mark_as_read_reservations st notification_id user_id)
      as [E1 E2]. now apply (reservations_ok_frame st).
  - now apply (reservations_ok_frame st).
Qed.

Lemma initial_reservations_ok : reservations_ok initial.
Proof.
  unfold reservations_ok, keys_fresh, no_overlap_by_text. simpl.
  repeat split; try constructor; try lia; intros; contradiction.
Qed.

Lemma reachable_reservations_ok st : reachable st -> reservations_ok st.
Proof.
  induction 1; [apply initial_reservations_ok|].
  now apply run_keeps_reservations_ok.
Qed.

(** ** Refusals *)

Lemma participant_over_quota_total env st ps :
  Forall (fun kv => well_formed (snd kv)) (RESERVATIONS st) ->
  exists r, participant_over_quota env st ps = Returns r.
Proof.
  intros Hwf. induction ps as [|p ps (r & IH)]; simpl; [now exists None|].
  destruct (get_user env p); [|now exists r].
  destruct (count_loop_total env p (dict_values (RESERVATIONS st)) 0)
    as (n & Hn).
  { unfold dict_values. now apply Forall_map. }
  unfold count_active_reservations. rewrite Hn.
  destruct (3 <=? n); eauto.
Qed.

Lemma parsed_request_fits d s e sobj eobj :
  _parse_time s = Some sobj -> _parse_time e = Some eobj ->
  request_overflows d s e = false.
Proof.
  intros Hs He. unfold request_overflows. rewrite Hs.
  rewrite (parse_time_no_overflow _ _ Hs), (parse_time_no_overflow _ _ He).
  now destruct (_parse_date d).
Qed.

(** A request whose time texts do not fit raises, whatever is stored. *)
Lemma first_failure_raises env st u c d s e ps :
  request_overflows d s e = true ->
  first_failure env st u c d s e ps = Raises.
Proof.
  unfold request_overflows, first_failure.
  destruct (_parse_date d) as [dobj|]; [|discriminate].
  destruct (_parse_time s) as [sobj|] eqn:Hs.
  - rewrite (parse_time_no_overflow _ _ Hs). cbn [orb]. intros He.
    now rewrite (overflows_no_time _ He), He.
  - rewrite orb_false_r. now intros ->.
Qed.

(** On a store of well-formed reservations no other call raises. *)
Lemma first_failure_total env st u c d s e ps :
  Forall (fun kv => well_formed (snd kv)) (RESERVATIONS st) ->
  request_overflows d s e = false ->
  exists r, first_failure env st u c d s e ps = Returns r.
Proof.
  intros Hwf Hfit. unfold first_failure. unfold request_overflows in Hfit.
  destruct (_parse_date d) as [dobj|]; [|eauto].
  destruct (_parse_time s) as [sobj|] eqn:Hs;
    [|rewrite orb_false_r in Hfit; rewrite Hfit; eauto].
  rewrite (parse_time_no_overflow _ _ Hs) in Hfit. cbn [orb] in Hfit.
  destruct (_parse_time e) as [eobj|]; [|rewrite Hfit; eauto].
  destruct (_is_past_datetime env dobj sobj); [eauto|].
  destruct (negb (_is_within_7_days env dobj)); [eauto|].
  destruct (negb (_is_valid_time_slot sobj eobj)); [eauto|].
  assert (Hvals : Forall well_formed (dict_values (RESERVATIONS st)))
    by (unfold dict_values; now apply Forall_map).
  destruct (count_loop_total env u _ 0 Hvals) as (n & Hn).
  unfold count_active_reservations at 1. rewrite Hn.
  destruct (3 <=? n); [eauto|].
  destruct (participant_over_quota_total env st
              (clean_participants env u ps) Hwf) as ([p|] & ->); [eauto|].
  destruct (conflicting_total c d sobj eobj _ Hvals) as ([|x confs] & ->);
    eauto.
Qed.

(** A request in the way of a stored reservation is never accepted, and
    when it passes the first six checks the reason is the time conflict,
    whose list names the stored interval and its owner. *)
Lemma first_failure_conflict env st u c d s e ps r :
  Forall (fun kv => well_formed (snd kv)) (RESERVATIONS st) ->
  in_the_way st c d s e r ->
  (exists reason,
      first_failure env st u c d s e ps = Returns (inl reason))
  /\ (passes_slot_checks env d s e -> passes_quota_checks env st u ps ->
      exists confs,
        first_failure env st u c d s e ps
        = Returns (inl (TimeConflict s e confs))
        /\ In (Reservation.start_time r, Reservation.end_time r,
               Reservation.user_id r) confs).
Proof.
  intros Hwf (Hin & Hc & Hd & sobj & eobj & rs & re
              & Hs & He & Hrs & Hre & Hov).
  split.
  - destruct (first_failure_total env st u c d s e ps Hwf
                (parsed_request_fits d s e _ _ Hs He)) as ([reason|l] & E);
      [now exists reason|].
    apply first_failure_accepts in E.
    destruct E as (_ & _ & _ & _ & (s' & e' & Hs' & He' & Hfree)).
    rewrite Hs in Hs'. rewrite He in He'.
    injection Hs' as <-. injection He' as <-.
    rewrite (conflicting_nil _ _ _ _ _ Hfree r rs re Hin Hc Hd Hrs Hre) in Hov.
    discriminate.
  - intros (dobj & s' & e' & Hdobj & Hs' & He' & Hpast & Hwin & Hslot)
           ((n & Hn & Hlt) & Hp).
    rewrite Hs in Hs'. rewrite He in He'.
    injection Hs' as <-. injection He' as <-.
    unfold first_failure.
    rewrite Hdobj, Hs, He, Hpast, Hwin, Hslot, Hn. simpl.
    destruct (Z.leb_spec 3 n); [lia|]. rewrite Hp.
    destruct (conflicting_total c d sobj eobj
                (dict_values (RESERVATIONS st))) as (confs & Hconf).
    { unfold dict_values. now apply Forall_map. }
    rewrite Hconf.
    pose proof (conflicting_lists _ _ _ _ _ _ Hconf r rs re
                  Hin Hc Hd Hrs Hre Hov) as Hlisted.
    destruct confs as [|x confs]; [contradiction|].
    eexists; split; [reflexivity|exact Hlisted].
Qed.

(** Two intervals with a minute in common overlap for
    [_is_time_overlap]. *)
Lemma common_minute_overlaps s1 e1 s2 e2 m :
  minute_of_day s1 <= m < minute_of_day e1 ->
  minute_of_day s2 <= m < minute_of_day e2 ->
  _is_time_overlap s1 e1 s2 e2 = true.
Proof.
  unfold minute_of_day, _is_time_overlap, time_to_minutes. intros H1 H2.
  apply andb_true_iff. split; apply Z.ltb_lt; lia.
Qed.

(** A stored reservation of the classroom and date text whose interval
    has a minute in common with the requested one. *)
Lemma common_minute_in_the_way st c d s e r sobj eobj rs re m :
  In r (dict_values (RESERVATIONS st)) ->
  Reservation.classroom_id r = c -> Reservation.date r = d ->
  _parse_time s = Some sobj -> _parse_time e = Some eobj ->
  _parse_time (Reservation.start_time r) = Some rs ->
  _parse_time (Reservation.end_time r) = Some re ->
  minute_of_day sobj <= m < minute_of_day eobj ->
  minute_of_day rs <= m < minute_of_day re ->
  in_the_way st c d s e r.
Proof.
  intros Hin Hc Hd Hs He Hrs Hre Hm1 Hm2.
  split; [exact Hin|]. split; [exact Hc|]. split; [exact Hd|].
  exists sobj, eobj, rs, re. repeat (split; [assumption|]).
  exact (common_minute_overlaps _ _ _ _ m Hm1 Hm2).
Qed.

(** X30: in every state a fresh server reaches, two distinct reservations
    of one classroom that are stored under the same date text have no
    minute in common, and every operation keeps it so; a request whose
    interval has a minute in common with a stored reservation of its
    classroom and date text is never stored: the call returns [False]
    with a reason and leaves the state as it was, and when the request
    passes the six checks before the scan, the reason is the time
    conflict, whose list names the stored reservation. *)
Theorem bookings_under_one_date_text_never_overlap (st : State) :
  reachable st ->
  let apart (st : State) :=
    forall i j ri rj,
      In (i, ri) (RESERVATIONS st) -> In (j, rj) (RESERVATIONS st) ->
      i <> j ->
      Reservation.classroom_id ri = Reservation.classroom_id rj ->
      Reservation.date ri = Reservation.date rj ->
      ~ share_a_minute ri rj in
  apart st
  /\ (forall o, apart (run o st))
  /\ (forall env u c d s e ps r sobj eobj rs re m,
        In r (dict_values (RESERVATIONS st)) ->
        Reservation.classroom_id r = c -> Reservation.date r = d ->
        _parse_time s = Some sobj -> _parse_time e = Some eobj ->
        _parse_time (Reservation.start_time r) = Some rs ->
        _parse_time (Reservation.end_time r) = Some re ->
        minute_of_day sobj <= m < minute_of_day eobj ->
        minute_of_day rs <= m < minute_of_day re ->
        (exists reason,
            create_reservation env st u c d s e ps
            = (st, Returns (false, message reason)))
        /\ (passes_slot_checks env d s e ->
            passes_quota_checks env st u ps ->
            exists confs,
              create_reservation env st u c d s e ps
              = (st, Returns (false, message (TimeConflict s e confs)))
              /\ In (Reservation.start_time r, Reservation.end_time r,
                     Reservation.user_id r) confs)).
Proof.
  intros Hreach apart.
  assert (Hapart : forall st0, reachable st0 -> apart st0).
  { intros st0 H0.
    destruct (reachable_reservations_ok st0 H0) as (_ & _ & _ & Hno).
    intros i j ri rj Hi Hj Hij Hc Hd
           (s1 & e1 & s2 & e2 & m & Hs1 & He1 & Hs2 & He2 & Hm1 & Hm2).
    pose proof (Hno i j ri rj Hi Hj Hij Hc Hd) as Hfalse.
    unfold overlapping in Hfalse. rewrite Hs1, He1, Hs2, He2 in Hfalse.
    rewrite (common_minute_overlaps _ _ _ _ m Hm1 Hm2) in Hfalse.
    discriminate Hfalse. }
  split; [now apply Hapart|]. split.
  - intros o. apply Hapart. now apply reachable_run.
  - intros env u c d s e ps r sobj eobj rs re m
           Hin Hc Hd Hs He Hrs Hre Hm1 Hm2.
    pose proof (common_minute_in_the_way st c d s e r sobj eobj rs re m
                  Hin Hc Hd Hs He Hrs Hre Hm1 Hm2) as Hway.
    destruct (reachable_reservations_ok st Hreach) as (_ & _ & Hwf & _).
    destruct (first_failure_conflict env st u c d s e ps r Hwf Hway)
      as ((reason & Hreason) & Hconf).
    pose proof (create_reservation_cases env st u c d s e ps) as Hcases.
    split.
    + exists reason. now rewrite Hreason in Hcases.
    + intros Hslot Hquota. destruct (Hconf Hslot Hquota) as (confs & E & Hlisted).
      exists confs. rewrite E in Hcases. now split.
Qed.

(** Bob asks for an hour that runs into Alice's. *)
Lemma bookings_under_one_date_text_never_overlap_witness :
  let env := env_at morning in
  let st :=
    run (CreateReservation env "alice" 1 "2030-01-01" "14:00" "16:00" None)
      initial in
  reachable st
  /\ exists reason,
       create_reservation env st "bob" 1 "2030-01-01" "15:00" "17:00" None
       = (st, Returns (false, message reason)).
Proof.
  intros env st.
  assert (Hreach : reachable st) by apply reachable_run, reachable_initial.
  split; [exact Hreach|].
  refine (proj1 (proj2 (proj2
            (bookings_under_one_date_text_never_overlap st Hreach))
            env "bob" 1 "2030-01-01" "15:00" "17:00" None
            (Reservation.mk "alice" 1 "2030-01-01" "14:00" "16:00" [])
            (mk_time 15 0) (mk_time 17 0) (mk_time 14 0) (mk_time 16 0) 900
            _ _ _ _ _ _ _ _ _)).
  - left. reflexivity.
  - reflexivity.
  - reflexivity.
  - vm_compute. reflexivity.
  - vm_compute. reflexivity.
  - vm_compute. reflexivity.
  - vm_compute. reflexivity.
  - unfold minute_of_day. cbn. lia.
  - unfold minute_of_day. cbn. lia.
Defined.

(** C1 (the code departs from the claim): dates are compared as the texts
    the requests carry.  [_parse_date] reads 2030-01-01 and 2030-1-1 as
    one day, and the scan of [create_reservation] keeps the two texts
    apart: after Alice has booked classroom 1 from 14:00 to 15:00 under
    the first text, Bob's request for the same classroom and hour under
    the second is accepted, and the state the server has reached holds
    two reservations of one classroom for one hour of one day. *)
Theorem one_day_booked_twice :
  let env := env_at morning in
  let first := Reservation.mk "alice" 1 "2030-01-01" "14:00" "15:00" [] in
  let second := Reservation.mk "bob" 1 "2030-1-1" "14:00" "15:00" [] in
  let st1 :=
    run (CreateReservation env "alice" 1 "2030-01-01" "14:00" "15:00" None)
      initial in
  let st2 :=
    run (CreateReservation env "bob" 1 "2030-1-1" "14:00" "15:00" None) st1 in
  reachable st2
  /\ RESERVATIONS st1 = [(1, first)]
  /\ create_reservation env st1 "bob" 1 "2030-1-1" "14:00" "15:00" None
     = (st2, Returns (true, created))
  /\ RESERVATIONS st2 = [(1, first); (2, second)]
  /\ same_day first second
  /\ share_a_minute first second
  /\ ~ no_overlap (RESERVATIONS st2).
Proof.
  intros env first second st1 st2.
  assert (Hday : same_day first second)
    by (exists 741078; split; vm_compute; reflexivity).
  assert (Hshare : share_a_minute first second).
  { exists (mk_time 14 0), (mk_time 15 0), (mk_time 14 0), (mk_time 15 0), 840.
    repeat split; try (vm_compute; reflexivity);
      unfold minute_of_day; cbn; lia. }
  split; [apply reachable_run, reachable_run, reachable_initial|].
  split; [vm_compute; reflexivity|]. split; [vm_compute; reflexivity|].
  split; [vm_compute; reflexivity|]. split; [exact Hday|].
  split; [exact Hshare|].
  intros Hno. apply (Hno 1 2 first second); try assumption.
  - left. reflexivity.
  - right. left. reflexivity.
  - discriminate.
  - reflexivity.
Qed.

(** ** Texts *)

Lemma startswith_append p s : Py.startswith p (p +++ s) = true.
Proof.
  induction p as [|a p IH]; simpl; [reflexivity|].
  now rewrite Ascii.eqb_refl, IH.
Qed.

Lemma contains_here p s : Py.contains p (p +++ s) = true.
Proof.
  destruct (p +++ s) eqn:E; simpl; rewrite <- E, startswith_append;
    reflexivity.
Qed.

Lemma contains_later p a s :
  Py.contains p s = true -> Py.contains p (a +++ s) = true.
Proof.
  intros H. induction a as [|x a IH]; simpl; [exact H|].
  rewrite IH. apply orb_true_r.
Qed.




Lemma message_not_created r : message r <> created.
Proof. destruct r; simpl; intros H; discriminate H. Qed.

(** ** Identifiers *)

Lemma dict_get_set {V : Type} (k : Z) (v : V) (d : dict V) :
  dict_get k (dict_set k v d) = Some v.
Proof.
  induction d as [|[k' v'] d IH]; simpl.
  - now rewrite Z.eqb_refl.
  - destruct (Z.eqb_spec k' k) as [->|Hne]; simpl.
    + now rewrite Z.eqb_refl.
    + destruct (Z.eqb_spec k' k); [contradiction|exact IH].
Qed.

Lemma fold_max_bound (ks : list Z) (k n : Z) :
  k <= n -> Forall (fun x => x <= n) ks -> fold_left Z.max ks k <= n.
Proof.
  revert k. induction ks as [|x ks IH]; intros k Hk Hall; simpl; [exact Hk|].
  inversion Hall; subst. apply IH; [lia|assumption].
Qed.

Lemma fold_max_last (ks : list Z) (k n : Z) :
  k <= n -> Forall (fun x => x <= n) ks ->
  fold_left Z.max (ks ++ [n]) k = n.
Proof.
  intros Hk Hall. rewrite fold_left_app. simpl.
  pose proof (fold_max_bound ks k n Hk Hall). lia.
Qed.

(** After a key above all others is added, it is the largest key. *)
Lemma dict_max_key_add {V : Type} (d : dict V) (n : Z) (v : V) :
  Forall (fun k => k < n) (dict_keys d) ->
  dict_max_key (dict_set n v d) = Some n.
Proof.
  intros Hall. rewrite dict_set_fresh by now apply below_counter_fresh.
  unfold dict_max_key, dict_keys in *. rewrite map_app. simpl.
  destruct (map fst d) as [|k ks]; simpl; [reflexivity|].
  inversion Hall; subst. f_equal. apply fold_max_last; [lia|].
  eapply Forall_impl; [|eassumption]. simpl. intros; lia.
Qed.

(** C10: the record a successful [create_reservation] stores has
    participants without duplicates, without blank names and without the
    owner: they are exactly the stripped names of the request that are
    neither blank nor the requester, and it is this list that the quota
    of the participants was checked on; hence one turn of the loop of
    [count_active_reservations] counts this record at most once, for any
    user and at any time, and in a state that a fresh server reaches the
    count of a user is the number of active reservations the user holds,
    although owned and joined reservations are added up separately. *)
Theorem created_participants_clean env st u c d s e ps st' msg :
  create_reservation env st u c d s e ps = (st', Returns (true, msg)) ->
  exists r,
    st' = stored st r
    /\ get_reservation st' (reservation_next_id st) = Some r
    /\ Reservation.user_id r = u
    /\ NoDup (Reservation.participants r)
    /\ ~ In u (Reservation.participants r)
    /\ ~ In "" (Reservation.participants r)
    /\ (forall x,
          In x (Reservation.participants r) <->
          exists p, In p (match ps with Some l => l | None => [] end)
                    /\ x = Py.strip p /\ x <> "" /\ x <> u)
    /\ participant_over_quota env st (Reservation.participants r)
       = Returns None
    /\ (forall env' v count count',
          count_step env' v count r = Some count' ->
          count <= count' <= count + 1)
    /\ (reachable st ->
        forall env' v,
          count_active_reservations env' st' v
          = Some (active_held env' st' v)).
Proof.
  intros Hcall.
  assert (Hrun : st' = run (CreateReservation env u c d s e ps) st)
    by (simpl; now rewrite Hcall).
  pose proof (create_reservation_cases env st u c d s e ps) as Hcases.
  destruct (first_failure env st u c d s e ps) as [[reason|l]|] eqn:E;
    rewrite Hcases in Hcall; try discriminate.
  injection Hcall as <- <-.
  apply first_failure_accepts in E. destruct E as (_ & _ & -> & Hquota & _).
  eexists. split; [reflexivity|].
  split; [apply dict_get_set|]. split; [reflexivity|]. simpl.
  split; [apply clean_participants_NoDup|].
  split; [apply clean_participants_not_owner|]. split.
  { intros H. apply clean_participants_In in H.
    destruct H as (p & _ & _ & Hne & _). now apply Hne. }
  split; [apply clean_participants_In|]. split; [exact Hquota|]. split.
  - intros env' v count count'. apply count_step_once. simpl.
    apply clean_participants_not_owner.
  - intros Hreach env' v. apply count_active_is_held.
    rewrite Hrun. now apply reachable_reservations_ok, reachable_run.
Qed.

Lemma created_participants_clean_witness :
  exists st',
    create_reservation (env_at morning) initial "alice" 1 "2030-01-01"
      "14:00" "15:00" (Some [" bob "; "bob"; "alice"; "  "; "carol"])
    = (st', Returns (true, created))
    /\ exists r,
         get_reservation st' 1 = Some r
         /\ Reservation.participants r = ["bob"; "carol"]
         /\ NoDup (Reservation.participants r)
         /\ ~ In "alice" (Reservation.participants r).
Proof.
  eexists. split; [vm_compute; reflexivity|].
  destruct (created_participants_clean (env_at morning) initial "alice" 1
              "2030-01-01" "14:00" "15:00"
              (Some [" bob "; "bob"; "alice"; "  "; "carol"]) _ created
              eq_refl)
    as (r & Hst & Hget & _ & Hnd & Hout & _).
  exists r. split; [exact Hget|]. split; [|split; assumption].
  vm_compute in Hget. now injection Hget as <-.
Defined.

(** What is returned does not tell the id: two successful calls that take
    the ids 1 and 2 return the same value, so no caller can read the id of
    the new reservation in what [create_reservation] returns. *)
Lemma create_reservation_returns_no_id :
  let call1 :=
    create_reservation (env_at morning) initial "alice" 1 "2030-01-01"
      "14:00" "15:00" None in
  let call2 :=
    create_reservation (env_at morning) (fst call1) "bob" 1 "2030-01-01"
      "15:00" "16:00" None in
  snd call1 = Returns (true, created)
  /\ snd call2 = Returns (true, created)
  /\ dict_keys (RESERVATIONS (fst call1)) = [1]
  /\ dict_keys (RESERVATIONS (fst call2)) = [1; 2]
  /\ ~ exists id_of : py (bool * string) -> Z,
         id_of (snd call1) = 1 /\ id_of (snd call2) = 2.
Proof.
  intros call1 call2.
  assert (H1 : snd call1 = Returns (true, created)) by (vm_compute; reflexivity).
  assert (H2 : snd call2 = Returns (true, created)) by (vm_compute; reflexivity).
  split; [exact H1|]. split; [exact H2|].
  split; [vm_compute; reflexivity|]. split; [vm_compute; reflexivity|].
  intros (id_of & E1 & E2). rewrite H1 in E1. rewrite H2 in E2. lia.
Qed.

(** ** The order of the checks *)






(** ** The quota *)

Lemma dict_values_app {V : Type} (d1 d2 : dict V) :
  dict_values (d1 ++ d2) = dict_values d1 ++ dict_values d2.
Proof. apply map_app. Qed.

(** C6: in a state that a fresh server reaches, a user who holds exactly
    three active reservations (owned or taken part in, not yet started)
    gets no request through: no call changes the state, what a call
    returns is [False] with a reason, and a call returns unless a time
    text of the request raises [OverflowError]; the reason is that of the
    quota for any request that passes the four checks before the quota
    (it parses, does not start in the past, lies within the window, has a
    valid slot);
    when the user then cancels one of the active reservations they own,
    the cancellation succeeds, the user holds two, and a request that is
    valid otherwise (it passes those four checks, no registered
    participant is at the quota, and the slot is free) is accepted and
    stored. *)
Theorem quota_refuses_fourth_until_cancel env st u :
  reachable st ->
  active_held env st u = 3 ->
  (forall c d s e ps,
      fst (create_reservation env st u c d s e ps) = st
      /\ (forall result,
            snd (create_reservation env st u c d s e ps) = Returns result ->
            exists reason, result = (false, message reason))
      /\ (request_overflows d s e = false ->
          exists reason,
            create_reservation env st u c d s e ps
            = (st, Returns (false, message reason)))
      /\ (passes_slot_checks env d s e ->
          create_reservation env st u c d s e ps
          = (st, Returns (false, message QuotaExceeded))))
  /\ (forall id r,
        get_reservation st id = Some r ->
        Reservation.user_id r = u -> is_active env r = true ->
        exists st',
          cancel_reservation st id u = (st', (true, "예약이 취소되었습니다."))
          /\ active_held env st' u = 2
          /\ forall c d s e ps,
               passes_slot_checks env d s e ->
               participant_over_quota env st'
                 (clean_participants env u ps) = Returns None ->
               slot_free st' c d s e ->
               create_reservation env st' u c d s e ps
               = (stored st'
                    (Reservation.mk u c d s e (clean_participants env u ps)),
                  Returns (true, created))).
Proof.
  intros Hreach Hheld.
  destruct (reachable_reservations_ok st Hreach) as (_ & _ & Hwf & _).
  pose proof (count_active_is_held env st u Hwf) as Hcount.
  rewrite Hheld in Hcount. split.
  - intros c d s e ps.
    pose proof (create_reservation_cases env st u c d s e ps) as Hcases.
    assert (Hfull : forall l,
               first_failure env st u c d s e ps <> Returns (inr l)).
    { intros l E. apply first_failure_accepts in E.
      destruct E as (_ & (n & Hn & Hlt) & _).
      rewrite Hcount in Hn. injection Hn as <-. lia. }
    split; [|split; [|split]].
    + destruct (first_failure env st u c d s e ps) as [[reason|l]|];
        [now rewrite Hcases|now destruct (Hfull l)|now rewrite Hcases].
    + intros result.
      destruct (first_failure env st u c d s e ps) as [[reason|l]|];
        rewrite Hcases; cbn [snd]; [|now destruct (Hfull l)|discriminate].
      intros [= <-]. now exists reason.
    + intros Hfit.
      destruct (first_failure_total env st u c d s e ps Hwf Hfit)
        as ([reason|l] & E); rewrite E in Hcases; [now exists reason|].
      now destruct (Hfull l).
    + intros (dobj & sobj & eobj & Hd & Hs & He & Hpast & Hwin & Hslot).
      unfold create_reservation, first_failure.
      now rewrite Hd, Hs, He, Hpast, Hwin, Hslot, Hcount.
  - intros id r Hget Hu Hact. unfold get_reservation in Hget.
    set (st' := set_reservations st (dict_del id (RESERVATIONS st))
                  (reservation_next_id st)).
    assert (Hcancel : cancel_reservation st id u
                      = (st', (true, "예약이 취소되었습니다."))).
    { unfold cancel_reservation. now rewrite Hget, Hu, String.eqb_refl. }
    exists st'. split; [exact Hcancel|].
    assert (Hreach' : reachable st').
    { replace st' with (run (CancelReservation id u) st)
        by (simpl; now rewrite Hcancel).
      now apply reachable_run. }
    destruct (reachable_reservations_ok st' Hreach') as (_ & _ & Hwf' & _).
    assert (Htwo : active_held env st' u = 2).
    { destruct (dict_del_split _ _ _ Hget) as (d1 & d2 & Hsplit & Hdel).
      unfold active_held in *. simpl. rewrite Hdel.
      rewrite Hsplit in Hheld.
      rewrite dict_values_app, count_if_app in *. simpl in Hheld.
      rewrite count_if_cons in Hheld.
      assert (Hr : holds env u r = true)
        by (unfold holds; now rewrite Hact, Hu, String.eqb_refl).
      rewrite Hr in Hheld. lia. }
    split; [exact Htwo|].
    intros c d s e ps Hslot Hparts Hfree.
    pose proof (create_reservation_cases env st' u c d s e ps) as Hcases.
    assert (Hacc : first_failure env st' u c d s e ps
                   = Returns (inr (clean_participants env u ps))).
    { apply first_failure_accepts. repeat split; auto.
      exists 2. split; [|lia].
      rewrite <- Htwo. now apply count_active_is_held. }
    now rewrite Hacc in Hcases.
Qed.

(** Alice owns two bookings and takes part in one of Bob's. *)
Lemma quota_refuses_fourth_until_cancel_witness :
  let env := env_at morning in
  let st :=
    run (CreateReservation env "bob" 1 "2030-01-02" "16:00" "17:00"
           (Some ["alice"]))
      (run (CreateReservation env "alice" 1 "2030-01-02" "15:00" "16:00"
              None)
         (run (CreateReservation env "alice" 1 "2030-01-01" "14:00" "15:00"
                 None) initial)) in
  reachable st
  /\ active_held env st "alice" = 3
  /\ create_reservation env st "alice" 2 "2030-01-03" "10:00" "11:00" None
     = (st, Returns (false, message QuotaExceeded))
  /\ exists st',
       cancel_reservation st 1 "alice" = (st', (true, "예약이 취소되었습니다."))
       /\ snd (create_reservation env st' "alice" 2 "2030-01-03"
                 "10:00" "11:00" None)
          = Returns (true, created).
Proof.
  intros env st.
  assert (Hreach : reachable st)
    by (apply reachable_run, reachable_run, reachable_run, reachable_initial).
  assert (Hheld : active_held env st "alice" = 3)
    by (vm_compute; reflexivity).
  destruct (quota_refuses_fourth_until_cancel env st "alice" Hreach Hheld)
    as [Hrefuse Hcancel].
  assert (Hpass : passes_slot_checks env "2030-01-03" "10:00" "11:00").
  { exists 741080, (mk_time 10 0), (mk_time 11 0).
    repeat split; vm_compute; reflexivity. }
  split; [exact Hreach|]. split; [exact Hheld|].
  split; [exact (proj2 (proj2 (proj2 (Hrefuse 2 _ _ _ None))) Hpass)|].
  destruct (Hcancel 1
              (Reservation.mk "alice" 1 "2030-01-01" "14:00" "15:00" [])
              ltac:(vm_compute; reflexivity) eq_refl
              ltac:(vm_compute; reflexivity))
    as (st' & Hcan & _ & Hcreate).
  exists st'. split; [exact Hcan|].
  assert (Hst' : st' = fst (cancel_reservation st 1 "alice"))
    by (rewrite Hcan; reflexivity).
  rewrite (Hcreate 2 "2030-01-03" "10:00" "11:00" None Hpass).
  - reflexivity.
  - rewrite Hst'. vm_compute. reflexivity.
  - exists (mk_time 10 0), (mk_time 11 0). rewrite Hst'.
    repeat split; vm_compute; reflexivity.
Defined.

(** ** The waitlist keeps its ranking *)

Lemma same_slot_iff c d s e entry :
  same_slot c d s e entry = true <-> slot_of entry = (c, d, s, e).
Proof.
  unfold same_slot, slot_of. rewrite !andb_true_iff, Z.eqb_eq.
  rewrite !String.eqb_eq. split.
  - intros [[[-> ->] ->] ->]. reflexivity.
  - intros [= -> -> -> ->]. auto.
Qed.

Lemma same_slot_own entry :
  same_slot (Waitlist.classroom_id entry) (Waitlist.date entry)
    (Waitlist.start_time entry) (Waitlist.end_time entry) entry = true.
Proof. now apply same_slot_iff. Qed.

Lemma slot_eq_dec (g g' : Z * string * string * string) : {g = g'} + {g <> g'}.
Proof. repeat decide equality. Defined.

Lemma same_slot_set_priority c d s e entry p :
  same_slot c d s e (set_priority entry p) = same_slot c d s e entry.
Proof. reflexivity. Qed.

Lemma upto_S n : upto (S n) = 0 :: map (Z.add 1) (upto n).
Proof.
  unfold upto. simpl. f_equal. rewrite <- seq_shift, !map_map.
  apply map_ext. intros. lia.
Qed.

Lemma upto_snoc n : upto (S n) = upto n ++ [Z.of_nat n].
Proof. unfold upto. rewrite seq_S, map_app. reflexivity. Qed.

Lemma increasing_app l1 l2 :
  increasing (l1 ++ l2) <->
  increasing l1 /\ increasing l2
  /\ forall x y, In x l1 -> In y l2 -> x < y.
Proof.
  induction l1 as [|a l1 IH]; simpl.
  - intuition.
  - rewrite Forall_app, IH, !Forall_forall. split.
    + intros ((H1 & H2) & H3 & H4 & H5). repeat split; auto.
      intros x y [<-|Hx] Hy; auto.
    + intros ((H1 & H2) & H3 & H4). repeat split; auto.
Qed.

Lemma increasing_filter {A : Type} (key : A -> Z) (p : A -> bool) l :
  increasing (map key l) -> increasing (map key (filter p l)).
Proof.
  induction l as [|a l IH]; simpl; [auto|]. intros [Hall Hinc].
  destruct (p a); simpl; [|auto]. split; [|auto].
  rewrite Forall_forall in *. intros y Hy. apply Hall.
  apply in_map_iff in Hy. destruct Hy as (x & <- & Hx).
  apply filter_In in Hx. apply in_map. tauto.
Qed.

(** In a list ordered by creation time, the number of entries of a group
    created before a member of the group is the place of that member in
    the group. *)
Lemma rank_in_order {A : Type} (key : A -> Z) (p : A -> bool) l :
  increasing (map key l) ->
  map (fun x => count_if (fun y => p y && (key y <? key x)) l) (filter p l)
  = upto (List.length (filter p l)).
Proof.
  induction l as [|a l IH]; [reflexivity|]. simpl. intros [Hall Hinc].
  rewrite Forall_forall in Hall.
  assert (Hrest : map (fun x =>
                         count_if (fun y => p y && (key y <? key x)) (a :: l))
                      (filter p l)
                  = map (Z.add (if p a then 1 else 0))
                      (upto (List.length (filter p l)))).
  { rewrite <- (IH Hinc), map_map. apply map_ext_in. intros x Hx.
    rewrite count_if_cons. apply filter_In in Hx. destruct Hx as [Hx _].
    assert (key a < key x) by (apply Hall; now apply in_map).
    destruct (Z.ltb_spec (key a) (key x)); [|lia].
    now rewrite andb_true_r. }
  destruct (p a) eqn:Hpa.
  - simpl. rewrite upto_S, Hrest. f_equal.
    rewrite count_if_cons, Z.ltb_irrefl, andb_false_r.
    rewrite count_if_none; [reflexivity|].
    intros y Hy. assert (key a < key y) by (apply Hall; now apply in_map).
    destruct (Z.ltb_spec (key y) (key a)); [lia|apply andb_false_r].
  - rewrite Hrest. rewrite <- (map_id (upto _)) at 2.
    apply map_ext. intros. lia.
Qed.

(** *** Re-ranking *)

Lemma rerank_keys c d s e wl : dict_keys (rerank c d s e wl) = dict_keys wl.
Proof.
  unfold rerank, dict_keys. rewrite map_map. apply map_ext.
  intros [k v]. simpl. now destruct (same_slot c d s e v).
Qed.

(** What the loop does to one entry. *)
Lemma rerank_values c d s e wl :
  dict_values (rerank c d s e wl)
  = map (fun other =>
           if same_slot c d s e other
           then set_priority other
                  (count_if (fun x => same_slot c d s e x
                                      && (Waitlist.created_at x
                                          <? Waitlist.created_at other))
                            (dict_values wl))
           else other)
        (dict_values wl).
Proof.
  unfold rerank, dict_values. rewrite !map_map. apply map_ext.
  intros [k v]. simpl. now destruct (same_slot c d s e v).
Qed.

Lemma rerank_created_at c d s e wl :
  map Waitlist.created_at (dict_values (rerank c d s e wl))
  = map Waitlist.created_at (dict_values wl).
Proof.
  rewrite rerank_values, map_map. apply map_ext. intros v.
  now destruct (same_slot c d s e v).
Qed.

Lemma filter_map_commute {A : Type} (p : A -> bool) (f : A -> A) l :
  (forall x, p (f x) = p x) -> filter p (map f l) = map f (filter p l).
Proof.
  intros H. induction l as [|a l IH]; simpl; [reflexivity|].
  rewrite H. destruct (p a); simpl; now rewrite IH.
Qed.

(** Re-ranking a slot ranks it densely, and leaves the ranking of the
    other slots as it is. *)
Lemma rerank_priorities c d s e wl c' d' s' e' :
  increasing (map Waitlist.created_at (dict_values wl)) ->
  let after := filter (same_slot c' d' s' e')
                 (dict_values (rerank c d s e wl)) in
  let before := filter (same_slot c' d' s' e') (dict_values wl) in
  List.length after = List.length before
  /\ map Waitlist.priority after
     = if slot_eq_dec (c', d', s', e') (c, d, s, e)
       then upto (List.length before)
       else map Waitlist.priority before.
Proof.
  intros Hinc after before. subst after before.
  rewrite rerank_values.
  rewrite filter_map_commute
    by (intros x; now destruct (same_slot c d s e x)).
  split; [apply length_map|].
  rewrite map_map.
  destruct (slot_eq_dec (c', d', s', e') (c, d, s, e)) as [Heq|Hne].
  - injection Heq as -> -> -> ->.
    rewrite <- (rank_in_order Waitlist.created_at (same_slot c d s e)
                  (dict_values wl) Hinc).
    apply map_ext_in. intros x Hx. apply filter_In in Hx.
    destruct Hx as [_ Hx]. now rewrite Hx.
  - apply map_ext_in. intros x Hx. apply filter_In in Hx.
    destruct Hx as [_ Hx]. apply same_slot_iff in Hx.
    destruct (same_slot c d s e x) eqn:Hx'; [|reflexivity].
    apply same_slot_iff in Hx'. congruence.
Qed.

(** *** Removing an entry *)

Lemma increasing_del {V : Type} (key : V -> Z) (id : Z) (wl : dict V) :
  increasing (map key (dict_values wl)) ->
  increasing (map key (dict_values (dict_del id wl))).
Proof.
  induction wl as [|[k v] wl IH]; simpl; [auto|]. intros [Hall Hinc].
  destruct (k =? id); [exact Hinc|]. simpl. split; [|auto].
  rewrite Forall_forall in *. intros y Hy. apply Hall.
  unfold dict_values in *. rewrite map_map in *.
  apply in_map_iff in Hy. destruct Hy as (x & <- & Hx).
  apply dict_del_incl in Hx.
  apply (in_map (fun x => key (snd x))) in Hx. exact Hx.
Qed.

Lemma filter_del_other {V : Type} (p : V -> bool) (id : Z) (wl : dict V) :
  (forall v, dict_get id wl = Some v -> p v = false) ->
  filter p (dict_values (dict_del id wl)) = filter p (dict_values wl).
Proof.
  induction wl as [|[k v] wl IH]; simpl; [reflexivity|]. intros H.
  destruct (k =? id).
  - now rewrite (H v eq_refl).
  - simpl. now rewrite (IH H).
Qed.

Lemma waitlist_ok_frame st st' :
  WAITLIST st' = WAITLIST st -> waitlist_next_id st' = waitlist_next_id st ->
  waitlist_ok st -> waitlist_ok st'.
Proof.
  unfold waitlist_ok, slot_entries. intros -> ->. auto.
Qed.

(** Taking an entry out and re-ranking its slot keeps the invariant. *)
Lemma waitlist_ok_remove st id c d s e :
  waitlist_ok st ->
  (forall entry, dict_get id (WAITLIST st) = Some entry ->
                 slot_of entry = (c, d, s, e)) ->
  waitlist_ok
    (set_waitlist st (rerank c d s e (dict_del id (WAITLIST st)))
       (waitlist_next_id st)).
Proof.
  intros (Hk & Hinc & Hdense) Hslot.
  pose proof (increasing_del Waitlist.created_at id _ Hinc) as Hinc'.
  unfold waitlist_ok, slot_entries. simpl. split; [|split].
  - unfold keys_fresh. rewrite rerank_keys. now apply keys_fresh_del.
  - now rewrite rerank_created_at.
  - intros c' d' s' e'.
    destruct (rerank_priorities c d s e (dict_del id (WAITLIST st))
                c' d' s' e' Hinc') as [Hlen Hprio].
    rewrite Hprio, Hlen.
    destruct (slot_eq_dec (c', d', s', e') (c, d, s, e)) as [Heq|Hne];
      [reflexivity|].
    rewrite filter_del_other; [apply Hdense|].
    intros v Hv. apply Hslot in Hv.
    destruct (same_slot c' d' s' e' v) eqn:E; [|reflexivity].
    apply same_slot_iff in E. congruence.
Qed.

Lemma cancel_waitlist_entry_keeps_ok st id u :
  waitlist_ok st -> waitlist_ok (fst (cancel_waitlist_entry st id u)).
Proof.
  intros Hok. unfold cancel_waitlist_entry.
  destruct (dict_get id (WAITLIST st)) as [entry|] eqn:Hget; [|exact Hok].
  destruct (negb _); [exact Hok|]. simpl.
  apply waitlist_ok_remove; [exact Hok|].
  intros entry' Hget'. rewrite Hget in Hget'. now injection Hget' as <-.
Qed.

(** *** Adding an entry *)

Lemma filter_snoc {A : Type} (p : A -> bool) l a :
  filter p (l ++ [a]) = filter p l ++ (if p a then [a] else []).
Proof. rewrite filter_app. reflexivity. Qed.

Lemma create_waitlist_entry_cases env st u c d s e :
  create_waitlist_entry env st u c d s e = (st, Raises)
  \/ (exists msg,
        create_waitlist_entry env st u c d s e = (st, Returns (false, msg)))
  \/ create_waitlist_entry env st u c d s e
     = (set_waitlist st
          (dict_set (waitlist_next_id st)
             (Waitlist.mk u c d s e (now env)
                (Z.of_nat (List.length (slot_entries st c d s e))))
             (WAITLIST st))
          (waitlist_next_id st + 1),
        Returns (true,
                 "대기 신청이 완료되었습니다. (대기 순위: "
                 +++ Py.str (Z.of_nat (List.length (slot_entries st c d s e))
                             + 1)
                 +++ ")")).
Proof.
  unfold create_waitlist_entry.
  destruct (count_active_reservations env st u); [|now left].
  destruct (3 <=? _); [right; left; eauto|].
  destruct (_parse_date d); [|right; left; eauto].
  destruct (_parse_time s);
    [|destruct (overflows s); [now left|right; left; eauto]].
  destruct (_parse_time e);
    [|destruct (overflows e); [now left|right; left; eauto]].
  destruct (existsb _ _); [right; left; eauto|]. now right; right.
Qed.

Lemma create_waitlist_entry_keeps_ok env st u c d s e :
  Forall (fun x => Waitlist.created_at x < now env)
         (dict_values (WAITLIST st)) ->
  waitlist_ok st ->
  waitlist_ok (fst (create_waitlist_entry env st u c d s e)).
Proof.
  intros Hclock Hok.
  destruct (create_waitlist_entry_cases env st u c d s e)
    as [->|[(msg & ->)| ->]]; [exact Hok|exact Hok|].
  destruct Hok as (Hk & Hinc & Hdense).
  unfold waitlist_ok, slot_entries in *. simpl.
  split; [now apply keys_fresh_add|].
  rewrite dict_set_fresh by (apply below_counter_fresh, Hk).
  rewrite dict_values_app. simpl. split.
  - rewrite map_app. apply increasing_app. simpl.
    split; [exact Hinc|]. split; [auto|].
    intros x y Hx [<-|[]]. apply in_map_iff in Hx.
    destruct Hx as (v & <- & Hv). rewrite Forall_forall in Hclock. auto.
  - intros c' d' s' e'. rewrite filter_snoc.
    destruct (same_slot c' d' s' e' _) eqn:E.
    + apply same_slot_iff in E. injection E as <- <- <- <-.
      rewrite map_app, length_app, Hdense. simpl.
      rewrite Nat.add_1_r. symmetry. apply upto_snoc.
    + rewrite app_nil_r. apply Hdense.
Qed.

(** *** The promotion loop *)

Lemma insert_sorted_perm {A : Type} (le : A -> A -> bool) x l :
  Permutation (insert_sorted le x l) (x :: l).
Proof.
  induction l as [|y l IH]; simpl; [reflexivity|].
  destruct (le x y); [reflexivity|].
  rewrite IH. apply perm_swap.
Qed.

Lemma sort_by_perm {A : Type} (le : A -> A -> bool) l :
  Permutation (sort_by le l) l.
Proof.
  induction l as [|x l IH]; simpl; [reflexivity|].
  rewrite insert_sorted_perm. now constructor.
Qed.

Lemma existsb_perm {A : Type} (f : A -> bool) l l' :
  Permutation l l' -> existsb f l = existsb f l'.
Proof.
  induction 1; simpl; try congruence.
  now rewrite !orb_assoc, (orb_comm (f y)).
Qed.

Lemma dict_get_map {V : Type} (h : V -> V) (id : Z) (wl : dict V) :
  dict_get id (map (fun kv => (fst kv, h (snd kv))) wl)
  = option_map h (dict_get id wl).
Proof.
  induction wl as [|[k v] wl IH]; simpl; [reflexivity|].
  now destruct (k =? id).
Qed.

(** Re-ranking changes priorities only. *)
Lemma dict_get_rerank c d s e wl id entry :
  dict_get id (rerank c d s e wl) = Some entry ->
  exists entry0, dict_get id wl = Some entry0
                 /\ slot_of entry = slot_of entry0
                 /\ Waitlist.user_id entry = Waitlist.user_id entry0.
Proof.
  unfold rerank.
  set (h := fun other : Waitlist.t =>
              if same_slot c d s e other
              then set_priority other
                     (count_if (fun x => same_slot c d s e x
                                         && (Waitlist.created_at x
                                             <? Waitlist.created_at other))
                               (dict_values wl))
              else other).
  rewrite (map_ext _ (fun kv => (fst kv, h (snd kv)))).
  - rewrite dict_get_map.
    destruct (dict_get id wl) as [entry0|]; [|discriminate].
    simpl. intros [= <-]. exists entry0. split; [reflexivity|].
    unfold h. now destruct (same_slot c d s e entry0).
  - intros [k v]. unfold h. simpl. now destruct (same_slot c d s e v).
Qed.

Lemma dict_get_del {V : Type} (id k : Z) (wl : dict V) (v : V) :
  NoDup (dict_keys wl) ->
  dict_get id (dict_del k wl) = Some v -> dict_get id wl = Some v.
Proof.
  intros Hnd Hget. apply In_dict_get; [exact Hnd|].
  apply dict_get_In in Hget. now apply dict_del_incl in Hget.
Qed.

Lemma agrees_tail c d wl x entries :
  agrees c d wl (x :: entries) -> agrees c d wl entries.
Proof. intros H id entry entry' Hin. apply H. now right. Qed.

Lemma agrees_after_cancel c d st id u entries :
  waitlist_ok st ->
  agrees c d (WAITLIST st) entries ->
  agrees c d (WAITLIST (fst (cancel_waitlist_entry st id u))) entries.
Proof.
  intros (Hk & _) Hag. unfold cancel_waitlist_entry.
  destruct (dict_get id (WAITLIST st)) as [removed|]; [|exact Hag].
  destruct (negb _); [exact Hag|]. simpl.
  intros id' entry entry' Hin Hget.
  apply dict_get_rerank in Hget. destruct Hget as (entry0 & Hget & -> & _).
  apply dict_get_del in Hget; [|apply Hk]. now apply (Hag id' entry).
Qed.

Lemma create_reservation_waitlist env st u c d s e ps :
  WAITLIST (fst (create_reservation env st u c d s e ps)) = WAITLIST st
  /\ waitlist_next_id (fst (create_reservation env st u c d s e ps))
     = waitlist_next_id st.
Proof.
  destruct (create_reservation_state env st u c d s e ps) as [->|[_ ->]];
    now split.
Qed.

Lemma create_notification_waitlist env st u rid m :
  WAITLIST (fst (create_notification env st u rid m)) = WAITLIST st
  /\ waitlist_next_id (fst (create_notification env st u rid m))
     = waitlist_next_id st.
Proof. now split. Qed.

Lemma promoted_keeps_ok env st c d id entry :
  waitlist_ok st ->
  (forall entry', dict_get id (WAITLIST st) = Some entry' ->
                  slot_of entry'
                  = (c, d, Waitlist.start_time entry,
                     Waitlist.end_time entry)) ->
  waitlist_ok (promoted env st c d id entry).
Proof.
  intros Hok Hslot. unfold promoted.
  pose proof (waitlist_ok_remove st id c d (Waitlist.start_time entry)
                (Waitlist.end_time entry) Hok Hslot) as Hok'.
  cbv zeta. destruct (dict_max_key _) as [rid|]; [|exact Hok'].
  destruct (rid =? 0); [exact Hok'|].
  eapply waitlist_ok_frame; [| |exact Hok']; reflexivity.
Qed.

Lemma promote_keeps_waitlist_ok env c d entries st :
  waitlist_ok st -> agrees c d (WAITLIST st) entries ->
  waitlist_ok (fst (promote env st c d entries)).
Proof.
  revert st. induction entries as [|[id entry] rest IH]; intros st Hok Hag;
    simpl; [exact Hok|].
  destruct (count_active_reservations env st (Waitlist.user_id entry));
    [|exact Hok].
  destruct (3 <=? _).
  - apply IH; [now apply cancel_waitlist_entry_keeps_ok|].
    apply agrees_after_cancel; [exact Hok|]. now apply agrees_tail in Hag.
  - destruct (create_reservation_waitlist env st (Waitlist.user_id entry) c d
                (Waitlist.start_time entry) (Waitlist.end_time entry) None)
      as [E1 E2].
    destruct (create_reservation env st (Waitlist.user_id entry) c d
                (Waitlist.start_time entry) (Waitlist.end_time entry) None)
      as [st' [[[|] msg]|]]; simpl in *.
    + apply promoted_keeps_ok.
      * now apply (waitlist_ok_frame st).
      * intros entry' Hget. rewrite E1 in Hget.
        apply (Hag id entry entry'); [now left|exact Hget].
    + apply IH.
      * now apply (waitlist_ok_frame st).
      * rewrite E1. now apply agrees_tail in Hag.
    + now apply (waitlist_ok_frame st).
Qed.

Lemma matching_slot c d cs ce item :
  matching c d cs ce item = true ->
  slot_of (snd item)
  = (c, d, Waitlist.start_time (snd item), Waitlist.end_time (snd item)).
Proof.
  unfold matching, slot_of. rewrite !andb_true_iff, Z.eqb_eq, String.eqb_eq.
  now intros [[-> ->] _].
Qed.

Lemma process_waitlist_keeps_ok env st c d s e :
  waitlist_ok st ->
  waitlist_ok (fst (process_waitlist_on_reservation_cancelled env st c d s e)).
Proof.
  intros Hok. unfold process_waitlist_on_reservation_cancelled.
  destruct (_parse_time s) as [cs|]; [|exact Hok].
  destruct (_parse_time e) as [ce|]; [|exact Hok].
  destruct (existsb _ _); [exact Hok|].
  destruct (sort_by _ _) as [|x l] eqn:E; [exact Hok|]. rewrite <- E.
  apply promote_keeps_waitlist_ok; [exact Hok|].
  intros id entry entry' Hin Hget.
  apply (Permutation_in _ (sort_by_perm _ _)) in Hin.
  apply filter_In in Hin. destruct Hin as [Hin Hm].
  apply In_dict_get in Hin; [|apply Hok].
  rewrite Hin in Hget. injection Hget as <-.
  exact (matching_slot _ _ _ _ _ Hm).
Qed.

(** *** Every operation *)

Lemma notify_participants_waitlist env st rid m ps :
  WAITLIST (notify_participants env st rid m ps) = WAITLIST st
  /\ waitlist_next_id (notify_participants env st rid m ps)
     = waitlist_next_id st.
Proof.
  revert st. induction ps as [|p ps IH]; intros st; [now split|].
  rewrite notify_participants_cons.
  destruct (get_user env p); [|apply IH].
  destruct (IH (fst (create_notification env st p rid m))) as [E1 E2].
  rewrite E1, E2. now split.
Qed.

Lemma check_one_waitlist env st item :
  WAITLIST (check_one env st item) = WAITLIST st
  /\ waitlist_next_id (check_one env st item) = waitlist_next_id st.
Proof.
  unfold check_one. destruct item as [rid r].
  destruct (_parse_date _); [|now split].
  destruct (_parse_time _); [|now split].
  destruct (_ <=? _); [|now split].
  destruct (negb _); [|now split].
  destruct (notify_participants_waitlist env
              (fst (create_notification env st (Reservation.user_id r) rid
                      (reminder_message env r)))
              rid (reminder_message env r) (Reservation.participants r))
    as [E1 E2].
  rewrite E1, E2. now split.
Qed.

Lemma check_loop_waitlist env items st :
  WAITLIST (fold_left (check_one env) items st) = WAITLIST st
  /\ waitlist_next_id (fold_left (check_one env) items st)
     = waitlist_next_id st.
Proof.
  revert st. induction items as [|item items IH]; intros st; simpl;
    [now split|].
  destruct (IH (check_one env st item)) as [-> ->].
  apply check_one_waitlist.
Qed.

(** The scan touches neither the reservations nor the waitlist. *)
Lemma scan_frame env st :
  RESERVATIONS (check_and_create_notifications env st) = RESERVATIONS st
  /\ reservation_next_id (check_and_create_notifications env st)
     = reservation_next_id st
  /\ WAITLIST (check_and_create_notifications env st) = WAITLIST st
  /\ waitlist_next_id (check_and_create_notifications env st)
     = waitlist_next_id st.
Proof.
  unfold check_and_create_notifications.
  destruct (scan_prefix env (RESERVATIONS st) st) as (seen & rest & _ & ->).
  destruct (check_loop_reservations env seen st) as [E1 E2].
  destruct (check_loop_waitlist env seen st) as [E3 E4]. auto.
Qed.

Lemma run_keeps_waitlist_ok o st :
  on_time o st -> waitlist_ok st -> waitlist_ok (run o st).
Proof.
  intros Htime Hok. destruct o; simpl in *.
  - destruct (create_reservation_waitlist env st user_id classroom_id
                reservation_date start_time_str end_time_str participants)
      as [E1 E2]. now apply (waitlist_ok_frame st).
  - unfold cancel_reservation.
    destruct (dict_get _ _); [|exact Hok]. now destruct (negb _).
  - unfold delete_reservation. now destruct (dict_mem _ _).
  - now apply process_waitlist_keeps_ok.
  - now apply create_waitlist_entry_keeps_ok.
  - now apply cancel_waitlist_entry_keeps_ok.
  - unfold check_and_create_notifications.
    destruct (scan_prefix env (RESERVATIONS st) st) as (seen & rest & _ & ->).
    destruct (check_loop_waitlist env seen st) as [E1 E2].
    now apply (waitlist_ok_frame st).
  - unfold mark_as_read.
    destruct (dict_get _ _); [|exact Hok]. now destruct (negb _).
  - exact Hok.
Qed.

Lemma initial_waitlist_ok : waitlist_ok initial.
Proof.
  unfold waitlist_ok, keys_fresh. simpl.
  repeat split; try constructor.
Qed.

Lemma reachable_waitlist_ok st : reachable_on_time st -> waitlist_ok st.
Proof.
  induction 1; [apply initial_waitlist_ok|].
  now apply run_keeps_waitlist_ok.
Qed.

Lemma upto_shift base n :
  map (Z.add base) (upto (S n))
  = base :: map (Z.add (base + 1)) (upto n).
Proof.
  rewrite upto_S. cbn [map]. rewrite Z.add_0_r. f_equal.
  rewrite map_map. apply map_ext. intros k. lia.
Qed.

Lemma ranked_from (l : list Waitlist.t) base b :
  map Waitlist.priority l = map (Z.add base) (upto (List.length l)) ->
  In b l -> base <= Waitlist.priority b.
Proof.
  intros Hl Hb. apply (in_map Waitlist.priority) in Hb. rewrite Hl in Hb.
  apply in_map_iff in Hb. destruct Hb as (k & <- & Hk).
  unfold upto in Hk. apply in_map_iff in Hk. destruct Hk as (n & <- & _).
  lia.
Qed.

(** Priorities that count up along a list of increasing creation times
    order the entries as the creation times do. *)
Lemma ranked_as_created (l : list Waitlist.t) : forall base,
  map Waitlist.priority l = map (Z.add base) (upto (List.length l)) ->
  increasing (map Waitlist.created_at l) ->
  forall a b, In a l -> In b l ->
    (Waitlist.priority a < Waitlist.priority b
     <-> Waitlist.created_at a < Waitlist.created_at b).
Proof.
  induction l as [|x l IH]; intros base Hl Hinc a b Ha Hb; [destruct Ha|].
  cbn [List.length] in Hl. rewrite upto_shift in Hl. cbn [map] in Hl.
  injection Hl as Hx Hl. cbn [map increasing] in Hinc.
  destruct Hinc as [Hfirst Hinc]. rewrite Forall_forall in Hfirst.
  assert (Hlater : forall y, In y l ->
            base + 1 <= Waitlist.priority y
            /\ Waitlist.created_at x < Waitlist.created_at y).
  { intros y Hy. split; [exact (ranked_from l _ y Hl Hy)|].
    apply Hfirst. now apply in_map. }
  destruct Ha as [<-|Ha], Hb as [<-|Hb].
  - lia.
  - destruct (Hlater b Hb). lia.
  - destruct (Hlater a Ha). lia.
  - exact (IH _ Hl Hinc a b Ha Hb).
Qed.

Lemma waitlist_ok_dense st : waitlist_ok st -> dense_ranking st.
Proof.
  intros (_ & Hinc & Hdense) c d s e. split; [apply Hdense|].
  apply (ranked_as_created _ 0).
  - rewrite Hdense.
    rewrite (map_ext (Z.add 0) (fun k => k)) by (intros k; reflexivity).
    now rewrite map_id.
  - unfold slot_entries. now apply increasing_filter.
Qed.

(** Under the invariant, the priority of an entry is the number of
    entries of its slot created before it. *)
Lemma waitlist_ok_rank st entry :
  waitlist_ok st -> In entry (dict_values (WAITLIST st)) ->
  Waitlist.priority entry = earlier_siblings st entry.
Proof.
  intros (_ & Hinc & Hdense) Hin.
  pose proof (rank_in_order Waitlist.created_at
                (same_slot (Waitlist.classroom_id entry) (Waitlist.date entry)
                   (Waitlist.start_time entry) (Waitlist.end_time entry))
                _ Hinc) as Hrank.
  unfold slot_entries in Hdense. rewrite <- Hdense in Hrank.
  symmetry. unfold earlier_siblings.
  apply (proj1 map_ext_in_iff Hrank entry).
  apply filter_In. split; [exact Hin|apply same_slot_own].
Qed.

(** C5, with the clock it needs: in every state a fresh server reaches
    while the clock of each waitlist request is ahead of the creation
    times of the entries already queued, the entries of every slot
    (classroom, date text, start text, end text), taken in the order they
    were queued, have the priorities 0, 1, ..., n-1, and the priorities
    order them as their creation times do; the priority of every entry is
    the number of entries of its slot created before it, which is what
    the re-ranking after a cancellation or a promotion computes; a request
    that is queued gets as priority the number of entries its slot
    already had; and every operation, the promotion after a cancelled
    reservation among them, leaves the ranking dense and every priority
    equal to the number of earlier entries of the slot. *)
Theorem waitlist_ranking_dense (st : State) :
  reachable_on_time st ->
  dense_ranking st
  /\ (forall entry, In entry (dict_values (WAITLIST st)) ->
                    Waitlist.priority entry = earlier_siblings st entry)
  /\ (forall env u c d s e st' msg,
        create_waitlist_entry env st u c d s e = (st', Returns (true, msg)) ->
        WAITLIST st'
        = WAITLIST st
          ++ [(waitlist_next_id st,
               Waitlist.mk u c d s e (now env)
                 (Z.of_nat (List.length (slot_entries st c d s e))))])
  /\ (forall id u st' msg,
        cancel_waitlist_entry st id u = (st', (true, msg)) ->
        dict_get id (WAITLIST st') = None
        /\ forall entry, In entry (dict_values (WAITLIST st')) ->
                         Waitlist.priority entry = earlier_siblings st' entry)
  /\ (forall o, on_time o st ->
        dense_ranking (run o st)
        /\ forall entry, In entry (dict_values (WAITLIST (run o st))) ->
              Waitlist.priority entry = earlier_siblings (run o st) entry).
Proof.
  intros Hreach. pose proof (reachable_waitlist_ok st Hreach) as Hok.
  split; [now apply waitlist_ok_dense|].
  split; [intros entry; now apply waitlist_ok_rank|].
  split; [|split].
  - intros env u c d s e st' msg Hcall.
    destruct (create_waitlist_entry_cases env st u c d s e)
      as [Hraise|[(msg' & Hfail)|Hnew]].
    + rewrite Hraise in Hcall. discriminate.
    + rewrite Hfail in Hcall. discriminate.
    + rewrite Hnew in Hcall. injection Hcall as <- _. simpl.
      apply dict_set_fresh, below_counter_fresh, Hok.
  - intros id u st' msg Hcall.
    pose proof (cancel_waitlist_entry_keeps_ok st id u Hok) as Hok'.
    rewrite Hcall in Hok'. simpl in Hok'. split.
    + revert Hcall. unfold cancel_waitlist_entry.
      destruct (dict_get id (WAITLIST st)) as [removed|]; [|discriminate].
      destruct (negb _); [discriminate|]. intros [= <- _]. simpl.
      destruct (dict_get id (rerank _ _ _ _ _)) as [x|] eqn:E; [|reflexivity].
      apply dict_get_rerank in E. destruct E as (x0 & E & _).
      apply dict_get_In in E.
      exfalso. apply (dict_del_gone id (WAITLIST st)); [apply Hok|].
      change id with (fst (id, x0)). now apply in_map.
    + intros entry. now apply waitlist_ok_rank.
  - intros o Htime.
    pose proof (run_keeps_waitlist_ok o st Htime Hok) as Hok'.
    split; [now apply waitlist_ok_dense|].
    intros entry. now apply waitlist_ok_rank.
Qed.


(** A way to check the clock of a waitlist request by computation. *)
Lemma clock_ahead env u c d s e st :
  forallb (fun x => Waitlist.created_at x <? now env)
          (dict_values (WAITLIST st)) = true ->
  on_time (CreateWaitlistEntry env u c d s e) st.
Proof.
  intros H. simpl. apply Forall_forall. intros x Hx.
  rewrite forallb_forall in H. apply Z.ltb_lt. now apply H.
Qed.

(** Bob, Carol and Dave queue for Alice's slot one microsecond apart, and
    Bob gives up. *)
Lemma waitlist_ranking_dense_witness :
  let st :=
    run (CancelWaitlistEntry 1 "bob")
      (run (CreateWaitlistEntry (env_at (morning + 3)) "dave" 1
              "2030-01-01" "14:00" "15:00")
         (run (CreateWaitlistEntry (env_at (morning + 2)) "carol" 1
                 "2030-01-01" "14:00" "15:00")
            (run (CreateWaitlistEntry (env_at (morning + 1)) "bob" 1
                    "2030-01-01" "14:00" "15:00")
               (run (CreateReservation (env_at morning) "alice" 1
                       "2030-01-01" "14:00" "15:00" None) initial)))) in
  reachable_on_time st
  /\ map Waitlist.user_id (dict_values (WAITLIST st)) = ["carol"; "dave"]
  /\ map Waitlist.priority (dict_values (WAITLIST st)) = [0; 1]
  /\ dense_ranking st.
Proof.
  intros st.
  assert (Hreach : reachable_on_time st).
  { repeat (apply on_time_run;
              [|first [exact I | apply clock_ahead; vm_compute; reflexivity]]).
    apply on_time_initial. }
  split; [exact Hreach|].
  split; [vm_compute; reflexivity|]. split; [vm_compute; reflexivity|].
  exact (proj1 (waitlist_ranking_dense st Hreach)).
Defined.

(** Three requests for one slot that read the same instant from the
    clock, and the first is cancelled: the re-ranking counts the entries
    created before each of the two that stay, finds none, and ranks both
    first. *)
Lemma frozen_clock_breaks_ranking :
  let env := env_at morning in
  let st :=
    run (CancelWaitlistEntry 1 "bob")
      (run (CreateWaitlistEntry env "dave" 1 "2030-01-01" "14:00" "15:00")
         (run (CreateWaitlistEntry env "carol" 1 "2030-01-01" "14:00" "15:00")
            (run (CreateWaitlistEntry env "bob" 1 "2030-01-01" "14:00"
                    "15:00") initial))) in
  reachable st
  /\ map Waitlist.user_id (slot_entries st 1 "2030-01-01" "14:00" "15:00")
     = ["carol"; "dave"]
  /\ map Waitlist.priority (slot_entries st 1 "2030-01-01" "14:00" "15:00")
     = [0; 0]
  /\ ~ dense_ranking st.
Proof.
  intros env st.
  assert (Hprio : map Waitlist.priority
                    (slot_entries st 1 "2030-01-01" "14:00" "15:00")
                  = [0; 0]) by (vm_compute; reflexivity).
  split; [apply reachable_run, reachable_run, reachable_run, reachable_run,
                reachable_initial|].
  split; [vm_compute; reflexivity|]. split; [exact Hprio|].
  intros Hdense.
  destruct (Hdense 1 "2030-01-01" "14:00" "15:00") as [Hrank _].
  rewrite Hprio in Hrank. vm_compute in Hrank. discriminate Hrank.
Qed.

(** ** Reminders *)

Lemma existsb_filter {A : Type} (p f : A -> bool) l :
  existsb f (filter p l) = existsb (fun x => p x && f x) l.
Proof.
  induction l as [|a l IH]; simpl; [reflexivity|].
  destruct (p a); simpl; now rewrite IH.
Qed.

(** The test of the scan, read on the dictionary itself. *)
Lemma has_reminder_unsorted st item :
  has_reminder st item
  = existsb (fun n =>
               String.eqb (Notification.user_id (snd n))
                          (Reservation.user_id (snd item))
               && ((Notification.reservation_id (snd n) =? fst item)
                   && Py.contains reminder_mark
                        (Notification.message (snd n))))
            (NOTIFICATIONS st).
Proof.
  unfold has_reminder, get_user_notifications.
  rewrite (existsb_perm _ _ _ (sort_by_perm _ _)).
  apply existsb_filter.
Qed.

Lemma has_reminder_grows st st' item extra :
  NOTIFICATIONS st' = NOTIFICATIONS st ++ extra ->
  has_reminder st item = true -> has_reminder st' item = true.
Proof.
  rewrite !has_reminder_unsorted. intros ->. rewrite existsb_app.
  intros ->. reflexivity.
Qed.

Lemma reminder_message_marked env r :
  Py.contains reminder_mark (reminder_message env r) = true.
Proof.
  unfold reminder_message.
  apply contains_later, contains_later, contains_later, contains_later.
  vm_compute. reflexivity.
Qed.

Lemma check_one_skip env st item :
  due env (snd item) = false \/ has_reminder st item = true ->
  check_one env st item = st.
Proof.
  destruct item as [rid r]. unfold check_one, due, has_reminder. simpl.
  destruct (_parse_date (Reservation.date r)) as [d|]; [|reflexivity].
  destruct (_parse_time (Reservation.start_time r)) as [s|]; [|reflexivity].
  intros [-> | ->]; [reflexivity|].
  now destruct (_ <=? _).
Qed.

Lemma create_notification_appends env st u rid m :
  notifications_ok st ->
  NOTIFICATIONS (fst (create_notification env st u rid m))
  = NOTIFICATIONS st
    ++ [(notification_next_id st, Notification.mk u rid m (now env) false)]
  /\ notifications_ok (fst (create_notification env st u rid m)).
Proof.
  intros Hok. unfold create_notification, notifications_ok in *. simpl.
  rewrite dict_set_fresh by now apply below_counter_fresh.
  split; [reflexivity|]. unfold dict_keys. rewrite map_app.
  apply Forall_app. split.
  - eapply Forall_impl; [|exact Hok]. simpl. intros; lia.
  - repeat constructor. simpl. lia.
Qed.

Lemma notify_participants_appends env st rid m ps :
  notifications_ok st ->
  (exists extra,
      NOTIFICATIONS (notify_participants env st rid m ps)
      = NOTIFICATIONS st ++ extra)
  /\ notifications_ok (notify_participants env st rid m ps).
Proof.
  revert st. induction ps as [|p ps IH]; intros st Hok.
  - split; [exists []; now rewrite app_nil_r|exact Hok].
  - rewrite notify_participants_cons. destruct (get_user env p).
    + destruct (create_notification_appends env st p rid m Hok) as [E Hok'].
      destruct (IH _ Hok') as [(extra & E') Hok'']. split; [|exact Hok''].
      eexists. rewrite E', E, <- app_assoc. reflexivity.
    + now apply IH.
Qed.

(** One turn of the scan only adds notifications, and leaves a due
    reservation with a reminder for its owner. *)
Lemma check_one_appends env st item :
  notifications_ok st ->
  (exists extra,
      NOTIFICATIONS (check_one env st item) = NOTIFICATIONS st ++ extra)
  /\ notifications_ok (check_one env st item)
  /\ (due env (snd item) = true ->
      has_reminder (check_one env st item) item = true).
Proof.
  intros Hok.
  destruct (has_reminder st item) eqn:Hhas.
  { rewrite check_one_skip by now right.
    split; [exists []; now rewrite app_nil_r|]. now split. }
  destruct (due env (snd item)) eqn:Hdue.
  2:{ rewrite check_one_skip by now left.
      split; [exists []; now rewrite app_nil_r|]. split; [exact Hok|].
      discriminate. }
  destruct item as [rid r]. unfold check_one.
  unfold due in Hdue. unfold has_reminder in Hhas. cbn [fst snd] in Hdue, Hhas.
  destruct (_parse_date (Reservation.date r)) as [d|]; [|discriminate].
  destruct (_parse_time (Reservation.start_time r)) as [s|]; [|discriminate].
  rewrite Hdue, Hhas. cbn [negb].
  destruct (create_notification_appends env st (Reservation.user_id r) rid
              (reminder_message env r) Hok) as [E Hok'].
  destruct (notify_participants_appends env _ rid (reminder_message env r)
              (Reservation.participants r) Hok') as [(extra & E') Hok''].
  split; [|split; [exact Hok''|]].
  - eexists. rewrite E', E, <- app_assoc. reflexivity.
  - intros _. apply (has_reminder_grows _ _ _ _ E').
    rewrite has_reminder_unsorted, E, existsb_app.
    apply orb_true_iff. right.
    cbn [existsb fst snd Notification.user_id Notification.reservation_id
         Notification.message].
    now rewrite String.eqb_refl, Z.eqb_refl, reminder_message_marked.
Qed.

Lemma check_loop_appends env items st :
  notifications_ok st ->
  (exists extra,
      NOTIFICATIONS (fold_left (check_one env) items st)
      = NOTIFICATIONS st ++ extra)
  /\ notifications_ok (fold_left (check_one env) items st)
  /\ forall item, In item items -> due env (snd item) = true ->
       has_reminder (fold_left (check_one env) items st) item = true.
Proof.
  revert st. induction items as [|item items IH]; intros st Hok; simpl.
  - split; [exists []; now rewrite app_nil_r|]. split; [exact Hok|].
    intros item [].
  - destruct (check_one_appends env st item Hok) as ((ex1 & E1) & Hok1 & H1).
    destruct (IH _ Hok1) as ((ex2 & E2) & Hok2 & H2).
    split; [|split; [exact Hok2|]].
    + eexists. rewrite E2, E1, <- app_assoc. reflexivity.
    + intros item' [<-|Hin] Hdue; [|now apply H2].
      apply (has_reminder_grows _ _ _ _ E2). now apply H1.
Qed.

(** A scan over reservations that all have their reminder, or are not
    due, changes nothing. *)
Lemma check_loop_idle env items st :
  (forall item, In item items -> due env (snd item) = true ->
                has_reminder st item = true) ->
  fold_left (check_one env) items st = st.
Proof.
  induction items as [|item items IH]; intros H; simpl; [reflexivity|].
  rewrite check_one_skip.
  - apply IH. intros item' Hin. apply H. now right.
  - destruct (due env (snd item)) eqn:Hdue; [right|now left].
    apply H; [now left|exact Hdue].
Qed.

Lemma dict_set_keys {V : Type} (k : Z) (v v0 : V) (d : dict V) :
  dict_get k d = Some v0 -> dict_keys (dict_set k v d) = dict_keys d.
Proof.
  induction d as [|[k' v'] d IH]; simpl; [discriminate|].
  destruct (Z.eqb_spec k' k) as [->|Hne]; [reflexivity|].
  intros H. simpl. now rewrite IH.
Qed.

Lemma notifications_ok_frame st st' :
  NOTIFICATIONS st' = NOTIFICATIONS st ->
  notification_next_id st' = notification_next_id st ->
  notifications_ok st -> notifications_ok st'.
Proof. unfold notifications_ok. intros -> ->. auto. Qed.

Lemma run_keeps_notifications_ok o st :
  notifications_ok st -> notifications_ok (run o st).
Proof.
  intros Hok.
  assert (Hcreate : forall env st u c d s e ps,
             notifications_ok st ->
             notifications_ok (fst (create_reservation env st u c d s e ps))).
  { intros env0 st0 u c d s e ps H0.
    destruct (create_reservation_state env0 st0 u c d s e ps) as [->|[_ ->]];
      [exact H0|]. now apply (notifications_ok_frame st0). }
  assert (Hcancel : forall st id u,
             notifications_ok st ->
             notifications_ok (fst (cancel_waitlist_entry st id u))).
  { intros st0 id u H0. unfold cancel_waitlist_entry.
    destruct (dict_get id (WAITLIST st0)); [|exact H0].
    now destruct (negb _). }
  destruct o; simpl.
  - now apply Hcreate.
  - unfold cancel_reservation.
    destruct (dict_get _ _); [|exact Hok]. now destruct (negb _).
  - unfold delete_reservation. now destruct (dict_mem _ _).
  - apply process_waitlist_keeps; auto.
    intros env0 st0 c0 d0 id entry H0. unfold promoted. cbv zeta.
    destruct (dict_max_key _) as [rid|]; [|exact H0].
    destruct (rid =? 0); [exact H0|].
    now apply create_notification_appends.
  - unfold create_waitlist_entry.
    destruct (count_active_reservations env st user_id); [|exact Hok].
    destruct (3 <=? _); [exact Hok|].
    destruct (_parse_date _); [|exact Hok].
    destruct (_parse_time start_time_str); [|exact Hok].
    destruct (_parse_time end_time_str); [|exact Hok].
    now destruct (existsb _ _).
  - now apply Hcancel.
  - unfold check_and_create_notifications.
    destruct (scan_prefix env (RESERVATIONS st) st) as (seen & rest & _ & ->).
    now apply check_loop_appends.
  - unfold mark_as_read.
    destruct (dict_get notification_id (NOTIFICATIONS st)) as [n|] eqn:E;
      [|exact Hok].
    destruct (negb _); [exact Hok|].
    unfold notifications_ok in *. simpl.
    now rewrite (dict_set_keys _ _ _ _ E).
  - unfold notifications_ok in *. simpl. unfold dict_keys in *.
    rewrite map_map. erewrite map_ext; [exact Hok|].
    intros [k v]. simpl. now destruct (_ && _).
Qed.

Lemma reachable_notifications_ok st : reachable st -> notifications_ok st.
Proof.
  induction 1; [constructor|]. now apply run_keeps_notifications_ok.
Qed.

(** A second scan finds nothing to do. *)
Lemma second_scan_idle env env' st :
  Forall (fun kv => well_formed (snd kv)) (RESERVATIONS st) ->
  notifications_ok st ->
  (forall item, In item (RESERVATIONS st) ->
     due env' (snd item) = true -> due env (snd item) = true) ->
  check_and_create_notifications env' (check_and_create_notifications env st)
  = check_and_create_notifications env st.
Proof.
  intros Hwf Hok Hwindow.
  unfold check_and_create_notifications.
  rewrite (scan_all env (RESERVATIONS st) st (scan_well_formed _ Hwf)).
  destruct (check_loop_reservations env (RESERVATIONS st) st) as [E _].
  rewrite E, scan_all by now apply scan_well_formed.
  apply check_loop_idle. intros item Hin Hdue.
  apply (check_loop_appends env (RESERVATIONS st) st Hok); auto.
Qed.

(** C8: in a state that a fresh server reaches, a second scan changes
    nothing after a first one, however often it is repeated, as long as
    the reservations it finds due were due for the first scan (the same
    tolerance window): the notifications, and the whole state, are those
    of the first scan; and a reservation whose owner has a notification
    with its id and the mark of a reminder is passed over: nothing is
    created for the owner or the participants. *)
Theorem check_and_create_notifications_idempotent env env' st :
  reachable st ->
  (forall item, In item (RESERVATIONS st) ->
     due env' (snd item) = true -> due env (snd item) = true) ->
  check_and_create_notifications env' (check_and_create_notifications env st)
  = check_and_create_notifications env st
  /\ (forall n,
        Nat.iter n (check_and_create_notifications env')
          (check_and_create_notifications env st)
        = check_and_create_notifications env st)
  /\ (forall st0 item,
        has_reminder st0 item = true -> check_one env st0 item = st0).
Proof.
  intros Hreach Hwindow.
  destruct (reachable_reservations_ok st Hreach) as (_ & _ & Hwf & _).
  pose proof (second_scan_idle env env' st Hwf
                (reachable_notifications_ok st Hreach) Hwindow) as Hfix.
  split; [exact Hfix|]. split.
  - induction n as [|n IH]; simpl; [reflexivity|]. now rewrite IH.
  - intros st0 item H. apply check_one_skip. now right.
Qed.

(** Alice's ten o'clock, scanned at half past nine and again a minute
    later: one reminder for her and one for Bob, who comes along. *)
Lemma check_and_create_notifications_idempotent_witness :
  let st :=
    run (CreateReservation (env_at morning) "alice" 1 "2029-12-30"
           "10:00" "11:00" (Some ["bob"])) initial in
  let env := env_at (morning + 30 * us_per_minute) in
  let env' := env_at (morning + 31 * us_per_minute) in
  reachable st
  /\ map (fun n => Notification.user_id (snd n))
         (NOTIFICATIONS (check_and_create_notifications env st))
     = ["alice"; "bob"]
  /\ check_and_create_notifications env'
       (check_and_create_notifications env st)
     = check_and_create_notifications env st.
Proof.
  intros st env env'.
  assert (Hok : reachable st) by apply reachable_run, reachable_initial.
  assert (Hwindow : forall item, In item (RESERVATIONS st) ->
            due env' (snd item) = true -> due env (snd item) = true).
  { intros item Hin. vm_compute in Hin. destruct Hin as [<-|[]].
    intros _. vm_compute. reflexivity. }
  split; [exact Hok|]. split; [vm_compute; reflexivity|].
  exact (proj1 (check_and_create_notifications_idempotent env env' st
                  Hok Hwindow)).
Defined.

(** ** Promotion of a single waiting entry *)

Lemma clean_participants_none env u : clean_participants env u None = [].
Proof.
  destruct (clean_participants env u None) as [|x l] eqn:E; [reflexivity|].
  assert (Hin : In x (clean_participants env u None))
    by (rewrite E; now left).
  apply clean_participants_In in Hin. destruct Hin as (p & [] & _).
Qed.

Lemma matching_rerank c d cs ce c' d' s' e' wl :
  filter (matching c d cs ce) (rerank c' d' s' e' wl)
  = map (fun kv =>
           let other_entry := snd kv in
           if same_slot c' d' s' e' other_entry
           then
             (fst kv,
              set_priority other_entry
                (count_if (fun x =>
                             same_slot c' d' s' e' x
                             && (Waitlist.created_at x
                                 <? Waitlist.created_at other_entry))
                          (dict_values wl)))
           else kv)
        (filter (matching c d cs ce) wl).
Proof.
  unfold rerank. apply filter_map_commute.
  intros [k v]. simpl. now destruct (same_slot c' d' s' e' v).
Qed.

Lemma filter_del_single {V : Type} (p : Z * V -> bool) (id : Z) (v : V)
    (wl : dict V) :
  NoDup (dict_keys wl) -> filter p wl = [(id, v)] ->
  filter p (dict_del id wl) = [].
Proof.
  induction wl as [|[k v'] wl IH]; simpl; intros Hnd Hf; [discriminate|].
  inversion Hnd as [|? ? Hnotin Hnd']; subst.
  destruct (p (k, v')) eqn:Hp.
  - injection Hf as -> -> Hf. now rewrite Z.eqb_refl.
  - destruct (Z.eqb_spec k id) as [->|Hne].
    + exfalso. apply Hnotin.
      assert (Hin : In (id, v) (filter p wl)) by (rewrite Hf; now left).
      apply filter_In in Hin. destruct Hin as [Hin _].
      change id with (fst (id, v)). now apply in_map.
    + simpl. rewrite Hp. now apply IH.
Qed.

(** The promotion of a single matching entry, on a state whose stores
    have their keys below their counters. *)
Lemma promote_single env st c d s e cs ce :
  _parse_time s = Some cs -> _parse_time e = Some ce ->
  existsb (breaks_matching c d) (WAITLIST st) = false ->
  (filter (matching c d cs ce) (WAITLIST st) = [] ->
   process_waitlist_on_reservation_cancelled env st c d s e
   = (st, Returns None))
  /\ (forall id entry,
        filter (matching c d cs ce) (WAITLIST st) = [(id, entry)] ->
        keys_fresh (RESERVATIONS st) (reservation_next_id st) ->
        1 <= reservation_next_id st ->
        NoDup (dict_keys (WAITLIST st)) ->
        notifications_ok st ->
        (exists n, count_active_reservations env st (Waitlist.user_id entry)
                   = Some n /\ n < 3) ->
        passes_slot_checks env d (Waitlist.start_time entry)
          (Waitlist.end_time entry) ->
        slot_free st c d (Waitlist.start_time entry)
          (Waitlist.end_time entry) ->
        exists st',
          process_waitlist_on_reservation_cancelled env st c d s e
          = (st',
             Returns (Some (Assigned.mk (Waitlist.user_id entry) c d
                              (Waitlist.start_time entry)
                              (Waitlist.end_time entry))))
          /\ RESERVATIONS st'
             = RESERVATIONS st
               ++ [(reservation_next_id st,
                    Reservation.mk (Waitlist.user_id entry) c d
                      (Waitlist.start_time entry) (Waitlist.end_time entry)
                      [])]
          /\ reservation_next_id st' = reservation_next_id st + 1
          /\ WAITLIST st'
             = rerank c d (Waitlist.start_time entry)
                 (Waitlist.end_time entry) (dict_del id (WAITLIST st))
          /\ ~ In id (dict_keys (WAITLIST st'))
          /\ filter (matching c d cs ce) (WAITLIST st') = []
          /\ NOTIFICATIONS st'
             = NOTIFICATIONS st
               ++ [(notification_next_id st,
                    Notification.mk (Waitlist.user_id entry)
                      (reservation_next_id st)
                      (assigned_message env c d (Waitlist.start_time entry)
                         (Waitlist.end_time entry))
                      (now env) false)]).
Proof.
  intros Hs He Hfit. unfold process_waitlist_on_reservation_cancelled.
  rewrite Hs, He, Hfit. split.
  - intros ->. reflexivity.
  - intros id entry Hone Hkeys Hpos Hnd Hnok (n & Hn & Hlt) Hpass Hfree.
    rewrite Hone. cbn [sort_by insert_sorted promote].
    rewrite Hn. destruct (Z.leb_spec 3 n); [lia|].
    pose proof (create_reservation_cases env st (Waitlist.user_id entry) c d
                  (Waitlist.start_time entry) (Waitlist.end_time entry) None)
      as Hcases.
    assert (Hacc : first_failure env st (Waitlist.user_id entry) c d
                     (Waitlist.start_time entry) (Waitlist.end_time entry)
                     None = Returns (inr [])).
    { apply first_failure_accepts. rewrite clean_participants_none.
      repeat split; eauto. }
    rewrite Hacc in Hcases. rewrite Hcases.
    unfold promoted. cbn [RESERVATIONS stored set_reservations set_waitlist].
    rewrite (dict_max_key_add _ _ _ (proj2 Hkeys)).
    destruct (Z.eqb_spec (reservation_next_id st) 0); [lia|].
    eexists. split; [reflexivity|]. simpl.
    split; [apply dict_set_fresh, below_counter_fresh, Hkeys|].
    split; [reflexivity|]. split; [reflexivity|]. split; [|split].
    + rewrite rerank_keys. now apply dict_del_gone.
    + rewrite matching_rerank.
      now rewrite (filter_del_single _ _ _ _ Hnd Hone).
    + apply dict_set_fresh. now apply below_counter_fresh.
Qed.

(** *** The keys of the waitlist *)

Lemma run_keeps_waitlist_keys o st :
  keys_fresh (WAITLIST st) (waitlist_next_id st) ->
  keys_fresh (WAITLIST (run o st)) (waitlist_next_id (run o st)).
Proof.
  intros Hok.
  assert (Hremove : forall st id c d s e,
             keys_fresh (WAITLIST st) (waitlist_next_id st) ->
             keys_fresh (rerank c d s e (dict_del id (WAITLIST st)))
               (waitlist_next_id st)).
  { intros st0 id c d s e H0. unfold keys_fresh. rewrite rerank_keys.
    now apply keys_fresh_del. }
  assert (Hcancel : forall st id u,
             keys_fresh (WAITLIST st) (waitlist_next_id st) ->
             keys_fresh (WAITLIST (fst (cancel_waitlist_entry st id u)))
               (waitlist_next_id (fst (cancel_waitlist_entry st id u)))).
  { intros st0 id u H0. unfold cancel_waitlist_entry.
    destruct (dict_get id (WAITLIST st0)); [|exact H0].
    destruct (negb _); [exact H0|]. now apply Hremove. }
  destruct o; simpl.
  - destruct (create_reservation_waitlist env st user_id classroom_id
                reservation_date start_time_str end_time_str participants)
      as [E1 E2]. now rewrite E1, E2.
  - unfold cancel_reservation.
    destruct (dict_get _ _); [|exact Hok]. now destruct (negb _).
  - unfold delete_reservation. now destruct (dict_mem _ _).
  - apply (process_waitlist_keeps
             (fun st => keys_fresh (WAITLIST st) (waitlist_next_id st)));
      auto.
    + intros env0 st0 u c d s e ps H0.
      destruct (create_reservation_waitlist env0 st0 u c d s e ps)
        as [E1 E2]. now rewrite E1, E2.
    + intros env0 st0 c0 d0 id entry H0. unfold promoted. cbv zeta.
      destruct (dict_max_key _) as [rid|]; [|now apply Hremove].
      destruct (rid =? 0); now apply Hremove.
  - destruct (create_waitlist_entry_cases env st user_id classroom_id
                reservation_date start_time_str end_time_str)
      as [->|[(msg & ->)| ->]]; [exact Hok|exact Hok|].
    now apply keys_fresh_add.
  - now apply Hcancel.
  - unfold check_and_create_notifications.
    destruct (scan_prefix env (RESERVATIONS st) st) as (seen & rest & _ & ->).
    destruct (check_loop_waitlist env seen st) as [E1 E2].
    now rewrite E1, E2.
  - unfold mark_as_read.
    destruct (dict_get _ _); [|exact Hok]. now destruct (negb _).
  - exact Hok.
Qed.

Lemma reachable_waitlist_keys st :
  reachable st -> keys_fresh (WAITLIST st) (waitlist_next_id st).
Proof.
  induction 1; [split; constructor|]. now apply run_keeps_waitlist_keys.
Qed.

(** *** The texts of the waitlist *)

Lemma rerank_parses c d s e wl :
  Forall (fun kv => entry_parses (snd kv)) wl ->
  Forall (fun kv => entry_parses (snd kv)) (rerank c d s e wl).
Proof.
  intros H. unfold rerank. apply Forall_map.
  eapply Forall_impl; [|exact H]. intros [k v] Hv. cbn [snd fst] in *.
  destruct (same_slot c d s e v); exact Hv.
Qed.

Lemma removed_parses c d s e id wl :
  Forall (fun kv => entry_parses (snd kv)) wl ->
  Forall (fun kv => entry_parses (snd kv)) (rerank c d s e (dict_del id wl)).
Proof.
  intros H. apply rerank_parses. rewrite Forall_forall in *.
  intros kv Hin. apply H. now apply dict_del_incl in Hin.
Qed.

Lemma run_keeps_waitlist_parses o st :
  waitlist_parses st -> waitlist_parses (run o st).
Proof.
  intros Hok. unfold waitlist_parses in *.
  assert (Hcancel : forall st id u,
             waitlist_parses st ->
             waitlist_parses (fst (cancel_waitlist_entry st id u))).
  { intros st0 id u H0. unfold cancel_waitlist_entry.
    destruct (dict_get id (WAITLIST st0)); [|exact H0].
    destruct (negb _); [exact H0|]. now apply removed_parses. }
  destruct o; simpl.
  - now rewrite (proj1 (create_reservation_waitlist env st user_id
                          classroom_id reservation_date start_time_str
                          end_time_str participants)).
  - unfold cancel_reservation.
    destruct (dict_get _ _); [|exact Hok]. now destruct (negb _).
  - unfold delete_reservation. now destruct (dict_mem _ _).
  - apply (process_waitlist_keeps waitlist_parses); auto.
    + intros env0 st0 u c d s e ps H0. unfold waitlist_parses.
      now rewrite (proj1 (create_reservation_waitlist env0 st0 u c d s e ps)).
    + intros env0 st0 c0 d0 id entry H0. unfold promoted. cbv zeta.
      destruct (dict_max_key _) as [rid|]; [|now apply removed_parses].
      destruct (rid =? 0); now apply removed_parses.
  - unfold create_waitlist_entry.
    destruct (count_active_reservations env st user_id); [|exact Hok].
    destruct (3 <=? _); [exact Hok|].
    destruct (_parse_date reservation_date) as [dobj|] eqn:Hd; [|exact Hok].
    destruct (_parse_time start_time_str) as [sobj|] eqn:Hs; [|exact Hok].
    destruct (_parse_time end_time_str) as [eobj|] eqn:He; [|exact Hok].
    destruct (existsb _ _); [exact Hok|]. cbn [fst WAITLIST set_waitlist].
    rewrite Forall_forall in *. intros kv Hin.
    apply dict_set_incl in Hin. destruct Hin as [Hin| ->]; [now apply Hok|].
    now exists dobj, sobj, eobj.
  - now apply Hcancel.
  - unfold check_and_create_notifications.
    destruct (scan_prefix env (RESERVATIONS st) st) as (seen & rest & _ & ->).
    now rewrite (proj1 (check_loop_waitlist env seen st)).
  - unfold mark_as_read.
    destruct (dict_get _ _); [|exact Hok]. now destruct (negb _).
  - exact Hok.
Qed.

Lemma reachable_waitlist_parses st : reachable st -> waitlist_parses st.
Proof.
  induction 1; [constructor|]. now apply run_keeps_waitlist_parses.
Qed.

(** No entry of a waitlist whose texts parse ends the collection of the
    matching entries. *)
Lemma parses_no_break c d st :
  waitlist_parses st -> existsb (breaks_matching c d) (WAITLIST st) = false.
Proof.
  unfold waitlist_parses. induction 1 as [|kv wl Hkv _ IH]; [reflexivity|].
  cbn [existsb]. rewrite IH, orb_false_r.
  destruct Hkv as (dobj & sobj & eobj & _ & Hs & He).
  unfold breaks_matching. rewrite Hs.
  rewrite (parse_time_no_overflow _ _ Hs), (parse_time_no_overflow _ _ He).
  now rewrite !andb_false_r.
Qed.

(** Promotion under one date text: in a state that a fresh server
    reaches, when exactly one queued
    entry of the freed classroom, stored under the date text of the freed
    slot, overlaps the freed interval, its user holds fewer than three
    active reservations, and its own interval passes the checks again (it
    does not start in the past, lies in the window, is a valid slot, and
    is free), the call promotes it: one reservation is added, for the
    whole interval of the entry and without participants; the entry leaves
    the waitlist, where no such entry is left; one notification for the
    promoted user is added, under the id of the new reservation; and the
    summary of the entry is returned.  When no queued entry of the
    classroom and date text overlaps the freed interval, the call returns
    nothing and leaves the state, and so the reservations, as they
    were. *)
Theorem promotion_of_single_entry env st c d s e cs ce :
  reachable st ->
  _parse_time s = Some cs -> _parse_time e = Some ce ->
  (filter (matching c d cs ce) (WAITLIST st) = [] ->
   process_waitlist_on_reservation_cancelled env st c d s e
   = (st, Returns None))
  /\ (forall id entry,
        filter (matching c d cs ce) (WAITLIST st) = [(id, entry)] ->
        (exists n, count_active_reservations env st (Waitlist.user_id entry)
                   = Some n /\ n < 3) ->
        passes_slot_checks env d (Waitlist.start_time entry)
          (Waitlist.end_time entry) ->
        slot_free st c d (Waitlist.start_time entry)
          (Waitlist.end_time entry) ->
        exists st',
          process_waitlist_on_reservation_cancelled env st c d s e
          = (st',
             Returns (Some (Assigned.mk (Waitlist.user_id entry) c d
                              (Waitlist.start_time entry)
                              (Waitlist.end_time entry))))
          /\ RESERVATIONS st'
             = RESERVATIONS st
               ++ [(reservation_next_id st,
                    Reservation.mk (Waitlist.user_id entry) c d
                      (Waitlist.start_time entry) (Waitlist.end_time entry)
                      [])]
          /\ WAITLIST st'
             = rerank c d (Waitlist.start_time entry)
                 (Waitlist.end_time entry) (dict_del id (WAITLIST st))
          /\ ~ In id (dict_keys (WAITLIST st'))
          /\ filter (matching c d cs ce) (WAITLIST st') = []
          /\ NOTIFICATIONS st'
             = NOTIFICATIONS st
               ++ [(notification_next_id st,
                    Notification.mk (Waitlist.user_id entry)
                      (reservation_next_id st)
                      (assigned_message env c d (Waitlist.start_time entry)
                         (Waitlist.end_time entry))
                      (now env) false)]).
Proof.
  intros Hreach Hs He.
  destruct (promote_single env st c d s e cs ce Hs He
              (parses_no_break c d st (reachable_waitlist_parses st Hreach)))
    as [Hnone Hone].
  split; [exact Hnone|].
  intros id entry Hmatch Hcount Hpass Hfree.
  destruct (reachable_reservations_ok st Hreach) as (Hkeys & Hpos & _).
  destruct (Hone id entry Hmatch Hkeys Hpos
              (proj1 (reachable_waitlist_keys st Hreach))
              (reachable_notifications_ok st Hreach) Hcount Hpass Hfree)
    as (st' & Hcall & Hres & _ & Hwl & Hgone & Hleft & Hnot).
  exists st'. repeat (split; [assumption|]). assumption.
Qed.

(** The scenario of the specification: Alice books classroom 1, Bob
    queues for her slot, Alice cancels. *)
Lemma promotion_of_single_entry_witness :
  let env := env_at morning in
  let queued :=
    run (CreateWaitlistEntry env "bob" 1 "2030-01-01" "14:00" "15:00")
      (run (CreateReservation env "alice" 1 "2030-01-01" "14:00" "15:00"
              None) initial) in
  let st := run (CancelReservation 1 "alice") queued in
  reachable st
  /\ RESERVATIONS st = []
  /\ map (fun kv => Waitlist.user_id (snd kv)) (WAITLIST st) = ["bob"]
  /\ cancel_reservation_post env queued 1 "alice"
     = process_waitlist_on_reservation_cancelled env st 1 "2030-01-01"
         "14:00" "15:00"
  /\ exists st',
       process_waitlist_on_reservation_cancelled env st 1 "2030-01-01"
         "14:00" "15:00"
       = (st',
          Returns (Some (Assigned.mk "bob" 1 "2030-01-01" "14:00" "15:00")))
       /\ RESERVATIONS st'
          = [(2, Reservation.mk "bob" 1 "2030-01-01" "14:00" "15:00" [])]
       /\ WAITLIST st' = []
       /\ map (fun kv => (Notification.user_id (snd kv),
                          Notification.reservation_id (snd kv)))
              (NOTIFICATIONS st')
          = [("bob", 2)].
Proof.
  intros env queued st.
  assert (Hreach : reachable st)
    by (apply reachable_run, reachable_run, reachable_run, reachable_initial).
  split; [exact Hreach|].
  split; [vm_compute; reflexivity|]. split; [vm_compute; reflexivity|].
  split; [vm_compute; reflexivity|].
  destruct (proj2 (promotion_of_single_entry env st 1 "2030-01-01"
                     "14:00" "15:00" (mk_time 14 0) (mk_time 15 0) Hreach
                     ltac:(vm_compute; reflexivity)
                     ltac:(vm_compute; reflexivity))
              1 (Waitlist.mk "bob" 1 "2030-01-01" "14:00" "15:00" morning 0)
              ltac:(vm_compute; reflexivity))
    as (st' & Hcall & Hres & Hwl & _ & _ & Hnot).
  - exists 0. split; [vm_compute; reflexivity|lia].
  - exists 741078, (mk_time 14 0), (mk_time 15 0).
    repeat split; vm_compute; reflexivity.
  - exists (mk_time 14 0), (mk_time 15 0).
    repeat split; vm_compute; reflexivity.
  - exists st'. split; [exact Hcall|].
    rewrite Hres, Hwl, Hnot. repeat split; vm_compute; reflexivity.
Defined.

(** C2 (the code departs from the claim): the promotion looks for queued
    entries under the date text of the freed slot.  Bob waits for
    classroom 1 from 14:00 to 15:00 under the text 2030-1-1; Alice, who
    holds that hour under the text 2030-01-01, cancels.  Bob's is the one
    entry queued, for the freed classroom, day and hour; he holds no
    reservation, and his request would be accepted if he made it himself.
    The promotion returns nothing and leaves the freed hour free and Bob
    waiting. *)
Theorem respelt_entry_is_not_promoted :
  let env := env_at morning in
  let entry := Waitlist.mk "bob" 1 "2030-1-1" "14:00" "15:00" morning 0 in
  let queued :=
    run (CreateWaitlistEntry env "bob" 1 "2030-1-1" "14:00" "15:00")
      (run (CreateReservation env "alice" 1 "2030-01-01" "14:00" "15:00"
              None) initial) in
  let st := run (CancelReservation 1 "alice") queued in
  reachable st
  /\ RESERVATIONS st = []
  /\ WAITLIST st = [(1, entry)]
  /\ _parse_date (Waitlist.date entry) = _parse_date "2030-01-01"
  /\ _parse_time (Waitlist.start_time entry) = _parse_time "14:00"
  /\ _parse_time (Waitlist.end_time entry) = _parse_time "15:00"
  /\ active_held env st "bob" = 0
  /\ passes_slot_checks env "2030-1-1" "14:00" "15:00"
  /\ snd (create_reservation env st "bob" 1 "2030-1-1" "14:00" "15:00" None)
     = Returns (true, created)
  /\ process_waitlist_on_reservation_cancelled env st 1 "2030-01-01"
       "14:00" "15:00"
     = (st, Returns None)
  /\ cancel_reservation_post env queued 1 "alice" = (st, Returns None).
Proof.
  intros env entry queued st.
  split; [apply reachable_run, reachable_run, reachable_run,
                reachable_initial|].
  split; [vm_compute; reflexivity|]. split; [vm_compute; reflexivity|].
  split; [vm_compute; reflexivity|]. split; [reflexivity|].
  split; [reflexivity|]. split; [vm_compute; reflexivity|]. split.
  { exists 741078, (mk_time 14 0), (mk_time 15 0).
    repeat split; vm_compute; reflexivity. }
  split; [vm_compute; reflexivity|]. split; vm_compute; reflexivity.
Qed.

(** * The queries, the pages and the files *)

(** ** Sorting *)

Lemma insert_sorted_Sorted {A : Type} (le : A -> A -> bool) x l :
  (forall a b, le a b = true \/ le b a = true) ->
  Sorted (fun a b => le a b = true) l ->
  Sorted (fun a b => le a b = true) (insert_sorted le x l).
Proof.
  intros Htotal Hl. induction Hl as [|y l Hl IH Hhd]; simpl.
  - constructor; constructor.
  - destruct (le x y) eqn:Hxy.
    + constructor; [constructor; assumption|]. constructor. exact Hxy.
    + constructor; [exact IH|].
      destruct l as [|z l]; simpl.
      * constructor. destruct (Htotal x y) as [H|H]; congruence.
      * destruct (le x z).
        -- constructor. destruct (Htotal x y) as [H|H]; congruence.
        -- inversion Hhd; subst. constructor. assumption.
Qed.

Lemma sort_by_Sorted {A : Type} (le : A -> A -> bool) l :
  (forall a b, le a b = true \/ le b a = true) ->
  Sorted (fun a b => le a b = true) (sort_by le l).
Proof.
  intros Htotal. induction l as [|x l IH]; simpl.
  - constructor.
  - apply insert_sorted_Sorted; assumption.
Qed.

Lemma sort_by_StronglySorted {A : Type} (le : A -> A -> bool) l :
  (forall a b, le a b = true \/ le b a = true) ->
  (forall a b c, le a b = true -> le b c = true -> le a c = true) ->
  StronglySorted (fun a b => le a b = true) (sort_by le l).
Proof.
  intros Htotal Htrans. apply Sorted_StronglySorted.
  - intros a b c. apply Htrans.
  - apply sort_by_Sorted, Htotal.
Qed.

(** A list that is in order already is left as it is. *)
Lemma sort_by_in_order {A : Type} (le : A -> A -> bool) l :
  Sorted (fun a b => le a b = true) l -> sort_by le l = l.
Proof.
  induction 1 as [|x l Hl IH Hhd]; simpl.
  - reflexivity.
  - rewrite IH. destruct Hhd as [|y l Hxy]; simpl.
    + reflexivity.
    + rewrite Hxy. reflexivity.
Qed.

Lemma filter_filter {A : Type} (f g : A -> bool) l :
  filter f (filter g l) = filter (fun x => g x && f x) l.
Proof.
  induction l as [|x l IH]; [reflexivity|]. cbn [filter].
  destruct (g x); cbn [filter andb]; [destruct (f x); congruence | exact IH].
Qed.

(** ** The order of texts *)

Lemma ascii_compare_refl a : Ascii.compare a a = Eq.
Proof. unfold Ascii.compare. apply N.compare_refl. Qed.

Lemma string_compare_refl s : String.compare s s = Eq.
Proof.
  induction s as [|a s IH]; simpl.
  - reflexivity.
  - rewrite ascii_compare_refl. exact IH.
Qed.

Lemma string_compare_trans c s1 s2 s3 :
  String.compare s1 s2 = c -> String.compare s2 s3 = c ->
  String.compare s1 s3 = c.
Proof.
  revert c s2 s3. induction s1 as [|a1 s1 IH]; intros c [|a2 s2] [|a3 s3];
    simpl; try congruence.
  unfold Ascii.compare.
  destruct (N.compare_spec (N_of_ascii a1) (N_of_ascii a2)) as [H12|H12|H12];
    destruct (N.compare_spec (N_of_ascii a2) (N_of_ascii a3)) as [H23|H23|H23];
    intros E1 E2; try congruence.
  - rewrite H12, H23, N.compare_refl. exact (IH c s2 s3 E1 E2).
  - rewrite H12, (proj2 (N.compare_lt_iff _ _) H23). exact E2.
  - rewrite H12, (proj2 (N.compare_gt_iff _ _) H23). exact E2.
  - rewrite <- H23, (proj2 (N.compare_lt_iff _ _) H12). exact E1.
  - rewrite (proj2 (N.compare_lt_iff _ _) (N.lt_trans _ _ _ H12 H23)).
    exact E1.
  - rewrite <- H23, (proj2 (N.compare_gt_iff _ _) H12). exact E1.
  - rewrite (proj2 (N.compare_gt_iff _ _) (N.lt_trans _ _ _ H23 H12)).
    exact E1.
Qed.

Lemma text_pair_le_total a b :
  text_pair_le a b = true \/ text_pair_le b a = true.
Proof.
  unfold text_pair_le, String.ltb, String.leb.
  destruct (String.compare (fst a) (fst b)) eqn:E.
  - apply String.compare_eq_iff in E. rewrite E, String.eqb_refl.
    rewrite string_compare_refl. simpl.
    destruct (String.compare (snd a) (snd b)) eqn:E2; auto.
    right. rewrite String.compare_antisym, E2. reflexivity.
  - left. reflexivity.
  - right. rewrite String.compare_antisym, E. reflexivity.
Qed.

Lemma string_leb_trans s1 s2 s3 :
  String.leb s1 s2 = true -> String.leb s2 s3 = true ->
  String.leb s1 s3 = true.
Proof.
  unfold String.leb.
  destruct (String.compare s1 s2) eqn:E1; try discriminate;
    destruct (String.compare s2 s3) eqn:E2; try discriminate; intros _ _.
  - rewrite (string_compare_trans Eq _ _ _ E1 E2). reflexivity.
  - apply String.compare_eq_iff in E1. subst. rewrite E2. reflexivity.
  - apply String.compare_eq_iff in E2. subst. rewrite E1. reflexivity.
  - rewrite (string_compare_trans Lt _ _ _ E1 E2). reflexivity.
Qed.

Lemma text_pair_le_iff a b :
  text_pair_le a b = true <->
  String.compare (fst a) (fst b) = Lt
  \/ (fst a = fst b /\ String.leb (snd a) (snd b) = true).
Proof.
  unfold text_pair_le, String.ltb.
  destruct (String.eqb_spec (fst a) (fst b)) as [Heq|Hne].
  - rewrite Heq, string_compare_refl. simpl. split.
    + intros H. right. split; [reflexivity | exact H].
    + intros [H|[_ H]]; [discriminate | exact H].
  - rewrite andb_false_l, orb_false_r. split.
    + destruct (String.compare (fst a) (fst b)); try discriminate. now left.
    + intros [H|[H _]]; [rewrite H; reflexivity | contradiction].
Qed.

Lemma text_pair_le_trans a b c :
  text_pair_le a b = true -> text_pair_le b c = true ->
  text_pair_le a c = true.
Proof.
  rewrite !text_pair_le_iff.
  intros [H1|[E1 L1]] [H2|[E2 L2]].
  - left. exact (string_compare_trans Lt _ _ _ H1 H2).
  - left. rewrite <- E2. exact H1.
  - left. rewrite E1. exact H2.
  - right. split; [congruence|]. eapply string_leb_trans; eassumption.
Qed.

(** ** The reservations of a user *)

Lemma listed_count env u (l : dict Reservation.t) :
  count_if (holds env u) (dict_values l)
  = count_if (fun x : Z * Reservation.t * bool => is_active env (snd (fst x)))
      (flat_map (fun item : Z * Reservation.t =>
                   let '(res_id, reservation) := item in
                   if String.eqb (Reservation.user_id reservation) u
                   then [(res_id, reservation, true)]
                   else if existsb (String.eqb u)
                             (Reservation.participants reservation)
                   then [(res_id, reservation, false)]
                   else [])
                l).
Proof.
  induction l as [|[id r] l IH].
  - reflexivity.
  - change (dict_values ((id, r) :: l)) with (r :: dict_values l).
    cbn [flat_map]. rewrite count_if_cons, count_if_app, IH.
    f_equal. unfold holds.
    destruct (String.eqb (Reservation.user_id r) u).
    + rewrite orb_true_l, andb_true_r.
      unfold count_if. cbn [filter fst snd].
      destruct (is_active env r); reflexivity.
    + rewrite orb_false_l.
      destruct (existsb (String.eqb u) (Reservation.participants r)).
      * rewrite andb_true_r. unfold count_if. cbn [filter fst snd].
        destruct (is_active env r); reflexivity.
      * rewrite andb_false_r. reflexivity.
Qed.

(** X1: the list of a user's reservations holds every reservation the user
    owns or takes part in exactly once, in the order of the store, and
    [is_owner] tells which of the two it is. *)
Theorem get_user_reservations_lists_once st u :
  map fst (get_user_reservations st u)
  = filter (fun item =>
              String.eqb (Reservation.user_id (snd item)) u
              || existsb (String.eqb u) (Reservation.participants (snd item)))
           (RESERVATIONS st)
  /\ forall id r is_owner,
       In (id, r, is_owner) (get_user_reservations st u) ->
       is_owner = String.eqb (Reservation.user_id r) u.
Proof.
  unfold get_user_reservations.
  induction (RESERVATIONS st) as [|[id0 r0] l [IH1 IH2]].
  - split; [reflexivity | intros ? ? ? []].
  - cbn [flat_map filter snd]. rewrite map_app, IH1. split.
    + destruct (String.eqb (Reservation.user_id r0) u); [reflexivity|].
      rewrite orb_false_l.
      destruct (existsb (String.eqb u) (Reservation.participants r0));
        reflexivity.
    + intros id r is_owner Hin. apply in_app_or in Hin.
      destruct Hin as [Hin|Hin]; [|exact (IH2 _ _ _ Hin)].
      destruct (String.eqb (Reservation.user_id r0) u) eqn:Hown.
      * destruct Hin as [Heq|[]]. inversion Heq; subst. now rewrite Hown.
      * destruct (existsb (String.eqb u) (Reservation.participants r0));
          [|destruct Hin].
        destruct Hin as [Heq|[]]. inversion Heq; subst. now rewrite Hown.
Qed.

(** X2: in a state the server reaches, the quota counts exactly the
    reservations of the user's list that have not started yet. *)
Theorem quota_counts_listed_reservations env st u :
  reachable st ->
  count_active_reservations env st u
  = Some (count_if (fun x => is_active env (snd (fst x)))
            (get_user_reservations st u)).
Proof.
  intros Hreach.
  destruct (reachable_reservations_ok st Hreach) as (_ & _ & Hwf & _).
  rewrite (count_active_is_held env st u Hwf).
  unfold active_held, get_user_reservations. f_equal. apply listed_count.
Qed.

Lemma quota_counts_listed_reservations_witness :
  let env := env_at morning in
  let st :=
    run (CreateReservation env "bob" 1 "2030-01-02" "16:00" "17:00"
           (Some ["alice"]))
      (run (CreateReservation env "alice" 1 "2030-01-01" "14:00" "15:00"
              None) initial) in
  reachable st
  /\ map (fun x => (fst (fst x), snd x)) (get_user_reservations st "alice")
     = [(1, true); (2, false)]
  /\ count_active_reservations env st "alice" = Some 2.
Proof.
  intros env st.
  assert (Hreach : reachable st)
    by (apply reachable_run, reachable_run, reachable_initial).
  split; [exact Hreach|]. split; [vm_compute; reflexivity|].
  rewrite (quota_counts_listed_reservations env st "alice" Hreach).
  vm_compute. reflexivity.
Defined.

(** ** The reservations of a classroom *)

Lemma get_classroom_reservations_perm st c date :
  Permutation (get_classroom_reservations st c date)
    (filter (fun item : Z * Reservation.t =>
               (Reservation.classroom_id (snd item) =? c)
               && match date with
                  | Some d =>
                      String.eqb d ""
                      || String.eqb (Reservation.date (snd item)) d
                  | None => true
                  end)
            (RESERVATIONS st)).
Proof.
  unfold get_classroom_reservations.
  eapply Permutation_trans; [apply sort_by_perm|].
  generalize (RESERVATIONS st) as l. intros l.
  destruct date as [d|].
  - destruct (String.eqb d "").
    + erewrite filter_ext; [apply Permutation_refl|].
      intros x. cbv beta. now rewrite orb_true_l, andb_true_r.
    + rewrite filter_filter. apply Permutation_refl.
  - erewrite filter_ext; [apply Permutation_refl|].
    intros x. cbv beta. now rewrite andb_true_r.
Qed.

(** X3: the list of a classroom's reservations is the classroom's
    reservations (of the date, when a non-empty one is given), each once,
    in the order of their date and start texts. *)
Theorem get_classroom_reservations_sorted st c date :
  let wanted (item : Z * Reservation.t) :=
    (Reservation.classroom_id (snd item) =? c)
    && match date with
       | Some d => String.eqb d "" || String.eqb (Reservation.date (snd item)) d
       | None => true
       end in
  Permutation (get_classroom_reservations st c date)
              (filter wanted (RESERVATIONS st))
  /\ StronglySorted
       (fun a b => text_pair_le (date_and_start a) (date_and_start b) = true)
       (get_classroom_reservations st c date)
  /\ get_classroom_reservations st c (Some "")
     = get_classroom_reservations st c None.
Proof.
  intros wanted. split; [|split].
  - apply get_classroom_reservations_perm.
  - unfold get_classroom_reservations. apply sort_by_StronglySorted.
    + intros a b. apply text_pair_le_total.
    + intros a b0 c0. apply text_pair_le_trans.
  - reflexivity.
Qed.

(** ** Searching for a free classroom *)

Lemma is_available_free c d s e rs :
  Forall well_formed rs ->
  exists b confs,
    is_available c d s e rs = Some b
    /\ conflicting c d s e rs = Some confs
    /\ (b = true <-> confs = []).
Proof.
  induction 1 as [|r rs Hr Hrs IH].
  - exists true, []. repeat split; reflexivity.
  - destruct IH as (b & confs & Hb & Hconfs & Hiff).
    cbn [is_available conflicting]. rewrite Hconfs.
    destruct ((Reservation.classroom_id r =? c)
              && String.eqb (Reservation.date r) d).
    + destruct Hr as ((dd & ss & ee & _ & Hs & He & _) & _).
      rewrite Hs, He.
      destruct (_is_time_overlap s e ss ee).
      * eexists false, _. split; [reflexivity|]. split; [reflexivity|].
        split; discriminate.
      * exists b, confs. auto.
    + exists b, confs. auto.
Qed.

Lemma available_among_lists ids st d s e :
  Forall well_formed (dict_values (RESERVATIONS st)) ->
  exists l,
    available_among ids st d s e = Returns l
    /\ forall c, In c l <->
         In c ids
         /\ conflicting c d s e (dict_values (RESERVATIONS st)) = Some [].
Proof.
  intros Hwf. induction ids as [|c0 ids (l & Hl & Hin)].
  - exists []. split; [reflexivity|]. intros c. split; [intros []|intros [[] _]].
  - cbn [available_among]. rewrite Hl.
    destruct (is_available_free c0 d s e _ Hwf) as (b & confs & Hb & Hc & Hiff).
    rewrite Hb. eexists. split; [reflexivity|].
    intros c. destruct b.
    + assert (confs = []) by (apply Hiff; reflexivity). subst confs.
      split.
      * intros [Heq|Hc']; [subst; split; [now left | exact Hc]|].
        apply Hin in Hc'. destruct Hc'. split; [now right | assumption].
      * intros [[Heq|Hc'] Hfree]; [now left|]. right. apply Hin. now split.
    + split.
      * intros Hc'. apply Hin in Hc'. destruct Hc'. split; [now right | assumption].
      * intros [[Heq|Hc'] Hfree].
        -- subst c0. rewrite Hfree in Hc. inversion Hc; subst.
           assert (false = true) by (apply Hiff; reflexivity). discriminate.
        -- apply Hin. now split.
Qed.

(** X4: in a state the server reaches, the search for a date and times
    that do not raise [OverflowError] answers, and only with classrooms of
    the directory; for a request that passes the checks on the slot and
    the quotas, [create_reservation] accepts the classrooms the search
    lists and refuses the others of the directory for a conflict. *)
Theorem find_available_classrooms_agrees_with_booking dir st d s e :
  reachable st ->
  request_overflows d s e = false ->
  exists l,
    find_available_classrooms dir st d s e = Returns l
    /\ incl l (dict_keys (Directory.get_all_classrooms dir))
    /\ forall env u ps c,
         In c (dict_keys (Directory.get_all_classrooms dir)) ->
         passes_slot_checks env d s e ->
         passes_quota_checks env st u ps ->
         (In c l ->
          create_reservation env st u c d s e ps
          = (stored st
               (Reservation.mk u c d s e (clean_participants env u ps)),
             Returns (true, created)))
         /\ (~ In c l ->
             exists confs,
               create_reservation env st u c d s e ps
               = (st, Returns (false, message (TimeConflict s e confs)))).
Proof.
  intros Hreach Hfit.
  destruct (reachable_reservations_ok st Hreach) as (_ & _ & Hwf & _).
  assert (Hwf' : Forall well_formed (dict_values (RESERVATIONS st))).
  { unfold dict_values. apply Forall_map. exact Hwf. }
  unfold find_available_classrooms. unfold request_overflows in Hfit.
  assert (Hnone :
            (forall env, ~ passes_slot_checks env d s e) ->
            exists l : list Z,
              Returns [] = Returns l
              /\ incl l (dict_keys (Directory.get_all_classrooms dir))
              /\ forall env u ps c,
                   In c (dict_keys (Directory.get_all_classrooms dir)) ->
                   passes_slot_checks env d s e ->
                   passes_quota_checks env st u ps ->
                   (In c l ->
                    create_reservation env st u c d s e ps
                    = (stored st
                         (Reservation.mk u c d s e
                            (clean_participants env u ps)),
                       Returns (true, created)))
                   /\ (~ In c l ->
                       exists confs,
                         create_reservation env st u c d s e ps
                         = (st, Returns (false,
                                         message (TimeConflict s e confs))))).
  { intros Hno. exists []. split; [reflexivity|]. split; [intros ? []|].
    intros env u ps c _ Hpass. now destruct (Hno env). }
  destruct (_parse_date d) as [dd|] eqn:Hd.
  2:{ apply Hnone. intros env (dd' & ss' & ee' & Hd' & _). congruence. }
  destruct (_parse_time s) as [ss|] eqn:Hs.
  2:{ rewrite orb_false_r in Hfit. rewrite Hfit. apply Hnone.
      intros env (dd' & ss' & ee' & _ & Hs' & _). congruence. }
  rewrite (parse_time_no_overflow _ _ Hs) in Hfit. cbn [orb] in Hfit.
  destruct (_parse_time e) as [ee|] eqn:He.
  2:{ rewrite Hfit. apply Hnone.
      intros env (dd' & ss' & ee' & _ & _ & He' & _). congruence. }
  destruct (_is_valid_time_slot ss ee) eqn:Hvalid; cbn [negb].
  2:{ apply Hnone.
      intros env (dd' & ss' & ee' & _ & Hs' & He' & _ & _ & Hv). congruence. }
  destruct (available_among_lists
              (dict_keys (Directory.get_all_classrooms dir)) st d ss ee Hwf')
    as (l & Hl & Hin).
  exists l. split; [exact Hl|]. split.
  { intros c Hc. apply Hin in Hc. apply Hc. }
  intros env u ps c Hdir Hpass [Hown Hparts]. split.
  - intros Hc. apply Hin in Hc. destruct Hc as [_ Hfree].
    pose proof (create_reservation_cases env st u c d s e ps) as Hcases.
    assert (Hacc : first_failure env st u c d s e ps
                   = Returns (inr (clean_participants env u ps))).
    { apply first_failure_accepts. split; [exact Hpass|].
      split; [exact Hown|]. split; [reflexivity|]. split; [exact Hparts|].
      exists ss, ee. auto. }
    rewrite Hacc in Hcases. exact Hcases.
  - intros Hc.
    destruct (conflicting_total c d ss ee _ Hwf') as [confs Hconfs].
    assert (Hne : confs <> []).
    { intros ->. apply Hc, Hin. now split. }
    exists confs.
    pose proof (create_reservation_cases env st u c d s e ps) as Hcases.
    assert (Hrej : first_failure env st u c d s e ps
                   = Returns (inl (TimeConflict s e confs))).
    { destruct Hpass as (dd' & ss' & ee' & Hd' & Hs' & He' & Hpast & Hwin & Hv).
      destruct Hown as (n & Hn & Hlt).
      unfold first_failure. rewrite Hd', Hs', He', Hpast, Hwin, Hv, Hn.
      cbn [negb]. destruct (Z.leb_spec 3 n) as [Hge|_]; [lia|].
      rewrite Hparts.
      assert (ss' = ss) by congruence. assert (ee' = ee) by congruence.
      subst ss' ee'. rewrite Hconfs.
      destruct confs; [contradiction | reflexivity]. }
    rewrite Hrej in Hcases. exact Hcases.
Qed.

Lemma find_available_classrooms_agrees_with_booking_witness :
  let env := env_at morning in
  let dir :=
    Directory.mk
      [(1, Classroom.mk "A101" "1F" 4 true false);
       (2, Classroom.mk "B202" "2F" 30 false true)]
      (fun _ => None) in
  let st :=
    run (CreateReservation env "alice" 1 "2030-01-01" "14:00" "15:00" None)
      initial in
  reachable st
  /\ find_available_classrooms dir st "2030-01-01" "14:00" "16:00"
     = Returns [2]
  /\ snd (create_reservation env st "bob" 2 "2030-01-01" "14:00" "16:00" None)
     = Returns (true, created)
  /\ exists confs,
       create_reservation env st "bob" 1 "2030-01-01" "14:00" "16:00" None
       = (st, Returns (false,
                       message (TimeConflict "14:00" "16:00" confs))).
Proof.
  intros env dir st.
  assert (Hreach : reachable st) by (apply reachable_run, reachable_initial).
  split; [exact Hreach|]. split; [vm_compute; reflexivity|].
  destruct (find_available_classrooms_agrees_with_booking dir st
              "2030-01-01" "14:00" "16:00" Hreach
              ltac:(vm_compute; reflexivity)) as (l & Hl & _ & Hbook).
  assert (Hl' : l = [2]).
  { assert (Hc : find_available_classrooms dir st "2030-01-01" "14:00" "16:00"
                 = Returns [2]) by (vm_compute; reflexivity).
    rewrite Hc in Hl. now inversion Hl. }
  subst l.
  assert (Hpass : passes_slot_checks env "2030-01-01" "14:00" "16:00").
  { exists 741078, (mk_time 14 0), (mk_time 16 0).
    repeat split; vm_compute; reflexivity. }
  assert (Hquota : passes_quota_checks env st "bob" None).
  { split; [exists 0; split; [vm_compute; reflexivity | lia]|].
    vm_compute. reflexivity. }
  split.
  - rewrite (proj1 (Hbook env "bob" None 2 ltac:(right; left; reflexivity)
                      Hpass Hquota) ltac:(left; reflexivity)).
    reflexivity.
  - apply (proj2 (Hbook env "bob" None 1 ltac:(left; reflexivity)
                    Hpass Hquota)).
    intros [H|[]]. discriminate.
Defined.

(** ** Filtering classrooms *)

Lemma passes_filters_iff dir m p w c :
  passes_filters dir m p w c = true <->
  exists cl,
    Directory.get_classroom dir c = Some cl
    /\ (forall n, m = Some n -> n <= Classroom.capacity cl)
    /\ (forall b, p = Some b -> Classroom.projector cl = b)
    /\ (forall b, w = Some b -> Classroom.whiteboard cl = b).
Proof.
  unfold passes_filters.
  destruct (Directory.get_classroom dir c) as [cl|].
  2:{ split; [discriminate | intros (cl & H & _); discriminate]. }
  split.
  - intros H. exists cl. split; [reflexivity|].
    destruct m as [n|]; [destruct (Z.ltb_spec (Classroom.capacity cl) n);
                         [discriminate|]|];
      (destruct p as [[|]|]; destruct (Classroom.projector cl);
       cbn in H; try discriminate);
      (destruct w as [[|]|]; destruct (Classroom.whiteboard cl);
       cbn in H; try discriminate);
      repeat split; intros ? Heq; inversion Heq; subst; try reflexivity; lia.
  - intros (cl' & Heq & Hm & Hp & Hw). inversion Heq; subst cl'.
    destruct m as [n|].
    + specialize (Hm n eq_refl).
      destruct (Z.ltb_spec (Classroom.capacity cl) n); [lia|].
      destruct p as [b|]; [rewrite (Hp b eq_refl)|];
        (destruct w as [b'|]; [rewrite (Hw b' eq_refl)|]);
        repeat match goal with b : bool |- _ => destruct b end; reflexivity.
    + destruct p as [b|]; [rewrite (Hp b eq_refl)|];
        (destruct w as [b'|]; [rewrite (Hw b' eq_refl)|]);
        repeat match goal with b : bool |- _ => destruct b end; reflexivity.
Qed.

(** X5: [filter_classrooms] keeps, in their order, the ids whose classroom
    exists, holds at least the wanted number of people, and has or lacks
    the projector and the whiteboard as asked; filtering in two steps, or
    twice, gives the same list. *)
Theorem filter_classrooms_selects dir ids m p w :
  (forall c,
      In c (filter_classrooms dir ids m p w) <->
      In c ids
      /\ exists cl,
           Directory.get_classroom dir c = Some cl
           /\ (forall n, m = Some n -> n <= Classroom.capacity cl)
           /\ (forall b, p = Some b -> Classroom.projector cl = b)
           /\ (forall b, w = Some b -> Classroom.whiteboard cl = b))
  /\ filter_classrooms dir (filter_classrooms dir ids m None None) None p w
     = filter_classrooms dir ids m p w
  /\ filter_classrooms dir (filter_classrooms dir ids m p w) m p w
     = filter_classrooms dir ids m p w.
Proof.
  split; [|split].
  - intros c. unfold filter_classrooms. rewrite filter_In, passes_filters_iff.
    reflexivity.
  - unfold filter_classrooms. rewrite filter_filter. apply filter_ext.
    intros c. unfold passes_filters.
    destruct (Directory.get_classroom dir c) as [cl|]; [|reflexivity].
    destruct m as [n|]; [destruct (Classroom.capacity cl <? n)|];
      destruct p as [[|]|]; destruct (Classroom.projector cl);
      destruct w as [[|]|]; destruct (Classroom.whiteboard cl); reflexivity.
  - unfold filter_classrooms. rewrite filter_filter. apply filter_ext.
    intros c. apply andb_diag.
Qed.

(** ** No user waits twice for one slot *)

Lemma request_of_set_priority entry p :
  request_of (set_priority entry p) = request_of entry.
Proof. reflexivity. Qed.

Lemma rerank_requests c d s e wl :
  map request_of (dict_values (rerank c d s e wl))
  = map request_of (dict_values wl).
Proof.
  rewrite rerank_values, map_map. apply map_ext. intros entry.
  destruct (same_slot c d s e entry); reflexivity.
Qed.

Lemma NoDup_map_del {V B : Type} (f : V -> B) (k : Z) (d : dict V) :
  NoDup (map f (dict_values d)) ->
  NoDup (map f (dict_values (dict_del k d))).
Proof.
  induction d as [|[k' v'] d IH]; intros H.
  - exact H.
  - cbn [dict_del]. destruct (k' =? k).
    + now inversion H.
    + inversion H as [|x l Hnotin Hnodup]; subst.
      cbn [dict_values map snd]. constructor.
      * intros Hin. apply Hnotin.
        apply in_map_iff in Hin. destruct Hin as (v & Hv & Hin).
        apply in_map_iff. exists v. split; [exact Hv|].
        apply in_map_iff in Hin. destruct Hin as ([k0 v0] & Hv0 & Hin).
        apply in_map_iff. exists (k0, v0). split; [exact Hv0|].
        exact (dict_del_incl k d _ Hin).
      * apply IH. exact Hnodup.
Qed.

Lemma no_double_requests_frame st st' :
  WAITLIST st' = WAITLIST st ->
  no_double_requests st -> no_double_requests st'.
Proof. unfold no_double_requests. now intros ->. Qed.

Lemma no_double_requests_remove st id c d s e :
  no_double_requests st ->
  no_double_requests
    (set_waitlist st (rerank c d s e (dict_del id (WAITLIST st)))
       (waitlist_next_id st)).
Proof.
  unfold no_double_requests. cbn [WAITLIST set_waitlist].
  rewrite rerank_requests. apply NoDup_map_del.
Qed.

Lemma cancel_waitlist_entry_no_double st id u :
  no_double_requests st ->
  no_double_requests (fst (cancel_waitlist_entry st id u)).
Proof.
  intros H. unfold cancel_waitlist_entry.
  destruct (dict_get id (WAITLIST st)) as [entry|]; [|exact H].
  destruct (negb (String.eqb (Waitlist.user_id entry) u)); [exact H|].
  cbn [fst]. apply no_double_requests_remove, H.
Qed.

Lemma promoted_no_double env st c d id entry :
  no_double_requests st -> no_double_requests (promoted env st c d id entry).
Proof.
  intros H. unfold promoted.
  set (st1 := set_waitlist st _ _).
  assert (H1 : no_double_requests st1)
    by (apply no_double_requests_remove, H).
  destruct (dict_max_key (RESERVATIONS st1)) as [rid|]; [|exact H1].
  destruct (rid =? 0); [exact H1|].
  eapply no_double_requests_frame; [|exact H1].
  apply create_notification_waitlist.
Qed.

Lemma create_waitlist_entry_no_double env st u c d s e :
  keys_fresh (WAITLIST st) (waitlist_next_id st) ->
  no_double_requests st ->
  no_double_requests (fst (create_waitlist_entry env st u c d s e)).
Proof.
  intros [_ Hbelow] H. unfold create_waitlist_entry.
  destruct (count_active_reservations env st u) as [n|]; [|exact H].
  destruct (3 <=? n); [exact H|].
  destruct (_parse_date d); [|exact H].
  destruct (_parse_time s); [|exact H].
  destruct (_parse_time e); [|exact H].
  destruct (existsb _ _) eqn:Hdup; [exact H|].
  cbn [fst]. unfold no_double_requests. cbn [WAITLIST set_waitlist].
  rewrite dict_set_fresh by (apply below_counter_fresh, Hbelow).
  rewrite dict_values_app, map_app. cbn [dict_values map snd].
  apply NoDup_app; [exact H | constructor; [intros []|constructor] |].
  intros x Hin [Hx|[]]. subst x.
  apply in_map_iff in Hin. destruct Hin as (entry & Hreq & Hin).
  assert (Hfalse : existsb
            (fun entry => String.eqb (Waitlist.user_id entry) u
                          && same_slot c d s e entry)
            (dict_values (WAITLIST st)) = true).
  { apply existsb_exists. exists entry. split; [exact Hin|].
    pose proof (f_equal fst Hreq) as Hu. pose proof (f_equal snd Hreq) as Hslot.
    cbn in Hu. rewrite Hu, String.eqb_refl. apply same_slot_iff, Hslot. }
  congruence.
Qed.

Lemma run_keeps_no_double o st :
  keys_fresh (WAITLIST st) (waitlist_next_id st) ->
  no_double_requests st -> no_double_requests (run o st).
Proof.
  intros Hkeys H. destruct o; cbn [run].
  - eapply no_double_requests_frame; [|exact H].
    apply create_reservation_waitlist.
  - eapply no_double_requests_frame; [|exact H].
    unfold cancel_reservation.
    destruct (dict_get reservation_id (RESERVATIONS st)); [|reflexivity].
    destruct (negb _); reflexivity.
  - eapply no_double_requests_frame; [|exact H].
    unfold delete_reservation.
    destruct (dict_mem reservation_id (RESERVATIONS st)); reflexivity.
  - apply (process_waitlist_keeps no_double_requests); try exact H.
    + intros env0 st0 u c d s e ps H0.
      eapply no_double_requests_frame; [|exact H0].
      apply create_reservation_waitlist.
    + intros st0 id u. apply cancel_waitlist_entry_no_double.
    + intros env0 st0 c d id entry. apply promoted_no_double.
  - apply create_waitlist_entry_no_double; assumption.
  - apply cancel_waitlist_entry_no_double, H.
  - eapply no_double_requests_frame; [|exact H].
    apply scan_frame.
  - eapply no_double_requests_frame; [|exact H].
    unfold mark_as_read.
    destruct (dict_get notification_id (NOTIFICATIONS st)); [|reflexivity].
    destruct (negb _); reflexivity.
  - eapply no_double_requests_frame; [|exact H]. reflexivity.
Qed.

(** X6: in a state the server reaches no user is queued twice under the
    same classroom and the same date, start and end texts; a second
    request that spells the slot as the queued one does is not accepted
    and changes nothing. *)
Theorem no_user_waits_twice st :
  reachable st ->
  no_double_requests st
  /\ forall env u c d s e entry,
       In entry (dict_values (WAITLIST st)) ->
       request_of entry = (u, (c, d, s, e)) ->
       fst (create_waitlist_entry env st u c d s e) = st
       /\ forall msg,
            snd (create_waitlist_entry env st u c d s e)
            <> Returns (true, msg).
Proof.
  intros Hreach. split.
  - induction Hreach as [|st o Hreach IH].
    + constructor.
    + apply run_keeps_no_double; [apply reachable_waitlist_keys|]; assumption.
  - intros env u c d s e entry Hin Hreq.
    assert (Hdup : existsb
              (fun entry => String.eqb (Waitlist.user_id entry) u
                            && same_slot c d s e entry)
              (dict_values (WAITLIST st)) = true).
    { apply existsb_exists. exists entry. split; [exact Hin|].
      unfold request_of in Hreq.
      assert (Hu : Waitlist.user_id entry = u) by congruence.
      assert (Hslot : slot_of entry = (c, d, s, e)) by congruence.
      rewrite Hu, String.eqb_refl. apply same_slot_iff, Hslot. }
    unfold create_waitlist_entry.
    destruct (count_active_reservations env st u) as [n|];
      [|split; [reflexivity | discriminate]].
    destruct (3 <=? n); [split; [reflexivity | discriminate]|].
    destruct (_parse_date d); [|split; [reflexivity | discriminate]].
    destruct (_parse_time s);
      [|split; [reflexivity | destruct (overflows s); discriminate]].
    destruct (_parse_time e);
      [|split; [reflexivity | destruct (overflows e); discriminate]].
    rewrite Hdup. split; [reflexivity | discriminate].
Qed.

Lemma no_user_waits_twice_witness :
  let env := env_at morning in
  let st :=
    run (CreateWaitlistEntry env "bob" 1 "2030-01-01" "14:00" "15:00")
      (run (CreateWaitlistEntry env "bob" 1 "2030-01-01" "14:00" "15:00")
         initial) in
  reachable st
  /\ List.length (WAITLIST st) = 1%nat
  /\ no_double_requests st.
Proof.
  intros env st.
  assert (Hreach : reachable st)
    by (apply reachable_run, reachable_run, reachable_initial).
  split; [exact Hreach|]. split; [vm_compute; reflexivity|].
  exact (proj1 (no_user_waits_twice st Hreach)).
Defined.

(** ** The rank shown beside a waitlist entry *)

Lemma ranked_in_order (l : list (Z * Waitlist.t)) base :
  map (fun x => Waitlist.priority (snd x)) l
  = map (Z.add base) (upto (List.length l)) ->
  Sorted (fun a b => waiting_before a b = true) l.
Proof.
  revert base. induction l as [|x l IH]; intros base H.
  - constructor.
  - cbn [List.length] in H. rewrite upto_shift in H. cbn [map] in H.
    injection H as Hx Hl. constructor.
    + exact (IH _ Hl).
    + destruct l as [|y l]; constructor.
      cbn [List.length] in Hl. rewrite upto_shift in Hl. cbn [map] in Hl.
      injection Hl as Hy _. unfold waiting_before.
      rewrite Hx, Hy. destruct (Z.ltb_spec base (base + 1)); [reflexivity|lia].
Qed.

Lemma position_rank id entry (l : list (Z * Waitlist.t)) base :
  NoDup (map fst l) ->
  map (fun x => Waitlist.priority (snd x)) l
  = map (Z.add base) (upto (List.length l)) ->
  In (id, entry) l ->
  position_from base id l = Some (Waitlist.priority entry + 1).
Proof.
  revert base. induction l as [|x l IH]; intros base Hnodup H Hin.
  - destruct Hin.
  - cbn [List.length] in H. rewrite upto_shift in H. cbn [map] in H.
    injection H as Hx Hl. inversion Hnodup as [|k ks Hnotin Hnodup']; subst.
    cbn [position_from]. destruct (Z.eqb_spec (fst x) id) as [Heq|Hne].
    + destruct Hin as [Hin|Hin].
      * subst x. reflexivity.
      * exfalso. apply Hnotin. rewrite Heq.
        change id with (fst (id, entry)). apply in_map, Hin.
    + destruct Hin as [Hin|Hin]; [subst x; contradiction|].
      exact (IH _ Hnodup' Hl Hin).
Qed.

Lemma NoDup_keys_filter {V : Type} (p : Z * V -> bool) (d : dict V) :
  NoDup (dict_keys d) -> NoDup (dict_keys (filter p d)).
Proof.
  induction d as [|x d IH]; intros H; [exact H|].
  inversion H as [|k ks Hnotin Hnodup]; subst. cbn [filter].
  destruct (p x); [|exact (IH Hnodup)].
  cbn [dict_keys map]. constructor; [|exact (IH Hnodup)].
  intros Hin. apply Hnotin. unfold dict_keys in Hin.
  apply in_map_iff in Hin. destruct Hin as (y & Hy & Hin).
  apply filter_In in Hin. rewrite <- Hy. apply in_map, Hin.
Qed.

(** X7: when the entries that share the classroom, date and start of an
    entry also share its end, the list of the classroom's waitlist is the
    queue of the slot in the order of arrival, and the rank the pages show
    for the entry is its priority plus one. *)
Theorem current_priority_is_rank st id entry :
  reachable_on_time st ->
  In (id, entry) (WAITLIST st) ->
  (forall other,
      In other (dict_values (WAITLIST st)) ->
      Waitlist.classroom_id other = Waitlist.classroom_id entry ->
      Waitlist.date other = Waitlist.date entry ->
      Waitlist.start_time other = Waitlist.start_time entry ->
      Waitlist.end_time other = Waitlist.end_time entry) ->
  get_classroom_waitlist st (Waitlist.classroom_id entry)
    (Waitlist.date entry) (Waitlist.start_time entry)
  = filter (fun item =>
              same_slot (Waitlist.classroom_id entry) (Waitlist.date entry)
                (Waitlist.start_time entry) (Waitlist.end_time entry)
                (snd item))
           (WAITLIST st)
  /\ current_priority st (id, entry) = Waitlist.priority entry + 1
  /\ current_priority st (id, entry) = earlier_siblings st entry + 1.
Proof.
  intros Hreach Hin Hsame.
  pose proof (reachable_waitlist_ok st Hreach) as Hok.
  destruct Hok as ([Hnodup _] & Hinc & Hranks).
  set (c := Waitlist.classroom_id entry). set (d := Waitlist.date entry).
  set (s := Waitlist.start_time entry). set (e := Waitlist.end_time entry).
  set (F := filter (fun item => same_slot c d s e (snd item)) (WAITLIST st)).
  assert (HF : filter (fun item : Z * Waitlist.t =>
                         (Waitlist.classroom_id (snd item) =? c)
                         && String.eqb (Waitlist.date (snd item)) d
                         && String.eqb (Waitlist.start_time (snd item)) s)
                      (WAITLIST st) = F).
  { apply filter_ext_in. intros [k other] Hk. unfold same_slot. cbn [snd].
    destruct (Z.eqb_spec (Waitlist.classroom_id other) c) as [Hc|];
      [|reflexivity].
    destruct (String.eqb_spec (Waitlist.date other) d) as [Hd|];
      [|reflexivity].
    destruct (String.eqb_spec (Waitlist.start_time other) s) as [Hs|];
      [|reflexivity].
    rewrite (Hsame other); [now rewrite String.eqb_refl | | | |]; try assumption.
    unfold dict_values. apply in_map_iff. exists (k, other). now split. }
  assert (Hprio : map (fun x => Waitlist.priority (snd x)) F
                  = map (Z.add 0) (upto (List.length F))).
  { specialize (Hranks c d s e). unfold slot_entries, dict_values in Hranks.
    rewrite filter_map_swap, map_map, length_map in Hranks.
    fold F in Hranks. rewrite Hranks. symmetry.
    erewrite map_ext; [apply map_id|]. intros k. reflexivity. }
  assert (Hsorted : get_classroom_waitlist st c d s = F).
  { unfold get_classroom_waitlist. rewrite HF.
    apply sort_by_in_order. exact (ranked_in_order F 0 Hprio). }
  assert (Hcur : current_priority st (id, entry)
                 = Waitlist.priority entry + 1).
  { unfold current_priority. cbn [fst snd]. fold c d s. rewrite Hsorted.
    rewrite (position_rank id entry F 0); [reflexivity | | exact Hprio |].
    - apply NoDup_keys_filter, Hnodup.
    - apply filter_In. split; [exact Hin|]. apply same_slot_own. }
  split; [exact Hsorted|]. split; [exact Hcur|].
  rewrite Hcur. f_equal. apply waitlist_ok_rank.
  - exact (reachable_waitlist_ok st Hreach).
  - unfold dict_values. apply in_map_iff. exists (id, entry). now split.
Qed.

Lemma current_priority_is_rank_witness :
  let st :=
    run (CreateWaitlistEntry (env_at (morning + 2)) "carol" 1
           "2030-01-01" "14:00" "15:00")
      (run (CreateWaitlistEntry (env_at (morning + 1)) "bob" 1
              "2030-01-01" "14:00" "15:00") initial) in
  let entry :=
    Waitlist.mk "carol" 1 "2030-01-01" "14:00" "15:00" (morning + 2) 1 in
  reachable_on_time st
  /\ In (2, entry) (WAITLIST st)
  /\ current_priority st (2, entry) = 2.
Proof.
  intros st entry.
  assert (Hreach : reachable_on_time st).
  { repeat (apply on_time_run;
              [|first [exact I | apply clock_ahead; vm_compute; reflexivity]]).
    apply on_time_initial. }
  assert (Hin : In (2, entry) (WAITLIST st)) by (right; left; reflexivity).
  split; [exact Hreach|]. split; [exact Hin|].
  refine (proj1 (proj2 (current_priority_is_rank st 2 entry Hreach Hin _))).
  intros other [H|[H|[]]] _ _ _; subst other; reflexivity.
Defined.

(** ** What a promotion does *)

Lemma cancel_waitlist_entry_notifications st id u :
  NOTIFICATIONS (fst (cancel_waitlist_entry st id u)) = NOTIFICATIONS st
  /\ notification_next_id (fst (cancel_waitlist_entry st id u))
     = notification_next_id st.
Proof.
  unfold cancel_waitlist_entry.
  destruct (dict_get id (WAITLIST st)); [|now split].
  destruct (negb _); now split.
Qed.

Lemma cancel_waitlist_entry_keys st id u :
  incl (dict_keys (WAITLIST (fst (cancel_waitlist_entry st id u))))
       (dict_keys (WAITLIST st))
  /\ (NoDup (dict_keys (WAITLIST st)) ->
      NoDup (dict_keys (WAITLIST (fst (cancel_waitlist_entry st id u))))).
Proof.
  unfold cancel_waitlist_entry.
  destruct (dict_get id (WAITLIST st));
    [|split; [apply incl_refl | auto]].
  destruct (negb _); [split; [apply incl_refl | auto]|].
  cbn [fst WAITLIST set_waitlist]. rewrite rerank_keys. split.
  - apply dict_del_keys_incl.
  - apply dict_del_NoDup.
Qed.

Lemma promote_outcome env c d entries : forall st,
  Forall (fun x => entry_parses (snd x)) entries ->
  reservations_ok st -> notifications_ok st ->
  NoDup (dict_keys (WAITLIST st)) ->
  exists st' res,
    promote env st c d entries = (st', Returns res)
    /\ incl (dict_keys (WAITLIST st')) (dict_keys (WAITLIST st))
    /\ match res with
       | None =>
           RESERVATIONS st' = RESERVATIONS st
           /\ NOTIFICATIONS st' = NOTIFICATIONS st
       | Some a =>
           exists id entry,
             In (id, entry) entries
             /\ a = Assigned.mk (Waitlist.user_id entry) c d
                      (Waitlist.start_time entry) (Waitlist.end_time entry)
             /\ RESERVATIONS st'
                = RESERVATIONS st
                  ++ [(reservation_next_id st,
                       Reservation.mk (Waitlist.user_id entry) c d
                         (Waitlist.start_time entry) (Waitlist.end_time entry)
                         [])]
             /\ ~ In id (dict_keys (WAITLIST st'))
             /\ NOTIFICATIONS st'
                = NOTIFICATIONS st
                  ++ [(notification_next_id st,
                       Notification.mk (Waitlist.user_id entry)
                         (reservation_next_id st)
                         (assigned_message env c d
                            (Waitlist.start_time entry)
                            (Waitlist.end_time entry))
                         (now env) false)]
       end.
Proof.
  induction entries as [|[id entry] rest IH]; intros st Hparse Hok Hnok Hnd.
  - exists st, None. split; [reflexivity|]. split; [apply incl_refl|].
    split; reflexivity.
  - cbn [promote].
    inversion Hparse as [|? ? (dobj & sobj & eobj & _ & Hsobj & Heobj) Hrest];
      subst. cbn [snd] in Hsobj, Heobj.
    pose proof (fun st0 => IH st0 Hrest) as IH'. clear IH Hparse.
    rename IH' into IH.
    pose proof Hok as (Hkeys & Hpos & Hwf & Hno).
    rewrite (count_active_is_held env st _ Hwf).
    destruct (3 <=? active_held env st (Waitlist.user_id entry)).
    + set (st1 := fst (cancel_waitlist_entry st id (Waitlist.user_id entry))).
      destruct (cancel_waitlist_entry_reservations st id
                  (Waitlist.user_id entry)) as [Hr1 Hn1].
      destruct (cancel_waitlist_entry_notifications st id
                  (Waitlist.user_id entry)) as [Hm1 Hc1].
      destruct (cancel_waitlist_entry_keys st id (Waitlist.user_id entry))
        as [Hincl1 Hnd1].
      fold st1 in Hr1, Hn1, Hm1, Hc1, Hincl1, Hnd1.
      destruct (IH st1) as (st' & res & Hrun & Hincl & Hres).
      * apply (reservations_ok_frame st st1 Hr1 Hn1 Hok).
      * apply (notifications_ok_frame st st1 Hm1 Hc1 Hnok).
      * exact (Hnd1 Hnd).
      * exists st', res. split; [exact Hrun|].
        split; [intros k Hk; apply Hincl1, Hincl, Hk|].
        destruct res as [a|].
        -- destruct Hres as (id' & entry' & Hin & Ha & Hres & Hgone & Hnot).
           exists id', entry'. split; [now right|]. split; [exact Ha|].
           rewrite Hr1, Hn1 in Hres. rewrite Hm1, Hc1, Hn1 in Hnot.
           repeat split; assumption.
        -- rewrite Hr1, Hm1 in Hres. exact Hres.
    + pose proof (create_reservation_cases env st (Waitlist.user_id entry) c d
                    (Waitlist.start_time entry) (Waitlist.end_time entry)
                    None) as Hcases.
      destruct (first_failure_total env st (Waitlist.user_id entry) c d
                  (Waitlist.start_time entry) (Waitlist.end_time entry)
                  None Hwf (parsed_request_fits d _ _ _ _ Hsobj Heobj))
        as [r Hr].
      rewrite Hr in Hcases. destruct r as [reason|l].
      * rewrite Hcases.
        destruct (IH st Hok Hnok Hnd) as (st' & res & Hrun & Hincl & Hres).
        exists st', res. split; [exact Hrun|]. split; [exact Hincl|].
        destruct res as [a|]; [|exact Hres].
        destruct Hres as (id' & entry' & Hin & Hres).
        exists id', entry'. split; [now right | exact Hres].
      * assert (Hl : l = []).
        { apply first_failure_accepts in Hr.
          destruct Hr as (_ & _ & Hl & _). rewrite Hl.
          apply clean_participants_none. }
        subst l. rewrite Hcases.
        unfold promoted.
        cbn [RESERVATIONS stored set_reservations set_waitlist WAITLIST
             waitlist_next_id].
        rewrite (dict_max_key_add _ _ _ (proj2 Hkeys)).
        destruct (Z.eqb_spec (reservation_next_id st) 0); [lia|].
        eexists. eexists. split; [reflexivity|].
        cbn [fst create_notification WAITLIST set_notifications
             RESERVATIONS NOTIFICATIONS notification_next_id
             set_waitlist set_reservations].
        split.
        { rewrite rerank_keys. apply dict_del_keys_incl. }
        exists id, entry. split; [now left|]. split; [reflexivity|].
        split; [apply dict_set_fresh, below_counter_fresh, Hkeys|].
        split; [rewrite rerank_keys; now apply dict_del_gone|].
        apply dict_set_fresh. now apply below_counter_fresh.
Qed.

Lemma process_waitlist_outcome env st c d s e :
  reservations_ok st -> notifications_ok st ->
  NoDup (dict_keys (WAITLIST st)) -> waitlist_parses st ->
  overflows s = false -> overflows e = false ->
  exists st' res,
    process_waitlist_on_reservation_cancelled env st c d s e
    = (st', Returns res)
    /\ incl (dict_keys (WAITLIST st')) (dict_keys (WAITLIST st))
    /\ match res with
       | None =>
           RESERVATIONS st' = RESERVATIONS st
           /\ NOTIFICATIONS st' = NOTIFICATIONS st
       | Some a =>
           exists id entry cs ce,
             In (id, entry) (WAITLIST st)
             /\ _parse_time s = Some cs /\ _parse_time e = Some ce
             /\ matching c d cs ce (id, entry) = true
             /\ a = Assigned.mk (Waitlist.user_id entry) c d
                      (Waitlist.start_time entry) (Waitlist.end_time entry)
             /\ RESERVATIONS st'
                = RESERVATIONS st
                  ++ [(reservation_next_id st,
                       Reservation.mk (Waitlist.user_id entry) c d
                         (Waitlist.start_time entry) (Waitlist.end_time entry)
                         [])]
             /\ ~ In id (dict_keys (WAITLIST st'))
             /\ NOTIFICATIONS st'
                = NOTIFICATIONS st
                  ++ [(notification_next_id st,
                       Notification.mk (Waitlist.user_id entry)
                         (reservation_next_id st)
                         (assigned_message env c d
                            (Waitlist.start_time entry)
                            (Waitlist.end_time entry))
                         (now env) false)]
       end.
Proof.
  intros Hok Hnok Hnd Hparse Hsfit Hefit.
  unfold process_waitlist_on_reservation_cancelled.
  rewrite Hsfit, Hefit, (parses_no_break c d st Hparse).
  destruct (_parse_time s) as [cs|] eqn:Hs;
    [destruct (_parse_time e) as [ce|] eqn:He|];
    try (exists st, None; split; [reflexivity|]; split; [apply incl_refl|];
         split; reflexivity).
  destruct (promote_outcome env c d
              (sort_by waiting_before
                 (filter (matching c d cs ce) (WAITLIST st)))
              st) as (st' & res & Hrun & Hincl & Hres);
    [|exact Hok|exact Hnok|exact Hnd|].
  { apply Forall_forall. intros x Hx.
    apply (Permutation_in _ (sort_by_perm _ _)) in Hx.
    apply filter_In in Hx. destruct Hx as [Hx _].
    unfold waitlist_parses in Hparse. rewrite Forall_forall in Hparse.
    now apply Hparse. }
  exists st', res. split.
  - destruct (sort_by waiting_before
                (filter (matching c d cs ce) (WAITLIST st))) eqn:Hsorted;
      [|exact Hrun].
    cbn [promote] in Hrun. exact Hrun.
  - split; [exact Hincl|]. destruct res as [a|]; [|exact Hres].
    destruct Hres as (id & entry & Hin & Hrest).
    exists id, entry, cs, ce.
    apply (Permutation_in _ (sort_by_perm _ _)) in Hin.
    apply filter_In in Hin. destruct Hin as [Hin Hmatch].
    split; [exact Hin|]. split; [reflexivity|]. split; [reflexivity|].
    split; [exact Hmatch | exact Hrest].
Qed.

(** X8: in a state the server reaches, offering a freed slot to the
    waitlist returns when the two time texts of the slot do not raise
    [OverflowError]; it adds at most one reservation, for an entry that
    was queued for the classroom and date text with an interval that
    overlaps the freed one, and then takes the entry off the queue and
    notifies its user; otherwise it leaves reservations and notifications
    alone.  It never adds an entry to the waitlist. *)
Theorem promotion_adds_at_most_one env st c d s e :
  reachable st ->
  overflows s = false -> overflows e = false ->
  exists st' res,
    process_waitlist_on_reservation_cancelled env st c d s e
    = (st', Returns res)
    /\ incl (dict_keys (WAITLIST st')) (dict_keys (WAITLIST st))
    /\ match res with
       | None =>
           RESERVATIONS st' = RESERVATIONS st
           /\ NOTIFICATIONS st' = NOTIFICATIONS st
       | Some a =>
           exists id entry cs ce,
             In (id, entry) (WAITLIST st)
             /\ _parse_time s = Some cs /\ _parse_time e = Some ce
             /\ matching c d cs ce (id, entry) = true
             /\ a = Assigned.mk (Waitlist.user_id entry) c d
                      (Waitlist.start_time entry) (Waitlist.end_time entry)
             /\ RESERVATIONS st'
                = RESERVATIONS st
                  ++ [(reservation_next_id st,
                       Reservation.mk (Waitlist.user_id entry) c d
                         (Waitlist.start_time entry) (Waitlist.end_time entry)
                         [])]
             /\ ~ In id (dict_keys (WAITLIST st'))
             /\ NOTIFICATIONS st'
                = NOTIFICATIONS st
                  ++ [(notification_next_id st,
                       Notification.mk (Waitlist.user_id entry)
                         (reservation_next_id st)
                         (assigned_message env c d
                            (Waitlist.start_time entry)
                            (Waitlist.end_time entry))
                         (now env) false)]
       end.
Proof.
  intros Hreach Hs He.
  apply process_waitlist_outcome.
  - exact (reachable_reservations_ok st Hreach).
  - exact (reachable_notifications_ok st Hreach).
  - exact (proj1 (reachable_waitlist_keys st Hreach)).
  - exact (reachable_waitlist_parses st Hreach).
  - exact Hs.
  - exact He.
Qed.

Lemma promotion_adds_at_most_one_witness :
  let env := env_at morning in
  let st :=
    run (CancelReservation 1 "alice")
      (run (CreateWaitlistEntry env "bob" 1 "2030-01-01" "14:00" "15:00")
         (run (CreateReservation env "alice" 1 "2030-01-01" "14:00" "15:00"
                 None) initial)) in
  reachable st
  /\ exists st',
       process_waitlist_on_reservation_cancelled env st 1 "2030-01-01"
         "14:00" "15:00"
       = (st',
          Returns (Some (Assigned.mk "bob" 1 "2030-01-01" "14:00" "15:00")))
       /\ incl (dict_keys (WAITLIST st')) (dict_keys (WAITLIST st)).
Proof.
  intros env st.
  assert (Hreach : reachable st)
    by (apply reachable_run, reachable_run, reachable_run, reachable_initial).
  split; [exact Hreach|].
  destruct (promotion_adds_at_most_one env st 1 "2030-01-01" "14:00" "15:00"
              Hreach ltac:(vm_compute; reflexivity)
              ltac:(vm_compute; reflexivity))
    as (st' & res & Hrun & Hincl & _).
  exists st'. split; [|exact Hincl].
  rewrite Hrun. f_equal. f_equal.
  assert (Hres : snd (process_waitlist_on_reservation_cancelled env st 1
                        "2030-01-01" "14:00" "15:00")
                 = Returns (Some (Assigned.mk "bob" 1 "2030-01-01" "14:00"
                                    "15:00")))
    by (vm_compute; reflexivity).
  rewrite Hrun in Hres. cbn [snd] in Hres. now inversion Hres.
Defined.

(** ** Looking up after a change *)

Lemma dict_get_set_other {V : Type} (k id : Z) (v : V) (d : dict V) :
  k <> id -> dict_get id (dict_set k v d) = dict_get id d.
Proof.
  intros Hne. induction d as [|[k' v'] d IH]; cbn [dict_set dict_get].
  - destruct (Z.eqb_spec k id); [contradiction | reflexivity].
  - destruct (Z.eqb_spec k' k) as [->|Hk]; cbn [dict_get].
    + destruct (Z.eqb_spec k id); [contradiction | reflexivity].
    + destruct (k' =? id); [reflexivity | exact IH].
Qed.

Lemma dict_get_del_other {V : Type} (k id : Z) (d : dict V) :
  k <> id -> dict_get id (dict_del k d) = dict_get id d.
Proof.
  intros Hne. induction d as [|[k' v'] d IH]; cbn [dict_del dict_get].
  - reflexivity.
  - destruct (Z.eqb_spec k' k) as [->|Hk]; cbn [dict_get].
    + destruct (Z.eqb_spec k id); [contradiction | reflexivity].
    + destruct (k' =? id); [reflexivity | exact IH].
Qed.

Lemma dict_get_absent {V : Type} (k : Z) (d : dict V) :
  ~ In k (dict_keys d) -> dict_get k d = None.
Proof.
  induction d as [|[k' v'] d IH]; intros H; cbn [dict_get].
  - reflexivity.
  - destruct (Z.eqb_spec k' k) as [->|Hk].
    + exfalso. apply H. now left.
    + apply IH. intros Hin. apply H. now right.
Qed.

Lemma dict_get_fresh {V : Type} (k : Z) (d : dict V) :
  dict_get k d = None -> ~ In k (dict_keys d).
Proof.
  induction d as [|[k' v'] d IH]; intros Hget Hin; [destruct Hin|].
  cbn [dict_get] in Hget. destruct (Z.eqb_spec k' k); [discriminate|].
  destruct Hin as [Hk|Hk]; [contradiction | exact (IH Hget Hk)].
Qed.

Lemma dict_set_NoDup {V : Type} (k : Z) (v : V) (d : dict V) :
  NoDup (dict_keys d) -> NoDup (dict_keys (dict_set k v d)).
Proof.
  intros Hnd. destruct (dict_get k d) as [v0|] eqn:Hget.
  - now rewrite (dict_set_keys _ _ _ _ Hget).
  - pose proof (dict_get_fresh _ _ Hget) as Hfresh.
    rewrite dict_set_fresh by exact Hfresh.
    unfold dict_keys. rewrite map_app. cbn [map fst].
    apply NoDup_app; [exact Hnd | repeat constructor; intros [] |].
    intros x Hx [Hx'|[]]. subst x. contradiction.
Qed.

Lemma dict_get_del_same {V : Type} (k : Z) (d : dict V) :
  NoDup (dict_keys d) -> dict_get k (dict_del k d) = None.
Proof. intros H. apply dict_get_absent, dict_del_gone, H. Qed.

(** ** Cancelling a reservation *)

(** X9: [cancel_reservation] succeeds exactly for the owner of a stored
    reservation; it then removes that reservation and nothing else, and a
    refusal changes nothing. *)
Theorem cancel_reservation_owner_only st id u :
  reachable st ->
  ((exists r, get_reservation st id = Some r /\ Reservation.user_id r = u) ->
   exists st',
     cancel_reservation st id u = (st', (true, "예약이 취소되었습니다."))
     /\ get_reservation st' id = None
     /\ (forall k, k <> id -> get_reservation st' k = get_reservation st k)
     /\ reservation_next_id st' = reservation_next_id st
     /\ WAITLIST st' = WAITLIST st /\ NOTIFICATIONS st' = NOTIFICATIONS st)
  /\ (~ (exists r, get_reservation st id = Some r
                   /\ Reservation.user_id r = u) ->
      exists msg, cancel_reservation st id u = (st, (false, msg))).
Proof.
  intros Hreach.
  destruct (reachable_reservations_ok st Hreach) as ([Hnd _] & _).
  unfold cancel_reservation, get_reservation. split.
  - intros (r & Hr & Hu). rewrite Hr, Hu, String.eqb_refl. cbn [negb].
    eexists. split; [reflexivity|]. cbn [RESERVATIONS set_reservations].
    split; [now apply dict_get_del_same|].
    split; [intros k Hk; now apply dict_get_del_other|].
    repeat split.
  - intros Hnot. destruct (dict_get id (RESERVATIONS st)) as [r|];
      [|eexists; reflexivity].
    destruct (String.eqb_spec (Reservation.user_id r) u) as [Hu|Hu];
      [|eexists; reflexivity].
    exfalso. apply Hnot. exists r. now split.
Qed.

Lemma cancel_reservation_owner_only_witness :
  let env := env_at morning in
  let st :=
    run (CreateReservation env "alice" 1 "2030-01-01" "14:00" "15:00"
           (Some ["bob"])) initial in
  reachable st
  /\ (exists msg, cancel_reservation st 1 "bob" = (st, (false, msg)))
  /\ exists st',
       cancel_reservation st 1 "alice" = (st', (true, "예약이 취소되었습니다."))
       /\ get_reservation st' 1 = None.
Proof.
  intros env st.
  assert (Hreach : reachable st) by (apply reachable_run, reachable_initial).
  split; [exact Hreach|]. split.
  - apply (proj2 (cancel_reservation_owner_only st 1 "bob" Hreach)).
    intros (r & Hr & Hu).
    assert (Hr' : get_reservation st 1
                  = Some (Reservation.mk "alice" 1 "2030-01-01" "14:00"
                            "15:00" ["bob"])) by (vm_compute; reflexivity).
    rewrite Hr' in Hr. inversion Hr; subst r. discriminate Hu.
  - destruct (proj1 (cancel_reservation_owner_only st 1 "alice" Hreach))
      as (st' & Hcancel & Hgone & _).
    + eexists. split; [vm_compute; reflexivity | reflexivity].
    + exists st'. split; assumption.
Defined.

(** ** Identifiers are for ever *)

Lemma run_keeps_reservation id n v o st :
  id < n ->
  keys_fresh (RESERVATIONS st) (reservation_next_id st)
  /\ n <= reservation_next_id st
  /\ (dict_get id (RESERVATIONS st) = v \/ dict_get id (RESERVATIONS st) = None)
  ->
  keys_fresh (RESERVATIONS (run o st)) (reservation_next_id (run o st))
  /\ n <= reservation_next_id (run o st)
  /\ (dict_get id (RESERVATIONS (run o st)) = v
      \/ dict_get id (RESERVATIONS (run o st)) = None).
Proof.
  intros Hid.
  set (P := fun st : State =>
    keys_fresh (RESERVATIONS st) (reservation_next_id st)
    /\ n <= reservation_next_id st
    /\ (dict_get id (RESERVATIONS st) = v
        \/ dict_get id (RESERVATIONS st) = None)).
  assert (Hframe : forall st st',
             RESERVATIONS st' = RESERVATIONS st
             /\ reservation_next_id st' = reservation_next_id st ->
             P st -> P st').
  { intros st0 st' [Hr Hn]. unfold P. now rewrite Hr, Hn. }
  assert (Hcreate : forall env st u c d s e ps,
             P st -> P (fst (create_reservation env st u c d s e ps))).
  { intros env0 st0 u c d s e ps H0.
    destruct (create_reservation_state env0 st0 u c d s e ps) as [->|[_ ->]];
      [exact H0|].
    destruct H0 as (Hk & Hn & Hv). unfold P, stored.
    cbn [RESERVATIONS reservation_next_id set_reservations].
    split; [now apply keys_fresh_add|]. split; [lia|].
    rewrite dict_get_set_other by lia. exact Hv. }
  assert (Hdel : forall st k,
             P st ->
             P (set_reservations st (dict_del k (RESERVATIONS st))
                  (reservation_next_id st))).
  { intros st0 k (Hk & Hn & Hv). unfold P.
    cbn [RESERVATIONS reservation_next_id set_reservations].
    split; [now apply keys_fresh_del|]. split; [exact Hn|].
    destruct (Z.eq_dec k id) as [->|Hne].
    - right. apply dict_get_del_same, Hk.
    - rewrite dict_get_del_other by exact Hne. exact Hv. }
  change (P st -> P (run o st)). intros H. destruct o; cbn [run].
  - now apply Hcreate.
  - unfold cancel_reservation.
    destruct (dict_get reservation_id (RESERVATIONS st)); [|exact H].
    destruct (negb _); [exact H|]. cbn [fst]. now apply Hdel.
  - unfold delete_reservation.
    destruct (dict_mem reservation_id (RESERVATIONS st)); [|exact H].
    cbn [fst]. now apply Hdel.
  - apply (process_waitlist_keeps P); try exact H.
    + exact Hcreate.
    + intros st0 wid u. apply Hframe, cancel_waitlist_entry_reservations.
    + intros env0 st0 c d wid entry. apply Hframe, promoted_reservations.
  - revert H. apply Hframe, create_waitlist_entry_reservations.
  - revert H. apply Hframe, cancel_waitlist_entry_reservations.
  - revert H. apply Hframe.
    split; [exact (proj1 (scan_frame env st))
           |exact (proj1 (proj2 (scan_frame env st)))].
  - revert H. apply Hframe, mark_as_read_reservations.
  - revert H. apply Hframe. now split.
Qed.

(** X10: a reservation id names one reservation for ever: whatever the
    server does next, an id the counter has passed finds the record it
    finds now, or nothing once that record is gone; the ids from the
    counter on are free, and the counter never goes back. *)
Theorem reservations_are_never_edited st :
  reachable st ->
  (forall id, reservation_next_id st <= id -> get_reservation st id = None)
  /\ forall ops id,
       id < reservation_next_id st ->
       reservation_next_id st <= reservation_next_id (run_all ops st)
       /\ (get_reservation (run_all ops st) id = get_reservation st id
           \/ get_reservation (run_all ops st) id = None).
Proof.
  intros Hreach.
  destruct (reachable_reservations_ok st Hreach) as (Hkeys & _).
  split.
  - intros id Hid. apply dict_get_absent. intros Hin.
    destruct Hkeys as [_ Hbelow]. rewrite Forall_forall in Hbelow.
    specialize (Hbelow id Hin). lia.
  - intros ops id Hid. unfold get_reservation.
    set (n := reservation_next_id st) in *.
    set (v := dict_get id (RESERVATIONS st)).
    assert (H : keys_fresh (RESERVATIONS st) (reservation_next_id st)
                /\ n <= reservation_next_id st
                /\ (dict_get id (RESERVATIONS st) = v
                    \/ dict_get id (RESERVATIONS st) = None)).
    { split; [exact Hkeys|]. split; [unfold n; lia | now left]. }
    clearbody n v. clear Hreach Hkeys. revert st H.
    induction ops as [|o ops IH]; intros st H.
    + exact (proj2 H).
    + cbn [run_all fold_left]. apply (IH (run o st)).
      now apply run_keeps_reservation.
Qed.

Lemma reservations_are_never_edited_witness :
  let env := env_at morning in
  let st :=
    run (CancelReservation 1 "alice")
      (run (CreateReservation env "alice" 1 "2030-01-01" "14:00" "15:00"
              None) initial) in
  let ops :=
    [CreateReservation env "bob" 1 "2030-01-01" "14:00" "15:00" None] in
  reachable st
  /\ dict_keys (RESERVATIONS (run_all ops st)) = [2]
  /\ get_reservation (run_all ops st) 1 = None.
Proof.
  intros env st ops.
  assert (Hreach : reachable st)
    by (apply reachable_run, reachable_run, reachable_initial).
  split; [exact Hreach|]. split; [vm_compute; reflexivity|].
  destruct (proj2 (reservations_are_never_edited st Hreach) ops 1
              ltac:(vm_compute; reflexivity)) as [_ [H|H]].
  - rewrite H. vm_compute. reflexivity.
  - exact H.
Defined.

(** ** Notifications are kept *)

Lemma same_notice_refl n : same_notice n n.
Proof. repeat split. auto. Qed.

Lemma same_notice_read n n' :
  same_notice n n' -> same_notice n (set_read n').
Proof. intros (? & ? & ? & ? & ?). repeat split; assumption. Qed.

Lemma dict_get_app {V : Type} (id : Z) (d d' : dict V) :
  dict_get id (d ++ d')
  = match dict_get id d with Some v => Some v | None => dict_get id d' end.
Proof.
  induction d as [|[k v] d IH]; cbn [app dict_get]; [reflexivity|].
  destruct (k =? id); [reflexivity | exact IH].
Qed.

Lemma dict_get_In_keys {V : Type} (id : Z) (v : V) (d : dict V) :
  dict_get id d = Some v -> In id (dict_keys d).
Proof.
  intros H. apply dict_get_In in H. unfold dict_keys.
  change id with (fst (id, v)). now apply in_map.
Qed.

Lemma create_reservation_notifications env st u c d s e ps :
  NOTIFICATIONS (fst (create_reservation env st u c d s e ps))
  = NOTIFICATIONS st
  /\ notification_next_id (fst (create_reservation env st u c d s e ps))
     = notification_next_id st.
Proof.
  destruct (create_reservation_state env st u c d s e ps) as [->|[_ ->]];
    now split.
Qed.

Lemma create_notification_keeps env st u rid m id n :
  notifications_ok st ->
  dict_get id (NOTIFICATIONS st) = Some n ->
  dict_get id (NOTIFICATIONS (fst (create_notification env st u rid m)))
  = Some n.
Proof.
  intros Hok Hget.
  rewrite (proj1 (create_notification_appends env st u rid m Hok)).
  now rewrite dict_get_app, Hget.
Qed.

Lemma run_keeps_notice id n o st :
  notifications_ok st ->
  (exists n', dict_get id (NOTIFICATIONS st) = Some n' /\ same_notice n n') ->
  exists n', dict_get id (NOTIFICATIONS (run o st)) = Some n'
             /\ same_notice n n'.
Proof.
  set (P := fun st : State =>
    notifications_ok st
    /\ exists n', dict_get id (NOTIFICATIONS st) = Some n'
                  /\ same_notice n n').
  assert (Hframe : forall st st',
             NOTIFICATIONS st' = NOTIFICATIONS st
             /\ notification_next_id st' = notification_next_id st ->
             P st -> P st').
  { intros st0 st' [Hn Hc] [Hok H]. split.
    - exact (notifications_ok_frame st0 st' Hn Hc Hok).
    - now rewrite Hn. }
  intros Hok H. assert (HP : P st) by (split; assumption).
  enough (HP' : P (run o st)) by exact (proj2 HP').
  clear Hok H. destruct o; cbn [run].
  - revert HP. apply Hframe, create_reservation_notifications.
  - revert HP. apply Hframe. unfold cancel_reservation.
    destruct (dict_get reservation_id (RESERVATIONS st)); [|now split].
    destruct (negb _); now split.
  - revert HP. apply Hframe. unfold delete_reservation.
    destruct (dict_mem reservation_id (RESERVATIONS st)); now split.
  - apply (process_waitlist_keeps P); try exact HP.
    + intros env0 st0 u c d s e ps.
      apply Hframe, create_reservation_notifications.
    + intros st0 wid u. apply Hframe, cancel_waitlist_entry_notifications.
    + intros env0 st0 c d wid entry [Hok (n' & Hget & Hsame)].
      unfold promoted.
      set (st1 := set_waitlist st0 _ _).
      assert (H1 : P st1) by (split; [exact Hok | now exists n']).
      destruct (dict_max_key (RESERVATIONS st1)) as [rid|]; [|exact H1].
      destruct (rid =? 0); [exact H1|].
      split; [now apply create_notification_appends|].
      exists n'. split; [|exact Hsame].
      now apply create_notification_keeps.
  - revert HP. apply Hframe. unfold create_waitlist_entry.
    destruct (count_active_reservations env st user_id); [|now split].
    destruct (3 <=? _); [now split|].
    destruct (_parse_date _); [|now split].
    destruct (_parse_time start_time_str); [|now split].
    destruct (_parse_time end_time_str); [|now split].
    destruct (existsb _ _); now split.
  - revert HP. apply Hframe, cancel_waitlist_entry_notifications.
  - destruct HP as [Hok (n' & Hget & Hsame)].
    unfold check_and_create_notifications.
    destruct (scan_prefix env (RESERVATIONS st) st) as (seen & rest & _ & ->).
    destruct (check_loop_appends env seen st Hok)
      as ([extra Hextra] & Hok' & _).
    split; [exact Hok'|]. exists n'. split; [|exact Hsame].
    now rewrite Hextra, dict_get_app, Hget.
  - split; [apply run_keeps_notifications_ok with (o := MarkAsRead _ _);
            exact (proj1 HP)|].
    destruct HP as [Hok (n' & Hget & Hsame)]. unfold mark_as_read.
    destruct (dict_get notification_id (NOTIFICATIONS st)) as [m|] eqn:Hm;
      [|now exists n'].
    destruct (negb _); [now exists n'|].
    cbn [fst NOTIFICATIONS set_notifications].
    destruct (Z.eq_dec notification_id id) as [->|Hne].
    + rewrite dict_get_set. exists (set_read m). split; [reflexivity|].
      rewrite Hget in Hm. inversion Hm; subst m.
      now apply same_notice_read.
    + rewrite dict_get_set_other by exact Hne. now exists n'.
  - split; [apply run_keeps_notifications_ok with (o := MarkAllAsRead _);
            exact (proj1 HP)|].
    destruct HP as [Hok (n' & Hget & Hsame)].
    cbn [fst mark_all_as_read NOTIFICATIONS set_notifications].
    revert Hget. induction (NOTIFICATIONS st) as [|[k v] l IH];
      [discriminate|].
    cbn [map dict_get fst snd].
    destruct (String.eqb (Notification.user_id v) user_id
              && negb (Notification.read v)); cbn [dict_get];
      destruct (k =? id); try exact IH; intros Hv; inversion Hv; subst v.
    + exists (set_read n'). split; [reflexivity | now apply same_notice_read].
    + now exists n'.
Qed.

(** X11: a notification is never deleted and never rewritten: whatever the
    server does next, its id finds the same user, reservation, message and
    time, and a notification that was read stays read. *)
Theorem notifications_are_never_lost st ops id n :
  reachable st ->
  dict_get id (NOTIFICATIONS st) = Some n ->
  exists n',
    dict_get id (NOTIFICATIONS (run_all ops st)) = Some n'
    /\ same_notice n n'.
Proof.
  intros Hreach Hget.
  pose proof (reachable_notifications_ok st Hreach) as Hok.
  assert (H : exists n', dict_get id (NOTIFICATIONS st) = Some n'
                         /\ same_notice n n')
    by (exists n; split; [exact Hget | apply same_notice_refl]).
  clear Hreach Hget. revert st Hok H.
  induction ops as [|o ops IH]; intros st Hok H.
  - exact H.
  - cbn [run_all fold_left]. apply (IH (run o st)).
    + now apply run_keeps_notifications_ok.
    + now apply run_keeps_notice.
Qed.

Lemma notifications_are_never_lost_witness :
  let st :=
    run (CheckNotifications (env_at (morning + 30 * us_per_minute)))
      (run (CreateReservation (env_at morning) "alice" 1 "2029-12-30"
              "10:00" "11:00" None) initial) in
  let ops := [MarkAllAsRead "alice"; CancelReservation 1 "alice"] in
  reachable st
  /\ exists n n',
       dict_get 1 (NOTIFICATIONS st) = Some n
       /\ dict_get 1 (NOTIFICATIONS (run_all ops st)) = Some n'
       /\ Notification.message n' = Notification.message n.
Proof.
  intros st ops.
  assert (Hreach : reachable st)
    by (apply reachable_run, reachable_run, reachable_initial).
  split; [exact Hreach|].
  assert (Hget : exists n, dict_get 1 (NOTIFICATIONS st) = Some n)
    by (eexists; vm_compute; reflexivity).
  destruct Hget as [n Hget].
  destruct (notifications_are_never_lost st ops 1 n Hreach Hget)
    as (n' & Hget' & Hsame).
  exists n, n'. split; [exact Hget|]. split; [exact Hget'|].
  apply Hsame.
Defined.

(** ** Reading notifications *)

Lemma count_if_map {A B : Type} (p : B -> bool) (f : A -> B) l :
  count_if p (map f l) = count_if (fun x => p (f x)) l.
Proof.
  unfold count_if. rewrite filter_map_swap, length_map. reflexivity.
Qed.

Lemma count_if_ext {A : Type} (p q : A -> bool) l :
  (forall x, In x l -> p x = q x) -> count_if p l = count_if q l.
Proof.
  intros H. unfold count_if. now rewrite (filter_ext_in _ _ _ H).
Qed.

Lemma mark_all_values st u :
  dict_values (NOTIFICATIONS (fst (mark_all_as_read st u)))
  = map (fun n => if String.eqb (Notification.user_id n) u
                     && negb (Notification.read n)
                  then set_read n else n)
        (dict_values (NOTIFICATIONS st)).
Proof.
  cbn [fst mark_all_as_read NOTIFICATIONS set_notifications].
  unfold dict_values. rewrite !map_map. apply map_ext. intros [k v].
  cbn [fst snd]. now destruct (_ && _).
Qed.

Lemma mark_all_keys st u :
  dict_keys (NOTIFICATIONS (fst (mark_all_as_read st u)))
  = dict_keys (NOTIFICATIONS st).
Proof.
  cbn [fst mark_all_as_read NOTIFICATIONS set_notifications].
  unfold dict_keys. rewrite map_map. apply map_ext. intros [k v].
  now destruct (_ && _).
Qed.

(** X12: [mark_all_as_read] returns the number of unread notifications of
    the user and leaves none unread; the other users' counts, and the ids,
    stay as they were, and a second call finds nothing to mark. *)
Theorem mark_all_as_read_clears st u :
  snd (mark_all_as_read st u) = get_unread_count st u
  /\ get_unread_count (fst (mark_all_as_read st u)) u = 0
  /\ (forall v, v <> u ->
        get_unread_count (fst (mark_all_as_read st u)) v
        = get_unread_count st v)
  /\ dict_keys (NOTIFICATIONS (fst (mark_all_as_read st u)))
     = dict_keys (NOTIFICATIONS st)
  /\ mark_all_as_read (fst (mark_all_as_read st u)) u
     = (fst (mark_all_as_read st u), 0).
Proof.
  assert (Hzero : get_unread_count (fst (mark_all_as_read st u)) u = 0).
  { unfold get_unread_count. rewrite mark_all_values, count_if_map.
    apply count_if_none. intros n _.
    destruct (String.eqb (Notification.user_id n) u) eqn:Hu;
      destruct (Notification.read n) eqn:Hr; cbn [negb andb];
      cbn [set_read Notification.user_id Notification.read];
      rewrite ?Hu, ?Hr; reflexivity. }
  split; [reflexivity|]. split; [exact Hzero|]. split; [|split].
  - intros v Hv. unfold get_unread_count.
    rewrite mark_all_values, count_if_map. apply count_if_ext. intros n _.
    destruct (String.eqb_spec (Notification.user_id n) u) as [Hu|Hu];
      [|reflexivity].
    destruct (Notification.read n) eqn:Hr; cbn [negb andb];
      [rewrite Hr; reflexivity|].
    cbn [set_read Notification.user_id Notification.read]. rewrite Hu.
    destruct (String.eqb_spec u v); [congruence | reflexivity].
  - apply mark_all_keys.
  - assert (Hsnd : snd (mark_all_as_read (fst (mark_all_as_read st u)) u) = 0)
      by exact Hzero.
    assert (Hfst : fst (mark_all_as_read (fst (mark_all_as_read st u)) u)
                   = fst (mark_all_as_read st u)).
    { cbn [fst mark_all_as_read NOTIFICATIONS set_notifications
           RESERVATIONS reservation_next_id WAITLIST waitlist_next_id
           notification_next_id].
      unfold set_notifications. cbn [RESERVATIONS reservation_next_id WAITLIST
        waitlist_next_id]. f_equal.
      rewrite map_map. apply map_ext. intros [k n]. cbn [fst snd].
      destruct (String.eqb (Notification.user_id n) u) eqn:Hu;
        destruct (Notification.read n) eqn:Hr; cbn [negb andb fst snd];
        cbn [set_read Notification.user_id Notification.read];
        rewrite ?Hu, ?Hr; reflexivity. }
    destruct (mark_all_as_read (fst (mark_all_as_read st u)) u) as [st2 k].
    cbn [fst snd] in Hsnd, Hfst. now subst.
Qed.

Lemma count_if_set_first (p : Notification.t -> bool) id n n'
    (d : dict Notification.t) :
  dict_get id d = Some n ->
  count_if p (dict_values (dict_set id n' d))
  = count_if p (dict_values d)
    - (if p n then 1 else 0) + (if p n' then 1 else 0).
Proof.
  induction d as [|[k v] d IH]; [discriminate|].
  cbn [dict_get dict_set]. destruct (k =? id).
  - intros Hv. inversion Hv; subst v.
    change (dict_values ((id, n') :: d)) with (n' :: dict_values d).
    change (dict_values ((k, n) :: d)) with (n :: dict_values d).
    rewrite !count_if_cons. lia.
  - intros Hv.
    change (dict_values ((k, v) :: dict_set id n' d))
      with (v :: dict_values (dict_set id n' d)).
    change (dict_values ((k, v) :: d)) with (v :: dict_values d).
    rewrite !count_if_cons, (IH Hv). lia.
Qed.

(** X13: [mark_as_read] answers [False] and changes nothing for an unknown
    id or somebody else's notification; otherwise it sets the flag of that
    one notification, which lowers the user's unread count by one when it
    was unread, and touches no other notification or count. *)
Theorem mark_as_read_marks_one st id u :
  match dict_get id (NOTIFICATIONS st) with
  | Some n =>
      if String.eqb (Notification.user_id n) u then
        snd (mark_as_read st id u) = true
        /\ dict_get id (NOTIFICATIONS (fst (mark_as_read st id u)))
           = Some (set_read n)
        /\ (forall k, k <> id ->
              dict_get k (NOTIFICATIONS (fst (mark_as_read st id u)))
              = dict_get k (NOTIFICATIONS st))
        /\ get_unread_count (fst (mark_as_read st id u)) u
           = get_unread_count st u
             - (if Notification.read n then 0 else 1)
        /\ (forall v, v <> u ->
              get_unread_count (fst (mark_as_read st id u)) v
              = get_unread_count st v)
        /\ fst (mark_as_read (fst (mark_as_read st id u)) id u)
           = fst (mark_as_read st id u)
      else mark_as_read st id u = (st, false)
  | None => mark_as_read st id u = (st, false)
  end.
Proof.
  unfold mark_as_read.
  destruct (dict_get id (NOTIFICATIONS st)) as [n|] eqn:Hn; [|reflexivity].
  destruct (String.eqb_spec (Notification.user_id n) u) as [Hu|Hu];
    [|reflexivity].
  cbn [negb fst snd NOTIFICATIONS set_notifications].
  split; [reflexivity|]. split; [apply dict_get_set|].
  split; [intros k Hk; now apply dict_get_set_other|]. split; [|split].
  - unfold get_unread_count. cbn [NOTIFICATIONS set_notifications].
    rewrite (count_if_set_first _ id n (set_read n) _ Hn).
    cbn [set_read Notification.user_id Notification.read negb].
    rewrite Hu, String.eqb_refl, andb_false_r. cbn [andb].
    destruct (Notification.read n); cbn [negb]; lia.
  - intros v Hv. unfold get_unread_count.
    cbn [NOTIFICATIONS set_notifications].
    rewrite (count_if_set_first _ id n (set_read n) _ Hn).
    cbn [set_read Notification.user_id Notification.read negb].
    rewrite Hu. destruct (String.eqb_spec u v); [congruence|].
    cbn [andb]. lia.
  - rewrite dict_get_set.
    cbn [set_read Notification.user_id]. rewrite Hu, String.eqb_refl.
    cbn [negb fst]. unfold set_notifications.
    cbn [RESERVATIONS reservation_next_id WAITLIST waitlist_next_id
         NOTIFICATIONS notification_next_id]. f_equal.
    clear Hu. revert Hn. induction (NOTIFICATIONS st) as [|[k v] l IH];
      [discriminate|].
    cbn [dict_get dict_set]. destruct (k =? id) eqn:Hk.
    + intros _. cbn [dict_set]. rewrite Z.eqb_refl. reflexivity.
    + intros Hv. cbn [dict_set]. rewrite Hk. f_equal. exact (IH Hv).
Qed.

Lemma StronglySorted_weaken {A : Type} (R R' : A -> A -> Prop) l :
  (forall a b, R a b -> R' a b) ->
  StronglySorted R l -> StronglySorted R' l.
Proof.
  intros Himp. induction 1 as [|x l Hl IH Hall]; constructor.
  - exact IH.
  - eapply Forall_impl; [|exact Hall]. intros b. apply Himp.
Qed.

(** X14: the list of a user's notifications holds the user's notifications
    (the unread ones, when asked), each once, newest first; the unread
    list is part of the full one and as long as the unread count. *)
Theorem get_user_notifications_newest_first st u unread_only :
  Permutation (get_user_notifications st u unread_only)
    (filter (fun n => String.eqb (Notification.user_id (snd n)) u
                      && (negb unread_only || negb (Notification.read (snd n))))
            (NOTIFICATIONS st))
  /\ StronglySorted
       (fun a b => Notification.created_at (snd b)
                   <= Notification.created_at (snd a))
       (get_user_notifications st u unread_only)
  /\ Z.of_nat (List.length (get_user_notifications st u true))
     = get_unread_count st u
  /\ incl (get_user_notifications st u true)
          (get_user_notifications st u false).
Proof.
  assert (Hperm : forall b,
    Permutation (get_user_notifications st u b)
      (filter (fun n => String.eqb (Notification.user_id (snd n)) u
                        && (negb b || negb (Notification.read (snd n))))
              (NOTIFICATIONS st))).
  { intros b. unfold get_user_notifications.
    eapply Permutation_trans; [apply sort_by_perm|].
    destruct b; cbn [negb orb].
    - rewrite filter_filter. apply Permutation_refl.
    - erewrite filter_ext; [apply Permutation_refl|].
      intros n. cbv beta. now rewrite andb_true_r. }
  split; [apply Hperm|]. split; [|split].
  - unfold get_user_notifications.
    eapply StronglySorted_weaken;
      [|apply sort_by_StronglySorted].
    + intros a b H. cbv beta in H. apply Z.leb_le. exact H.
    + intros a b. destruct (Z.leb_spec (Notification.created_at (snd b))
                              (Notification.created_at (snd a)));
        [now left|]. right. apply Z.leb_le. lia.
    + intros a b c Hab Hbc. apply Z.leb_le in Hab, Hbc. apply Z.leb_le. lia.
  - rewrite (Permutation_length (Hperm true)). cbn [negb orb].
    unfold get_unread_count, count_if, dict_values.
    rewrite filter_map_swap, length_map. reflexivity.
  - intros n Hn.
    apply (Permutation_in _ (Hperm true)) in Hn.
    apply (Permutation_in _ (Permutation_sym (Hperm false))).
    apply filter_In in Hn. apply filter_In. cbn [negb orb] in *.
    destruct Hn as [Hin Hp]. split; [exact Hin|].
    apply andb_true_iff in Hp. rewrite (proj1 Hp). reflexivity.
Qed.

(** ** What the scan writes *)

Lemma notify_participants_extra env rid m ps : forall st,
  notifications_ok st ->
  exists extra,
    NOTIFICATIONS (notify_participants env st rid m ps)
    = NOTIFICATIONS st ++ extra
    /\ map (fun kv => Notification.user_id (snd kv)) extra
       = filter (get_user env) ps
    /\ Forall (fun kv =>
                 snd kv
                 = Notification.mk (Notification.user_id (snd kv)) rid m
                     (now env) false)
              extra.
Proof.
  induction ps as [|p ps IH]; intros st Hok.
  - exists []. split; [now rewrite app_nil_r|]. split; [reflexivity|constructor].
  - rewrite notify_participants_cons. cbn [filter].
    destruct (get_user env p).
    + destruct (create_notification_appends env st p rid m Hok)
        as [Happ Hok'].
      destruct (IH _ Hok') as (extra & Hextra & Husers & Hall).
      eexists (_ :: extra). split; [|split].
      * rewrite Hextra, Happ, <- app_assoc. reflexivity.
      * cbn [map snd Notification.user_id]. now rewrite Husers.
      * constructor; [reflexivity | exact Hall].
    + exact (IH st Hok).
Qed.

Lemma check_one_extra env st item :
  notifications_ok st ->
  exists extra,
    NOTIFICATIONS (check_one env st item) = NOTIFICATIONS st ++ extra
    /\ Forall (fun kv => reminds env item (snd kv)) extra
    /\ (extra <> [] ->
        due env (snd item) = true /\ has_reminder st item = false).
Proof.
  intros Hok. destruct item as [id r].
  destruct (due env r) eqn:Hdue.
  2:{ exists []. rewrite (check_one_skip env st (id, r)) by (now left).
      split; [now rewrite app_nil_r|]. split; [constructor|]. now intros []. }
  destruct (has_reminder st (id, r)) eqn:Hrem.
  1:{ exists []. rewrite (check_one_skip env st (id, r)) by (now right).
      split; [now rewrite app_nil_r|]. split; [constructor|]. now intros []. }
  pose proof Hdue as Hdue0.
  unfold check_one. unfold due in Hdue. cbn [snd] in Hdue.
  destruct (_parse_date (Reservation.date r)) as [dd|]; [|discriminate].
  destruct (_parse_time (Reservation.start_time r)) as [ss|]; [|discriminate].
  rewrite Hdue. unfold has_reminder in Hrem. cbn [fst snd] in Hrem.
  rewrite Hrem. cbn [negb].
  destruct (create_notification_appends env st (Reservation.user_id r) id
              (reminder_message env r) Hok) as [Happ Hok'].
  destruct (notify_participants_extra env id (reminder_message env r)
              (Reservation.participants r) _ Hok')
    as (extra & Hextra & Husers & Hall).
  eexists (_ :: extra). split; [|split].
  - rewrite Hextra, Happ, <- app_assoc. reflexivity.
  - constructor.
    + unfold reminds. cbn. repeat split. now left.
    + rewrite Forall_forall in Hall. apply Forall_forall. intros kv Hkv.
      rewrite (Hall kv Hkv). unfold reminds. cbn.
      repeat split. right.
      assert (Hin : In (Notification.user_id (snd kv))
                       (filter (get_user env) (Reservation.participants r))).
      { rewrite <- Husers.
        apply (in_map (fun kv => Notification.user_id (snd kv))), Hkv. }
      apply filter_In in Hin. exact Hin.
  - intros _. split; [exact Hdue0 | reflexivity].
Qed.

Lemma check_loop_extra env items : forall st,
  notifications_ok st ->
  exists extra,
    NOTIFICATIONS (fold_left (check_one env) items st)
    = NOTIFICATIONS st ++ extra
    /\ Forall (fun kv =>
                 exists item, In item items /\ due env (snd item) = true
                              /\ reminds env item (snd kv))
              extra.
Proof.
  induction items as [|item items IH]; intros st Hok.
  - exists []. split; [now rewrite app_nil_r | constructor].
  - cbn [fold_left].
    destruct (check_one_extra env st item Hok) as (e1 & H1 & Hall1 & Hdue1).
    destruct (check_one_appends env st item Hok) as (_ & Hok1 & _).
    destruct (IH _ Hok1) as (e2 & H2 & Hall2).
    exists (e1 ++ e2). split.
    + rewrite H2, H1, <- app_assoc. reflexivity.
    + apply Forall_app. split.
      * destruct e1 as [|x e1]; [constructor|].
        destruct Hdue1 as [Hdue _]; [discriminate|].
        eapply Forall_impl; [|exact Hall1].
        intros kv Hkv. exists item. split; [now left|]. now split.
      * eapply Forall_impl; [|exact Hall2].
        intros kv (it & Hin & Hd & Hr). exists it. split; [now right|].
        now split.
Qed.

(** X15: in a state the server reaches, the scan only adds notifications,
    after the ones there are, and every one it adds is an unread reminder
    for a stored reservation that starts thirty minutes from now, give or
    take five, addressed to its owner or to a registered participant;
    reservations and waitlist are left as they are. *)
Theorem check_and_create_notifications_only_reminds env st :
  reachable st ->
  exists extra,
    NOTIFICATIONS (check_and_create_notifications env st)
    = NOTIFICATIONS st ++ extra
    /\ Forall (fun kv =>
                 exists item,
                   In item (RESERVATIONS st) /\ due env (snd item) = true
                   /\ reminds env item (snd kv))
              extra
    /\ RESERVATIONS (check_and_create_notifications env st) = RESERVATIONS st
    /\ WAITLIST (check_and_create_notifications env st) = WAITLIST st.
Proof.
  intros Hreach.
  pose proof (reachable_notifications_ok st Hreach) as Hok.
  destruct (reachable_reservations_ok st Hreach) as (_ & _ & Hwf & _).
  unfold check_and_create_notifications.
  rewrite (scan_all env (RESERVATIONS st) st (scan_well_formed _ Hwf)).
  destruct (check_loop_extra env (RESERVATIONS st) st Hok)
    as (extra & Hextra & Hall).
  exists extra. split; [exact Hextra|]. split; [exact Hall|].
  split; [apply check_loop_reservations | apply check_loop_waitlist].
Qed.

Lemma check_and_create_notifications_only_reminds_witness :
  let st :=
    run (CreateReservation (env_at morning) "alice" 1 "2029-12-30"
           "10:00" "11:00" (Some ["bob"])) initial in
  let env := env_at (morning + 30 * us_per_minute) in
  reachable st
  /\ exists extra,
       NOTIFICATIONS (check_and_create_notifications env st)
       = NOTIFICATIONS st ++ extra
       /\ map (fun kv => Notification.user_id (snd kv)) extra
          = ["alice"; "bob"].
Proof.
  intros st env.
  assert (Hreach : reachable st) by (apply reachable_run, reachable_initial).
  split; [exact Hreach|].
  destruct (check_and_create_notifications_only_reminds env st Hreach)
    as (extra & Hextra & _).
  exists extra. split; [exact Hextra|].
  assert (Hall : map (fun kv => Notification.user_id (snd kv))
                   (NOTIFICATIONS (check_and_create_notifications env st))
                 = ["alice"; "bob"]) by (vm_compute; reflexivity).
  rewrite Hextra in Hall. exact Hall.
Defined.

(** ** The scheduled reminder *)

(** The reservation with another start text: the message of a scheduled
    reminder quotes the start it is given, not the stored one. *)
Lemma scheduled_message env r s :
  "[" +++ classroom_name env (Reservation.classroom_id r) +++ "] 예약이 "
  +++ s +++ "에 시작됩니다. (30분 전 알림)"
  = reminder_message env
      (Reservation.mk (Reservation.user_id r) (Reservation.classroom_id r)
         (Reservation.date r) s (Reservation.end_time r)
         (Reservation.participants r)).
Proof. reflexivity. Qed.

Lemma notify_participants_frame env rid m ps st :
  RESERVATIONS (notify_participants env st rid m ps) = RESERVATIONS st
  /\ WAITLIST (notify_participants env st rid m ps) = WAITLIST st.
Proof.
  split; [apply notify_participants_reservations
         | apply notify_participants_waitlist].
Qed.

Lemma schedule_cases env st id u d s ps :
  match _parse_date d, _parse_time s with
  | Some dd, None =>
      schedule_reservation_notification env st id u d s ps
      = if overflows s then Raises else Returns st
  | Some dd, Some ss =>
      if combine dd ss - 30 * us_per_minute <? datetime_min
      then schedule_reservation_notification env st id u d s ps = Raises
      else if combine dd ss - 30 * us_per_minute <=? now env
      then schedule_reservation_notification env st id u d s ps = Returns st
      else
        match get_reservation st id with
        | None =>
            schedule_reservation_notification env st id u d s ps = Returns st
        | Some r =>
            let m :=
              reminder_message env
                (Reservation.mk (Reservation.user_id r)
                   (Reservation.classroom_id r) (Reservation.date r) s
                   (Reservation.end_time r) (Reservation.participants r)) in
            schedule_reservation_notification env st id u d s ps
            = Returns
                (notify_participants env
                   (fst (create_notification env st u id m)) id m
                   (match ps with Some l => l | None => [] end))
        end
  | _, _ => schedule_reservation_notification env st id u d s ps = Returns st
  end.
Proof.
  unfold schedule_reservation_notification.
  destruct (_parse_date d); [|reflexivity].
  destruct (_parse_time s); [|reflexivity].
  destruct (_ <? datetime_min); [reflexivity|].
  destruct (_ <=? now env); [reflexivity|].
  destruct (get_reservation st id); reflexivity.
Qed.

Lemma schedule_outcome env st id u d s ps st' :
  notifications_ok st ->
  schedule_reservation_notification env st id u d s ps = Returns st' ->
  let ready :=
    exists r dd ss,
      get_reservation st id = Some r
      /\ _parse_date d = Some dd /\ _parse_time s = Some ss
      /\ now env < combine dd ss - 30 * us_per_minute in
  RESERVATIONS st' = RESERVATIONS st
  /\ WAITLIST st' = WAITLIST st
  /\ (~ ready -> st' = st)
  /\ (ready ->
      exists msg extra,
        NOTIFICATIONS st'
        = NOTIFICATIONS st
          ++ (notification_next_id st, Notification.mk u id msg (now env) false)
             :: extra
        /\ Py.contains reminder_mark msg = true
        /\ map (fun kv => Notification.user_id (snd kv)) extra
           = filter (get_user env) (match ps with Some l => l | None => [] end)
        /\ Forall (fun kv =>
                     snd kv
                     = Notification.mk (Notification.user_id (snd kv)) id msg
                         (now env) false)
                  extra).
Proof.
  intros Hok Hrun ready.
  pose proof (schedule_cases env st id u d s ps) as Hcases.
  assert (Hidle : ~ ready -> st' = st -> 
            RESERVATIONS st' = RESERVATIONS st
            /\ WAITLIST st' = WAITLIST st
            /\ (~ ready -> st' = st)
            /\ (ready ->
                exists msg extra,
                  NOTIFICATIONS st'
                  = NOTIFICATIONS st
                    ++ (notification_next_id st,
                        Notification.mk u id msg (now env) false) :: extra
                  /\ Py.contains reminder_mark msg = true
                  /\ map (fun kv => Notification.user_id (snd kv)) extra
                     = filter (get_user env)
                         (match ps with Some l => l | None => [] end)
                  /\ Forall (fun kv =>
                               snd kv
                               = Notification.mk
                                   (Notification.user_id (snd kv)) id msg
                                   (now env) false)
                            extra)).
  { intros Hnot ->. repeat split; try reflexivity. intros H. contradiction. }
  destruct (_parse_date d) as [dd|] eqn:Hd.
  2:{ apply Hidle; [|congruence].
      intros (r & dd & ss & _ & Hdd & _). discriminate. }
  destruct (_parse_time s) as [ss|] eqn:Hs.
  2:{ apply Hidle; [|destruct (overflows s); congruence].
      intros (r & dd' & ss & _ & _ & Hss & _). discriminate. }
  destruct (combine dd ss - 30 * us_per_minute <? datetime_min);
    [congruence|].
  destruct (Z.leb_spec (combine dd ss - 30 * us_per_minute) (now env))
    as [Hlate|Hahead].
  { apply Hidle; [|congruence].
    intros (r & dd' & ss' & _ & Hdd & Hss & Hlt).
    inversion Hdd; inversion Hss; subst. lia. }
  destruct (get_reservation st id) as [r|] eqn:Hr.
  2:{ apply Hidle; [|congruence].
      intros (r & _ & _ & Hr' & _). discriminate. }
  cbv zeta in Hcases.
  set (r' := Reservation.mk _ _ _ s _ _) in Hcases.
  assert (Hst' : st' = notify_participants env
                   (fst (create_notification env st u id
                           (reminder_message env r')))
                   id (reminder_message env r')
                   (match ps with Some l => l | None => [] end))
    by congruence.
  clear Hcases Hrun Hidle.
  destruct (create_notification_appends env st u id (reminder_message env r')
              Hok) as [Happ Hok1].
  destruct (notify_participants_extra env id (reminder_message env r')
              (match ps with Some l => l | None => [] end) _ Hok1)
    as (extra & Hextra & Husers & Hall).
  destruct (notify_participants_frame env id (reminder_message env r')
              (match ps with Some l => l | None => [] end)
              (fst (create_notification env st u id
                      (reminder_message env r')))) as [HR HW].
  rewrite <- Hst' in Hextra, HR, HW.
  split; [rewrite HR; reflexivity|]. split; [rewrite HW; reflexivity|].
  split.
  - intros Hnot. exfalso. apply Hnot. exists r, dd, ss. auto.
  - intros _. exists (reminder_message env r'), extra.
    split; [rewrite Hextra, Happ, <- app_assoc; reflexivity|].
    split; [apply reminder_message_marked|]. split; assumption.
Qed.

(** X16: a scheduled reminder is written only for a stored reservation
    whose start, as given, lies more than thirty minutes ahead: then the
    user gets one unread notification that carries the mark of a reminder,
    and so does every registered participant of the list given; in every
    other case nothing changes.  Reservations and waitlist are never
    touched. *)
Theorem schedule_reservation_notification_writes env st id u d s ps st' :
  reachable st ->
  schedule_reservation_notification env st id u d s ps = Returns st' ->
  let ready :=
    exists r dd ss,
      get_reservation st id = Some r
      /\ _parse_date d = Some dd /\ _parse_time s = Some ss
      /\ now env < combine dd ss - 30 * us_per_minute in
  RESERVATIONS st' = RESERVATIONS st
  /\ WAITLIST st' = WAITLIST st
  /\ (~ ready -> st' = st)
  /\ (ready ->
      exists msg extra,
        NOTIFICATIONS st'
        = NOTIFICATIONS st
          ++ (notification_next_id st, Notification.mk u id msg (now env) false)
             :: extra
        /\ Py.contains reminder_mark msg = true
        /\ map (fun kv => Notification.user_id (snd kv)) extra
           = filter (get_user env) (match ps with Some l => l | None => [] end)
        /\ Forall (fun kv =>
                     snd kv
                     = Notification.mk (Notification.user_id (snd kv)) id msg
                         (now env) false)
                  extra).
Proof.
  intros Hreach.
  exact (schedule_outcome env st id u d s ps st'
           (reachable_notifications_ok st Hreach)).
Qed.

Lemma schedule_reservation_notification_writes_witness :
  let env := env_at morning in
  let st :=
    run (CreateReservation env "alice" 1 "2030-01-01" "14:00" "15:00"
           (Some ["bob"])) initial in
  reachable st
  /\ exists st',
       schedule_reservation_notification env st 1 "alice" "2030-01-01"
         "14:00" (Some ["bob"]) = Returns st'
       /\ RESERVATIONS st' = RESERVATIONS st
       /\ map (fun kv => Notification.user_id (snd kv)) (NOTIFICATIONS st')
          = ["alice"; "bob"].
Proof.
  intros env st.
  assert (Hreach : reachable st) by (apply reachable_run, reachable_initial).
  split; [exact Hreach|].
  assert (Hrun : exists st',
             schedule_reservation_notification env st 1 "alice" "2030-01-01"
               "14:00" (Some ["bob"]) = Returns st')
    by (eexists; vm_compute; reflexivity).
  destruct Hrun as [st' Hrun]. exists st'. split; [exact Hrun|].
  split.
  - exact (proj1 (schedule_reservation_notification_writes env st 1 "alice"
                    "2030-01-01" "14:00" (Some ["bob"]) st' Hreach Hrun)).
  - assert (Hst' : Returns st'
                   = schedule_reservation_notification env st 1 "alice"
                       "2030-01-01" "14:00" (Some ["bob"]))
      by (symmetry; exact Hrun).
    assert (Hall : match schedule_reservation_notification env st 1 "alice"
                           "2030-01-01" "14:00" (Some ["bob"]) with
                   | Returns x =>
                       map (fun kv => Notification.user_id (snd kv))
                           (NOTIFICATIONS x) = ["alice"; "bob"]
                   | Raises => False
                   end) by (vm_compute; reflexivity).
    rewrite <- Hst' in Hall. exact Hall.
Defined.

Lemma existsb_app_r {A : Type} (f : A -> bool) l x l' :
  f x = true -> existsb f (l ++ x :: l') = true.
Proof.
  intros H. rewrite existsb_app. cbn [existsb]. rewrite H.
  now rewrite orb_true_r.
Qed.

Lemma check_loop_silent env id items : forall st,
  notifications_ok st ->
  (forall r, In (id, r) items -> has_reminder st (id, r) = true) ->
  exists extra,
    NOTIFICATIONS (fold_left (check_one env) items st)
    = NOTIFICATIONS st ++ extra
    /\ Forall (fun kv => Notification.reservation_id (snd kv) <> id) extra.
Proof.
  induction items as [|item items IH]; intros st Hok Hrem.
  - exists []. split; [now rewrite app_nil_r | constructor].
  - cbn [fold_left].
    destruct (check_one_extra env st item Hok) as (e1 & H1 & Hall1 & Hdue1).
    destruct (check_one_appends env st item Hok) as (_ & Hok1 & _).
    destruct (IH (check_one env st item) Hok1) as (e2 & H2 & Hall2).
    { intros r Hr. apply (has_reminder_grows st _ _ e1 H1).
      apply Hrem. now right. }
    exists (e1 ++ e2). split; [rewrite H2, H1, <- app_assoc; reflexivity|].
    apply Forall_app. split; [|exact Hall2].
    destruct e1 as [|x e1]; [constructor|].
    destruct Hdue1 as [_ Hnone]; [discriminate|].
    eapply Forall_impl; [|exact Hall1].
    intros kv (Hid & _) Heq. destruct item as [k r].
    cbn [fst] in Hid. rewrite Hid in Heq. clear Hid. subst k.
    rewrite (Hrem r) in Hnone by (now left). discriminate.
Qed.

(** X17: once a reminder has been scheduled for the owner of a reservation,
    the scan never writes a reminder for that reservation, whatever the
    clock shows. *)
Theorem scheduled_reminder_silences_scan env env' st id r d s ps st' :
  reachable st ->
  get_reservation st id = Some r ->
  schedule_reservation_notification env st id (Reservation.user_id r) d s ps
  = Returns st' ->
  st' <> st ->
  exists extra,
    NOTIFICATIONS (check_and_create_notifications env' st')
    = NOTIFICATIONS st' ++ extra
    /\ Forall (fun kv => Notification.reservation_id (snd kv) <> id) extra.
Proof.
  intros Hreach Hr Hrun Hchanged.
  pose proof (reachable_notifications_ok st Hreach) as Hok.
  destruct (schedule_outcome env st id (Reservation.user_id r) d s ps st'
              Hok Hrun) as (HR & _ & Hidle & Hready).
  destruct (reachable_reservations_ok st Hreach) as ([Hnd _] & _).
  pose proof (schedule_cases env st id (Reservation.user_id r) d s ps)
    as Hcases.
  assert (Hrd : (exists r0 dd ss,
             get_reservation st id = Some r0
             /\ _parse_date d = Some dd /\ _parse_time s = Some ss
             /\ now env < combine dd ss - 30 * us_per_minute)
           /\ notifications_ok st').
  { destruct (_parse_date d) as [dd|]; [|congruence].
    destruct (_parse_time s) as [ss|];
      [|destruct (overflows s); congruence].
    destruct (_ <? datetime_min); [congruence|].
    destruct (Z.leb_spec (combine dd ss - 30 * us_per_minute) (now env));
      [congruence|].
    rewrite Hr in Hcases. cbv zeta in Hcases. split.
    - exists r, dd, ss. auto.
    - assert (Hst' : st' = notify_participants env
                 (fst (create_notification env st (Reservation.user_id r) id
                         (reminder_message env
                            (Reservation.mk (Reservation.user_id r)
                               (Reservation.classroom_id r)
                               (Reservation.date r) s
                               (Reservation.end_time r)
                               (Reservation.participants r)))))
                 id
                 (reminder_message env
                    (Reservation.mk (Reservation.user_id r)
                       (Reservation.classroom_id r) (Reservation.date r) s
                       (Reservation.end_time r)
                       (Reservation.participants r)))
                 (match ps with Some l => l | None => [] end))
        by congruence.
      rewrite Hst'. apply notify_participants_appends.
      now apply create_notification_appends. }
  destruct Hrd as [Hrd Hok'].
  destruct (Hready Hrd) as (msg & extra & Hnot & Hmark & Husers & Hall).
  unfold check_and_create_notifications. rewrite HR.
  destruct (scan_prefix env' (RESERVATIONS st) st')
    as (seen & rest & Hsplit & ->).
  apply check_loop_silent; [exact Hok'|].
  intros r0 Hin.
  assert (r0 = r).
  { assert (Hin' : In (id, r0) (RESERVATIONS st))
      by (rewrite Hsplit; apply in_or_app; now left).
    apply (In_dict_get _ _ _ Hnd) in Hin'. unfold get_reservation in Hr.
    congruence. }
  subst r0. rewrite has_reminder_unsorted, Hnot. apply existsb_app_r.
  cbn [fst snd Notification.user_id Notification.reservation_id
       Notification.message].
  now rewrite String.eqb_refl, Z.eqb_refl, Hmark.
Qed.

Lemma scheduled_reminder_silences_scan_witness :
  let env := env_at morning in
  let env' := env_at (morning + 30 * us_per_minute) in
  let st :=
    run (CreateReservation env "alice" 1 "2029-12-30" "10:00" "11:00" None)
      initial in
  let r := Reservation.mk "alice" 1 "2029-12-30" "10:00" "11:00" [] in
  reachable st
  /\ due env' r = true
  /\ exists st',
       schedule_reservation_notification env st 1 "alice" "2029-12-30"
         "10:00" None = Returns st'
       /\ exists extra,
            NOTIFICATIONS (check_and_create_notifications env' st')
            = NOTIFICATIONS st' ++ extra
            /\ Forall (fun kv => Notification.reservation_id (snd kv) <> 1)
                      extra.
Proof.
  intros env env' st r.
  assert (Hreach : reachable st) by (apply reachable_run, reachable_initial).
  split; [exact Hreach|]. split; [vm_compute; reflexivity|].
  assert (Hrun : exists st',
             schedule_reservation_notification env st 1
               (Reservation.user_id r) "2029-12-30" "10:00" None
             = Returns st'
             /\ List.length (NOTIFICATIONS st') = 1%nat)
    by (eexists; split; vm_compute; reflexivity).
  destruct Hrun as (st' & Hrun & Hlen). exists st'. split; [exact Hrun|].
  apply (scheduled_reminder_silences_scan env env' st 1 r "2029-12-30"
           "10:00" None st' Hreach); [vm_compute; reflexivity | exact Hrun |].
  intros ->. vm_compute in Hlen. discriminate Hlen.
Defined.

(** ** Printing an integer and reading it back *)

(** Evaluates the digit the goal reads. *)
Ltac read_digit :=
  match goal with
  | |- context [Py.digit ?c] =>
      let v := eval vm_compute in (Py.digit c) in
      change (Py.digit c) with v; cbv iota beta
  end.

(** A text without continuation bytes has one character per byte. *)
Lemma chars_plain s :
  (forall c, In c (list_ascii_of_string s) -> Py.continuation c = false) ->
  Py.chars s = map (fun c => String c EmptyString) (list_ascii_of_string s).
Proof.
  induction s as [|c s IH]; [reflexivity|]. intros H.
  cbn [Py.chars list_ascii_of_string map].
  rewrite IH by (intros c' Hc'; apply H; now right).
  destruct s as [|c' s]; [reflexivity|].
  cbn [list_ascii_of_string map Py.headless].
  now rewrite (H c') by (right; now left).
Qed.

Lemma uint_plain u c :
  In c (list_ascii_of_string (NilEmpty.string_of_uint u)) ->
  Py.continuation c = false.
Proof.
  induction u; cbn [NilEmpty.string_of_uint list_ascii_of_string In];
    [intros [] | ..]; (intros [<-|H]; [reflexivity | exact (IHu H)]).
Qed.

Lemma chars_of_uint u : Py.chars (NilEmpty.string_of_uint u) = uint_chars u.
Proof. apply chars_plain, uint_plain. Qed.

Lemma digits_of_uint_acc u : forall acc,
  Py.digits (Z.pos acc) true (uint_chars u)
  = Some (Z.pos (Pos.of_uint_acc u acc)).
Proof.
  unfold uint_chars.
  induction u; intros acc;
    cbn [NilEmpty.string_of_uint list_ascii_of_string map Py.digits
         Pos.of_uint_acc];
    try reflexivity; read_digit; rewrite <- IHu; f_equal; lia.
Qed.

Lemma digits_of_uint u :
  Py.digits 0 true (uint_chars u) = Some (Z.of_N (Pos.of_uint u)).
Proof.
  induction u;
    try (unfold uint_chars;
         cbn [NilEmpty.string_of_uint list_ascii_of_string map Py.digits
              Pos.of_uint];
         read_digit;
         first [exact IHu | exact (digits_of_uint_acc _ _)]).
  reflexivity.
Qed.

Lemma digits_start u seen :
  u <> Decimal.Nil ->
  Py.digits 0 seen (uint_chars u) = Py.digits 0 true (uint_chars u).
Proof.
  intros Hu. unfold uint_chars. destruct u; [contradiction|..];
    cbn [NilEmpty.string_of_uint list_ascii_of_string map Py.digits];
    read_digit; reflexivity.
Qed.

Lemma to_uint_nonnil p : Pos.to_uint p <> Decimal.Nil.
Proof.
  intros H. pose proof (Unsigned.of_to p) as Hp. rewrite H in Hp.
  discriminate.
Qed.

(** No digit is a blank. *)
Lemma uint_no_blank u ch : In ch (uint_chars u) -> Py.isblank ch = false.
Proof.
  unfold uint_chars.
  induction u; cbn [NilEmpty.string_of_uint list_ascii_of_string map In];
    [intros [] | ..]; (intros [<-|H]; [reflexivity | exact (IHu H)]).
Qed.

Lemma lstrip_nothing space l :
  (forall ch, In ch l -> space ch = false) -> Py.lstrip_by space l = l.
Proof.
  destruct l as [|ch l]; [reflexivity|]. intros H. cbn [Py.lstrip_by].
  now rewrite (H ch (or_introl eq_refl)).
Qed.

Lemma rstrip_nothing space l :
  (forall ch, In ch l -> space ch = false) -> Py.rstrip_by space l = l.
Proof.
  induction l as [|ch l IH]; [reflexivity|]. intros H. cbn [Py.rstrip_by].
  rewrite IH by (intros c' Hc'; apply H; now right).
  destruct l; [|reflexivity]. now rewrite (H ch (or_introl eq_refl)).
Qed.

Lemma int_of_digits u :
  u <> Decimal.Nil ->
  Py.int (NilEmpty.string_of_uint u) = Some (Z.of_N (Pos.of_uint u)).
Proof.
  intros Hu. unfold Py.int. rewrite chars_of_uint.
  rewrite lstrip_nothing, rstrip_nothing by apply uint_no_blank.
  rewrite <- digits_of_uint, <- (digits_start u false Hu).
  unfold uint_chars. destruct u; [contradiction|..]; reflexivity.
Qed.

Lemma int_str (k : Z) : Py.int (Py.str k) = Some k.
Proof.
  unfold Py.str. destruct k as [|p|p]; [reflexivity| |].
  - cbn [Z.to_int NilZero.string_of_int].
    assert (Hs : NilZero.string_of_uint (Pos.to_uint p)
                 = NilEmpty.string_of_uint (Pos.to_uint p)).
    { pose proof (to_uint_nonnil p). now destruct (Pos.to_uint p). }
    rewrite Hs, int_of_digits by apply to_uint_nonnil.
    now rewrite Unsigned.of_to.
  - cbn [Z.to_int NilZero.string_of_int].
    assert (Hs : NilZero.string_of_uint (Pos.to_uint p)
                 = NilEmpty.string_of_uint (Pos.to_uint p)).
    { pose proof (to_uint_nonnil p). now destruct (Pos.to_uint p). }
    rewrite Hs. unfold Py.int.
    rewrite chars_plain
      by (intros c [<-|H]; [reflexivity | exact (uint_plain _ _ H)]).
    cbn [list_ascii_of_string map]. fold (uint_chars (Pos.to_uint p)).
    rewrite lstrip_nothing, rstrip_nothing.
    + cbn. rewrite (digits_start _ false (to_uint_nonnil p)), digits_of_uint.
      now rewrite Unsigned.of_to.
    + intros c [<-|H]; [reflexivity | exact (uint_no_blank _ _ H)].
    + intros c [<-|H]; [reflexivity | exact (uint_no_blank _ _ H)].
Qed.

Lemma str_injective k k' : Py.str k = Py.str k' -> k = k'.
Proof.
  intros H. pose proof (int_str k) as Hk. rewrite H, int_str in Hk.
  congruence.
Qed.

(** ** Texts beyond ASCII, and numbers beyond C *)

(** [strip] takes away the no-break space before and the ideographic
    space after a name; [int] skips them too, but not the separator
    U+001C, which [strip] takes away. *)
Remark wide_spaces_are_stripped :
  let nbsp := String "194" (String "160" "") in
  let ideographic := String "227" (String "128" (String "128" "")) in
  let fs := String "028" "" in
  Py.strip (nbsp +++ "bob" +++ ideographic) = "bob"
  /\ Py.int (nbsp +++ "14" +++ ideographic) = Some 14
  /\ Py.strip (fs +++ "bob") = "bob"
  /\ Py.int (fs +++ "14") = None.
Proof. repeat split; vm_compute; reflexivity. Qed.

(** [int] and the [\d] of [strptime] read the decimal digits of every
    script; the month and the first digit of a day are ASCII. *)
Remark wide_digits_are_read :
  Py.int "１４" = Some 14
  /\ _parse_time "１４:００" = Some (mk_time 14 0)
  /\ _parse_date "２０３０-01-2１" = _parse_date "2030-01-21"
  /\ _parse_date "2030-01-21" = Some 741098
  /\ _parse_date "2030-０1-21" = None
  /\ _parse_date "2030-01-２1" = None.
Proof. repeat split; vm_compute; reflexivity. Qed.

(** An hour that is no C int: [time] raises [OverflowError], which passes
    every [except ValueError], and the call raises. *)
Remark hour_beyond_c_int :
  let env := env_at morning in
  try_parse_time "2147483647:00" = Fails ValueError
  /\ try_parse_time "2147483648:00" = Fails OverflowError
  /\ try_parse_time "0:-2147483649" = Fails OverflowError
  /\ create_reservation env initial "alice" 1 "2030-01-01" "2147483648:00"
       "15:00" None
     = (initial, Raises)
  /\ create_reservation env initial "alice" 1 "2030-01-32" "2147483648:00"
       "15:00" None
     = (initial, Returns (false, message (InvalidDate "2030-01-32")))
  /\ create_waitlist_entry env initial "alice" 1 "2030-01-01" "14:00"
       "2147483648:00"
     = (initial, Raises)
  /\ process_waitlist_on_reservation_cancelled env initial 1 "2030-01-01"
       "2147483648:00" "15:00"
     = (initial, Raises)
  /\ find_available_classrooms (Directory.mk [] (fun _ => None)) initial
       "2030-01-01" "14:00" "2147483648:00"
     = Raises.
Proof. repeat split; vm_compute; reflexivity. Qed.

(** ** Saving a store and loading it back *)

Lemma text_set_fresh {V : Type} (k : string) (v : V) l :
  ~ In k (map fst l) -> text_set k v l = l ++ [(k, v)].
Proof.
  induction l as [|[k' v'] l IH]; intros H; cbn [text_set app].
  - reflexivity.
  - destruct (String.eqb_spec k' k) as [->|Hne].
    + exfalso. apply H. now left.
    + f_equal. apply IH. intros Hin. apply H. now right.
Qed.

Lemma save_items {V : Type} (d : dict V) : forall acc,
  NoDup (dict_keys (acc ++ d)) ->
  fold_left (fun data kv => text_set (Py.str (fst kv)) (snd kv) data) d
            (map (fun kv => (Py.str (fst kv), snd kv)) acc)
  = map (fun kv => (Py.str (fst kv), snd kv)) (acc ++ d).
Proof.
  induction d as [|[k v] d IH]; intros acc Hnd; cbn [fold_left].
  - now rewrite app_nil_r.
  - cbn [fst snd]. rewrite text_set_fresh.
    + replace (acc ++ (k, v) :: d) with ((acc ++ [(k, v)]) ++ d)
        by (now rewrite <- app_assoc).
      rewrite <- IH by (now rewrite <- app_assoc).
      now rewrite map_app.
    + rewrite map_map. cbn [fst]. intros Hin.
      apply in_map_iff in Hin. destruct Hin as ([k' v'] & Hk & Hin).
      cbn [fst] in Hk. apply str_injective in Hk. subst k'.
      unfold dict_keys in Hnd. rewrite map_app in Hnd. cbn [map fst] in Hnd.
      apply NoDup_remove_2 in Hnd. apply Hnd, in_or_app. left.
      change k with (fst (k, v')). now apply in_map.
Qed.

Lemma load_items {V : Type} (d : dict V) : forall acc,
  NoDup (dict_keys (acc ++ d)) ->
  fold_left (fun acc kv =>
               match acc, Py.int (fst kv) with
               | Some d, Some k => Some (dict_set k (snd kv) d)
               | _, _ => None
               end)
            (map (fun kv => (Py.str (fst kv), snd kv)) d) (Some acc)
  = Some (acc ++ d).
Proof.
  induction d as [|[k v] d IH]; intros acc Hnd; cbn [map fold_left].
  - now rewrite app_nil_r.
  - cbn [fst snd]. rewrite int_str.
    replace (acc ++ (k, v) :: d) with ((acc ++ [(k, v)]) ++ d) in *
      by (now rewrite <- app_assoc).
    rewrite dict_set_fresh.
    + now apply IH.
    + unfold dict_keys in Hnd. rewrite !map_app in Hnd.
      apply NoDup_app_remove_r in Hnd. cbn [map fst] in Hnd.
      apply NoDup_remove_2 in Hnd. now rewrite app_nil_r in Hnd.
Qed.

Lemma saved_store_loads_back {V : Type} (d : dict V) (n : Z) :
  NoDup (dict_keys d) -> _load (Some (_save d n)) = (d, n).
Proof.
  intros Hnd. unfold _load, _save, int_keys. cbn [saved_items saved_next_id].
  pose proof (save_items d [] Hnd) as Hs. cbn [map app] in Hs. rewrite Hs.
  now rewrite (load_items d [] Hnd).
Qed.

(** C9, as the code has it: a successful [create_reservation] takes the
    id from the counter of the store, stores the new record under it,
    moves the counter one up, hands the store to the file writer, and
    returns the pair of [True] and the fixed text of success.  The id is
    no part of what the caller gets, and neither is the end of the write,
    whose [IOError] is swallowed: the file holds the object handed over
    when the write goes through, is as it was when it cannot be opened,
    and holds no store when the write stops partway.  When the keys of
    the store are distinct and below the counter, the id is the largest
    key of the new store, which is how the callers find it; the object
    handed over holds the new record under the text of the id, after the
    records there were, and the counter; and a server that starts on the
    file of a write that went through finds the store and the counter of
    the new state. *)
Theorem create_reservation_assigns_counter env st u c d s e ps st' ret :
  create_reservation env st u c d s e ps = (st', Returns ret) ->
  fst ret = true ->
  ret = (true, created)
  /\ exists r,
       r = Reservation.mk u c d s e (clean_participants env u ps)
       /\ RESERVATIONS st'
          = dict_set (reservation_next_id st) r (RESERVATIONS st)
       /\ get_reservation st' (reservation_next_id st) = Some r
       /\ reservation_next_id st' = reservation_next_id st + 1
       /\ create_reservation_writes env st u c d s e ps
          = Some (_save (RESERVATIONS st') (reservation_next_id st'))
       /\ (forall file,
             reservations_json_after Written file env st u c d s e ps
             = Some (_save (RESERVATIONS st') (reservation_next_id st'))
             /\ reservations_json_after Refused file env st u c d s e ps
                = file
             /\ _load (reservations_json_after Cut file env st u c d s e ps)
                = ([], 1))
       /\ (keys_fresh (RESERVATIONS st) (reservation_next_id st) ->
           RESERVATIONS st'
           = RESERVATIONS st ++ [(reservation_next_id st, r)]
           /\ dict_max_key (RESERVATIONS st')
              = Some (reservation_next_id st)
           /\ _save (RESERVATIONS st') (reservation_next_id st')
              = mkSaved
                  (Some (map (fun kv => (Py.str (fst kv), snd kv))
                             (RESERVATIONS st)
                         ++ [(Py.str (reservation_next_id st), r)]))
                  (Some (reservation_next_id st + 1))
           /\ forall file,
                _load (reservations_json_after Written file env st u c d s e
                         ps)
                = (RESERVATIONS st', reservation_next_id st + 1)).
Proof.
  intros Hcall Hret.
  assert (Hwrites : create_reservation_writes env st u c d s e ps
                    = Some (_save (RESERVATIONS st')
                              (reservation_next_id st'))).
  { unfold create_reservation_writes. rewrite Hcall.
    destruct ret as [[|] msg]; [reflexivity | discriminate Hret]. }
  pose proof (create_reservation_cases env st u c d s e ps) as Hcases.
  destruct (first_failure env st u c d s e ps) as [[reason|l]|] eqn:E;
    rewrite Hcases in Hcall; try discriminate.
  - injection Hcall as <- <-. discriminate.
  - injection Hcall as <- <-.
    apply first_failure_accepts in E. destruct E as (_ & _ & -> & _).
    split; [reflexivity|]. eexists. split; [reflexivity|].
    cbn [RESERVATIONS reservation_next_id stored set_reservations] in *.
    split; [reflexivity|]. split; [apply dict_get_set|].
    split; [reflexivity|]. split; [exact Hwrites|].
    assert (Hfile : forall outcome file,
               reservations_json_after outcome file env st u c d s e ps
               = written outcome
                   (_save
                      (dict_set (reservation_next_id st)
                         (Reservation.mk u c d s e
                            (clean_participants env u ps))
                         (RESERVATIONS st))
                      (reservation_next_id st + 1)) file).
    { intros outcome file. unfold reservations_json_after.
      now rewrite Hwrites. }
    split.
    { intros file. rewrite !Hfile. repeat split; reflexivity. }
    intros [Hnd Hall].
    assert (Hadd : dict_set (reservation_next_id st)
                     (Reservation.mk u c d s e (clean_participants env u ps))
                     (RESERVATIONS st)
                   = RESERVATIONS st
                     ++ [(reservation_next_id st,
                          Reservation.mk u c d s e
                            (clean_participants env u ps))])
      by (apply dict_set_fresh; now apply below_counter_fresh).
    assert (Hnd' : NoDup (dict_keys
                            (dict_set (reservation_next_id st)
                               (Reservation.mk u c d s e
                                  (clean_participants env u ps))
                               (RESERVATIONS st))))
      by (now apply dict_set_NoDup).
    split; [exact Hadd|]. split; [now apply dict_max_key_add|]. split.
    + unfold _save. f_equal.
      pose proof (save_items _ [] Hnd') as Hs. cbn [map app] in Hs.
      rewrite Hs, Hadd, map_app. reflexivity.
    + intros file. rewrite Hfile. cbn [written].
      now apply saved_store_loads_back.
Qed.

Lemma create_reservation_assigns_counter_witness :
  exists st',
    create_reservation (env_at morning) initial "alice" 1 "2030-01-01"
      "14:00" "15:00" None = (st', Returns (true, created))
    /\ dict_keys (RESERVATIONS st') = [1]
    /\ reservation_next_id st' = 2
    /\ create_reservation_writes (env_at morning) initial "alice" 1
         "2030-01-01" "14:00" "15:00" None
       = Some (mkSaved
                 (Some [("1", Reservation.mk "alice" 1 "2030-01-01" "14:00"
                                "15:00" [])])
                 (Some 2)).
Proof.
  eexists. split; [vm_compute; reflexivity|].
  destruct (create_reservation_assigns_counter (env_at morning) initial
              "alice" 1 "2030-01-01" "14:00" "15:00" None _ _
              eq_refl eq_refl)
    as (_ & r & -> & Hstore & _ & Hnext & Hwrites & _).
  split; [reflexivity|]. split; [exact Hnext|].
  rewrite Hwrites. vm_compute. reflexivity.
Defined.

(** ** The ids of the notifications *)

Lemma create_notification_keys env st u rid m :
  keys_fresh (NOTIFICATIONS st) (notification_next_id st) ->
  keys_fresh (NOTIFICATIONS (fst (create_notification env st u rid m)))
    (notification_next_id (fst (create_notification env st u rid m))).
Proof. intros H. now apply keys_fresh_add. Qed.

Lemma notify_participants_keys env rid m ps : forall st,
  keys_fresh (NOTIFICATIONS st) (notification_next_id st) ->
  keys_fresh (NOTIFICATIONS (notify_participants env st rid m ps))
    (notification_next_id (notify_participants env st rid m ps)).
Proof.
  induction ps as [|p ps IH]; intros st H; [exact H|].
  rewrite notify_participants_cons. apply IH.
  destruct (get_user env p); [now apply create_notification_keys | exact H].
Qed.

Lemma check_one_keys env st item :
  keys_fresh (NOTIFICATIONS st) (notification_next_id st) ->
  keys_fresh (NOTIFICATIONS (check_one env st item))
    (notification_next_id (check_one env st item)).
Proof.
  intros H. destruct item as [id r]. unfold check_one.
  destruct (_parse_date (Reservation.date r)); [|exact H].
  destruct (_parse_time (Reservation.start_time r)); [|exact H].
  destruct (_ <=? 300 * 1000000); [|exact H].
  destruct (negb _); [|exact H].
  apply notify_participants_keys. now apply create_notification_keys.
Qed.

Lemma run_keeps_notification_keys o st :
  keys_fresh (NOTIFICATIONS st) (notification_next_id st) ->
  keys_fresh (NOTIFICATIONS (run o st)) (notification_next_id (run o st)).
Proof.
  set (P := fun st : State =>
              keys_fresh (NOTIFICATIONS st) (notification_next_id st)).
  assert (Hframe : forall st st',
             NOTIFICATIONS st' = NOTIFICATIONS st
             /\ notification_next_id st' = notification_next_id st ->
             P st -> P st').
  { intros st0 st' [Hn Hc]. unfold P. now rewrite Hn, Hc. }
  change (P st -> P (run o st)). intros H. destruct o; cbn [run].
  - revert H. apply Hframe, create_reservation_notifications.
  - revert H. apply Hframe. unfold cancel_reservation.
    destruct (dict_get reservation_id (RESERVATIONS st)); [|now split].
    destruct (negb _); now split.
  - revert H. apply Hframe. unfold delete_reservation.
    destruct (dict_mem reservation_id (RESERVATIONS st)); now split.
  - apply (process_waitlist_keeps P); try exact H.
    + intros env0 st0 u c d s e ps.
      apply Hframe, create_reservation_notifications.
    + intros st0 wid u. apply Hframe, cancel_waitlist_entry_notifications.
    + intros env0 st0 c d wid entry H0. unfold promoted.
      set (st1 := set_waitlist st0 _ _).
      destruct (dict_max_key (RESERVATIONS st1)) as [rid|]; [|exact H0].
      destruct (rid =? 0); [exact H0|].
      now apply create_notification_keys.
  - revert H. apply Hframe. unfold create_waitlist_entry.
    destruct (count_active_reservations env st user_id); [|now split].
    destruct (3 <=? _); [now split|].
    destruct (_parse_date _); [|now split].
    destruct (_parse_time start_time_str); [|now split].
    destruct (_parse_time end_time_str); [|now split].
    destruct (existsb _ _); now split.
  - revert H. apply Hframe, cancel_waitlist_entry_notifications.
  - unfold check_and_create_notifications.
    generalize (RESERVATIONS st) as items. intros items.
    revert st H. induction items as [|item items IH]; intros st H;
      [exact H|].
    cbn [scan]. destruct (breaks_scan item); [exact H|].
    apply IH. now apply check_one_keys.
  - unfold mark_as_read.
    destruct (dict_get notification_id (NOTIFICATIONS st)) as [n|] eqn:E;
      [|exact H].
    destruct (negb _); [exact H|].
    unfold P, keys_fresh. cbn [fst NOTIFICATIONS notification_next_id
                               set_notifications].
    rewrite (dict_set_keys _ _ _ _ E). exact H.
  - unfold P, keys_fresh.
    cbn [run] in *. rewrite (mark_all_keys st user_id). exact H.
Qed.

Lemma reachable_notification_keys st :
  reachable st -> keys_fresh (NOTIFICATIONS st) (notification_next_id st).
Proof.
  induction 1 as [|st o Hreach IH].
  - split; constructor.
  - now apply run_keeps_notification_keys.
Qed.

(** X18: a server that starts on the files a reachable state was saved to
    starts in that state: the keys are printed and read back as the same
    integers, in the same order, and the counters are kept. *)
Theorem restart_restores_state st :
  reachable st -> startup (saved_files st) = st.
Proof.
  intros Hreach.
  destruct (reachable_reservations_ok st Hreach) as ([Hr _] & _).
  destruct (reachable_waitlist_keys st Hreach) as [Hw _].
  destruct (reachable_notification_keys st Hreach) as [Hn _].
  unfold startup, saved_files.
  cbn [reservations_json waitlist_json notifications_json].
  rewrite !saved_store_loads_back by assumption.
  now destruct st.
Qed.

Lemma restart_restores_state_witness :
  let st :=
    run (CreateWaitlistEntry (env_at morning) "bob" 1 "2030-01-01"
           "14:00" "15:00")
      (run (CreateReservation (env_at morning) "alice" 1 "2030-01-01"
              "14:00" "15:00" None) initial) in
  reachable st
  /\ List.length (RESERVATIONS (startup (saved_files st))) = 1%nat
  /\ startup (saved_files st) = st.
Proof.
  intros st.
  assert (Hreach : reachable st)
    by (apply reachable_run, reachable_run, reachable_initial).
  split; [exact Hreach|]. split; [vm_compute; reflexivity|].
  exact (restart_restores_state st Hreach).
Defined.

(** X19: a file in which one key is not an integer loses the whole store:
    the dictionary starts empty and the counter at 1, whatever else the
    file holds. *)
Theorem load_discards_store_on_bad_key {V : Type}
    (items : list (string * V)) (next_id : option Z) (k : string) (v : V) :
  In (k, v) items -> Py.int k = None ->
  _load (Some (mkSaved (Some items) next_id)) = ([], 1).
Proof.
  intros Hin Hk. unfold _load, int_keys. cbn [saved_items saved_next_id].
  assert (Hnone : forall l,
    fold_left (fun acc kv =>
                 match acc, Py.int (fst kv) with
                 | Some d, Some k => Some (dict_set k (snd kv) d)
                 | _, _ => None
                 end) l (@None (dict V)) = None).
  { induction l as [|x l IH]; [reflexivity | exact IH]. }
  assert (H : forall acc,
    fold_left (fun acc kv =>
                 match acc, Py.int (fst kv) with
                 | Some d, Some k => Some (dict_set k (snd kv) d)
                 | _, _ => None
                 end) items acc = None).
  { induction items as [|x items IH]; [destruct Hin|].
    intros acc. cbn [fold_left]. destruct Hin as [->|Hin].
    - cbn [fst]. rewrite Hk. destruct acc; apply Hnone.
    - apply IH, Hin. }
  now rewrite H.
Qed.

(** A key in full-width digits is an integer. *)
Remark load_reads_wide_digits :
  _load (Some (mkSaved (Some [("１", 10); ("2", 20)]) (Some 7)))
  = ([(1, 10); (2, 20)], 7).
Proof. vm_compute. reflexivity. Qed.

Lemma load_discards_store_on_bad_key_witness :
  _load (Some (mkSaved (Some [("1", 10); ("two", 20)]) (Some 7))) = ([], 1).
Proof.
  apply (load_discards_store_on_bad_key _ _ "two" 20);
    [right; left; reflexivity | vm_compute; reflexivity].
Defined.

(** ** The reservation form *)

Lemma filter_shorter {A : Type} (p : A -> bool) l :
  (List.length (filter p l) <= List.length l)%nat.
Proof.
  induction l as [|x l IH]; [apply Nat.le_refl|]. cbn [filter].
  destruct (p x); cbn [List.length]; lia.
Qed.

Lemma clean_participants_shorter env u l :
  (List.length (clean_participants env u (Some l)) <= List.length l)%nat.
Proof.
  unfold clean_participants. cbv zeta.
  eapply Nat.le_trans; [apply NoDup_incl_length|].
  - apply list_of_set_NoDup.
  - intros x Hx. exact (proj1 (list_of_set_In _ _) Hx).
  - rewrite length_map. apply filter_shorter.
Qed.

Lemma create_reservation_post_cases env dir st u c d s e ps :
  let l := participants_list ps in
  let total := 1 + Z.of_nat (List.length l) in
  if negb (dict_mem c (Directory.get_all_classrooms dir)) then
    create_reservation_post env dir st u c d s e ps
    = (st, Returns (ReservationForm "존재하지 않는 강의실입니다." None))
  else
    match Directory.get_classroom dir c with
    | Some cl =>
        if Classroom.capacity cl <? total then
          create_reservation_post env dir st u c d s e ps
          = (st, Returns (ReservationForm
                            (over_capacity total (Classroom.capacity cl))
                            None))
        else
          create_reservation_post env dir st u c d s e ps
          = match create_reservation env st u c d s e (Some l) with
            | (st', Raises) => (st', Raises)
            | (st', Returns (true, _)) => (st', Returns Redirect)
            | (st', Returns (false, msg)) =>
                (st', Returns (ReservationForm msg
                                 (Some (can_waitlist st' c d s e msg))))
            end
    | None =>
        create_reservation_post env dir st u c d s e ps
        = match create_reservation env st u c d s e (Some l) with
          | (st', Raises) => (st', Raises)
          | (st', Returns (true, _)) => (st', Returns Redirect)
          | (st', Returns (false, msg)) =>
              (st', Returns (ReservationForm msg
                               (Some (can_waitlist st' c d s e msg))))
          end
    end.
Proof.
  intros l total. unfold create_reservation_post. fold l. fold total.
  destruct (negb (dict_mem c (Directory.get_all_classrooms dir)));
    [reflexivity|].
  destruct (Directory.get_classroom dir c) as [cl|]; [|reflexivity].
  destruct (Classroom.capacity cl <? total); reflexivity.
Qed.

(** X20: the reservation form changes the stores only when it answers with
    the redirection, and then it has stored one reservation, for a
    classroom of the directory, whose owner and participants are no more
    people than the classroom holds, when the directory knows the
    classroom's capacity. *)
Theorem create_reservation_post_respects_capacity
    env dir st u c d s e ps st' page :
  create_reservation_post env dir st u c d s e ps = (st', Returns page) ->
  (page <> Redirect -> st' = st)
  /\ (page = Redirect ->
      dict_mem c (Directory.get_all_classrooms dir) = true
      /\ exists r,
           st' = stored st r
           /\ Reservation.user_id r = u /\ Reservation.classroom_id r = c
           /\ Reservation.date r = d /\ Reservation.start_time r = s
           /\ Reservation.end_time r = e
           /\ Reservation.participants r
              = clean_participants env u (Some (participants_list ps))
           /\ forall cl,
                Directory.get_classroom dir c = Some cl ->
                1 + Z.of_nat (List.length (Reservation.participants r))
                <= Classroom.capacity cl).
Proof.
  intros Hrun.
  pose proof (create_reservation_post_cases env dir st u c d s e ps) as Hc.
  cbv zeta in Hc.
  pose proof (create_reservation_cases env st u c d s e
                (Some (participants_list ps))) as Hcr.
  assert (Hmain :
    (st', Returns page)
    = match create_reservation env st u c d s e
              (Some (participants_list ps)) with
      | (st', Raises) => (st', Raises)
      | (st', Returns (true, _)) => (st', Returns Redirect)
      | (st', Returns (false, msg)) =>
          (st', Returns (ReservationForm msg
                           (Some (can_waitlist st' c d s e msg))))
      end ->
    (forall cl, Directory.get_classroom dir c = Some cl ->
                1 + Z.of_nat (List.length (participants_list ps))
                <= Classroom.capacity cl) ->
    dict_mem c (Directory.get_all_classrooms dir) = true ->
    (page <> Redirect -> st' = st)
    /\ (page = Redirect ->
        dict_mem c (Directory.get_all_classrooms dir) = true
        /\ exists r,
             st' = stored st r
             /\ Reservation.user_id r = u /\ Reservation.classroom_id r = c
             /\ Reservation.date r = d /\ Reservation.start_time r = s
             /\ Reservation.end_time r = e
             /\ Reservation.participants r
                = clean_participants env u (Some (participants_list ps))
             /\ forall cl,
                  Directory.get_classroom dir c = Some cl ->
                  1 + Z.of_nat (List.length (Reservation.participants r))
                  <= Classroom.capacity cl)).
  { intros Heq Hcap Hmem.
    destruct (first_failure env st u c d s e (Some (participants_list ps)))
      as [[reason|l]|] eqn:Hff; rewrite Hcr in Heq.
    - inversion Heq; subst. split; [reflexivity | discriminate].
    - apply first_failure_accepts in Hff.
      destruct Hff as (_ & _ & Hl & _). subst l.
      inversion Heq; subst. split; [intros H; now contradiction H|].
      intros _. split; [exact Hmem|].
      eexists. split; [reflexivity|].
      cbn [Reservation.user_id Reservation.classroom_id Reservation.date
           Reservation.start_time Reservation.end_time
           Reservation.participants].
      repeat split. intros cl Hcl. specialize (Hcap cl Hcl).
      pose proof (clean_participants_shorter env u (participants_list ps)).
      lia.
    - discriminate. }
  destruct (dict_mem c (Directory.get_all_classrooms dir)) eqn:Hmem;
    cbn [negb] in Hc.
  2:{ rewrite Hc in Hrun. inversion Hrun; subst.
      split; [reflexivity | discriminate]. }
  destruct (Directory.get_classroom dir c) as [cl|] eqn:Hcl.
  - destruct (Z.ltb_spec (Classroom.capacity cl)
                (1 + Z.of_nat (List.length (participants_list ps)))).
    + rewrite Hc in Hrun. inversion Hrun; subst.
      split; [reflexivity | discriminate].
    + apply Hmain; [congruence | | reflexivity].
      intros cl' Hcl'. inversion Hcl'; subst. assumption.
  - apply Hmain; [congruence | | reflexivity]. intros cl' Hcl'. discriminate.
Qed.

Lemma create_reservation_post_respects_capacity_witness :
  let env := env_at morning in
  let room := Classroom.mk "A101" "1F" 2 true false in
  let dir := Directory.mk [(1, room)]
               (fun c => if c =? 1 then Some room else None) in
  exists st',
    create_reservation_post env dir initial "alice" 1 "2030-01-01" "14:00"
      "15:00" "bob" = (st', Returns Redirect)
    /\ dict_mem 1 (Directory.get_all_classrooms dir) = true
    /\ snd (create_reservation_post env dir initial "alice" 1 "2030-01-01"
              "14:00" "15:00" "bob, carol")
       = Returns (ReservationForm (over_capacity 3 2) None).
Proof.
  intros env room dir.
  assert (Hrun : exists st',
             create_reservation_post env dir initial "alice" 1 "2030-01-01"
               "14:00" "15:00" "bob" = (st', Returns Redirect))
    by (eexists; vm_compute; reflexivity).
  destruct Hrun as [st' Hrun]. exists st'. split; [exact Hrun|]. split.
  - exact (proj1 (proj2 (create_reservation_post_respects_capacity env dir
                           initial "alice" 1 "2030-01-01" "14:00" "15:00"
                           "bob" st' Redirect Hrun) eq_refl)).
  - vm_compute. reflexivity.
Defined.

(** ** The offer to wait *)

Lemma overlaps_listed_sound s e l :
  overlaps_listed s e l = true ->
  exists item es ee,
    In item l
    /\ _parse_time (Reservation.start_time (snd item)) = Some es
    /\ _parse_time (Reservation.end_time (snd item)) = Some ee
    /\ _is_time_overlap s e es ee = true.
Proof.
  induction l as [|x l IH]; [discriminate|]. cbn [overlaps_listed].
  destruct (_parse_time (Reservation.start_time (snd x))) as [es|] eqn:Hs;
    [|discriminate].
  destruct (_parse_time (Reservation.end_time (snd x))) as [ee|] eqn:He;
    [|discriminate].
  destruct (_is_time_overlap s e es ee) eqn:Hov.
  - intros _. exists x, es, ee. repeat split; auto. now left.
  - intros H. destruct (IH H) as (item & es' & ee' & Hin & Hrest).
    exists item, es', ee'. split; [now right | exact Hrest].
Qed.

Lemma overlaps_listed_complete s e l item es ee :
  Forall (fun x : Z * Reservation.t => well_formed (snd x)) l ->
  In item l ->
  _parse_time (Reservation.start_time (snd item)) = Some es ->
  _parse_time (Reservation.end_time (snd item)) = Some ee ->
  _is_time_overlap s e es ee = true ->
  overlaps_listed s e l = true.
Proof.
  intros Hwf Hin Hs He Hov. induction Hwf as [|x l Hx Hl IH];
    [destruct Hin|].
  cbn [overlaps_listed].
  destruct Hx as ((dd & xs & xe & _ & Hxs & Hxe & _) & _).
  rewrite Hxs, Hxe. destruct (_is_time_overlap s e xs xe) eqn:Hxov;
    [reflexivity|].
  destruct Hin as [->|Hin]; [congruence | exact (IH Hin)].
Qed.

Lemma conflicting_witness c d s e rs x confs :
  conflicting c d s e rs = Some (x :: confs) ->
  exists r es ee,
    In r rs /\ Reservation.classroom_id r = c /\ Reservation.date r = d
    /\ _parse_time (Reservation.start_time r) = Some es
    /\ _parse_time (Reservation.end_time r) = Some ee
    /\ _is_time_overlap s e es ee = true.
Proof.
  revert x confs. induction rs as [|r rs IH]; intros x confs;
    [discriminate|].
  cbn [conflicting].
  destruct (Z.eqb_spec (Reservation.classroom_id r) c) as [Hc|Hc];
    [destruct (String.eqb_spec (Reservation.date r) d) as [Hd|Hd]|];
    cbn [andb].
  - destruct (_parse_time (Reservation.start_time r)) as [es|] eqn:Hs;
      [|discriminate].
    destruct (_parse_time (Reservation.end_time r)) as [ee|] eqn:He;
      [|discriminate].
    destruct (conflicting c d s e rs) as [confs'|] eqn:Hrest;
      [|discriminate].
    destruct (_is_time_overlap s e es ee) eqn:Hov.
    + intros _. exists r, es, ee. repeat split; auto. now left.
    + intros H. inversion H; subst confs'.
      destruct (IH _ _ eq_refl) as (r' & es' & ee' & Hin & Hrest').
      exists r', es', ee'. split; [now right | exact Hrest'].
  - intros H. destruct (IH _ _ H) as (r' & es' & ee' & Hin & Hrest').
    exists r', es', ee'. split; [now right | exact Hrest'].
  - intros H. destruct (IH _ _ H) as (r' & es' & ee' & Hin & Hrest').
    exists r', es', ee'. split; [now right | exact Hrest'].
Qed.

Lemma conflict_has_keyword s e confs :
  existsb (fun keyword => Py.contains keyword
                            (message (TimeConflict s e confs)))
          conflict_keywords = true.
Proof.
  unfold conflict_keywords. cbn [existsb].
  assert (H : Py.contains "다른 이용자의 예약이 존재합니다"
                (message (TimeConflict s e confs)) = true).
  { unfold message.
    apply (contains_later _ "예약하려는 시간(").
    apply contains_later. apply (contains_later _ "~").
    apply contains_later.
    apply (contains_later _ ") 사이에 ").
    apply (contains_here "다른 이용자의 예약이 존재합니다"). }
  rewrite H. now rewrite !orb_true_r.
Qed.

Lemma listed_of_date st c d item :
  d <> "" ->
  In item (get_classroom_reservations st c (Some d)) <->
  In item (RESERVATIONS st)
  /\ Reservation.classroom_id (snd item) = c
  /\ Reservation.date (snd item) = d.
Proof.
  intros Hd.
  pose proof (get_classroom_reservations_perm st c (Some d)) as Hperm.
  split.
  - intros Hin. apply (Permutation_in _ Hperm) in Hin.
    apply filter_In in Hin. destruct Hin as [Hin Hp].
    apply andb_true_iff in Hp. destruct Hp as [Hc Hdate].
    destruct (String.eqb_spec d ""); [contradiction|]. cbn [orb] in Hdate.
    split; [exact Hin|]. split.
    + now apply Z.eqb_eq.
    + now apply String.eqb_eq.
  - intros (Hin & Hc & Hdate).
    apply (Permutation_in _ (Permutation_sym Hperm)).
    apply filter_In. split; [exact Hin|].
    rewrite Hc, Hdate, Z.eqb_refl, String.eqb_refl. now rewrite orb_true_r.
Qed.

Lemma first_failure_time_conflict env st u c d s e ps s' e' confs :
  first_failure env st u c d s e ps = Returns (inl (TimeConflict s' e' confs))
  ->
  exists dd ss ee,
    _parse_date d = Some dd /\ _parse_time s = Some ss
    /\ _parse_time e = Some ee
    /\ conflicting c d ss ee (dict_values (RESERVATIONS st)) = Some confs
    /\ confs <> [].
Proof.
  unfold first_failure.
  destruct (_parse_date d) as [dd|]; [|discriminate].
  destruct (_parse_time s) as [ss|]; [|destruct (overflows s); discriminate].
  destruct (_parse_time e) as [ee|]; [|destruct (overflows e); discriminate].
  destruct (_is_past_datetime env dd ss); [discriminate|].
  destruct (negb (_is_within_7_days env dd)); [discriminate|].
  destruct (negb (_is_valid_time_slot ss ee)); [discriminate|].
  destruct (count_active_reservations env st u) as [n|]; [|discriminate].
  destruct (3 <=? n); [discriminate|].
  destruct (participant_over_quota env st (clean_participants env u ps))
    as [[p|]|]; try discriminate.
  destruct (conflicting c d ss ee (dict_values (RESERVATIONS st)))
    as [[|x l]|] eqn:Hc; try discriminate.
  intros H. inversion H; subst. exists dd, ss, ee.
  split; [reflexivity|]. split; [reflexivity|]. split; [reflexivity|].
  split; [exact Hc | discriminate].
Qed.

Lemma empty_date_is_refused env st u c s e ps :
  first_failure env st u c "" s e ps = Returns (inl (InvalidDate "")).
Proof. reflexivity. Qed.

(** X21: when the form offers to wait, a stored reservation of that
    classroom and date text does overlap the requested interval; and in a
    state the server reaches, a request of the form that
    [create_reservation] refuses for a conflict is always offered to
    wait. *)
Theorem waitlist_offer_means_conflict env dir st u c d s e ps :
  reachable st ->
  (forall st' msg,
      create_reservation_post env dir st u c d s e ps
      = (st', Returns (ReservationForm msg (Some true))) ->
      st' = st /\ exists r, in_the_way st c d s e r)
  /\ (forall confs,
        first_failure env st u c d s e (Some (participants_list ps))
        = Returns (inl (TimeConflict s e confs)) ->
        dict_mem c (Directory.get_all_classrooms dir) = true ->
        (forall cl,
            Directory.get_classroom dir c = Some cl ->
            1 + Z.of_nat (List.length (participants_list ps))
            <= Classroom.capacity cl) ->
        create_reservation_post env dir st u c d s e ps
        = (st, Returns (ReservationForm (message (TimeConflict s e confs))
                          (Some true)))).
Proof.
  intros Hreach.
  destruct (reachable_reservations_ok st Hreach) as (_ & _ & Hwf & _).
  pose proof (create_reservation_post_cases env dir st u c d s e ps) as Hc.
  cbv zeta in Hc.
  pose proof (create_reservation_cases env st u c d s e
                (Some (participants_list ps))) as Hcr.
  split.
  - intros st' msg Hrun.
    assert (Hmain :
      (st', Returns (ReservationForm msg (Some true)))
      = match create_reservation env st u c d s e
                (Some (participants_list ps)) with
        | (st', Raises) => (st', Raises)
        | (st', Returns (true, _)) => (st', Returns Redirect)
        | (st', Returns (false, msg)) =>
            (st', Returns (ReservationForm msg
                             (Some (can_waitlist st' c d s e msg))))
        end ->
      st' = st /\ exists r, in_the_way st c d s e r).
    { intros Heq.
      destruct (first_failure env st u c d s e
                  (Some (participants_list ps)))
        as [[reason|l]|] eqn:Hff; rewrite Hcr in Heq; try discriminate.
      inversion Heq as [[Hst Hmsg Hflag]]. split; [reflexivity|].
      symmetry in Hflag. unfold can_waitlist in Hflag.
      destruct (existsb _ conflict_keywords) eqn:Hkey; [|discriminate].
      destruct (_parse_time s) as [ss|] eqn:Hs; [|discriminate].
      destruct (_parse_time e) as [ee|] eqn:He; [|discriminate].
      destruct (String.eqb_spec d "") as [->|Hd].
      { rewrite empty_date_is_refused in Hff. inversion Hff; subst reason.
        vm_compute in Hkey. discriminate. }
      apply overlaps_listed_sound in Hflag.
      destruct Hflag as ([id r] & es & ee' & Hin & Hes & Hee & Hov).
      apply (listed_of_date st c d _ Hd) in Hin.
      destruct Hin as (Hin & Hcl & Hdate). cbn [snd] in *.
      exists r. split.
      - unfold dict_values. apply in_map_iff. exists (id, r). now split.
      - split; [exact Hcl|]. split; [exact Hdate|].
        exists ss, ee, es, ee'. auto. }
    destruct (dict_mem c (Directory.get_all_classrooms dir));
      cbn [negb] in Hc; [|rewrite Hc in Hrun; discriminate].
    destruct (Directory.get_classroom dir c) as [cl|].
    + destruct (Classroom.capacity cl <? _);
        [rewrite Hc in Hrun; discriminate|].
      apply Hmain. congruence.
    + apply Hmain. congruence.
  - intros confs Hff Hmem Hcap.
    rewrite Hff in Hcr.
    assert (Hoffer : can_waitlist st c d s e
                       (message (TimeConflict s e confs)) = true).
    { destruct (first_failure_time_conflict _ _ _ _ _ _ _ _ _ _ _ Hff)
        as (dd & ss & ee & Hd & Hs & He & Hconf & Hne).
      unfold can_waitlist. rewrite conflict_has_keyword, Hs, He.
      destruct confs as [|x confs]; [contradiction|].
      destruct (conflicting_witness _ _ _ _ _ _ _ Hconf)
        as (r & es & ee' & Hin & Hcl & Hdate & Hes & Hee & Hov).
      unfold dict_values in Hin. apply in_map_iff in Hin.
      destruct Hin as ([id r0] & Hr0 & Hin). cbn [snd] in Hr0. subst r0.
      assert (Hd' : d <> "").
      { intros ->. discriminate. }
      apply (overlaps_listed_complete ss ee _ (id, r) es ee').
      - apply Forall_forall. intros item Hitem.
        apply (listed_of_date st c d _ Hd') in Hitem.
        rewrite Forall_forall in Hwf. apply Hwf, Hitem.
      - apply (listed_of_date st c d _ Hd'). cbn [snd]. auto.
      - exact Hes.
      - exact Hee.
      - exact Hov. }
    rewrite Hmem in Hc. cbn [negb] in Hc.
    destruct (Directory.get_classroom dir c) as [cl|] eqn:Hcl.
    + destruct (Z.ltb_spec (Classroom.capacity cl)
                  (1 + Z.of_nat (List.length (participants_list ps))))
        as [Hover|_]; [specialize (Hcap cl eq_refl); lia|].
      rewrite Hc, Hcr, Hoffer. reflexivity.
    + rewrite Hc, Hcr, Hoffer. reflexivity.
Qed.

Lemma waitlist_offer_means_conflict_witness :
  let env := env_at morning in
  let dir := Directory.mk [(1, Classroom.mk "A101" "1F" 4 true false)]
               (fun _ => None) in
  let st :=
    run (CreateReservation env "alice" 1 "2030-01-01" "14:00" "15:00" None)
      initial in
  reachable st
  /\ exists confs,
       create_reservation_post env dir st "bob" 1 "2030-01-01" "14:00"
         "16:00" ""
       = (st, Returns (ReservationForm
                         (message (TimeConflict "14:00" "16:00" confs))
                         (Some true))).
Proof.
  intros env dir st.
  assert (Hreach : reachable st) by (apply reachable_run, reachable_initial).
  split; [exact Hreach|].
  exists [("14:00", "15:00", "alice")].
  apply (proj2 (waitlist_offer_means_conflict env dir st "bob" 1
                  "2030-01-01" "14:00" "16:00" "" Hreach)).
  - vm_compute. reflexivity.
  - vm_compute. reflexivity.
  - intros cl Hcl. discriminate.
Defined.

(** ** The statistics *)

Lemma classroom_counts_step (rs : list Reservation.t) :
  forall (seen : list Reservation.t) (counts : dict Z),
    NoDup (dict_keys counts) ->
    (forall c,
        dict_get c counts
        = if count_if (fun r => Reservation.classroom_id r =? c) seen =? 0
          then None
          else Some (count_if (fun r => Reservation.classroom_id r =? c)
                       seen)) ->
    let counts' :=
      fold_left (fun counts reservation =>
                   let classroom_id := Reservation.classroom_id reservation in
                   dict_set classroom_id
                     (match dict_get classroom_id counts with
                      | Some n => n
                      | None => 0
                      end + 1)
                     counts)
                rs counts in
    NoDup (dict_keys counts')
    /\ forall c,
         dict_get c counts'
         = if count_if (fun r => Reservation.classroom_id r =? c)
                (seen ++ rs) =? 0
           then None
           else Some (count_if (fun r => Reservation.classroom_id r =? c)
                        (seen ++ rs)).
Proof.
  induction rs as [|r rs IH]; intros seen counts Hnd Hget; cbv zeta.
  - cbn [fold_left]. rewrite app_nil_r. now split.
  - cbn [fold_left].
    replace (seen ++ r :: rs) with ((seen ++ [r]) ++ rs)
      by (now rewrite <- app_assoc).
    apply IH.
    + apply dict_set_NoDup, Hnd.
    + intros c. rewrite count_if_app, count_if_cons.
      change (count_if (fun r0 => Reservation.classroom_id r0 =? c) [])
        with 0.
      assert (Hpos : 0 <= count_if (fun r0 => Reservation.classroom_id r0 =? c)
                            seen) by (unfold count_if; lia).
      destruct (Z.eqb_spec (Reservation.classroom_id r) c) as [Heq|Hne].
      * rewrite Heq, dict_get_set, (Hget c).
        set (n := count_if _ seen) in *.
        destruct (Z.eqb_spec n 0) as [Hz|Hz];
          destruct (Z.eqb_spec (n + (1 + 0)) 0) as [Hz'|Hz']; try lia;
          f_equal; lia.
      * rewrite dict_get_set_other by exact Hne. rewrite (Hget c).
        rewrite !Z.add_0_r. reflexivity.
Qed.

Lemma classroom_counts_spec (rs : list Reservation.t) :
  NoDup (dict_keys (classroom_counts rs))
  /\ forall c,
       dict_get c (classroom_counts rs)
       = if count_if (fun r => Reservation.classroom_id r =? c) rs =? 0
         then None
         else Some (count_if (fun r => Reservation.classroom_id r =? c) rs).
Proof.
  apply (classroom_counts_step rs [] []); [constructor | reflexivity].
Qed.

Lemma firstn_In {A : Type} n (l : list A) x : In x (firstn n l) -> In x l.
Proof.
  intros H. rewrite <- (firstn_skipn n l). apply in_or_app. now left.
Qed.

Lemma firstn_StronglySorted {A : Type} (R : A -> A -> Prop) n l :
  StronglySorted R l -> StronglySorted R (firstn n l).
Proof.
  revert l. induction n as [|n IH]; intros l H; [constructor|].
  destruct H as [|x l Hl Hall]; [constructor|]. cbn [firstn].
  constructor; [exact (IH _ Hl)|].
  apply Forall_forall. intros y Hy. rewrite Forall_forall in Hall.
  apply Hall. exact (firstn_In _ _ _ Hy).
Qed.

Lemma firstn_NoDup {A : Type} n (l : list A) :
  NoDup l -> NoDup (firstn n l).
Proof.
  intros H. rewrite <- (firstn_skipn n l) in H.
  exact (NoDup_app_remove_r _ _ H).
Qed.

Lemma StronglySorted_app_le {A : Type} (R : A -> A -> Prop) l1 l2 :
  StronglySorted R (l1 ++ l2) ->
  forall x y, In x l1 -> In y l2 -> R x y.
Proof.
  induction l1 as [|a l1 IH]; intros H x y Hx Hy; [destruct Hx|].
  cbn [app] in H. inversion H as [|a' l' Hl Hall]; subst.
  destruct Hx as [->|Hx].
  - rewrite Forall_forall in Hall. apply Hall, in_or_app. now right.
  - exact (IH Hl x y Hx Hy).
Qed.

Lemma StronglySorted_map_back {A B : Type} (f : A -> B)
    (R : B -> B -> Prop) l :
  StronglySorted (fun a b => R (f a) (f b)) l -> StronglySorted R (map f l).
Proof.
  induction 1 as [|x l Hl IH Hall]; cbn [map]; constructor.
  - exact IH.
  - apply Forall_map. exact Hall.
Qed.

Lemma rows_short dir (l : list (Z * Z)) :
  (List.length
     (flat_map (fun item : Z * Z =>
                  let '(classroom_id, count) := item in
                  match dict_get classroom_id
                          (Directory.get_all_classrooms dir) with
                  | Some classroom =>
                      [(classroom_id, Classroom.name classroom,
                        Classroom.location classroom, count)]
                  | None => []
                  end) l)
   <= List.length l)%nat.
Proof.
  induction l as [|[c k] l IH]; [apply Nat.le_refl|].
  cbn [flat_map]. cbv beta iota. rewrite length_app.
  destruct (dict_get c (Directory.get_all_classrooms dir));
    cbn [List.length].
  - exact (le_n_S _ _ IH).
  - exact (Nat.le_trans _ _ _ IH (Nat.le_succ_diag_r _)).
Qed.

Lemma rows_sorted dir (l : list (Z * Z)) :
  StronglySorted (fun a b : Z * Z => snd b <= snd a) l ->
  StronglySorted (fun a b : Z * string * string * Z => snd b <= snd a)
    (flat_map (fun item : Z * Z =>
                 let '(classroom_id, count) := item in
                 match dict_get classroom_id
                         (Directory.get_all_classrooms dir) with
                 | Some classroom =>
                     [(classroom_id, Classroom.name classroom,
                       Classroom.location classroom, count)]
                 | None => []
                 end) l).
Proof.
  induction 1 as [|[c k] l Hl IH Hall]; [constructor|].
  cbn [flat_map]. cbv beta iota.
  destruct (dict_get c (Directory.get_all_classrooms dir)) as [cl|];
    [|exact IH].
  cbn [app]. constructor; [exact IH|].
  apply Forall_forall. intros row Hrow.
  apply in_flat_map in Hrow. destruct Hrow as ([c' k'] & Hin' & Hrow).
  destruct (dict_get c' (Directory.get_all_classrooms dir)) as [cl'|];
    [|destruct Hrow].
  destruct Hrow as [<-|[]]. cbn [snd].
  rewrite Forall_forall in Hall. exact (Hall _ Hin').
Qed.

(** X22: the statistics list at most five classrooms, each with the number
    of stored reservations it has, at least one, and its name and place
    from the directory, by falling count; they are taken from the five
    fullest classrooms: a classroom with more reservations than one of
    those five is one of them. *)
Theorem popular_classrooms_are_top_five dir st :
  let count c :=
    count_if (fun r => Reservation.classroom_id r =? c)
             (dict_values (RESERVATIONS st)) in
  (List.length (popular_classrooms dir st) <= 5)%nat
  /\ (forall c name loc k,
        In (c, name, loc, k) (popular_classrooms dir st) ->
        k = count c /\ 1 <= k /\ In (c, k) (top_classrooms st)
        /\ exists cl,
             dict_get c (Directory.get_all_classrooms dir) = Some cl
             /\ name = Classroom.name cl /\ loc = Classroom.location cl)
  /\ StronglySorted (fun a b => snd b <= snd a) (popular_classrooms dir st)
  /\ NoDup (map fst (top_classrooms st))
  /\ (forall c k c',
        In (c, k) (top_classrooms st) -> k < count c' ->
        In c' (map fst (top_classrooms st))).
Proof.
  cbv zeta.
  set (rs := dict_values (RESERVATIONS st)).
  destruct (classroom_counts_spec rs) as [Hnd Hget].
  set (le := fun a b : Z * Z => snd b <=? snd a).
  set (sorted := sort_by le (classroom_counts rs)).
  assert (Hperm : Permutation sorted (classroom_counts rs))
    by apply sort_by_perm.
  assert (Hsorted : StronglySorted (fun a b => le a b = true) sorted).
  { apply sort_by_StronglySorted.
    - intros a b. unfold le.
      destruct (Z.leb_spec (snd b) (snd a)); [now left|].
      right. apply Z.leb_le. lia.
    - intros a b c. unfold le. rewrite !Z.leb_le. lia. }
  assert (Htop : top_classrooms st = firstn 5 sorted) by reflexivity.
  assert (Hnonneg : forall c,
             0 <= count_if (fun r => Reservation.classroom_id r =? c) rs)
    by (intros c; unfold count_if; lia).
  assert (Hin_top : forall c k,
             In (c, k) sorted ->
             k = count_if (fun r => Reservation.classroom_id r =? c) rs
             /\ 1 <= k).
  { intros c k Hin. apply (Permutation_in _ Hperm) in Hin.
    apply (In_dict_get _ _ _ Hnd) in Hin. rewrite Hget in Hin.
    specialize (Hnonneg c).
    destruct (Z.eqb_spec
                (count_if (fun r => Reservation.classroom_id r =? c) rs) 0);
      [discriminate|].
    inversion Hin. split; [reflexivity | lia]. }
  split; [|split; [|split; [|split]]].
  - unfold popular_classrooms. rewrite Htop.
    eapply Nat.le_trans; [apply rows_short | apply firstn_le_length].
  - intros c name loc k Hin. unfold popular_classrooms in Hin.
    apply in_flat_map in Hin. destruct Hin as ([c' k'] & Hin' & Hrow).
    destruct (dict_get c' (Directory.get_all_classrooms dir)) as [cl|] eqn:Hcl;
      [|destruct Hrow].
    destruct Hrow as [Hrow|[]]. inversion Hrow; subst.
    destruct (Hin_top c k) as [Hk Hpos];
      [rewrite Htop in Hin'; exact (firstn_In _ _ _ Hin')|].
    split; [exact Hk|]. split; [exact Hpos|]. split; [exact Hin'|].
    exists cl. auto.
  - unfold popular_classrooms. rewrite Htop.
    apply rows_sorted, firstn_StronglySorted.
    eapply StronglySorted_weaken; [|exact Hsorted].
    intros a b H. unfold le in H. now apply Z.leb_le.
  - rewrite Htop, <- firstn_map. apply firstn_NoDup.
    apply (Permutation_NoDup (Permutation_map fst (Permutation_sym Hperm))).
    exact Hnd.
  - intros c k c' Hin Hlt.
    assert (Hk : k = count_if (fun r => Reservation.classroom_id r =? c) rs
                 /\ 1 <= k)
      by (apply Hin_top; rewrite Htop in Hin; exact (firstn_In _ _ _ Hin)).
    assert (Hc' : In (c', count_if (fun r => Reservation.classroom_id r =? c')
                            rs) sorted).
    { apply (Permutation_in _ (Permutation_sym Hperm)).
      apply dict_get_In. rewrite Hget.
      destruct (Z.eqb_spec
                  (count_if (fun r => Reservation.classroom_id r =? c') rs) 0);
        [lia | reflexivity]. }
    rewrite <- (firstn_skipn 5 sorted) in Hc', Hsorted.
    apply in_app_or in Hc'. destruct Hc' as [Hc'|Hc'].
    + rewrite Htop.
      change c' with (fst (c', count_if (fun r => Reservation.classroom_id r
                                                  =? c') rs)).
      now apply in_map.
    + rewrite Htop in Hin.
      pose proof (StronglySorted_app_le _ _ _ Hsorted _ _ Hin Hc') as Hle.
      unfold le in Hle. cbn [snd] in Hle. apply Z.leb_le in Hle. lia.
Qed.

(** ** The slots that get stored *)

Lemma parse_time_valid str t : _parse_time str = Some t -> valid_time t.
Proof.
  unfold _parse_time, try_parse_time.
  destruct (map Py.int (Py.split ":" str)) as [|[h|] [|[m|] [|x l]]];
    try discriminate.
  unfold time_new. destruct (negb _); [discriminate|].
  destruct (Z.leb_spec 0 h); [|discriminate].
  destruct (Z.ltb_spec h 24); [|discriminate].
  destruct (Z.leb_spec 0 m); [|discriminate].
  destruct (Z.ltb_spec m 60); [|discriminate].
  cbn [andb]. intros Hres. inversion Hres; subst. split; cbn; lia.
Qed.

Lemma parse_date_valid str d : _parse_date str = Some d -> 1 <= d.
Proof.
  unfold _parse_date.
  destruct (Py.split "-" str) as [|y [|m [|dd [|x l]]]]; try discriminate.
  destruct (year_field y) as [yy|]; [|discriminate].
  destruct (month_field m) as [mm|]; [|discriminate].
  destruct (day_field dd) as [dv|]; [|discriminate].
  unfold date_new.
  destruct (Z.leb_spec 1 yy); [|discriminate].
  destruct (Z.leb_spec yy 9999); [|discriminate].
  destruct (Z.leb_spec 1 mm); [|discriminate].
  destruct (Z.leb_spec mm 12); [|discriminate].
  destruct (Z.leb_spec 1 dv); [|discriminate].
  destruct (Z.leb_spec dv (days_in_month yy mm)); [|discriminate].
  cbn [andb]. intros Hres. inversion Hres; subst.
  assert (0 <= days_before_year yy).
  { unfold days_before_year.
    pose proof (Z.div_pos (yy - 1) 4). pose proof (Z.div_pos (yy - 1) 400).
    assert ((yy - 1) / 100 <= (yy - 1) / 4).
    { apply Z.div_le_compat_l; lia. }
    nia. }
  assert (0 <= days_before_month yy mm).
  { unfold days_before_month.
    assert (Hm : mm = 1 \/ mm = 2 \/ mm = 3 \/ mm = 4 \/ mm = 5 \/ mm = 6
                 \/ mm = 7 \/ mm = 8 \/ mm = 9 \/ mm = 10 \/ mm = 11
                 \/ mm = 12) by lia.
    destruct Hm as [->|[->|[->|[->|[->|[->|[->|[->|[->|[->|[->| ->]]]]]]]]]]];
      destruct (is_leap yy); vm_compute; discriminate. }
  lia.
Qed.

Lemma well_formed_whole_hours r :
  well_formed r ->
  exists dd ss ee,
    _parse_date (Reservation.date r) = Some dd
    /\ _parse_time (Reservation.start_time r) = Some ss
    /\ _parse_time (Reservation.end_time r) = Some ee
    /\ 1 <= dd
    /\ minute ss = 0 /\ minute ee = 0
    /\ 0 <= hour ss < hour ee /\ hour ee <= 23.
Proof.
  intros ((dd & ss & ee & Hd & Hs & He & Hv) & _).
  exists dd, ss, ee. split; [exact Hd|]. split; [exact Hs|].
  split; [exact He|]. split; [exact (parse_date_valid _ _ Hd)|].
  apply valid_slot_iff in Hv. destruct Hv as (Hms & Hme & Hlt & _).
  destruct (parse_time_valid _ _ Hs) as [Hhs _].
  destruct (parse_time_valid _ _ He) as [Hhe _].
  split; [exact Hms|]. split; [exact Hme|].
  unfold time_ltb in Hlt. rewrite Hms, Hme in Hlt.
  destruct (Z.ltb_spec (hour ss) (hour ee)); [lia|].
  cbn [orb] in Hlt. rewrite andb_false_r in Hlt. discriminate.
Qed.

(** X23: every reservation the server has stored starts and ends on the
    hour of one day, the end after the start and at 23:00 at the latest;
    and when [create_reservation] accepts a request, its date lies within
    today and the six days that follow and its start is not in the past. *)
Theorem stored_slots_are_whole_hours st :
  reachable st ->
  (forall id r,
      In (id, r) (RESERVATIONS st) ->
      exists dd ss ee,
        _parse_date (Reservation.date r) = Some dd
        /\ _parse_time (Reservation.start_time r) = Some ss
        /\ _parse_time (Reservation.end_time r) = Some ee
        /\ 1 <= dd
        /\ minute ss = 0 /\ minute ee = 0
        /\ 0 <= hour ss < hour ee /\ hour ee <= 23)
  /\ (forall env u c d s e ps st' msg,
        create_reservation env st u c d s e ps = (st', Returns (true, msg)) ->
        exists dd ss,
          _parse_date d = Some dd /\ _parse_time s = Some ss
          /\ today env <= dd <= today env + 6
          /\ now env <= combine dd ss).
Proof.
  intros Hreach.
  destruct (reachable_reservations_ok st Hreach) as (_ & _ & Hwf & _).
  split.
  - intros id r Hin. rewrite Forall_forall in Hwf.
    exact (well_formed_whole_hours r (Hwf _ Hin)).
  - intros env u c d s e ps st' msg Hrun.
    pose proof (create_reservation_cases env st u c d s e ps) as Hc.
    destruct (first_failure env st u c d s e ps) as [[reason|l]|] eqn:Hff;
      rewrite Hc in Hrun; try discriminate.
    apply first_failure_accepts in Hff.
    destruct Hff as ((dd & ss & ee & Hd & Hs & He & Hpast & Hwin & _) & _).
    exists dd, ss. split; [exact Hd|]. split; [exact Hs|].
    unfold _is_within_7_days in Hwin. unfold _is_past_datetime in Hpast.
    apply andb_true_iff in Hwin. destruct Hwin as [H1 H2].
    apply Z.leb_le in H1, H2. apply Z.ltb_ge in Hpast. lia.
Qed.

Lemma stored_slots_are_whole_hours_witness :
  let st :=
    run (CreateReservation (env_at morning) "alice" 1 "2030-01-01" "14:00"
           "16:00" None) initial in
  reachable st
  /\ exists dd ss ee,
       _parse_date "2030-01-01" = Some dd
       /\ _parse_time "14:00" = Some ss /\ _parse_time "16:00" = Some ee
       /\ 1 <= dd /\ minute ss = 0 /\ minute ee = 0
       /\ 0 <= hour ss < hour ee /\ hour ee <= 23.
Proof.
  intros st.
  assert (Hreach : reachable st) by (apply reachable_run, reachable_initial).
  split; [exact Hreach|].
  exact (proj1 (stored_slots_are_whole_hours st Hreach) 1
           (Reservation.mk "alice" 1 "2030-01-01" "14:00" "16:00" [])
           (or_introl eq_refl)).
Defined.

(** ** Joining and leaving the waitlist *)

(** X24: in a state the server reaches, [create_waitlist_entry] accepts a
    request exactly when the user holds fewer than three active
    reservations, the date and both times parse, and the user is not
    queued yet under the same classroom and the same date, start and end
    texts; it asks nothing else of the slot.  The new entry then goes
    last, ranked after the entries queued under the same texts. *)
Theorem create_waitlist_entry_accepts_iff env st u c d s e :
  reachable st ->
  ((exists st' msg,
       create_waitlist_entry env st u c d s e = (st', Returns (true, msg)))
   <->
   active_held env st u < 3
   /\ _parse_date d <> None /\ _parse_time s <> None /\ _parse_time e <> None
   /\ ~ (exists entry,
            In entry (dict_values (WAITLIST st))
            /\ request_of entry = (u, (c, d, s, e))))
  /\ (forall st' msg,
        create_waitlist_entry env st u c d s e = (st', Returns (true, msg)) ->
        WAITLIST st'
        = WAITLIST st
          ++ [(waitlist_next_id st,
               Waitlist.mk u c d s e (now env)
                 (Z.of_nat (List.length (slot_entries st c d s e))))]
        /\ RESERVATIONS st' = RESERVATIONS st
        /\ NOTIFICATIONS st' = NOTIFICATIONS st).
Proof.
  intros Hreach.
  destruct (reachable_reservations_ok st Hreach) as (_ & _ & Hwf & _).
  destruct (reachable_waitlist_keys st Hreach) as [_ Hbelow].
  assert (Hdup : existsb
            (fun entry => String.eqb (Waitlist.user_id entry) u
                          && same_slot c d s e entry)
            (dict_values (WAITLIST st)) = true
          <-> exists entry,
                In entry (dict_values (WAITLIST st))
                /\ request_of entry = (u, (c, d, s, e))).
  { rewrite existsb_exists. split; intros (entry & Hin & H); exists entry;
      (split; [exact Hin|]).
    - apply andb_true_iff in H. destruct H as [Hu Hs].
      apply String.eqb_eq in Hu. apply same_slot_iff in Hs.
      unfold request_of. now rewrite Hu, Hs.
    - pose proof (f_equal fst H) as Hu. pose proof (f_equal snd H) as Hs.
      cbn [fst snd request_of] in Hu, Hs.
      rewrite Hu, String.eqb_refl. now apply same_slot_iff. }
  unfold create_waitlist_entry.
  rewrite (count_active_is_held env st u Hwf).
  destruct (Z.leb_spec 3 (active_held env st u)) as [Hq|Hq].
  { split.
    - split; [intros (st' & msg & H); discriminate|].
      intros (H & _). lia.
    - intros st' msg H. discriminate. }
  destruct (_parse_date d) as [dd|].
  2:{ split; [split; [intros (st' & msg & H); discriminate|]|
              intros st' msg H; discriminate].
      intros (_ & H & _). now contradiction H. }
  destruct (_parse_time s) as [ss|].
  2:{ split; [split; [intros (st' & msg & H);
                      destruct (overflows s); discriminate|]|
              intros st' msg H; destruct (overflows s); discriminate].
      intros (_ & _ & H & _). now contradiction H. }
  destruct (_parse_time e) as [ee|].
  2:{ split; [split; [intros (st' & msg & H);
                      destruct (overflows e); discriminate|]|
              intros st' msg H; destruct (overflows e); discriminate].
      intros (_ & _ & _ & H & _). now contradiction H. }
  destruct (existsb _ (dict_values (WAITLIST st))) eqn:Hex.
  { split; [split; [intros (st' & msg & H); discriminate|]|
            intros st' msg H; discriminate].
    intros (_ & _ & _ & _ & H). exfalso. apply H, Hdup. reflexivity. }
  split.
  - split.
    + intros _. split; [exact Hq|]. repeat (split; [discriminate|]).
      intros H. apply Hdup in H. discriminate.
    + intros _. eexists. eexists. reflexivity.
  - intros st' msg H. inversion H; subst.
    cbn [WAITLIST RESERVATIONS NOTIFICATIONS set_waitlist].
    split; [|split; reflexivity].
    rewrite dict_set_fresh by (apply below_counter_fresh, Hbelow).
    reflexivity.
Qed.

Lemma create_waitlist_entry_accepts_iff_witness :
  let env := env_at morning in
  reachable initial
  /\ exists st' msg,
       create_waitlist_entry env initial "bob" 9 "2020-01-01" "14:30" "13:00"
       = (st', Returns (true, msg)).
Proof.
  intros env. split; [exact reachable_initial|].
  apply (proj1 (create_waitlist_entry_accepts_iff env initial "bob" 9
                  "2020-01-01" "14:30" "13:00" reachable_initial)).
  split; [vm_compute; reflexivity|].
  split; [vm_compute; discriminate|].
  split; [vm_compute; discriminate|].
  split; [vm_compute; discriminate|].
  intros (entry & [] & _).
Defined.

Lemma dict_get_rerank_back c d s e wl id entry0 :
  dict_get id wl = Some entry0 ->
  exists entry,
    dict_get id (rerank c d s e wl) = Some entry
    /\ request_of entry = request_of entry0
    /\ Waitlist.created_at entry = Waitlist.created_at entry0.
Proof.
  intros Hget. unfold rerank.
  set (h := fun other : Waitlist.t =>
              if same_slot c d s e other
              then set_priority other
                     (count_if (fun x => same_slot c d s e x
                                         && (Waitlist.created_at x
                                             <? Waitlist.created_at other))
                               (dict_values wl))
              else other).
  rewrite (map_ext _ (fun kv => (fst kv, h (snd kv)))).
  - rewrite dict_get_map, Hget. cbn [option_map]. exists (h entry0).
    split; [reflexivity|]. unfold h.
    now destruct (same_slot c d s e entry0).
  - intros [k v]. unfold h. cbn [fst snd].
    now destruct (same_slot c d s e v).
Qed.

(** X25: [cancel_waitlist_entry] succeeds exactly for the user of a queued
    entry; the entry then leaves the queue, every other entry stays under
    its id with its user, slot and time of arrival, and reservations and
    notifications are left alone; a refusal changes nothing. *)
Theorem cancel_waitlist_entry_owner_only st id u :
  reachable st ->
  ((exists entry, get_waitlist_entry st id = Some entry
                  /\ Waitlist.user_id entry = u) ->
   exists st',
     cancel_waitlist_entry st id u = (st', (true, "대기 신청이 취소되었습니다."))
     /\ get_waitlist_entry st' id = None
     /\ (forall k entry0,
           k <> id -> get_waitlist_entry st k = Some entry0 ->
           exists entry,
             get_waitlist_entry st' k = Some entry
             /\ request_of entry = request_of entry0
             /\ Waitlist.created_at entry = Waitlist.created_at entry0)
     /\ RESERVATIONS st' = RESERVATIONS st
     /\ NOTIFICATIONS st' = NOTIFICATIONS st)
  /\ (~ (exists entry, get_waitlist_entry st id = Some entry
                       /\ Waitlist.user_id entry = u) ->
      exists msg, cancel_waitlist_entry st id u = (st, (false, msg))).
Proof.
  intros Hreach.
  destruct (reachable_waitlist_keys st Hreach) as [Hnd _].
  unfold cancel_waitlist_entry, get_waitlist_entry. split.
  - intros (entry & Hget & Hu). rewrite Hget, Hu, String.eqb_refl.
    cbn [negb]. eexists. split; [reflexivity|].
    cbn [WAITLIST RESERVATIONS NOTIFICATIONS set_waitlist].
    split; [|split; [|split; reflexivity]].
    + apply dict_get_absent. rewrite rerank_keys. now apply dict_del_gone.
    + intros k entry0 Hk Hget0. apply dict_get_rerank_back.
      now rewrite dict_get_del_other.
  - intros Hnot. destruct (dict_get id (WAITLIST st)) as [entry|];
      [|eexists; reflexivity].
    destruct (String.eqb_spec (Waitlist.user_id entry) u) as [Hu|Hu];
      [|eexists; reflexivity].
    exfalso. apply Hnot. exists entry. now split.
Qed.

Lemma cancel_waitlist_entry_owner_only_witness :
  let env := env_at morning in
  let st :=
    run (CreateWaitlistEntry env "bob" 1 "2030-01-01" "14:00" "15:00")
      initial in
  reachable st
  /\ (exists msg, cancel_waitlist_entry st 1 "carol" = (st, (false, msg)))
  /\ exists st',
       cancel_waitlist_entry st 1 "bob"
       = (st', (true, "대기 신청이 취소되었습니다."))
       /\ get_waitlist_entry st' 1 = None.
Proof.
  intros env st.
  assert (Hreach : reachable st) by (apply reachable_run, reachable_initial).
  split; [exact Hreach|]. split.
  - apply (proj2 (cancel_waitlist_entry_owner_only st 1 "carol" Hreach)).
    intros (entry & Hget & Hu).
    assert (Hget' : get_waitlist_entry st 1
                    = Some (Waitlist.mk "bob" 1 "2030-01-01" "14:00" "15:00"
                              morning 0)) by (vm_compute; reflexivity).
    rewrite Hget' in Hget. inversion Hget; subst entry. discriminate Hu.
  - destruct (proj1 (cancel_waitlist_entry_owner_only st 1 "bob" Hreach))
      as (st' & Hcancel & Hgone & _).
    + eexists. split; [vm_compute; reflexivity | reflexivity].
    + exists st'. split; assumption.
Defined.

(** ** The lists of the waitlist *)

(** X26: the waitlist of a user lists the user's entries, each once, by
    date text and then start text; the waitlist of a classroom lists the
    entries of the classroom, date text and start text, whatever their end,
    each once, by priority and then by time of arrival. *)
Theorem waitlist_listings_sorted st :
  (forall u,
      Permutation (get_user_waitlist st u)
        (filter (fun item => String.eqb (Waitlist.user_id (snd item)) u)
                (WAITLIST st))
      /\ StronglySorted
           (fun a b =>
              text_pair_le
                (Waitlist.date (snd a), Waitlist.start_time (snd a))
                (Waitlist.date (snd b), Waitlist.start_time (snd b)) = true)
           (get_user_waitlist st u))
  /\ (forall c d s,
        Permutation (get_classroom_waitlist st c d s)
          (filter (fun item =>
                     (Waitlist.classroom_id (snd item) =? c)
                     && String.eqb (Waitlist.date (snd item)) d
                     && String.eqb (Waitlist.start_time (snd item)) s)
                  (WAITLIST st))
        /\ StronglySorted (fun a b => waiting_before a b = true)
             (get_classroom_waitlist st c d s)).
Proof.
  split.
  - intros u. unfold get_user_waitlist. split; [apply sort_by_perm|].
    apply sort_by_StronglySorted.
    + intros a b. apply text_pair_le_total.
    + intros a b c. apply text_pair_le_trans.
  - intros c d s. unfold get_classroom_waitlist.
    split; [apply sort_by_perm|].
    apply sort_by_StronglySorted.
    + intros a b. unfold waiting_before.
      destruct (Z.ltb_spec (Waitlist.priority (snd a))
                  (Waitlist.priority (snd b))); [now left|].
      destruct (Z.ltb_spec (Waitlist.priority (snd b))
                  (Waitlist.priority (snd a))); [now right|].
      assert (Heq : Waitlist.priority (snd a) = Waitlist.priority (snd b))
        by lia.
      rewrite Heq, Z.eqb_refl. cbn [orb andb].
      destruct (Z.leb_spec (Waitlist.created_at (snd a))
                  (Waitlist.created_at (snd b))); [now left|].
      right. apply Z.leb_le. lia.
    + intros a b c0. unfold waiting_before. intros Hab Hbc.
      apply orb_true_iff in Hab, Hbc. apply orb_true_iff.
      rewrite !andb_true_iff, !Z.ltb_lt, !Z.eqb_eq, !Z.leb_le in *.
      lia.
Qed.

(** ** Cancelling from the page *)

(** X27: in a state the server reaches the cancellation page answers.  For
    anybody but the owner of a stored reservation it changes nothing;
    for the owner it removes the reservation and reserves at most one
    slot in its place, for an entry that was queued for the classroom and
    date with an interval that overlaps the cancelled one. *)
Theorem cancel_reservation_post_outcome env st id u :
  reachable st ->
  exists st' res,
    cancel_reservation_post env st id u = (st', Returns res)
    /\ match get_reservation st id with
       | Some r =>
           if String.eqb (Reservation.user_id r) u then
             get_reservation st' id = None
             /\ match res with
                | None =>
                    RESERVATIONS st' = dict_del id (RESERVATIONS st)
                | Some a =>
                    exists wid entry cs ce,
                      In (wid, entry) (WAITLIST st)
                      /\ _parse_time (Reservation.start_time r) = Some cs
                      /\ _parse_time (Reservation.end_time r) = Some ce
                      /\ matching (Reservation.classroom_id r)
                           (Reservation.date r) cs ce (wid, entry) = true
                      /\ a = Assigned.mk (Waitlist.user_id entry)
                               (Reservation.classroom_id r)
                               (Reservation.date r)
                               (Waitlist.start_time entry)
                               (Waitlist.end_time entry)
                      /\ RESERVATIONS st'
                         = dict_del id (RESERVATIONS st)
                           ++ [(reservation_next_id st,
                                Reservation.mk (Waitlist.user_id entry)
                                  (Reservation.classroom_id r)
                                  (Reservation.date r)
                                  (Waitlist.start_time entry)
                                  (Waitlist.end_time entry) [])]
                      /\ ~ In wid (dict_keys (WAITLIST st'))
                end
           else st' = st /\ res = None
       | None => st' = st /\ res = None
       end.
Proof.
  intros Hreach.
  pose proof (reachable_reservations_ok st Hreach) as Hok.
  pose proof (reachable_notifications_ok st Hreach) as Hnok.
  destruct (reachable_waitlist_keys st Hreach) as [Hnd _].
  unfold cancel_reservation_post, cancel_reservation, get_reservation.
  destruct (dict_get id (RESERVATIONS st)) as [r|] eqn:Hr.
  2:{ exists st, None. now split. }
  destruct (String.eqb (Reservation.user_id r) u) eqn:Hu; cbn [negb].
  2:{ exists st, None. now split. }
  set (st1 := set_reservations st (dict_del id (RESERVATIONS st))
                (reservation_next_id st)).
  destruct (process_waitlist_outcome env st1 (Reservation.classroom_id r)
              (Reservation.date r) (Reservation.start_time r)
              (Reservation.end_time r))
    as (st' & res & Hrun & Hincl & Hres).
  { apply reservations_ok_del, Hok. }
  { exact Hnok. }
  { exact Hnd. }
  { exact (reachable_waitlist_parses st Hreach). }
  { destruct Hok as (_ & _ & Hwf & _). rewrite Forall_forall in Hwf.
    destruct (Hwf (id, r) (dict_get_In _ _ _ Hr))
      as ((dd & ss & ee & _ & Hss & _) & _).
    exact (parse_time_no_overflow _ _ Hss). }
  { destruct Hok as (_ & _ & Hwf & _). rewrite Forall_forall in Hwf.
    destruct (Hwf (id, r) (dict_get_In _ _ _ Hr))
      as ((dd & ss & ee & _ & _ & Hee & _) & _).
    exact (parse_time_no_overflow _ _ Hee). }
  exists st', res. split; [exact Hrun|].
  destruct Hok as ([Hndr Hbelow] & _).
  assert (Hid : id < reservation_next_id st).
  { rewrite Forall_forall in Hbelow. apply Hbelow.
    exact (dict_get_In_keys _ _ _ Hr). }
  destruct res as [a|].
  - destruct Hres as (wid & entry & cs & ce & Hin & Hcs & Hce & Hm & Ha
                      & Hres & Hgone & _).
    cbn [RESERVATIONS reservation_next_id st1 set_reservations WAITLIST]
      in Hres, Hin.
    split.
    + unfold get_reservation. rewrite Hres, dict_get_app.
      rewrite (dict_get_del_same _ _ Hndr). cbn [dict_get].
      destruct (Z.eqb_spec (reservation_next_id st) id); [lia | reflexivity].
    + exists wid, entry, cs, ce. repeat (split; [assumption|]). assumption.
  - destruct Hres as [Hres _].
    cbn [RESERVATIONS st1 set_reservations] in Hres. split; [|exact Hres].
    unfold get_reservation. rewrite Hres. now apply dict_get_del_same.
Qed.

Lemma cancel_reservation_post_outcome_witness :
  let env := env_at morning in
  let st :=
    run (CreateWaitlistEntry env "bob" 1 "2030-01-01" "14:00" "15:00")
      (run (CreateReservation env "alice" 1 "2030-01-01" "14:00" "15:00"
              None) initial) in
  reachable st
  /\ exists st' res,
       cancel_reservation_post env st 1 "alice" = (st', Returns res)
       /\ get_reservation st' 1 = None
       /\ dict_keys (RESERVATIONS st') = [2].
Proof.
  intros env st.
  assert (Hreach : reachable st)
    by (apply reachable_run, reachable_run, reachable_initial).
  split; [exact Hreach|].
  destruct (cancel_reservation_post_outcome env st 1 "alice" Hreach)
    as (st' & res & Hrun & Hres).
  exists st', res. split; [exact Hrun|].
  assert (Hr : get_reservation st 1
               = Some (Reservation.mk "alice" 1 "2030-01-01" "14:00"
                         "15:00" [])) by (vm_compute; reflexivity).
  rewrite Hr in Hres. cbn [Reservation.user_id] in Hres.
  change (String.eqb "alice" "alice") with true in Hres.
  split; [exact (proj1 Hres)|].
  assert (Hst' : st' = fst (cancel_reservation_post env st 1 "alice"))
    by (rewrite Hrun; reflexivity).
  rewrite Hst'. vm_compute. reflexivity.
Defined.

(** ** The search page *)

Lemma shown_classrooms (all_classrooms : dict Classroom.t) (ids : list Z) :
  forall shown,
    NoDup (dict_keys shown) ->
    let shown' :=
      fold_left (fun filtered_classrooms cid =>
                   match dict_get cid all_classrooms with
                   | Some classroom =>
                       dict_set cid classroom filtered_classrooms
                   | None => filtered_classrooms
                   end)
                ids shown in
    NoDup (dict_keys shown')
    /\ forall c cl,
         dict_get c shown' = Some cl ->
         dict_get c shown = Some cl
         \/ (In c ids /\ dict_get c all_classrooms = Some cl).
Proof.
  induction ids as [|cid ids IH]; intros shown Hnd; cbv zeta.
  - cbn [fold_left]. split; [exact Hnd | auto].
  - cbn [fold_left].
    destruct (dict_get cid all_classrooms) as [classroom|] eqn:Hcid.
    + destruct (IH (dict_set cid classroom shown)) as [Hnd' Hin'].
      { apply dict_set_NoDup, Hnd. }
      split; [exact Hnd'|]. intros c cl Hget.
      destruct (Hin' c cl Hget) as [Hset|[Hin Hall]].
      * destruct (Z.eq_dec cid c) as [->|Hne].
        -- rewrite dict_get_set in Hset. inversion Hset; subst.
           right. split; [now left | exact Hcid].
        -- rewrite dict_get_set_other in Hset by exact Hne. now left.
      * right. split; [now right | exact Hall].
    + destruct (IH shown Hnd) as [Hnd' Hin'].
      split; [exact Hnd'|]. intros c cl Hget.
      destruct (Hin' c cl Hget) as [Hset|[Hin Hall]]; [now left|].
      right. split; [now right | exact Hall].
Qed.

(** X28: in a state the server reaches, the search page answers for a
    date and times that do not raise [OverflowError], and every classroom
    it shows is one of the directory, shown once, that passes the filters
    asked for (a ticked box, a positive capacity) and has no stored
    reservation of that date text in the way of the slot; with a date or
    time that does not parse, or a slot that is not valid, it shows
    none. *)
Theorem search_shows_free_classrooms dir st d s e min_capacity hp hw :
  reachable st ->
  request_overflows d s e = false ->
  exists shown,
    search_available_classrooms_post dir st d s e min_capacity hp hw
    = Returns shown
    /\ NoDup (dict_keys shown)
    /\ (forall c cl,
          In (c, cl) shown ->
          dict_get c (Directory.get_all_classrooms dir) = Some cl
          /\ slot_free st c d s e
          /\ exists info,
               Directory.get_classroom dir c = Some info
               /\ (forall m, min_capacity = Some m -> 0 < m ->
                             m <= Classroom.capacity info)
               /\ (hp = true -> Classroom.projector info = true)
               /\ (hw = true -> Classroom.whiteboard info = true))
    /\ (~ (exists dd ss ee,
              _parse_date d = Some dd /\ _parse_time s = Some ss
              /\ _parse_time e = Some ee
              /\ _is_valid_time_slot ss ee = true) ->
        shown = []).
Proof.
  intros Hreach Hfit.
  destruct (reachable_reservations_ok st Hreach) as (_ & _ & Hwf & _).
  assert (Hwf' : Forall well_formed (dict_values (RESERVATIONS st))).
  { unfold dict_values. apply Forall_map. exact Hwf. }
  unfold search_available_classrooms_post, find_available_classrooms.
  unfold request_overflows in Hfit.
  destruct (_parse_date d) as [dd|] eqn:Hd.
  2:{ exists []. cbn [filter_classrooms filter fold_left].
      split; [reflexivity|]. split; [constructor|].
      split; [intros c cl []|]. reflexivity. }
  destruct (_parse_time s) as [ss|] eqn:Hs.
  2:{ rewrite orb_false_r in Hfit. rewrite Hfit.
      exists []. cbn [filter_classrooms filter fold_left].
      split; [reflexivity|]. split; [constructor|].
      split; [intros c cl []|]. reflexivity. }
  rewrite (parse_time_no_overflow _ _ Hs) in Hfit. cbn [orb] in Hfit.
  destruct (_parse_time e) as [ee|] eqn:He.
  2:{ rewrite Hfit. exists []. cbn [filter_classrooms filter fold_left].
      split; [reflexivity|]. split; [constructor|].
      split; [intros c cl []|]. reflexivity. }
  destruct (_is_valid_time_slot ss ee) eqn:Hvalid; cbn [negb].
  2:{ exists []. cbn [filter_classrooms filter fold_left].
      split; [reflexivity|]. split; [constructor|].
      split; [intros c cl []|]. reflexivity. }
  destruct (available_among_lists
              (dict_keys (Directory.get_all_classrooms dir)) st d ss ee Hwf')
    as (l & Hl & Hin).
  rewrite Hl. cbv zeta.
  set (min_cap := match min_capacity with
                  | Some m => if negb (m =? 0) && (0 <? m) then Some m
                              else None
                  | None => None
                  end).
  set (pf := if hp then Some true else None).
  set (wf := if hw then Some true else None).
  destruct (shown_classrooms (Directory.get_all_classrooms dir)
              (filter_classrooms dir l min_cap pf wf) [])
    as [Hnd Hshown]; [constructor|].
  cbv zeta in Hnd, Hshown.
  eexists. split; [reflexivity|]. split; [exact Hnd|]. split.
  - intros c cl Hc. apply (In_dict_get _ _ _ Hnd) in Hc.
    destruct (Hshown c cl Hc) as [Hempty|[Hfil Hall]]; [discriminate|].
    split; [exact Hall|].
    unfold filter_classrooms in Hfil. apply filter_In in Hfil.
    destruct Hfil as [Hlc Hpass]. apply Hin in Hlc. destruct Hlc as [_ Hfree].
    split; [exists ss, ee; auto|].
    apply passes_filters_iff in Hpass.
    destruct Hpass as (info & Hinfo & Hm & Hp & Hw).
    exists info. split; [exact Hinfo|]. split; [|split].
    + intros m Hmin Hpos. apply Hm. unfold min_cap. rewrite Hmin.
      destruct (Z.eqb_spec m 0); [lia|].
      destruct (Z.ltb_spec 0 m); [reflexivity | lia].
    + intros ->. now apply Hp.
    + intros ->. now apply Hw.
  - intros Hnot. exfalso. apply Hnot. exists dd, ss, ee. auto.
Qed.

Lemma search_shows_free_classrooms_witness :
  let env := env_at morning in
  let a101 := Classroom.mk "A101" "1F" 4 true false in
  let b202 := Classroom.mk "B202" "2F" 30 false true in
  let dir :=
    Directory.mk [(1, a101); (2, b202)]
      (fun c => if c =? 1 then Some a101
                else if c =? 2 then Some b202 else None) in
  let st :=
    run (CreateReservation env "alice" 1 "2030-01-01" "14:00" "15:00" None)
      initial in
  reachable st
  /\ search_available_classrooms_post dir st "2030-01-01" "14:00" "16:00"
       (Some 10) false false = Returns [(2, b202)]
  /\ slot_free st 2 "2030-01-01" "14:00" "16:00".
Proof.
  intros env a101 b202 dir st.
  assert (Hreach : reachable st) by (apply reachable_run, reachable_initial).
  split; [exact Hreach|]. split; [vm_compute; reflexivity|].
  destruct (search_shows_free_classrooms dir st "2030-01-01" "14:00" "16:00"
              (Some 10) false false Hreach ltac:(vm_compute; reflexivity))
    as (shown & Hrun & _ & Hall & _).
  assert (Hshown : shown = [(2, b202)]).
  { assert (Hc : search_available_classrooms_post dir st "2030-01-01"
                   "14:00" "16:00" (Some 10) false false
                 = Returns [(2, b202)]) by (vm_compute; reflexivity).
    rewrite Hc in Hrun. now inversion Hrun. }
  subst shown.
  exact (proj1 (proj2 (Hall 2 b202 (or_introl eq_refl)))).
Defined.

(** ** Leaving the waitlist from the page *)

(** X29: in a state the server reaches, the page that cancels a waitlist
    entry does to the stores what [cancel_waitlist_entry] does and never
    sends the browser to a classroom's timeline: once the cancellation has
    succeeded the entry it looks up is gone. *)
Theorem cancel_waitlist_post_never_shows_timeline st id u from_main path :
  reachable st ->
  fst (cancel_waitlist_post st id u from_main path)
  = fst (cancel_waitlist_entry st id u)
  /\ (snd (cancel_waitlist_post st id u from_main path) = ToMain
      \/ snd (cancel_waitlist_post st id u from_main path) = ToWaitlist)
  /\ (snd (cancel_waitlist_post st id u from_main path) = ToMain ->
      fst (snd (cancel_waitlist_entry st id u)) = true).
Proof.
  intros Hreach.
  destruct (reachable_waitlist_keys st Hreach) as [Hnd _].
  unfold cancel_waitlist_post, cancel_waitlist_entry, get_waitlist_entry.
  destruct (dict_get id (WAITLIST st)) as [entry|];
    [|split; [reflexivity|]; split; [now right | discriminate]].
  destruct (negb (String.eqb (Waitlist.user_id entry) u));
    [split; [reflexivity|]; split; [now right | discriminate]|].
  destruct (String.eqb from_main "true");
    [split; [reflexivity|]; split; [now left | reflexivity]|].
  destruct (match path with
            | Some path => String.eqb path "/" || String.eqb path ""
            | None => false
            end);
    [split; [reflexivity|]; split; [now left | reflexivity]|].
  cbn [WAITLIST set_waitlist].
  rewrite dict_get_absent
    by (rewrite rerank_keys; now apply dict_del_gone).
  split; [reflexivity|]. split; [now right | discriminate].
Qed.

Lemma cancel_waitlist_post_never_shows_timeline_witness :
  let env := env_at morning in
  let st :=
    run (CreateWaitlistEntry env "bob" 1 "2030-01-01" "14:00" "15:00")
      initial in
  reachable st
  /\ WAITLIST (fst (cancel_waitlist_post st 1 "bob" ""
                      (Some "/classrooms/1/reservations"))) = []
  /\ (snd (cancel_waitlist_post st 1 "bob" ""
             (Some "/classrooms/1/reservations")) = ToMain
      \/ snd (cancel_waitlist_post st 1 "bob" ""
                (Some "/classrooms/1/reservations")) = ToWaitlist).
Proof.
  intros env st.
  assert (Hreach : reachable st) by (apply reachable_run, reachable_initial).
  split; [exact Hreach|]. split; [vm_compute; reflexivity|].
  exact (proj1 (proj2 (cancel_waitlist_post_never_shows_timeline st 1 "bob"
                         "" (Some "/classrooms/1/reservations") Hreach))).
Defined.
